(* ===== verification/_CoqProject ===== *)
-Q . S2P
Prelude.v
JsValue.v
Json.v
Mongoose.v
Transport.v
StreamModel.v
CodeSessionModel.v
UserModel.v
PostModel.v
CommentModel.v
VideoModel.v
LeaderboardModel.v
BadgeModel.v
NotificationModel.v
Router.v
Express.v
Db.v
PostController.v
StreamController.v
VideoController.v
CommentController.v
UserController.v
CodeController.v
AuthController.v
LeaderboardController.v
NotificationController.v
BadgeController.v
ShareService.v
Registry.v
Handler.v
WebRTCService.v
SocketService.v
SocketAuth.v
ClientAuth.v
WebRTCClient.v
Interleave.v
FollowRace.v
LeaderboardRace.v
