(* ===== verification/Prelude.v ===== *)
(** * Hybrid platform: a verification library of the backend and its client session

    The program is the Node backend of [src/hybrid-platform/backend/src]:
    an Express REST API (routers in [routes/], controllers in
    [controllers/], Mongoose models in [models/]) over MongoDB, and two
    Socket.IO services on the same server ([services/socket.service.js]
    for chat, collaborative code and polls; [services/webrtc.service.js]
    for the signalling of live streams), plus the sharing service
    [services/sharing.service.js].  A request goes through a router to a
    controller, which reads and writes documents through the models; a
    socket event goes to a handler, which reads documents, changes the
    rooms and the broadcaster registry, and emits events.  The React
    frontend ([src/hybrid-platform/frontend/src]) keeps the session in
    [context/AuthContext.js]: it calls the auth and user routes with
    [fetch], stores the token and the user in [localStorage], and
    [components/auth/ProtectedRoute.js] guards the pages with it; the
    streaming page [components/stream/WebRTCStreaming.js] is the client
    of the signalling service.

    ** Layout (one file per component, in dependency order)

    - [Prelude]: this file; list idioms of Mongoose arrays ([push_unique],
      [remove_all]), sums over finite maps, string lemmas, the hint
      databases [hyb] and [hyb_rw].
    - [JsValue]: JavaScript values ([JsVal]), truthiness, property access,
      [String(v)], [parseInt], [Number(v)], the relational operators.
      [Mongoose]: ObjectId casts and the casts of [String], [Number] and
      [Boolean] paths (Mongoose 5).  [Transport]: Socket.IO rooms, emission
      targets ([io.to([])] reaches every socket: [ToAll]) and delivery.
    - The documents, one file each ([StreamModel], [CodeSessionModel],
      [UserModel], [PostModel], [CommentModel], [VideoModel],
      [LeaderboardModel], [BadgeModel], [NotificationModel]): the schema as
      a [Record], the instance methods as functions on it, the JSON form,
      the validation of [save()].
    - [Router]: the route tables of the eleven routers and Express's
      first-match dispatch.  [Express]: requests, responses and the
      controller monad [CM] (state, early response, thrown error) with the
      [try]/[catch] of the controllers and the [preserves] library of
      invariants.  [Db]: the collections as [gmap]s behind lenses [Coll],
      with [findById], [save], [remove], [countDocuments], [updateMany].
    - One file per controller: [PostController], [StreamController],
      [VideoController], [CommentController], [UserController],
      [CodeController], [AuthController], [LeaderboardController],
      [NotificationController], [BadgeController]; every reachable
      [exports.<name>] is a [Definition] of the same name over [CM Db].
      [ShareService]: [SharingService] and [routes/share.routes.js].
    - [Registry]: the [Map] of [WebRTCService] behind the classes [MapOps]
      and [MapLaws], with the insertion-ordered implementation [JsMap] and
      its refinement of [gmap].  [Handler]: the world of the socket
      handlers and their monad [M].  [WebRTCService] and [SocketService]:
      every handler, whole.  [SocketAuth]: the authentication middleware
      of the sockets and the connection step (the socket joins the room
      named by its own id, as Socket.IO does, then [user:<id>]), with
      jsonwebtoken as the class [Jwt] and its laws [JwtLaws].
    - [Json]: [JSON.stringify] ([json_text]: escapes, property order,
      [undefined] members left out) and [JSON.parse] ([json_parse]: mutual
      [Fixpoint]s over fuel), modelled from the ECMAScript definitions.
    - [ClientAuth]: the provider of [AuthContext.js] as a [Record] of its
      four [useState] values and [localStorage] (a [gmap]); the mount
      effect ([mount]); the five context functions split at their
      [await fetch(...)] into [call_start] and [call_finish], so that an
      interleaving of calls is a sequence of [Event]s and [reachable] is
      the set of states a page load reaches; [ProtectedRoute] as
      [protected_route].
    - [WebRTCClient]: the streaming page [WebRTCStreaming.js] as the
      [Client] record (its [useState] values, [peersRef], the running
      media streams, what it sent with [socket.emit]); both effects, the
      five listeners, the two buttons and the unmount, over the server's
      events of [Transport]; the listeners keep the [isBroadcaster] and
      [stream] of the render that registered them ([cl_bound]).
      [client_reachable] is the set of states any sequence of events
      reaches; a click reaches a button only while the page renders it
      ([shown]).
    - [Interleave]: requests as processes ([Proc]) that step from one
      [await] to the next, with schedules of two ([run2]) or of any number
      ([run_many]) of them.  [FollowRace]: [followUser] and [unfollowUser]
      as such processes over the users and their version keys, with the
      updates Mongoose 5 sends for each [save()].  [LeaderboardRace]:
      [getLeaderboard] and [updateLeaderboard] as such processes, built
      from the [CM] segments of [LeaderboardController].

    ** Concurrency

    A controller over [CM] runs a request from its start to its answer
    with no other request in between: [await] is read as sequencing, so
    each request is atomic.  Node runs requests concurrently and switches
    between them at every [await]; the theorems over [CM] are those of
    the schedules that run requests one after the other.  The files
    [FollowRace] and [LeaderboardRace] model the follow controllers and
    [getLeaderboard] at the grain of their [await]s, and show what the
    other schedules do.  The socket handlers are modelled the same way
    (each handler runs whole); the client's calls are split at their
    [await fetch(...)] in [ClientAuth].

    ** What the theorems show

    - Socket services: the broadcaster registry (registration, ownership,
      last write wins, the cleanup of [disconnect]) and its invariant,
      preserved by every handler; the relay of signals and chat, the
      rejection of blank messages, the authorization of code changes, the
      poll timer's overflow rule of [setTimeout].  The gate: a socket is
      accepted only with a token signed under the server's secret for a
      stored user, each refusal has its own message, and the token that
      [login] answers opens a socket as the same user until it expires.
    - REST API: the dead routes of the routers (exactly which routes no
      request reaches); uniqueness of accounts and login after
      registration; ownership checks; like/unlike and follow/unfollow
      round trips and, one request at a time, the consistency of the
      follow graph; pagination;
      the stream lifecycle; the errors of controllers written against
      another schema (videos, code sessions, comments on streams).
    - Leaderboards: the Map merge adds the counts ([combine_counts_spec]),
      every stored leaderboard is ranked 1..n with at most 100 entries,
      and a served leaderboard is at most 1, 6, 12 or 24 hours old.  Notifications: mark-all-as-read clears the unread
      count; only the recipient may change a notification.  Badges: an
      award happens once; a missing badge or user gives 500.  Sharing:
      the links round-trip through [decodeURIComponent]; every share of
      another user's content fails ([type: 'share'] is not in the enum),
      and code sessions cannot be shared.
    - JSON: printing then parsing gives the value back
      ([Json.json_parse_text]) for every JSON value; the parser
      terminates within the length of its text ([Json.parse_fuel],
      [Json.json_parse_fuel]), so the client's [response.json()] and the
      [JSON.parse] of a page load accept exactly what an unbounded parser
      reads ([ClientAuth.client_json_reads_terminate]).
    - Client session: in every reachable state an authenticated session
      is in [localStorage] and a reload restores it; the answer of the
      backend's [login] becomes exactly that session (the composition of
      [AuthController.login] with the client); after a profile update the
      stored user carries the bcrypt hash; [logout] ends the session
      whatever its request does.  The examples of [ClientAuthExamples]
      show the interleavings the code does not handle: a request that
      settles after [logout] writes the user back, and [loading] is
      cleared while another call is pending.
    - Concurrency: an unfollow interleaved with a follow answers 200 twice
      and leaves [a] following [b] while [b]'s followers lack [a]
      ([FollowRace.follow_unfollow_race]); two first requests for a
      leaderboard both create it ([LeaderboardRace.leaderboard_duplicate_race]),
      since the schema has no unique index; once all sixteen exist, any
      number of requests under any schedule keep one per type and
      timeframe ([LeaderboardRace.getLeaderboard_no_duplicates_once_complete]).
    - Streaming page: because its listeners are stale closures, no peer
      it creates ever carries the camera ([viewers_never_get_media]) and
      unmounting a broadcasting page leaves the camera running
      ([unmount_leaves_camera_on]); composed with [on_start_broadcast] of
      the server, the broadcaster's own page answers [broadcast_started]
      by joining its stream as a viewer ([broadcaster_joins_own_stream]).

    ** Bounds and fuel

    No definition runs out of fuel on the inputs it receives.
    [number_to_string] has [log2 n + 1] steps, at least the number of
    decimal digits.  Every other recursion is structural on a list or a
    string: the loops of [disconnect], [updateAllLeaderboards]
    ([update_each], sixteen iterations) and [checkAllBadges]
    ([check_each]).  Integers are [Z]; the one width that matters, the
    32-bit delay of [setTimeout], is written out in [SocketService].
    A [Date] is its time in milliseconds; past 8.64e15 ms it is an
    Invalid Date ([SocketService.js_date]), which JSON writes as [null].
    [json_parse s] runs [parse_value] with fuel [String.length s].  Each
    call of the parser that succeeds reads at least one byte and calls
    itself only on the rest, so the fuel a parse needs is at most the
    bytes it reads ([Json.parse_fuel]): the length is enough for every
    text, not only for printed ones.  [json_need v] bounds the fuel that
    the text of [v] needs, which the round trip uses.

    ** Not modelled

    Of the React frontend the session ([AuthContext.js],
    [ProtectedRoute.js]) and the streaming page ([WebRTCStreaming.js])
    are modelled; the other pages and components render and wire form
    fields, [fetch] calls and socket events, and the rendering itself
    (video elements, the [stream] event of a peer) is not modelled.  The media service (S3 and
    CloudFront uploads), the seeding script and the log-processing CLI
    are I/O. The REST middleware
    files ([auth], [admin]) are not in the tree: the controllers receive
    [req.user] as their argument. [populate()] only shapes answers. The
    routes that [Router.dead_routes_exact] shows unreachable are not
    modelled, except [checkAllBadges]. Database statics that only query
    ([findActive], [findByTag], [findPublic], [findByLanguage]) are not
    modelled. The following are parameters of their sections: bcrypt
    ([compare], [hash]), the signing of [AuthController] ([sign], which
    [SocketAuth.issue_token] instantiates), the child process of code
    execution, the calendar arithmetic of the leaderboard date filter,
    [CLIENT_URL], the messages of runtime errors, and [Math.random()].
    MongoDB's [$group] output order is the map's order. Of the unique
    indexes, only the index on badge names is modelled; [save()] rejects a
    duplicate name. The user schema's indexes are not modelled: [register]
    checks for a taken e-mail address or username itself.  JavaScript
    numbers are integers here ([JNum] of [Z], with [NaN]): fractions, the
    53-bit bound and [Infinity] are not modelled, and the code's
    arithmetic on the values it receives is integral ([parseInt], counts,
    milliseconds).  An ObjectId is its string: Mongoose casts a string of
    24 hexadecimal digits in either case and prints it in lower case,
    while the models look an id up as given, so an id written in upper
    case is not found here.  [save()] writes the document after checking
    the constraints of the fields the controller sets; Mongoose also
    re-validates the other modified and required paths, which the
    documents the controllers write already satisfy.  String [trim] is
    the ECMAScript one: ASCII white space and the Unicode spaces in UTF-8. *)

(** This file is the prelude: the libraries every component loads, the
    notation scope [hyb_scope], the hint database [hyb] and the generic lemmas
    on lists and maps that the components share. *)

From Stdlib Require Export ZArith Lia.
From stdpp Require Export base gmap strings list sorting.

Declare Scope hyb_scope.
Delimit Scope hyb_scope with hyb.

Create HintDb hyb.
Create Rewrite HintDb hyb_rw.

(** Identifiers: Mongo ObjectIds and socket ids, compared by their string
    form as the code does with [.toString()]. *)
Abbreviation Id := string (only parsing).

(** ** Mongoose array idioms *)

(** [if (!arr.includes(x)) arr.push(x)]: append at the end when absent. *)
Definition push_unique `{EqDecision A} (x : A) (l : list A) : list A :=
  if bool_decide (x ∈ l) then l else l ++ [x].

(** [arr.filter(y => y.toString() !== x.toString())]. *)
Definition remove_all `{EqDecision A} (x : A) (l : list A) : list A :=
  filter (λ y, y ≠ x) l.

Section list_idioms.
Context `{EqDecision A}.
Implicit Types (x y : A) (l : list A).

Lemma elem_of_push_unique x y l : y ∈ push_unique x l ↔ y = x ∨ y ∈ l.
Proof.
  unfold push_unique. case_bool_decide as Hx.
  - split; [naive_solver|]. intros [->|]; done.
  - rewrite elem_of_app, list_elem_of_singleton. naive_solver.
Qed.

Lemma push_unique_present x l : x ∈ l → push_unique x l = l.
Proof. intros. unfold push_unique. by rewrite bool_decide_true. Qed.

Lemma push_unique_absent x l : x ∉ l → push_unique x l = l ++ [x].
Proof. intros. unfold push_unique. by rewrite bool_decide_false. Qed.

Lemma NoDup_push_unique x l : NoDup l → NoDup (push_unique x l).
Proof.
  intros Hl. unfold push_unique. case_bool_decide; [done|].
  apply NoDup_app. split_and!; [done| |apply NoDup_singleton].
  intros y ? ->%list_elem_of_singleton. done.
Qed.

Lemma length_push_unique x l :
  length (push_unique x l) = if bool_decide (x ∈ l) then length l else S (length l).
Proof. unfold push_unique. case_bool_decide; [done|]. rewrite length_app; simpl; lia. Qed.

Lemma elem_of_remove_all x y l : y ∈ remove_all x l ↔ y ≠ x ∧ y ∈ l.
Proof. unfold remove_all. by rewrite list_elem_of_filter. Qed.

Lemma remove_all_not_elem x l : x ∉ remove_all x l.
Proof. intros [Hne _]%elem_of_remove_all. by apply Hne. Qed.

Lemma NoDup_remove_all x l : NoDup l → NoDup (remove_all x l).
Proof. apply NoDup_filter. Qed.

Lemma remove_all_id x l : x ∉ l → remove_all x l = l.
Proof.
  induction l as [|y l IH]; intros Hx; [done|].
  rewrite not_elem_of_cons in Hx. destruct Hx as [Hxy Hx].
  unfold remove_all in *. rewrite filter_cons_True; [|done]. by rewrite IH.
Qed.

Lemma filter_all_id (P : A → Prop) `{!∀ x, Decision (P x)} l : (∀ x, P x) → filter P l = l.
Proof. intros HP. induction l as [|x l IH]; [done|]. by rewrite filter_cons_True, IH. Qed.

Lemma filter_none_in (P : A → Prop) `{!∀ x, Decision (P x)} l : (∀ x, x ∈ l → ¬ P x) → filter P l = [].
Proof. intros HP. induction l as [|x l IH]; [done|]. rewrite filter_cons_False by set_solver. set_solver. Qed.

Lemma filter_none (P : A → Prop) `{!∀ x, Decision (P x)} l : (∀ x, ¬ P x) → filter P l = [].
Proof. intros HP. induction l as [|x l IH]; [done|]. by rewrite filter_cons_False, IH. Qed.

(** Removing what was just pushed restores the list: [unlike] undoes
    [like], [unfollow] undoes [follow]. *)
Lemma remove_all_push_unique x l : x ∉ l → remove_all x (push_unique x l) = l.
Proof.
  intros Hx. rewrite push_unique_absent by done. unfold remove_all.
  rewrite filter_app, filter_cons_False, filter_nil by naive_solver.
  rewrite app_nil_r. by apply remove_all_id.
Qed.

Lemma length_remove_all_le x l : length (remove_all x l) ≤ length l.
Proof. apply length_filter. Qed.
End list_idioms.

#[export] Hint Resolve NoDup_push_unique NoDup_remove_all remove_all_not_elem : hyb.
#[export] Hint Rewrite @elem_of_push_unique @elem_of_remove_all : hyb_rw.

(** ** Sums and finite maps *)

(** The sum of a list of numbers ([$sum] of MongoDB, [+] of JavaScript). *)
Definition zsum (l : list Z) : Z := foldr Z.add 0%Z l.

Lemma zsum_cons x l : zsum (x :: l) = (x + zsum l)%Z.
Proof. reflexivity. Qed.

#[export] Instance zsum_perm : Proper ((≡ₚ) ==> (=)) zsum.
Proof. induction 1; unfold zsum in *; simpl; lia. Qed.

(** The entries of a map with key [k], summed: the value at [k], or 0. *)
Lemma zsum_key_map_to_list `{Countable K} (m : gmap K Z) k :
  zsum (snd <$> filter (λ r, r.1 = k) (map_to_list m)) = default 0%Z (m !! k).
Proof.
  induction m as [|i x m Hi IH] using map_ind.
  { by rewrite map_to_list_empty. }
  rewrite (map_to_list_insert _ _ _ Hi).
  destruct (decide (i = k)) as [<-|Hne].
  - rewrite filter_cons_True, fmap_cons, zsum_cons, IH, lookup_insert_eq, Hi by done. simpl. lia.
  - by rewrite filter_cons_False, lookup_insert_ne.
Qed.

Lemma elem_of_keys_map_to_list `{Countable K} {V} (m : gmap K V) k :
  k ∈ (map_to_list m).*1 ↔ is_Some (m !! k).
Proof.
  rewrite list_elem_of_fmap. split.
  - intros [[i x] [-> Hx]]. apply elem_of_map_to_list in Hx. by exists x.
  - intros [x Hx]. exists (k, x). by rewrite elem_of_map_to_list.
Qed.

(** A prefix of a sorted list is sorted ([.slice(0, n)], [.limit(n)]). *)
Lemma Sorted_take {A} (R : relation A) n l : Sorted R l → Sorted R (take n l).
Proof.
  intros Hs. revert n. induction Hs as [|a l Hs IH Hhd]; intros [|n]; simpl; try by constructor.
  constructor; [apply IH|]. destruct Hhd as [|b l' Hab], n; simpl; by constructor.
Qed.

(** ** Strings *)

(** stdpp makes [String.append] [simpl never]; these are its equations. *)
Lemma string_app_nil_l (s : string) : "" +:+ s = s.
Proof. reflexivity. Qed.

Lemma string_app_cons c (s1 s2 : string) : String c s1 +:+ s2 = String c (s1 +:+ s2).
Proof. reflexivity. Qed.

Lemma string_app_nil_r (s : string) : s +:+ "" = s.
Proof. induction s as [|c s IH]; [done|]. by rewrite string_app_cons, IH. Qed.

Lemma string_length_app (s1 s2 : string) :
  String.length (s1 +:+ s2) = (String.length s1 + String.length s2)%nat.
Proof. induction s1 as [|c s1 IH]; [done|]. rewrite string_app_cons. simpl. by rewrite IH. Qed.

Lemma string_app_inj_l (p s1 s2 : string) : p +:+ s1 = p +:+ s2 → s1 = s2.
Proof. induction p as [|c p IH]; [done|]. rewrite !string_app_cons. intros [=]. auto. Qed.

Lemma string_app_inj_r (p1 p2 s1 s2 : string) :
  String.length p1 = String.length p2 → p1 +:+ s1 = p2 +:+ s2 → s1 = s2.
Proof.
  revert p2. induction p1 as [|c p1 IH]; intros [|c' p2] Hl; rewrite ?string_app_cons; try done.
  intros [= _ H]. apply (IH p2); [simpl in Hl; lia|done].
Qed.

Lemma string_app_assoc (s1 s2 s3 : string) : s1 +:+ (s2 +:+ s3) = (s1 +:+ s2) +:+ s3.
Proof. induction s1 as [|c s1 IH]; [done|]. rewrite !string_app_cons. by rewrite IH. Qed.

#[export] Hint Rewrite string_app_nil_l string_app_cons string_length_app : hyb_rw.

(** Rewrite the goal with the hypotheses that fix a test of the code to a
    constructor ([= true], [= false], [= Some _], [= None]); the symbolic
    runs of the handlers and controllers use it. *)
Ltac hrewrite :=
  match goal with
  | H : ?l = true |- context [?l] => rewrite H
  | H : ?l = false |- context [?l] => rewrite H
  | H : ?l = Some _ |- context [?l] => rewrite H
  | H : ?l = None |- context [?l] => rewrite H
  end.

(** Split a hypothesis [m ≫= k = Some _] on the option [m], closing the
    [None] case. *)
Ltac bind_case :=
  match goal with Hp : ?m ≫= _ = Some _ |- _ => destruct m eqn:?; simpl in Hp; [|discriminate] end.

(** Close a branch whose hypotheses contradict [push_unique]. *)
Ltac push_unique_contra :=
  match goal with
  | H : ?x ∉ push_unique ?x _ |- _ => exfalso; apply H, elem_of_push_unique; by left
  end.
