(* ===== verification/JsValue.v ===== *)
(** * JavaScript values as the socket handlers receive them

    A Socket.IO payload is whatever JSON the client sent, so the handlers
    of [socket.service.js] and [webrtc.service.js] see arbitrary JavaScript
    values: their validation ([!message || !message.trim()], [voteType !==
    'up'], [!options.length]) and their template strings ([`stream:${id}`])
    depend on JavaScript's truthiness, property access and string
    conversion, which this file models.  Numbers are integers or NaN; the
    fractional part of a JavaScript number is not modelled. *)

From S2P Require Import Prelude.
From Stdlib Require Import DecimalString Ascii.
#[local] Set Warnings "-register-all".

Inductive JsVal :=
  | JUndef
  | JNull
  | JBool (b : bool)
  | JNum (n : Z)
  | JNaN
  | JStr (s : string)
  | JArr (xs : list JsVal)
  | JObj (fields : list (string * JsVal)).

(** [if (x)] and [!x]: [undefined], [null], [false], [0], [NaN] and [""] are
    falsy, every array and object is truthy. *)
Definition truthy (v : JsVal) : bool :=
  match v with
  | JUndef | JNull | JNaN => false
  | JBool b => b
  | JNum n => negb (Z.eqb n 0)
  | JStr s => negb (String.eqb s "")
  | JArr _ | JObj _ => true
  end.

(** Property read [v.k] (and object destructuring [const {k} = v]): [None]
    is the [TypeError] thrown on [undefined] and [null]; a missing property
    reads as [undefined]. *)
Definition js_get (v : JsVal) (k : string) : option JsVal :=
  match v with
  | JUndef | JNull => None
  | JObj fs =>
      Some (match list_find (λ kv, kv.1 = k) fs with
            | Some (_, (_, x)) => x
            | None => JUndef
            end)
  | JStr s => Some (if String.eqb k "length" then JNum (Z.of_nat (String.length s)) else JUndef)
  | JArr xs => Some (if String.eqb k "length" then JNum (Z.of_nat (length xs)) else JUndef)
  | _ => Some JUndef
  end.

(** ** [String.prototype.trim] *)

(** The number of bytes of the white space or line terminator that starts
    [s] (0 if none): the ASCII ones ([\t], [\n], VT, FF, [\r], space)
    and the UTF-8 forms of U+00A0, U+1680, U+2000 to U+200A, U+2028,
    U+2029, U+202F, U+205F, U+3000 and U+FEFF, the other members of
    WhiteSpace and LineTerminator. *)
Definition ws_prefix_len (s : string) : nat :=
  match s with
  | String c r =>
      if Ascii.is_space c then 1 else
      let k := nat_of_ascii c in
      match r with
      | String c2 r2 =>
          let k2 := nat_of_ascii c2 in
          if (k =? 194) && (k2 =? 160) then 2 else
          match r2 with
          | String c3 _ =>
              let k3 := nat_of_ascii c3 in
              if ((k =? 225) && (k2 =? 154) && (k3 =? 128))
                 || ((k =? 226) && (k2 =? 128) && (((128 <=? k3) && (k3 <=? 138)) || (k3 =? 168) || (k3 =? 169) || (k3 =? 175)))
                 || ((k =? 226) && (k2 =? 129) && (k3 =? 159))
                 || ((k =? 227) && (k2 =? 128) && (k3 =? 128))
                 || ((k =? 239) && (k2 =? 187) && (k3 =? 191))
              then 3 else 0
          | EmptyString => 0
          end
      | EmptyString => 0
      end
  | EmptyString => 0
  end%nat.

(** The same on a reversed string: the white space that ends the string,
    its bytes read backwards. *)
Definition ws_suffix_len (s : string) : nat :=
  match s with
  | String c r =>
      if Ascii.is_space c then 1 else
      let k := nat_of_ascii c in
      match r with
      | String c2 r2 =>
          let k2 := nat_of_ascii c2 in
          if (k =? 160) && (k2 =? 194) then 2 else
          match r2 with
          | String c3 _ =>
              let k3 := nat_of_ascii c3 in
              if ((k3 =? 225) && (k2 =? 154) && (k =? 128))
                 || ((k3 =? 226) && (k2 =? 128) && (((128 <=? k) && (k <=? 138)) || (k =? 168) || (k =? 169) || (k =? 175)))
                 || ((k3 =? 226) && (k2 =? 129) && (k =? 159))
                 || ((k3 =? 227) && (k2 =? 128) && (k =? 128))
                 || ((k3 =? 239) && (k2 =? 187) && (k =? 191))
              then 3 else 0
          | EmptyString => 0
          end
      | EmptyString => 0
      end
  | EmptyString => 0
  end%nat.

(** Drop the white space that [len] finds at the start, as long as there
    is some; [fuel] is the length of the string. *)
Fixpoint drop_ws (len : string → nat) (fuel : nat) (s : string) : string :=
  match fuel with
  | O => s
  | S f => match len s with O => s | n => drop_ws len f (String.substring n (String.length s - n) s) end
  end.

Definition drop_spaces (s : string) : string := drop_ws ws_prefix_len (String.length s) s.

Definition string_rev (s : string) : string :=
  String.string_of_list_ascii (rev (String.list_ascii_of_string s)).

Definition trim_string (s : string) : string :=
  string_rev (drop_ws ws_suffix_len (String.length s) (string_rev (drop_spaces s))).

(** [v.trim()]: [None] is the [TypeError] of calling [trim] on a value that
    is not a string ([undefined.trim] or [(5).trim] is not a function). *)
Definition js_trim (v : JsVal) : option string :=
  match v with
  | JStr s => Some (trim_string s)
  | _ => None
  end.

(** ** Decimal printing of integers ([Number.prototype.toString]) *)

Definition digit_char (d : Z) : ascii := ascii_of_nat (48 + Z.to_nat d).

(** The digits of [n], most significant first, in front of [acc]; [fuel]
    bounds the number of digits. *)
Fixpoint digits_fuel (fuel : nat) (n : Z) (acc : string) : string :=
  match fuel with
  | O => acc
  | S f =>
      let acc' := String (digit_char (n mod 10)) acc in
      if Z.ltb n 10 then acc' else digits_fuel f (n / 10) acc'
  end.

(** [log2 n + 1] binary digits bound the decimal ones. *)
Definition digits_bound (n : Z) : nat := S (Z.to_nat (Z.log2 n)).

Definition number_to_string (n : Z) : string :=
  if Z.ltb n 0 then "-" +:+ digits_fuel (digits_bound (- n)) (- n) ""
  else digits_fuel (digits_bound n) n "".

(** ** [parseInt] with no radix *)

Definition digit_value (radix : Z) (c : ascii) : option Z :=
  let n := Z.of_nat (nat_of_ascii c) in
  let d :=
    if bool_decide (48 ≤ n ≤ 57)%Z then Some (n - 48)%Z
    else if bool_decide (97 ≤ n ≤ 122)%Z then Some (n - 87)%Z
    else if bool_decide (65 ≤ n ≤ 90)%Z then Some (n - 55)%Z
    else None in
  match d with Some v => if Z.ltb v radix then Some v else None | None => None end.

(** The longest prefix of digits of [radix], as its digit values. *)
Fixpoint span_digits (radix : Z) (s : string) : list Z * string :=
  match s with
  | EmptyString => ([], EmptyString)
  | String c s' =>
      match digit_value radix c with
      | Some d => let '(ds, r) := span_digits radix s' in (d :: ds, r)
      | None => ([], s)
      end
  end.

Definition horner (radix : Z) (ds : list Z) : Z := fold_left (λ a d, a * radix + d)%Z ds 0%Z.

(** [parseInt(s)]: skip leading white space, read an optional sign, a [0x]
    prefix switches to radix 16, then the longest run of digits; [None] is
    [NaN] (no digit at all). *)
Definition parseInt (s : string) : option Z :=
  let s1 := drop_spaces s in
  let '(sign, s2) :=
    match s1 with
    | String "-" r => ((-1)%Z, r)
    | String "+" r => (1%Z, r)
    | _ => (1%Z, s1)
    end in
  let '(radix, s3) :=
    match s2 with
    | String "0" (String "x" r) | String "0" (String "X" r) => (16%Z, r)
    | _ => (10%Z, s2)
    end in
  match span_digits radix s3 with
  | ([], _) => None
  | (ds, _) => Some (sign * horner radix ds)%Z
  end.

(** [s.split('.')] with a one-character separator. *)
Fixpoint split_on (sep : ascii) (s : string) : list string :=
  match s with
  | EmptyString => [EmptyString]
  | String c s' =>
      if Ascii.eqb c sep then EmptyString :: split_on sep s'
      else match split_on sep s' with
           | [] => [String c EmptyString]
           | w :: ws => String c w :: ws
           end
  end.

(** ** String conversion, as in template literals *)

Fixpoint js_to_string (v : JsVal) : string :=
  match v with
  | JUndef => "undefined"
  | JNull => "null"
  | JBool true => "true"
  | JBool false => "false"
  | JNum n => number_to_string n
  | JNaN => "NaN"
  | JStr s => s
  | JArr xs =>
      (fix join (xs : list JsVal) : string :=
         match xs with
         | [] => ""
         | [x] => match x with JUndef | JNull => "" | _ => js_to_string x end
         | x :: xs' =>
             (match x with JUndef | JNull => "" | _ => js_to_string x end)
               +:+ "," +:+ join xs'
         end) xs
  | JObj _ => "[object Object]"
  end.

(** The double quote character, as template literals write it. *)
Definition dq : string := String "034"%char EmptyString.

(** [`prefix${v}`] *)
Definition tmpl (prefix : string) (v : JsVal) : string := prefix +:+ js_to_string v.

(** ** [ToNumber] *)

(** [Number(s)] on a string: white space around an optionally signed
    decimal integer, or a [0x] hexadecimal one; the empty string is [0];
    [None] is [NaN].  (Strings with a fraction or an exponent denote
    non-integers, which this model does not have; they read as [NaN].) *)
Definition string_to_number (s : string) : option Z :=
  let t := trim_string s in
  match t with
  | EmptyString => Some 0%Z
  | _ =>
      let '(sign, t1) :=
        match t with
        | String "-" r => ((-1)%Z, r)
        | String "+" r => (1%Z, r)
        | _ => (1%Z, t)
        end in
      let '(radix, t2) :=
        match t1 with
        | String "0" (String "x" r) | String "0" (String "X" r) => (16%Z, r)
        | _ => (10%Z, t1)
        end in
      match span_digits radix t2 with
      | (d :: ds, EmptyString) =>
          if bool_decide (radix = 16%Z ∧ sign ≠ 1%Z) then None
          else Some (sign * horner radix (d :: ds))%Z
      | _ => None
      end
  end.

(** [ToNumber(v)], as [duration * 1000] applies it. *)
Definition js_to_number (v : JsVal) : option Z :=
  match v with
  | JUndef | JNaN => None
  | JNull => Some 0%Z
  | JBool b => Some (if b then 1 else 0)%Z
  | JNum n => Some n
  | JStr s => string_to_number s
  | JArr _ | JObj _ => string_to_number (js_to_string v)
  end.

(** [n >= v] for a number [n]: [v] goes through [ToNumber], and a
    comparison with [NaN] is false. *)
Definition js_ge_num (n : Z) (v : JsVal) : bool :=
  match js_to_number v with Some m => Z.leb m n | None => false end.

(** The receiver of an array method ([xs.map], [xs.some], [xs.filter]):
    [None] is the [TypeError] of calling it on a value that is not an
    array. *)
Definition js_array (v : JsVal) : option (list JsVal) :=
  match v with JArr xs => Some xs | _ => None end.

(** [v.toString()]: a [TypeError] on [undefined] and [null]. *)
Definition js_toString (v : JsVal) : option string :=
  match v with JUndef | JNull => None | _ => Some (js_to_string v) end.

(** [xs.some(f)] for an [f] that may throw. *)
Fixpoint js_some (f : JsVal → option bool) (xs : list JsVal) : option bool :=
  match xs with
  | [] => Some false
  | x :: xs' => f x ≫= λ b : bool, if b then Some true else js_some f xs'
  end.

(** The binary [+]: two numbers add; otherwise, once an operand is a
    string, an array or an object, both are converted to strings and
    concatenated.  (Other mixes, which the code does not perform, give
    [NaN] here.) *)
Definition js_add (a b : JsVal) : JsVal :=
  match a, b with
  | JNum x, JNum y => JNum (x + y)
  | (JStr _ | JArr _ | JObj _), _ | _, (JStr _ | JArr _ | JObj _) => JStr (js_to_string a +:+ js_to_string b)
  | _, _ => JNaN
  end.

(** ** Lemmas on [trim] *)

Lemma string_rev_involutive s : string_rev (string_rev s) = s.
Proof.
  unfold string_rev. rewrite String.list_ascii_of_string_of_list_ascii, rev_involutive.
  apply String.string_of_list_ascii_of_string.
Qed.

(** [trim] removes the Unicode spaces too: a no-break space, an
    ideographic space and a byte-order mark around a word. *)
Example trim_unicode :
  trim_string (String "194" (String "160" ("a b" +:+ String "227" (String "128" (String "128"
    (String "239" (String "187" (String "191" EmptyString)))))))) = "a b".
Proof. reflexivity. Qed.

(** A template with a string payload is a concatenation. *)
Lemma tmpl_str prefix s : tmpl prefix (JStr s) = prefix +:+ s.
Proof. reflexivity. Qed.

#[export] Hint Rewrite tmpl_str : hyb_rw.
