(* ===== verification/Json.v ===== *)
(** * JSON text: [JSON.stringify] and [JSON.parse]

    The frontend keeps the signed-in user in [localStorage] as
    [JSON.stringify(user)] and reads it back with [JSON.parse] when the
    page loads; the API sends and receives JSON bodies.  This file gives
    both functions on the values of [JsValue], following ECMAScript's
    SerializeJSONProperty, QuoteJSONString and the JSON grammar.

    Strings are byte strings, the UTF-8 form of a text (as in
    [ShareService]): [JSON.stringify] copies every byte but the quote, the
    backslash and the control bytes, which it escapes, and [JSON.parse]
    decodes a [\uXXXX] escape to the UTF-8 bytes of its code point.  A
    surrogate escape (a code point above U+FFFF) is outside the model, as
    are numbers with a fraction or an exponent, since the numbers of
    [JsValue] are integers; [JSON.parse] gives [None] on them as on a
    syntax error.  An object's properties are listed in JavaScript's
    order: the array-index keys first, ascending, then the others in
    insertion order; a repeated key keeps its place and takes the last
    value.  The parser runs on fuel; [json_parse_text] is the round trip,
    and [parse_fuel] and [json_parse_fuel] show that the length of the
    text is always enough fuel. *)

From S2P Require Import Prelude JsValue.
From Stdlib Require Import Ascii.

(** ** [JSON.stringify] *)

Definition backslash : ascii := "092"%char.

Definition hex_lower (d : nat) : ascii :=
  if (d <? 10)%nat then ascii_of_nat (48 + d) else ascii_of_nat (87 + d).

(** QuoteJSONString on one byte. *)
Definition json_escape (c : ascii) : string :=
  let n := nat_of_ascii c in
  if (n =? 34)%nat || (n =? 92)%nat then String backslash (String c EmptyString)
  else if (n =? 8)%nat then String backslash "b"
  else if (n =? 12)%nat then String backslash "f"
  else if (n =? 10)%nat then String backslash "n"
  else if (n =? 13)%nat then String backslash "r"
  else if (n =? 9)%nat then String backslash "t"
  else if (n <? 32)%nat then
    String backslash ("u00" +:+ String (hex_lower (n / 16)) (String (hex_lower (n mod 16)) EmptyString))
  else String c EmptyString.

Fixpoint json_quote_body (s : string) : string :=
  match s with EmptyString => EmptyString | String c r => json_escape c +:+ json_quote_body r end.

Definition json_quote (s : string) : string := dq +:+ json_quote_body s +:+ dq.

Fixpoint somes {A} (l : list (option A)) : list A :=
  match l with [] => [] | Some x :: r => x :: somes r | None :: r => somes r end.

(** SerializeJSONProperty.  [undefined] is [null] inside an array and is
    left out of an object; [NaN] is [null]. *)
Fixpoint json_text (v : JsVal) : string :=
  match v with
  | JUndef | JNull | JNaN => "null"
  | JBool true => "true"
  | JBool false => "false"
  | JNum n => number_to_string n
  | JStr s => json_quote s
  | JArr xs => "[" +:+ String.concat "," (List.map json_text xs) +:+ "]"
  | JObj fs =>
      "{" +:+ String.concat ","
        (somes (List.map (λ '(k, x), match x with
                                     | JUndef => None
                                     | _ => Some (json_quote k +:+ ":" +:+ json_text x)
                                     end) fs)) +:+ "}"
  end.

(** [JSON.stringify(v)]: [undefined] for [undefined]. *)
Definition json_stringify (v : JsVal) : option string :=
  match v with JUndef => None | _ => Some (json_text v) end.

(** ** [JSON.parse] *)

Definition is_ws (c : ascii) : bool :=
  let n := nat_of_ascii c in (n =? 32)%nat || (n =? 9)%nat || (n =? 10)%nat || (n =? 13)%nat.

Fixpoint skip_ws (s : string) : string :=
  match s with String c r => if is_ws c then skip_ws r else s | EmptyString => s end.

Definition hex_value (c : ascii) : option Z :=
  let n := Z.of_nat (nat_of_ascii c) in
  (if (48 <=? n) && (n <=? 57) then Some (n - 48)
  else if (97 <=? n) && (n <=? 102) then Some (n - 87)
  else if (65 <=? n) && (n <=? 70) then Some (n - 55)
  else None)%Z.

Definition hex4 (a b c d : ascii) : option Z :=
  x1 ← hex_value a; x2 ← hex_value b; x3 ← hex_value c; x4 ← hex_value d;
  Some (((x1 * 16 + x2) * 16 + x3) * 16 + x4)%Z.

Definition byte (n : Z) : ascii := ascii_of_N (Z.to_N n).

(** The UTF-8 bytes of a code point of the Basic Multilingual Plane; a
    surrogate is outside the model. *)
Definition utf8_encode (cp : Z) : option string :=
  (if cp <? 128 then Some (String (byte cp) EmptyString)
  else if cp <? 2048 then
    Some (String (byte (192 + cp / 64)) (String (byte (128 + cp mod 64)) EmptyString))
  else if (55296 <=? cp) && (cp <? 57344) then None
  else Some (String (byte (224 + cp / 4096))
              (String (byte (128 + (cp / 64) mod 64)) (String (byte (128 + cp mod 64)) EmptyString))))%Z.

(** The escape [\e] for [e] other than [u]. *)
Definition simple_escape (e : ascii) : option ascii :=
  let k := nat_of_ascii e in
  if (k =? 34)%nat || (k =? 92)%nat || (k =? 47)%nat then Some e
  else if (k =? 98)%nat then Some (ascii_of_nat 8)
  else if (k =? 102)%nat then Some (ascii_of_nat 12)
  else if (k =? 110)%nat then Some (ascii_of_nat 10)
  else if (k =? 114)%nat then Some (ascii_of_nat 13)
  else if (k =? 116)%nat then Some (ascii_of_nat 9)
  else None.

(** The body of a string literal after its opening quote, up to and
    without the closing quote. *)
Fixpoint parse_string_body (s : string) : option (string * string) :=
  match s with
  | EmptyString => None
  | String c r =>
      let n := nat_of_ascii c in
      if (n =? 34)%nat then Some (EmptyString, r)
      else if (n =? 92)%nat then
        match r with
        | String e r' =>
            match simple_escape e with
            | Some b => '(t, r'') ← parse_string_body r'; Some (String b t, r'')
            | None =>
                if (nat_of_ascii e =? 117)%nat then
                  match r' with
                  | String h1 (String h2 (String h3 (String h4 r''))) =>
                      cp ← hex4 h1 h2 h3 h4; bytes ← utf8_encode cp;
                      '(t, r3) ← parse_string_body r''; Some (bytes +:+ t, r3)
                  | _ => None
                  end
                else None
            end
        | EmptyString => None
        end
      else if (n <? 32)%nat then None
      else '(t, r') ← parse_string_body r; Some (String c t, r')
  end.

Definition leading_zero (ds : list Z) : bool :=
  match ds with 0%Z :: _ :: _ => true | _ => false end.

(** The digits of a number after its sign: [0] or a digit run without
    a leading zero; a fraction or an exponent is outside the model. *)
Definition parse_digits (neg : bool) (s : string) : option (JsVal * string) :=
  match span_digits 10 s with
  | ([], _) => None
  | (ds, r) =>
      if leading_zero ds then None else
      match r with
      | String "." _ | String "e" _ | String "E" _ => None
      | _ => Some (JNum (if neg then - horner 10 ds else horner 10 ds)%Z, r)
      end
  end.

(** A number: an optional [-], then its digits. *)
Definition parse_number (s : string) : option (JsVal * string) :=
  match s with String "-" r => parse_digits true r | _ => parse_digits false s end.

(** An array index: the canonical decimal form of an integer below
    [2^32 - 1]. *)
Definition index_key (k : string) : option Z :=
  match span_digits 10 k with
  | ([], _) => None
  | (ds, EmptyString) =>
      if leading_zero ds then None
      else if Z.ltb (horner 10 ds) 4294967295 then Some (horner 10 ds) else None
  | _ => None
  end.

(** CreateDataProperty on a parsed object: a present key keeps its place
    and takes the value; a new array index goes before the larger ones
    and before the other keys; any other new key goes last. *)
Fixpoint obj_set (k : string) (v : JsVal) (fs : list (string * JsVal)) : list (string * JsVal) :=
  match fs with
  | [] => [(k, v)]
  | (k', v') :: r =>
      if String.eqb k k' then (k, v) :: r
      else match index_key k, index_key k' with
           | Some i, Some j => if Z.ltb i j then (k, v) :: fs else (k', v') :: obj_set k v r
           | Some _, None => (k, v) :: fs
           | None, _ => (k', v') :: obj_set k v r
           end
  end.

(** One value, the items of an array after its [\[], the members of an
    object after its [{]; [fuel] bounds the depth of the calls. *)
Fixpoint parse_value (fuel : nat) (s : string) {struct fuel} : option (JsVal * string) :=
  match fuel with
  | O => None
  | S f =>
      match skip_ws s with
      | String "n" (String "u" (String "l" (String "l" r))) => Some (JNull, r)
      | String "t" (String "r" (String "u" (String "e" r))) => Some (JBool true, r)
      | String "f" (String "a" (String "l" (String "s" (String "e" r)))) => Some (JBool false, r)
      | String "034" r => '(t, r') ← parse_string_body r; Some (JStr t, r')
      | String "[" r =>
          match skip_ws r with
          | String "]" r' => Some (JArr [], r')
          | _ => '(xs, r') ← parse_items f r; Some (JArr xs, r')
          end
      | String "{" r =>
          match skip_ws r with
          | String "}" r' => Some (JObj [], r')
          | _ => '(fs, r') ← parse_members f r []; Some (JObj fs, r')
          end
      | s' => parse_number s'
      end
  end
with parse_items (fuel : nat) (s : string) {struct fuel} : option (list JsVal * string) :=
  match fuel with
  | O => None
  | S f =>
      '(v, r) ← parse_value f s;
      match skip_ws r with
      | String "," r' => '(vs, r'') ← parse_items f r'; Some (v :: vs, r'')
      | String "]" r' => Some ([v], r')
      | _ => None
      end
  end
with parse_members (fuel : nat) (s : string) (acc : list (string * JsVal)) {struct fuel}
    : option (list (string * JsVal) * string) :=
  match fuel with
  | O => None
  | S f =>
      match skip_ws s with
      | String "034" r =>
          '(k, r1) ← parse_string_body r;
          match skip_ws r1 with
          | String ":" r2 =>
              '(v, r3) ← parse_value f r2;
              match skip_ws r3 with
              | String "," r4 => parse_members f r4 (obj_set k v acc)
              | String "}" r4 => Some (obj_set k v acc, r4)
              | _ => None
              end
          | _ => None
          end
      | _ => None
      end
  end.

(** [JSON.parse(s)]: one value and white space only; [None] is the
    [SyntaxError].  Every call of the parser reads at least one character
    or is the one call of a value inside an array, so the length of the
    text is enough fuel (see [json_parse_text]). *)
Definition json_parse (s : string) : option JsVal :=
  match parse_value (String.length s) s with
  | Some (v, r) => match skip_ws r with EmptyString => Some v | _ => None end
  | None => None
  end.

(** ** JSON values and the fuel of the parser *)

(** The string of a list of decimal digits. *)
Definition dstr (ds : list Z) : string := foldr (λ d t, String (digit_char d) t) EmptyString ds.

Definition value_end (rest : string) : Prop :=
  match rest with EmptyString => True | String c _ => c = ","%char ∨ c = "]"%char ∨ c = "}"%char end.

(** A JSON value: no [undefined] nor [NaN] inside, and objects with
    distinct keys none of which is an array index. *)
Fixpoint json_ok (v : JsVal) : bool :=
  match v with
  | JUndef | JNaN => false
  | JArr xs => forallb json_ok xs
  | JObj fs =>
      forallb (λ '(k, x), json_ok x && bool_decide (index_key k = None)) fs && bool_decide (NoDup fs.*1)
  | _ => true
  end.

(** The fuel [parse_value] needs for the text of a value. *)
Fixpoint json_need (v : JsVal) : nat :=
  match v with
  | JArr xs => S (list_sum (List.map (λ x, S (json_need x)) xs))
  | JObj fs => S (list_sum (List.map (λ '(_, x), S (json_need x)) fs))
  | _ => 1
  end.

(** A byte that starts none of the other values. *)
Definition number_start (c : ascii) : bool :=
  negb (is_ws c) && negb (bool_decide (c ∈ ["n"; "t"; "f"; "034"; "["; "{"]%char)).

Definition member_text (kv : string * JsVal) : string := json_quote kv.1 +:+ ":" +:+ json_text kv.2.

(** [parse_value] reads back the text of [v], with any fuel from
    [json_need v] on, followed by [,], [\]], [}] or nothing. *)
Definition text_parses (v : JsVal) : Prop :=
  ∀ f rest, json_need v ≤ f → value_end rest → parse_value f (json_text v +:+ rest) = Some (v, rest).

(** ** Lemmas *)

(** Induction on a value, with the hypothesis on the items of an array and
    the values of an object. *)
Section JsVal_nested_ind.
Variable P : JsVal → Prop.
Hypotheses (HU : P JUndef) (HN : P JNull) (HB : ∀ b, P (JBool b)) (HZ : ∀ n, P (JNum n))
  (HNaN : P JNaN) (HS : ∀ s, P (JStr s)) (HA : ∀ xs, Forall P xs → P (JArr xs))
  (HO : ∀ fs, Forall (λ kv, P kv.2) fs → P (JObj fs)).

Fixpoint JsVal_nested_ind (v : JsVal) : P v :=
  match v with
  | JUndef => HU | JNull => HN | JBool b => HB b | JNum n => HZ n | JNaN => HNaN | JStr s => HS s
  | JArr xs =>
      HA xs ((fix go (l : list JsVal) : Forall P l :=
                match l with [] => @List.Forall_nil _ _ | x :: l' => @List.Forall_cons _ _ x _ (JsVal_nested_ind x) (go l') end) xs)
  | JObj fs =>
      HO fs ((fix go (l : list (string * JsVal)) : Forall (λ kv, P kv.2) l :=
                match l with
                | [] => @List.Forall_nil _ _
                | (k, x) :: l' => @List.Forall_cons _ _ (k, x) _ (JsVal_nested_ind x) (go l')
                end) fs)
  end.
End JsVal_nested_ind.

(** Reading back one escaped byte: every byte, the 256 cases computed. *)
Lemma parse_escape c rest :
  parse_string_body (json_escape c +:+ rest) =
    match parse_string_body rest with Some (t, r) => Some (String c t, r) | None => None end.
Proof.
  destruct c as [[] [] [] [] [] [] [] []]; reflexivity.
Qed.

Lemma parse_quote_body s rest : parse_string_body (json_quote_body s +:+ dq +:+ rest) = Some (s, rest).
Proof.
  induction s as [|c s IH]; [reflexivity|].
  cbn [json_quote_body]. rewrite <- string_app_assoc, parse_escape, IH. reflexivity.
Qed.

(** *** Numbers *)

Lemma dstr_snoc ds d acc : dstr (ds ++ [d]) +:+ acc = dstr ds +:+ String (digit_char d) acc.
Proof. unfold dstr. induction ds as [|x ds IH]; [done|]. simpl. by rewrite !string_app_cons, IH. Qed.

Lemma horner_snoc ds d : horner 10 (ds ++ [d]) = (horner 10 ds * 10 + d)%Z.
Proof. unfold horner. by rewrite fold_left_app. Qed.

Lemma digit_cases d : (0 ≤ d < 10)%Z →
  d = 0%Z ∨ d = 1%Z ∨ d = 2%Z ∨ d = 3%Z ∨ d = 4%Z ∨ d = 5%Z ∨ d = 6%Z ∨ d = 7%Z ∨ d = 8%Z ∨ d = 9%Z.
Proof. lia. Qed.

Lemma digit_value_char d : (0 ≤ d < 10)%Z → digit_value 10 (digit_char d) = Some d.
Proof. intros Hd. by destruct (digit_cases d Hd) as [|[|[|[|[|[|[|[|[|]]]]]]]]]; subst. Qed.

(** The digits [digits_fuel] writes, when the fuel covers them. *)
Lemma digits_fuel_spec f n acc : (0 ≤ n < 10 ^ Z.of_nat (S f))%Z →
  ∃ ds, digits_fuel (S f) n acc = dstr ds +:+ acc ∧ horner 10 ds = n ∧
    Forall (λ d, 0 ≤ d < 10)%Z ds ∧ ds ≠ [] ∧ (n ≠ 0%Z → head ds ≠ Some 0%Z).
Proof.
  revert n acc. induction f as [|f IH]; intros n acc Hn; simpl.
  - assert (n < 10)%Z as Hlt by (rewrite Z.pow_1_r in Hn; lia).
    rewrite (proj2 (Z.ltb_lt n 10) Hlt), Z.mod_small by lia.
    exists [n]. split_and!; [done|done|constructor; [lia|constructor]|done|simpl; congruence].
  - destruct (Z.ltb_spec n 10) as [Hlt|Hge].
    + rewrite Z.mod_small by lia.
      exists [n]. split_and!; [done|done|constructor; [lia|constructor]|done|simpl; congruence].
    + destruct (IH (n / 10)%Z (String (digit_char (n mod 10)) acc)) as (ds & Hd & Hh & Hf & Hne & Hz).
      { split; [apply Z.div_pos; lia|]. apply Z.div_lt_upper_bound; [lia|].
        rewrite <- Z.pow_succ_r by lia. rewrite <- Nat2Z.inj_succ. lia. }
      exists (ds ++ [n mod 10]%Z). rewrite dstr_snoc, horner_snoc, Hh. split_and!.
      * exact Hd.
      * pose proof (Z.div_mod n 10). lia.
      * apply Forall_app. split; [done|]. constructor; [|constructor]. apply Z.mod_pos_bound. lia.
      * by destruct ds.
      * intros _. destruct ds as [|d ds]; [done|]. simpl in *. apply Hz. enough (0 < n / 10)%Z by lia. apply Z.div_str_pos; lia.
Qed.

Lemma span_digits_cons radix c s :
  span_digits radix (String c s) =
    match digit_value radix c with
    | Some d => let '(ds, r) := span_digits radix s in (d :: ds, r)
    | None => ([], String c s)
    end.
Proof. reflexivity. Qed.

Lemma span_dstr ds rest :
  Forall (λ d, 0 ≤ d < 10)%Z ds → (∀ c r, rest = String c r → digit_value 10 c = None) →
  span_digits 10 (dstr ds +:+ rest) = (ds, rest).
Proof.
  intros Hds Hr. induction Hds as [|d ds Hd _ IH].
  - destruct rest as [|c r]; [done|]. rewrite string_app_nil_l, span_digits_cons. by rewrite (Hr c r eq_refl).
  - cbn [dstr foldr]. rewrite string_app_cons, span_digits_cons, digit_value_char by done.
    fold (dstr ds). by rewrite IH.
Qed.

Lemma pow2_le_pow10 k : (2 ^ k ≤ 10 ^ k)%Z.
Proof.
  destruct (Z.neg_nonneg_cases k) as [Hk|Hk].
  - rewrite !Z.pow_neg_r by lia. lia.
  - apply Z.pow_le_mono_l. lia.
Qed.

(** The decimal digits of a non-negative number, without a leading zero. *)
Lemma number_digits n : (0 ≤ n)%Z →
  ∃ ds, digits_fuel (digits_bound n) n "" = dstr ds ∧ horner 10 ds = n ∧
    Forall (λ d, 0 ≤ d < 10)%Z ds ∧ ds ≠ [] ∧ leading_zero ds = false.
Proof.
  intros Hn. destruct (Z.eq_dec n 0%Z) as [->|Hn0].
  { exists [0%Z]. split_and!; try done. repeat constructor; lia. }
  unfold digits_bound.
  destruct (digits_fuel_spec (Z.to_nat (Z.log2 n)) n "") as (ds & Hd & Hh & Hf & Hne & Hz).
  { split; [done|]. rewrite Nat2Z.inj_succ, Z2Nat.id by apply Z.log2_nonneg.
    pose proof (Z.log2_spec n ltac:(lia)) as [_ H2]. pose proof (pow2_le_pow10 (Z.succ (Z.log2 n))). lia. }
  exists ds. rewrite Hd, string_app_nil_r. split_and!; try done.
  specialize (Hz Hn0). destruct ds as [|[|d|d] [|d' ds]]; done.
Qed.

Lemma value_end_digit c r : value_end (String c r) → digit_value 10 c = None.
Proof. by intros [->|[->| ->]]. Qed.

Lemma parse_digits_dstr neg ds rest :
  Forall (λ d, 0 ≤ d < 10)%Z ds → ds ≠ [] → leading_zero ds = false → value_end rest →
  parse_digits neg (dstr ds +:+ rest) = Some (JNum (if neg then - horner 10 ds else horner 10 ds)%Z, rest).
Proof.
  intros Hf Hne Hz Hr. unfold parse_digits.
  rewrite span_dstr; [|done|intros c r ->; by apply (value_end_digit c r)].
  destruct ds as [|d ds]; [done|]. rewrite Hz.
  destruct rest as [|c r]; [done|]. by destruct Hr as [->|[->| ->]].
Qed.

Lemma parse_number_other s : (∀ r, s ≠ String "-" r) → parse_number s = parse_digits false s.
Proof.
  intros H. destruct s as [|c r]; [done|].
  destruct c as [[] [] [] [] [] [] [] []]; try reflexivity. by destruct (H r).
Qed.

Lemma parse_number_minus r : parse_number (String "-" r) = parse_digits true r.
Proof. reflexivity. Qed.

Lemma digit_char_not_minus d : (0 ≤ d < 10)%Z → digit_char d ≠ "-"%char.
Proof. intros Hd. by destruct (digit_cases d Hd) as [|[|[|[|[|[|[|[|[|]]]]]]]]]; subst. Qed.

Lemma parse_number_text n rest : value_end rest → parse_number (number_to_string n +:+ rest) = Some (JNum n, rest).
Proof.
  intros Hr. unfold number_to_string. destruct (Z.ltb_spec n 0) as [Hn|Hn].
  - destruct (number_digits (- n)) as (ds & Hd & Hh & Hf & Hne & Hz); [lia|].
    rewrite Hd, <- string_app_assoc, string_app_cons, string_app_nil_l, parse_number_minus.
    rewrite parse_digits_dstr by done. by rewrite Hh, Z.opp_involutive.
  - destruct (number_digits n) as (ds & Hd & Hh & Hf & Hne & Hz); [lia|].
    rewrite Hd, parse_number_other.
    + rewrite parse_digits_dstr by done. by rewrite Hh.
    + destruct ds as [|d ds]; [done|]. intros r. cbn [dstr foldr]. rewrite string_app_cons.
      inversion Hf; subst. intros [= Hc _]. by apply (digit_char_not_minus d).
Qed.

Lemma parse_value_quote f r :
  parse_value (S f) (String "034" r) = '(t, r') ← parse_string_body r; Some (JStr t, r').
Proof. reflexivity. Qed.

Lemma parse_value_array f r : (∀ r', skip_ws r ≠ String "]" r') →
  parse_value (S f) (String "[" r) = '(xs, r') ← parse_items f r; Some (JArr xs, r').
Proof.
  intros H. change (parse_value (S f) (String "[" r)) with
    (match skip_ws r with
     | String "]" r' => Some (JArr [], r')
     | _ => '(xs, r') ← parse_items f r; Some (JArr xs, r')
     end).
  destruct (skip_ws r) as [|c r'] eqn:E; [reflexivity|].
  destruct c as [[] [] [] [] [] [] [] []]; try reflexivity. by destruct (H r').
Qed.

Lemma parse_value_object f r : (∀ r', skip_ws r ≠ String "}" r') →
  parse_value (S f) (String "{" r) = '(fs, r') ← parse_members f r []; Some (JObj fs, r').
Proof.
  intros H. change (parse_value (S f) (String "{" r)) with
    (match skip_ws r with
     | String "}" r' => Some (JObj [], r')
     | _ => '(fs, r') ← parse_members f r []; Some (JObj fs, r')
     end).
  destruct (skip_ws r) as [|c r'] eqn:E; [reflexivity|].
  destruct c as [[] [] [] [] [] [] [] []]; try reflexivity. by destruct (H r').
Qed.

Lemma parse_value_number f c r : number_start c = true →
  parse_value (S f) (String c r) = parse_number (String c r).
Proof. intros Hc. destruct c as [[] [] [] [] [] [] [] []]; try reflexivity; discriminate. Qed.

(** The first byte of a number's text: [-] or a digit. *)
Lemma number_text_start n t : ∃ c r, number_to_string n +:+ t = String c r ∧
  (c = "-"%char ∨ ∃ d, (0 ≤ d < 10)%Z ∧ c = digit_char d).
Proof.
  unfold number_to_string. destruct (Z.ltb_spec n 0) as [Hn|Hn].
  - eexists _, _. split; [|by left]. by rewrite <- string_app_assoc, string_app_cons.
  - destruct (number_digits n) as (ds & -> & _ & Hf & Hne & _); [lia|].
    destruct ds as [|d ds]; [done|]. inversion Hf; subst.
    eexists _, _. split; [cbn [dstr foldr]; by rewrite string_app_cons|]. right. by exists d.
Qed.

Lemma parse_value_number_text f n rest : value_end rest →
  parse_value (S f) (number_to_string n +:+ rest) = Some (JNum n, rest).
Proof.
  intros Hr. destruct (number_text_start n rest) as (c & r & Hcr & Hc).
  rewrite Hcr, parse_value_number, <- Hcr by
    (destruct Hc as [->|(d & Hd & ->)];
     [reflexivity|by destruct (digit_cases d Hd) as [|[|[|[|[|[|[|[|[|]]]]]]]]]; subst]).
  by apply parse_number_text.
Qed.

Lemma skip_ws_plain c r : is_ws c = false → skip_ws (String c r) = String c r.
Proof. intros H. simpl. by rewrite H. Qed.

(** The text of a value starts with a byte that is no white space and
    closes nothing. *)
Lemma json_text_start v t : json_ok v = true →
  ∃ c r, json_text v +:+ t = String c r ∧ is_ws c = false ∧ c ≠ "]"%char ∧ c ≠ "}"%char.
Proof.
  intros Hv. destruct v as [| |[]|n| |s|xs|fs]; try discriminate;
    try (eexists _, _; split; [reflexivity|done]).
  change (json_text (JNum n)) with (number_to_string n).
  destruct (number_text_start n t) as (c & r & -> & [->|(d & Hd & ->)]); eexists _, _; split_and!; try done;
    by destruct (digit_cases d Hd) as [|[|[|[|[|[|[|[|[|]]]]]]]]]; subst.
Qed.

Lemma json_text_not_close v t close : json_ok v = true → close = "]"%char ∨ close = "}"%char →
  ∀ r', skip_ws (json_text v +:+ t) ≠ String close r'.
Proof.
  intros Hv Hc r'. destruct (json_text_start v t Hv) as (c & r & -> & Hw & H1 & H2).
  rewrite skip_ws_plain by done. intros [= -> _]. by destruct Hc as [->| ->].
Qed.

Lemma parse_items_S f s : parse_items (S f) s =
  match parse_value f s with
  | Some (v, r) =>
      match skip_ws r with
      | String "," r' => match parse_items f r' with Some (vs, r'') => Some (v :: vs, r'') | None => None end
      | String "]" r' => Some ([v], r')
      | _ => None
      end
  | None => None
  end.
Proof. reflexivity. Qed.

Lemma parse_items_text xs f rest :
  xs ≠ [] → Forall (λ x, json_ok x = true ∧ text_parses x) xs →
  list_sum (List.map (λ x, S (json_need x)) xs) ≤ f →
  parse_items f (String.concat "," (List.map json_text xs) +:+ "]" +:+ rest) = Some (xs, rest).
Proof.
  intros Hne Hall. revert f. induction Hall as [|x xs [Hok Hx] Hall IH]; [done|]. intros f Hf.
  destruct f as [|f]; [simpl in Hf; lia|]. rewrite parse_items_S. simpl in Hf.
  destruct xs as [|y ys].
  - cbn [List.map String.concat]. rewrite Hx by (simpl in *; lia || by right; left). done.
  - change (String.concat "," (List.map json_text (x :: y :: ys)))
      with (json_text x +:+ "," +:+ String.concat "," (List.map json_text (y :: ys))).
    rewrite <- !string_app_assoc, Hx by (lia || by left).
    rewrite string_app_cons, string_app_nil_l, skip_ws_plain by done. cbn beta iota.
    rewrite IH by (done || simpl in *; lia). done.
Qed.

(** A new key that is no array index goes last. *)
Lemma obj_set_new k v fs : k ∉ fs.*1 → index_key k = None → obj_set k v fs = fs ++ [(k, v)].
Proof.
  intros Hk Hi. induction fs as [|[k' v'] fs IH]; [done|].
  rewrite fmap_cons, not_elem_of_cons in Hk. destruct Hk as [Hne Hk]. simpl.
  rewrite (proj2 (String.eqb_neq k k') Hne), Hi. by rewrite IH.
Qed.

Lemma parse_members_S f s acc : parse_members (S f) s acc =
  match skip_ws s with
  | String "034" r =>
      match parse_string_body r with
      | Some (k, r1) =>
          match skip_ws r1 with
          | String ":" r2 =>
              match parse_value f r2 with
              | Some (v, r3) =>
                  match skip_ws r3 with
                  | String "," r4 => parse_members f r4 (obj_set k v acc)
                  | String "}" r4 => Some (obj_set k v acc, r4)
                  | _ => None
                  end
              | None => None
              end
          | _ => None
          end
      | None => None
      end
  | _ => None
  end.
Proof. reflexivity. Qed.

(** The start of a member: its key, the colon, and the value parsed. *)
Lemma parse_member_head f k x t acc :
  (∀ rest, value_end rest → parse_value f (json_text x +:+ rest) = Some (x, rest)) → value_end t →
  parse_members (S f) (member_text (k, x) +:+ t) acc =
    match skip_ws t with
    | String "," r4 => parse_members f r4 (obj_set k x acc)
    | String "}" r4 => Some (obj_set k x acc, r4)
    | _ => None
    end.
Proof.
  intros Hx Ht. rewrite parse_members_S. unfold member_text, json_quote. cbn [fst snd].
  rewrite <- !string_app_assoc. unfold dq. rewrite string_app_cons, string_app_nil_l, skip_ws_plain by done.
  cbn beta iota. rewrite parse_quote_body, string_app_cons, string_app_nil_l, skip_ws_plain by done.
  cbn beta iota. by rewrite Hx.
Qed.

Lemma parse_members_text fs f rest acc :
  fs ≠ [] → Forall (λ kv, text_parses kv.2 ∧ index_key kv.1 = None) fs →
  NoDup (acc.*1 ++ fs.*1) →
  list_sum (List.map (λ '(_, x), S (json_need x)) fs) ≤ f →
  parse_members f (String.concat "," (List.map member_text fs) +:+ "}" +:+ rest) acc = Some (acc ++ fs, rest).
Proof.
  intros Hne Hall. revert acc f. induction Hall as [|[k x] fs [Hx Hi] Hall IH]; [done|]. intros acc f Hnd Hf.
  destruct f as [|f]; [simpl in Hf; lia|]. simpl in Hf.
  rewrite fmap_cons in Hnd. pose proof Hnd as (_ & Hdis & _)%NoDup_app.
  assert (k ∉ acc.*1) as Hk by (intros Hin; apply (Hdis k Hin); left).
  assert (∀ t, value_end t → parse_value f (json_text x +:+ t) = Some (x, t)) as Hx' by (intros; apply Hx; [simpl; lia|done]).
  destruct fs as [|[k2 y] fs].
  - cbn [List.map String.concat]. rewrite parse_member_head by (done || by right; right).
    rewrite string_app_cons, string_app_nil_l, skip_ws_plain by done. cbn beta iota.
    by rewrite obj_set_new.
  - change (String.concat "," (List.map member_text ((k, x) :: (k2, y) :: fs)))
      with (member_text (k, x) +:+ "," +:+ String.concat "," (List.map member_text ((k2, y) :: fs))).
    rewrite <- !string_app_assoc, parse_member_head by (done || by left).
    rewrite string_app_cons, string_app_nil_l, skip_ws_plain by done. cbn beta iota.
    rewrite obj_set_new by done. rewrite IH; [by rewrite <- app_assoc|done|..].
    + by rewrite fmap_app, <- app_assoc.
    + simpl in *. lia.
Qed.

Lemma concat_start sep a l : ∃ u, String.concat sep (a :: l) = a +:+ u.
Proof. destruct l; [exists ""; by rewrite string_app_nil_r|by eexists]. Qed.

Lemma somes_members fs : Forall (λ kv, kv.2 ≠ JUndef) fs →
  somes (List.map (λ '(k, x), match x with
                              | JUndef => None
                              | _ => Some (json_quote k +:+ ":" +:+ json_text x)
                              end) fs) = List.map member_text fs.
Proof. induction 1 as [|[k x] fs Hx _ IH]; [done|]. simpl in Hx. destruct x; try done; simpl; by rewrite IH. Qed.

(** Reading back the text of a JSON value. *)
Lemma parse_value_text v : json_ok v = true → text_parses v.
Proof.
  induction v as [| |b|n| |s|xs IH|fs IH] using JsVal_nested_ind; intros Hok f rest Hf Hr; try discriminate;
    (destruct f as [|f]; [simpl in Hf; lia|]).
  - reflexivity.
  - by destruct b.
  - by apply parse_value_number_text.
  - cbn [json_text]. unfold json_quote, dq. rewrite <- !string_app_assoc, string_app_cons, string_app_nil_l.
    rewrite parse_value_quote, parse_quote_body. done.
  - destruct xs as [|x xs]; [reflexivity|]. simpl in Hok, Hf.
    change (json_text (JArr (x :: xs))) with ("[" +:+ String.concat "," (List.map json_text (x :: xs)) +:+ "]").
    rewrite <- !string_app_assoc, string_app_cons, string_app_nil_l.
    apply andb_prop in Hok as [Hx Hxs].
    rewrite parse_value_array.
    + rewrite parse_items_text; [done|done| |simpl; lia].
      apply Forall_forall. intros y Hy. rewrite Forall_forall in IH.
      assert (json_ok y = true) as Hy' by (apply elem_of_cons in Hy as [->|Hy]; [done|by eapply forallb_forall; [exact Hxs|apply list_elem_of_In]]).
      split; [done|by apply IH].
    + cbn [List.map]. destruct (concat_start "," (json_text x) (List.map json_text xs)) as [u ->].
      rewrite <- string_app_assoc. apply json_text_not_close; [done|by left].
  - simpl in Hok. apply andb_prop in Hok as [Hok Hnd%bool_decide_eq_true].
    assert (Forall (λ kv, json_ok kv.2 = true ∧ index_key kv.1 = None) fs) as Hfs.
    { apply Forall_forall. intros [k x] Hkx%list_elem_of_In.
      pose proof (proj1 (forallb_forall _ fs) Hok _ Hkx) as H. simpl in H.
      apply andb_prop in H as [H1 H2%bool_decide_eq_true]. done. }
    change (json_text (JObj fs)) with
      ("{" +:+ String.concat "," (somes (List.map (λ '(k, x), match x with
                              | JUndef => None
                              | _ => Some (json_quote k +:+ ":" +:+ json_text x)
                              end) fs)) +:+ "}").
    rewrite somes_members by (eapply Forall_impl; [exact Hfs|]; by intros [k []] [? _]).
    destruct fs as [|[k x] fs]; [reflexivity|].
    rewrite <- !string_app_assoc, string_app_cons, string_app_nil_l.
    rewrite parse_value_object.
    + rewrite parse_members_text; [done|done| |done|simpl in Hf |- *; lia].
      rewrite Forall_forall in IH, Hfs |- *. intros kv Hkv. destruct (Hfs kv Hkv). split; [by apply IH|done].
    + cbn [List.map]. destruct (concat_start "," (member_text (k, x)) (List.map member_text fs)) as [u ->].
      unfold member_text, json_quote, dq. cbn [fst snd]. rewrite <- !string_app_assoc, string_app_cons.
      intros r'. rewrite skip_ws_plain by done. by intros [=].
Qed.

Lemma length_concat_comma l : l ≠ [] →
  S (String.length (String.concat "," l)) = list_sum (List.map (λ s, S (String.length s)) l).
Proof.
  induction l as [|a l IH]; [done|]. intros _. destruct l as [|b l]; [simpl; lia|].
  change (String.concat "," (a :: b :: l)) with (a +:+ "," +:+ String.concat "," (b :: l)).
  rewrite !string_length_app. specialize (IH ltac:(done)). simpl in IH |- *. lia.
Qed.

Lemma list_sum_map_le {A} (f g : A → nat) l : (∀ x, x ∈ l → f x ≤ g x) →
  list_sum (List.map f l) ≤ list_sum (List.map g l).
Proof.
  induction l as [|x l IH]; intros H; [done|]. simpl.
  pose proof (H x (list_elem_of_here _ _)). enough (list_sum (List.map f l) ≤ list_sum (List.map g l)) by lia.
  apply IH. intros y Hy. apply H. by right.
Qed.

(** The text of a value is at least as long as the fuel it needs. *)
Lemma json_need_length v : json_ok v = true → json_need v ≤ String.length (json_text v).
Proof.
  induction v as [| |b|n| |s|xs IH|fs IH] using JsVal_nested_ind; intros Hok; try discriminate.
  - simpl. lia.
  - destruct b; simpl; lia.
  - destruct (number_text_start n "") as (c & r & Hcr & _). rewrite string_app_nil_r in Hcr.
    cbn [json_text json_need]. rewrite Hcr. simpl. lia.
  - cbn [json_text json_need]. unfold json_quote, dq. rewrite !string_length_app. simpl. lia.
  - destruct xs as [|x xs]; [simpl; lia|].
    change (json_text (JArr (x :: xs))) with ("[" +:+ String.concat "," (List.map json_text (x :: xs)) +:+ "]").
    rewrite !string_length_app. cbn [json_need].
    pose proof (length_concat_comma (List.map json_text (x :: xs)) ltac:(done)) as Hc.
    rewrite List.map_map in Hc.
    assert (list_sum (List.map (λ y, S (json_need y)) (x :: xs)) ≤
            list_sum (List.map (λ y, S (String.length (json_text y))) (x :: xs))) as Hle.
    { apply list_sum_map_le. intros y Hy. rewrite Forall_forall in IH. simpl in Hok.
      enough (json_need y ≤ String.length (json_text y)) by lia. apply IH; [done|].
      by eapply (forallb_forall json_ok (x :: xs)); [exact Hok|apply list_elem_of_In]. }
    cbn [String.length]. lia.
  - simpl in Hok. apply andb_prop in Hok as [Hok _].
    assert (Forall (λ kv, kv.2 ≠ JUndef ∧ json_ok kv.2 = true) fs) as Hfs.
    { apply Forall_forall. intros [k x] Hkx%list_elem_of_In.
      pose proof (proj1 (forallb_forall _ fs) Hok _ Hkx) as H. simpl in H.
      apply andb_prop in H as [H1 _]. split; [by destruct x|done]. }
    change (json_text (JObj fs)) with
      ("{" +:+ String.concat "," (somes (List.map (λ '(k, x), match x with
                              | JUndef => None
                              | _ => Some (json_quote k +:+ ":" +:+ json_text x)
                              end) fs)) +:+ "}").
    rewrite somes_members by (eapply Forall_impl; [exact Hfs|]; by intros ? []).
    destruct fs as [|[k x] fs]; [simpl; lia|].
    rewrite !string_length_app. cbn [json_need].
    pose proof (length_concat_comma (List.map member_text ((k, x) :: fs)) ltac:(done)) as Hc.
    rewrite List.map_map in Hc.
    assert (list_sum (List.map (λ '(_, y), S (json_need y)) ((k, x) :: fs)) ≤
            list_sum (List.map (λ kv, S (String.length (member_text kv))) ((k, x) :: fs))) as Hle.
    { apply list_sum_map_le. intros [k' y] Hy. rewrite Forall_forall in IH, Hfs.
      destruct (Hfs _ Hy) as [_ Hyok]. pose proof (IH _ Hy Hyok) as Hl. simpl in Hl.
      unfold member_text. cbn [fst snd]. rewrite !string_length_app. lia. }
    cbn [String.length]. lia.
Qed.

(** Decoding after encoding: [JSON.parse(JSON.stringify(v))] gives back a
    JSON value. *)
Lemma json_parse_text v : json_ok v = true → json_parse (json_text v) = Some v.
Proof.
  intros Hok. unfold json_parse.
  pose proof (parse_value_text v Hok (String.length (json_text v)) "" (json_need_length v Hok) I) as H.
  rewrite string_app_nil_r in H. by rewrite H.
Qed.

Lemma json_stringify_ok v : json_ok v = true → json_stringify v = Some (json_text v).
Proof. by destruct v. Qed.


(** ** Termination of the parser

    Every call of [parse_value], [parse_items] and [parse_members] that
    succeeds reads at least one byte, and the recursive calls run on the
    rest of the text; so the fuel a parse needs is at most the number of
    bytes it reads, and the length of the text is always enough. *)

Lemma skip_ws_length s : String.length (skip_ws s) ≤ String.length s.
Proof. induction s as [|c s IH]; [done|]. simpl. destruct (is_ws c); simpl; lia. Qed.

Lemma skip_ws_idem s : skip_ws (skip_ws s) = skip_ws s.
Proof. induction s as [|c s IH]; [done|]. simpl. destruct (is_ws c) eqn:E; [done|]. simpl. by rewrite E. Qed.

Lemma skip_ws_head s c r : skip_ws s = String c r → is_ws c = false.
Proof.
  induction s as [|c' s IH]; [done|]. simpl. destruct (is_ws c') eqn:E; [done|]. by intros [= <- _].
Qed.

Lemma span_digits_length radix s ds r :
  span_digits radix s = (ds, r) → (length ds + String.length r = String.length s)%nat.
Proof.
  enough (length (span_digits radix s).1 + String.length (span_digits radix s).2 = String.length s)%nat
    by (intros E; by rewrite E in *).
  induction s as [|c s IH]; [done|]. rewrite span_digits_cons.
  destruct (digit_value radix c); [|done]. destruct (span_digits radix s) as [ds' r']. simpl in *. lia.
Qed.

Lemma parse_digits_length neg s v r : parse_digits neg s = Some (v, r) → String.length r < String.length s.
Proof.
  unfold parse_digits. destruct (span_digits 10 s) as [ds r'] eqn:E. apply span_digits_length in E.
  destruct ds; [done|]. repeat case_match; intros Hp; simplify_eq; simpl in *; lia.
Qed.

Lemma parse_number_length s v r : parse_number s = Some (v, r) → String.length r < String.length s.
Proof.
  unfold parse_number. repeat case_match; intros Hp; apply parse_digits_length in Hp; simplify_eq; simpl in *; lia.
Qed.

Lemma parse_string_body_length s t r : parse_string_body s = Some (t, r) → String.length r < String.length s.
Proof.
  revert t r. induction s as [s IH] using (induction_ltof1 _ String.length); unfold ltof in IH.
  intros t r. destruct s as [|c s]; [done|]. simpl. intros Hp. repeat (case_match || bind_case); simplify_eq; simpl in *;
    try lia; match goal with E : parse_string_body ?x = Some _ |- _ => apply IH in E; simpl in *; lia end.
Qed.

(** Inversion of the matches of the parser on one expected byte. *)
Lemma match_quote {A} (t : string) (k : string → option A) y :
  match t with String "034" r => k r | _ => None end = Some y → ∃ r, t = String "034" r ∧ k r = Some y.
Proof. destruct t as [|c r]; [done|]. destruct c as [[] [] [] [] [] [] [] []]; try done; eauto. Qed.

Lemma match_colon {A} (t : string) (k : string → option A) y :
  match t with String ":" r => k r | _ => None end = Some y → ∃ r, t = String ":" r ∧ k r = Some y.
Proof. destruct t as [|c r]; [done|]. destruct c as [[] [] [] [] [] [] [] []]; try done; eauto. Qed.

Lemma match_items_sep {A} (t : string) (k1 k2 : string → option A) y :
  match t with String "," r => k1 r | String "]" r => k2 r | _ => None end = Some y →
  (∃ r, t = String "," r ∧ k1 r = Some y) ∨ (∃ r, t = String "]" r ∧ k2 r = Some y).
Proof. destruct t as [|c r]; [done|]. destruct c as [[] [] [] [] [] [] [] []]; try done; eauto. Qed.

Lemma match_members_sep {A} (t : string) (k1 k2 : string → option A) y :
  match t with String "," r => k1 r | String "}" r => k2 r | _ => None end = Some y →
  (∃ r, t = String "," r ∧ k1 r = Some y) ∨ (∃ r, t = String "}" r ∧ k2 r = Some y).
Proof. destruct t as [|c r]; [done|]. destruct c as [[] [] [] [] [] [] [] []]; try done; eauto. Qed.

Lemma close_cases r close : (∃ r', skip_ws r = String close r') ∨ (∀ r', skip_ws r ≠ String close r').
Proof.
  destruct (skip_ws r) as [|c r']; [right; congruence|].
  destruct (decide (c = close)) as [->|Hne]; [left; eauto|right; congruence].
Qed.

Lemma parse_value_skip f s : parse_value (S f) s = parse_value (S f) (skip_ws s).
Proof. simpl. by rewrite skip_ws_idem. Qed.

Lemma parse_value_empty_array f r r' : skip_ws r = String "]" r' → parse_value (S f) (String "[" r) = Some (JArr [], r').
Proof.
  intros H. change (parse_value (S f) (String "[" r)) with
    (match skip_ws r with
     | String "]" r' => Some (JArr [], r')
     | _ => '(xs, r') ← parse_items f r; Some (JArr xs, r')
     end). by rewrite H.
Qed.

Lemma parse_value_empty_object f r r' : skip_ws r = String "}" r' → parse_value (S f) (String "{" r) = Some (JObj [], r').
Proof.
  intros H. change (parse_value (S f) (String "{" r)) with
    (match skip_ws r with
     | String "}" r' => Some (JObj [], r')
     | _ => '(fs, r') ← parse_members f r []; Some (JObj fs, r')
     end). by rewrite H.
Qed.

Lemma parse_value_fuel_free f n c r0 : is_ws c = false → c ≠ "["%char → c ≠ "{"%char →
  parse_value (S n) (String c r0) = parse_value (S f) (String c r0).
Proof.
  intros Hws Hb Hc. destruct c as [[] [] [] [] [] [] [] []]; try reflexivity; try discriminate Hws; exfalso; congruence.
Qed.

Local Ltac literal_length H :=
  cbn -[skip_ws parse_number parse_string_body] in H; rewrite skip_ws_plain in H by reflexivity;
  cbn -[parse_number parse_string_body] in H; repeat case_match;
  first [ apply parse_number_length in H; simpl in *; lia | injection H as <- <-; simpl; lia | discriminate H ].

Lemma parse_null_length f r0 v r : parse_value (S f) (String "n" r0) = Some (v, r) → String.length r < S (String.length r0).
Proof. intros H. literal_length H. Qed.
Lemma parse_true_length f r0 v r : parse_value (S f) (String "t" r0) = Some (v, r) → String.length r < S (String.length r0).
Proof. intros H. literal_length H. Qed.
Lemma parse_false_length f r0 v r : parse_value (S f) (String "f" r0) = Some (v, r) → String.length r < S (String.length r0).
Proof. intros H. literal_length H. Qed.

Lemma parse_value_plain_length f c r0 v r : is_ws c = false → c ≠ "["%char → c ≠ "{"%char →
  parse_value (S f) (String c r0) = Some (v, r) → String.length r < S (String.length r0).
Proof.
  intros Hws Hb Hc H. destruct (number_start c) eqn:Hn.
  - rewrite parse_value_number in H by done. apply parse_number_length in H. simpl in H. lia.
  - unfold number_start in Hn. rewrite Hws in Hn. simpl in Hn. apply negb_false_iff, bool_decide_eq_true in Hn.
    repeat rewrite elem_of_cons in Hn. rewrite elem_of_nil in Hn.
    destruct Hn as [->|[->|[->|[->|[->|[->|[]]]]]]]; try congruence.
    + by apply parse_null_length in H.
    + by apply parse_true_length in H.
    + by apply parse_false_length in H.
    + rewrite parse_value_quote in H. destruct (parse_string_body r0) as [[t r1]|] eqn:E; [|done].
      simpl in H. simplify_eq. apply parse_string_body_length in E. lia.
Qed.

(** What a parser reads with some fuel it reads with any fuel at least
    the number of bytes it consumed. *)
Definition fuel_enough {A} (p : nat → string → option (A * string)) (m : nat) (s : string) : Prop :=
  ∀ x r, p m s = Some (x, r) →
    String.length r < String.length s ∧ ∀ n, String.length s ≤ n + String.length r → p n s = Some (x, r).

Lemma parse_fuel m :
  (∀ s, fuel_enough parse_value m s) ∧ (∀ s, fuel_enough parse_items m s) ∧
  (∀ s acc, fuel_enough (λ n s, parse_members n s acc) m s).
Proof.
  induction m as [|f (IHv & IHi & IHm)]; [split_and!; done|]. split_and!.
  - intros s x r H. rewrite parse_value_skip in H. pose proof (skip_ws_length s) as Hl.
    enough (String.length r < String.length (skip_ws s) ∧
            ∀ n, String.length (skip_ws s) ≤ n + String.length r → parse_value n (skip_ws s) = Some (x, r)) as [Hlt Hn].
    { split; [lia|]. intros [|n] Hle; [lia|]. rewrite parse_value_skip. apply Hn. lia. }
    pose proof (skip_ws_head s) as Hws. destruct (skip_ws s) as [|c r0]; [done|].
    specialize (Hws c r0 eq_refl). simpl. destruct (decide (c = "["%char)) as [->|Hb].
    + destruct (close_cases r0 "]") as [[r' Hr]|Hr].
      * rewrite (parse_value_empty_array _ _ _ Hr) in H. simplify_eq. pose proof (skip_ws_length r0). rewrite Hr in *.
        simpl in *. split; [lia|]. intros [|n] ?; [lia|]. by apply parse_value_empty_array.
      * rewrite parse_value_array in H by done. destruct (parse_items f r0) as [[xs r1]|] eqn:E; [|done].
        simpl in H. simplify_eq. destruct (IHi r0 xs r E) as [Hlt Hn]. split; [lia|].
        intros [|n] ?; [lia|]. rewrite parse_value_array by done. rewrite Hn by lia. done.
    + destruct (decide (c = "{"%char)) as [->|Hc].
      * destruct (close_cases r0 "}") as [[r' Hr]|Hr].
        -- rewrite (parse_value_empty_object _ _ _ Hr) in H. simplify_eq. pose proof (skip_ws_length r0).
           rewrite Hr in *. simpl in *. split; [lia|]. intros [|n] ?; [lia|]. by apply parse_value_empty_object.
        -- rewrite parse_value_object in H by done. destruct (parse_members f r0 []) as [[fs r1]|] eqn:E; [|done].
           simpl in H. simplify_eq. destruct (IHm r0 [] fs r E) as [Hlt Hn]. split; [lia|].
           intros [|n] ?; [lia|]. rewrite parse_value_object by done. rewrite Hn by lia. done.
      * pose proof (parse_value_plain_length f c r0 x r Hws Hb Hc H). split; [done|]. intros [|n] ?; [lia|].
        by rewrite (parse_value_fuel_free f n).
  - intros s xs r H. rewrite parse_items_S in H. destruct (parse_value f s) as [[x r1]|] eqn:E1; [|done].
    destruct (IHv s x r1 E1) as [Hlt1 Hn1]. pose proof (skip_ws_length r1).
    apply match_items_sep in H as [(r' & Hr & H)|(r' & Hr & H)]; rewrite Hr in *; simpl in *.
    + destruct (parse_items f r') as [[vs r2]|] eqn:E2; [|done]. simplify_eq.
      destruct (IHi r' vs r E2) as [Hlt2 Hn2]. split; [lia|]. intros [|n] ?; [lia|].
      rewrite parse_items_S, Hn1, Hr by lia. cbn beta iota. rewrite Hn2 by lia. done.
    + simplify_eq. split; [lia|]. intros [|n] ?; [lia|]. rewrite parse_items_S, Hn1, Hr by lia. done.
  - intros s acc fs r H. rewrite parse_members_S in H. pose proof (skip_ws_length s).
    apply match_quote in H as (r0 & Hq & H). rewrite Hq in *.
    destruct (parse_string_body r0) as [[k r1]|] eqn:Ek; [|done]. apply parse_string_body_length in Ek as Hk.
    pose proof (skip_ws_length r1). apply match_colon in H as (r2 & Hc & H). rewrite Hc in *.
    destruct (parse_value f r2) as [[v r3]|] eqn:Ev; [|done]. destruct (IHv r2 v r3 Ev) as [Hlt3 Hn3].
    pose proof (skip_ws_length r3). simpl in *.
    apply match_members_sep in H as [(r4 & Hr & H)|(r4 & Hr & H)]; rewrite Hr in *; simpl in *.
    + destruct (IHm r4 (obj_set k v acc) fs r H) as [Hlt4 Hn4]. split; [lia|]. intros [|n] ?; [lia|].
      rewrite parse_members_S, Hq. cbn beta iota. rewrite Ek. cbn beta iota. rewrite Hc. cbn beta iota.
      rewrite Hn3 by lia. rewrite Hr. cbn beta iota. apply Hn4. lia.
    + simplify_eq. split; [lia|]. intros [|n] ?; [lia|].
      rewrite parse_members_S, Hq. cbn beta iota. rewrite Ek. cbn beta iota. rewrite Hc. cbn beta iota.
      rewrite Hn3 by lia. rewrite Hr. done.
Qed.

(** [JSON.parse] terminates within the length of its text: fuel
    beyond [String.length s] changes no result of [parse_value], and
    [json_parse s] accepts exactly the texts that the parser reads with
    some fuel followed only by white space. *)
Theorem json_parse_fuel s :
  (∀ n, String.length s ≤ n → parse_value n s = parse_value (String.length s) s) ∧
  ∀ v, json_parse s = Some v ↔ ∃ fuel r, parse_value fuel s = Some (v, r) ∧ skip_ws r = EmptyString.
Proof.
  assert (Henough : ∀ fuel x r, parse_value fuel s = Some (x, r) → parse_value (String.length s) s = Some (x, r)).
  { intros fuel x r H. apply (proj1 (parse_fuel fuel) s x r H). lia. }
  split.
  - intros n Hn. destruct (parse_value n s) as [[x r]|] eqn:E.
    + by rewrite (Henough n x r E).
    + destruct (parse_value (String.length s) s) as [[x r]|] eqn:E'; [|done].
      rewrite <- E. apply (proj1 (parse_fuel _) s x r E'). lia.
  - intros v. unfold json_parse. split.
    + destruct (parse_value (String.length s) s) as [[x r]|] eqn:E; [|done].
      destruct (skip_ws r) eqn:Er; [|done]. intros [= <-]. eauto.
    + intros (fuel & r & H & Hr). by rewrite (Henough fuel v r H), Hr.
Qed.

Module JsonExamples.
Definition ex_text : string := " [1, [2, []], {}, -30 ] ".

Lemma json_parse_fuel_witness :
  (String.length ex_text ≤ 100 ∧ parse_value 100 ex_text = parse_value (String.length ex_text) ex_text) ∧
  json_parse ex_text = Some (JArr [JNum 1; JArr [JNum 2; JArr []]; JObj []; JNum (-30)]).
Proof.
  split.
  - split; [vm_compute; lia|]. apply (proj1 (json_parse_fuel ex_text)). vm_compute. lia.
  - apply (proj2 (json_parse_fuel ex_text)). exists 20, " ". split; reflexivity.
Defined.
End JsonExamples.
