(* ===== verification/Mongoose.v ===== *)
(** * Mongoose casts and ObjectIds

    What the models and controllers get from Mongoose: the cast of a value
    to an [ObjectId] (the id lookups [findById]), the cast of a value
    assigned to a [String] or [[String]] path, and the [_id] of a new
    document.

    An id is modelled by its canonical spelling, 24 hexadecimal digits; the
    other spellings Mongoose also accepts (a 12-byte string, an array cast
    as [$in], an object with an [_id]) are outside the model, and a cast
    error there.  Upper-case digits cast, and are looked up as written. *)

From S2P Require Import Prelude JsValue.
From Stdlib Require Import Ascii.

(** ** ObjectIds *)

Definition is_hex_digit (c : ascii) : bool :=
  let n := nat_of_ascii c in
  bool_decide (48 ≤ n ≤ 57 ∨ 97 ≤ n ≤ 102 ∨ 65 ≤ n ≤ 70)%nat.

Fixpoint all_hex (s : string) : bool :=
  match s with EmptyString => true | String c s' => is_hex_digit c && all_hex s' end.

Definition object_id_castable (s : string) : bool :=
  bool_decide (String.length s = 24%nat) && all_hex s.

(** The lower-case hexadecimal digits of [n], [k] of them. *)
Definition hex_char (d : N) : ascii :=
  if bool_decide (d < 10)%N then ascii_of_N (48 + d) else ascii_of_N (87 + d).

Fixpoint hex_digits (k : nat) (n : N) (acc : string) : string :=
  match k with
  | O => acc
  | S k' => hex_digits k' (n / 16)%N (String (hex_char (n mod 16)%N) acc)
  end.

(** The [_id] of the [n]-th document created. *)
Definition oid_of (n : N) : string := hex_digits 24 n EmptyString.

(** ** Casts of assigned values *)

(** Mongoose's cast of a value assigned to a [String] path: [Some None] is
    [null]/[undefined], [None] a cast error. *)
Definition mongoose_cast_string (v : JsVal) : option (option string) :=
  match v with
  | JUndef | JNull => Some None
  | JStr s => Some (Some s)
  | JBool _ | JNum _ | JNaN => Some (Some (js_to_string v))
  | JArr _ | JObj _ => None
  end.

(** The same for a [required] path or an array element: a value is needed. *)
Definition cast_string_value (v : JsVal) : option string :=
  match mongoose_cast_string v with Some (Some s) => Some s | _ => None end.

(** A [Boolean] path (Mongoose 5): [true], ['true'], [1], ['1'], ['yes']
    cast to [true], their opposites to [false], anything else is a cast
    error. *)
Definition cast_bool (v : JsVal) : option bool :=
  match v with
  | JBool b => Some b
  | JNum n => if Z.eqb n 1 then Some true else if Z.eqb n 0 then Some false else None
  | JStr s =>
      if bool_decide (s ∈ ["true"; "1"; "yes"]) then Some true
      else if bool_decide (s ∈ ["false"; "0"; "no"]) then Some false
      else None
  | _ => None
  end.

(** A [Boolean] path that may be assigned [null]: [null] and [undefined]
    are stored as they are. *)
Definition cast_bool_nullable (v : JsVal) : option (option bool) :=
  match v with JUndef | JNull => Some None | _ => Some <$> cast_bool v end.

(** A [Number] path (Mongoose 5's [castNumber]): [null], [undefined] and
    [''] store [null] ([Some None]); a string or a boolean goes through
    [Number(v)]; [NaN], an array and a plain object fail the
    [assert.ok] of the cast ([None]). *)
Definition cast_number (v : JsVal) : option (option Z) :=
  match v with
  | JUndef | JNull | JStr EmptyString => Some None
  | JStr _ | JBool _ | JNum _ => Some <$> js_to_number v
  | JNaN | JArr _ | JObj _ => None
  end.

(** A [[String]] path: an array is cast element by element, any other value
    is wrapped in a one-element array ([null] elements are outside the
    model). *)
Definition cast_string_array (v : JsVal) : option (list string) :=
  match v with
  | JArr xs => mapM cast_string_value xs
  | _ => (λ s, [s]) <$> cast_string_value v
  end.

(** A path with [trim: true] stores the trimmed string. *)
Definition cast_trimmed_array (v : JsVal) : option (list string) :=
  (λ ss : list string, trim_string <$> ss) <$> cast_string_array v.

(** An [[ObjectId]] path: every element, or the single value assigned,
    must cast. *)
Definition cast_oid (v : JsVal) : option string :=
  match v with JStr s => if object_id_castable s then Some s else None | _ => None end.

Definition cast_oid_array (v : JsVal) : option (list string) :=
  match v with
  | JArr xs => mapM cast_oid xs
  | _ => (λ s, [s]) <$> cast_oid v
  end.

(** ** Lemmas *)

Lemma hex_char_hex d : (d < 16)%N → is_hex_digit (hex_char d) = true.
Proof.
  intros Hd. unfold is_hex_digit, hex_char. apply bool_decide_eq_true.
  unfold nat_of_ascii. case_bool_decide; rewrite N_ascii_embedding; lia.
Qed.

Lemma all_hex_digits k n acc : all_hex acc = true → all_hex (hex_digits k n acc) = true.
Proof.
  revert n acc. induction k as [|k IH]; intros n acc Hacc; simpl; [done|].
  apply IH. simpl. rewrite hex_char_hex by (apply N.mod_lt; lia). done.
Qed.

Lemma length_hex_digits k n acc : String.length (hex_digits k n acc) = (k + String.length acc)%nat.
Proof. revert n acc. induction k as [|k IH]; intros n acc; simpl; [done|]. rewrite IH. simpl. lia. Qed.

Lemma oid_of_castable n : object_id_castable (oid_of n) = true.
Proof.
  unfold object_id_castable, oid_of. rewrite all_hex_digits by done.
  rewrite bool_decide_true; [done|]. by rewrite length_hex_digits.
Qed.

Lemma hex_digits_suffix k n acc : ∃ p, hex_digits k n acc = p +:+ acc ∧ String.length p = k.
Proof.
  revert n acc. induction k as [|k IH]; intros n acc; [by exists ""|].
  destruct (IH (n / 16)%N (String (hex_char (n mod 16)%N) acc)) as (p & Hp & Hl).
  exists (p +:+ String (hex_char (n mod 16)%N) ""). simpl. rewrite Hp, <- string_app_assoc.
  split; [done|]. rewrite string_length_app. simpl. lia.
Qed.

Lemma hex_char_inj d e : (d < 16)%N → (e < 16)%N → hex_char d = hex_char e → d = e.
Proof.
  intros Hd He H. apply (f_equal N_of_ascii) in H. unfold hex_char in H.
  do 2 case_bool_decide; rewrite !N_ascii_embedding in H by lia; lia.
Qed.

(** Two documents created one after the other get different [_id]s. *)
Lemma oid_of_succ_ne n : oid_of n ≠ oid_of (n + 1)%N.
Proof.
  unfold oid_of.
  change (hex_digits 24 n "") with (hex_digits 23 (n / 16)%N (String (hex_char (n mod 16)%N) "")).
  change (hex_digits 24 (n + 1)%N "")
    with (hex_digits 23 ((n + 1) / 16)%N (String (hex_char ((n + 1) mod 16)%N) "")).
  destruct (hex_digits_suffix 23 (n / 16)%N (String (hex_char (n mod 16)%N) "")) as (p & -> & Hp).
  destruct (hex_digits_suffix 23 ((n + 1) / 16)%N (String (hex_char ((n + 1) mod 16)%N) "")) as (q & -> & Hq).
  intros H. apply string_app_inj_r in H; [|lia]. simplify_eq.
  apply hex_char_inj in H; [|apply N.mod_lt; lia..].
  pose proof (N.div_mod n 16). pose proof (N.div_mod (n + 1) 16). lia.
Qed.
