(* ===== verification/Transport.v ===== *)
(** * The Socket.IO transport: rooms, emission targets, delivery

    Socket.IO keeps, per server, a map from room names to the sockets in the
    room; every socket is also in the room named by its own id, which is how
    [io.to(targetId)] in [webrtc.service.js] reaches a single socket
    (Socket.IO joins it when the socket connects, see
    [SocketAuth.connect]).  The handlers emit in four ways, which are four
    of the [Target]s below:
    [socket.emit(...)] (to the sender only), [io.to(room).emit(...)] (every
    socket in the room), [io.to([room1, room2]).emit(...)] (every socket in
    one of the rooms) and [socket.to(room).emit(...)] (every socket in the
    room but the sender).  [io.to([]).emit(...)], with an empty array of
    rooms, is a broadcast to every connected socket ([ToAll]): every
    connected socket is in its own room, so these are the members of any
    room.  An emission is delivered to the members of the
    room at the moment it is emitted; a room with no member delivers to no
    one, silently.

    This file also fixes the events the server emits, with their payloads as
    the handlers build them. *)

From S2P Require Import Prelude JsValue.

(** [socket.user] after the authentication middleware: the Mongoose user
    document, of which the handlers read [id] (the string form of [_id]) and
    [username]. *)
Record User := mkUser { user_id : Id; username : string }.

(** A connected socket: its id and the identity attached at handshake. *)
Record Socket := mkSocket { sock_id : Id; sock_user : User }.

(** A poll option [{ id, text, votes }] and a poll, as built by the
    [stream:poll_create] handler. *)
Record PollOption := mkPollOption { opt_id : Z; opt_text : JsVal; opt_votes : Z }.

Record Poll := mkPoll {
  poll_id : string;
  poll_question : JsVal;
  poll_options : list PollOption;
  poll_createdBy : Id;
  poll_createdAt : Z;
  poll_endsAt : option Z
}.

(** The events the server emits, one constructor per event name. *)
Inductive OutEvent :=
  | EvError (message : string)                                   (* 'error' *)
  | EvViewerJoin (userId uname : string)                         (* 'stream:viewer_join' *)
  | EvViewerLeave (userId uname : string)                        (* 'stream:viewer_leave' *)
  | EvViewerCount (count : nat)                                  (* 'stream:viewer_count' *)
  | EvChatMessage (userId uname message : string) (timestamp : Z) (* 'chat:message' *)
  | EvCodeChange (userId uname : string) (code position : JsVal)  (* 'code:change' *)
  | EvCodeSuggestion (userId uname suggestion : string)
      (lineStart lineEnd : JsVal) (timestamp : Z)                (* 'code:suggestion' *)
  | EvCodeVote (suggestionId : JsVal) (userId uname voteType : string)
      (timestamp : Z)                                            (* 'code:vote' *)
  | EvPollCreated (poll : Poll)                                  (* 'stream:poll_created' *)
  | EvPollEnded (pollId : string)                                (* 'stream:poll_ended' *)
  | EvPollVote (pollId optionId : JsVal) (userId uname : string)
      (timestamp : Z)                                            (* 'stream:poll_vote' *)
  | EvBroadcastStarted (streamId : string) (broadcasterId : Id)  (* 'webrtc:broadcast_started' *)
  | EvViewerJoined (streamId : string) (viewerId viewerSocketId : Id) (* 'webrtc:viewer_joined' *)
  | EvSignal (streamId signal : JsVal) (fromId fromUserId : Id)  (* 'webrtc:signal' *)
  | EvBroadcastEnded (streamId : string).                        (* 'webrtc:broadcast_ended' *)

(** Where an emission goes. *)
Inductive Target :=
  | ToSocket (sid : Id)                  (* socket.emit: the sender itself *)
  | ToRoom (room : string)               (* io.to(room).emit *)
  | ToRooms (rooms : list string)        (* io.to([r1, r2, ...]).emit *)
  | ToRoomExcept (room : string) (sid : Id) (* socket.to(room).emit *)
  | ToAll.                               (* io.to([]).emit: no room restricts it *)

(** The room table of the server. *)
Abbreviation Rooms := (gmap string (gset Id)).

Definition room_members (rs : Rooms) (room : string) : gset Id :=
  default ∅ (rs !! room).

(** The sockets an emission reaches, read from the rooms when it is sent. *)
Definition recipients (rs : Rooms) (t : Target) : gset Id :=
  match t with
  | ToSocket sid => {[sid]}
  | ToRoom room => room_members rs room
  | ToRooms rooms => ⋃ (room_members rs <$> rooms)
  | ToRoomExcept room sid => room_members rs room ∖ {[sid]}
  | ToAll => map_fold (λ _ ms acc, ms ∪ acc) ∅ rs
  end.

(** [socket.join(room)] and [socket.leave(room)]. *)
Definition join_room (sid : Id) (room : string) (rs : Rooms) : Rooms :=
  <[room := {[sid]} ∪ room_members rs room]> rs.

Definition leave_room (sid : Id) (room : string) (rs : Rooms) : Rooms :=
  <[room := room_members rs room ∖ {[sid]}]> rs.

(** On disconnect Socket.IO removes the socket from every room. *)
Definition leave_all (sid : Id) (rs : Rooms) : Rooms :=
  (λ ms, ms ∖ {[sid]}) <$> rs.

(** An emission as it went out: its target, the sockets it reached and the
    event. *)
Record Emission := mkEmission { em_target : Target; em_to : gset Id; em_event : OutEvent }.

Definition send (rs : Rooms) (t : Target) (e : OutEvent) : Emission :=
  mkEmission t (recipients rs t) e.

(** ** Lemmas on rooms *)

Lemma room_members_join sid sid' room room' rs :
  sid' ∈ room_members (join_room sid room rs) room' ↔
  (room' = room ∧ sid' = sid) ∨ sid' ∈ room_members rs room'.
Proof.
  unfold join_room, room_members at 1.
  destruct (decide (room' = room)) as [->|Hne].
  - rewrite lookup_insert_eq. simpl. set_solver.
  - rewrite lookup_insert_ne by congruence. naive_solver.
Qed.

Lemma room_members_leave sid sid' room room' rs :
  sid' ∈ room_members (leave_room sid room rs) room' ↔
  (sid' ∈ room_members rs room' ∧ (room' = room → sid' ≠ sid)).
Proof.
  unfold leave_room, room_members at 1.
  destruct (decide (room' = room)) as [->|Hne].
  - rewrite lookup_insert_eq. simpl. set_solver.
  - rewrite lookup_insert_ne by congruence. naive_solver.
Qed.

Lemma room_members_leave_all sid sid' room rs :
  sid' ∈ room_members (leave_all sid rs) room ↔ sid' ∈ room_members rs room ∧ sid' ≠ sid.
Proof.
  unfold leave_all, room_members. rewrite lookup_fmap.
  destruct (rs !! room); simpl; set_solver.
Qed.

Lemma room_members_join_ne sid room room' rs :
  room' ≠ room → room_members (join_room sid room rs) room' = room_members rs room'.
Proof. intros. unfold join_room, room_members at 1. by rewrite lookup_insert_ne by congruence. Qed.

Lemma room_members_leave_ne sid room room' rs :
  room' ≠ room → room_members (leave_room sid room rs) room' = room_members rs room'.
Proof. intros. unfold leave_room, room_members at 1. by rewrite lookup_insert_ne by congruence. Qed.

Lemma room_members_join_eq sid room rs :
  room_members (join_room sid room rs) room = {[sid]} ∪ room_members rs room.
Proof. unfold join_room, room_members at 1. by rewrite lookup_insert_eq. Qed.

Lemma room_members_leave_eq sid room rs :
  room_members (leave_room sid room rs) room = room_members rs room ∖ {[sid]}.
Proof. unfold leave_room, room_members at 1. by rewrite lookup_insert_eq. Qed.

Lemma recipients_except_sender rs room sid :
  sid ∉ recipients rs (ToRoomExcept room sid).
Proof. simpl. set_solver. Qed.

#[export] Hint Rewrite room_members_join room_members_leave room_members_leave_all : hyb_rw.
