(* ===== verification/StreamModel.v ===== *)
(** * The Stream document ([models/stream.model.js])

    The Mongoose schema as a record, its status enumeration as an inductive
    type, and its instance methods as functions from the document to the
    document that [save()] then writes back.  [new Date()] is the [now]
    argument (milliseconds).  The invariant kept by the methods is that the
    viewer list has no duplicates ([addViewer] tests [includes] before
    [push]). *)

From S2P Require Import Prelude JsValue.

(** [status: { enum: ['scheduled', 'live', 'ended'], default: 'scheduled' }] *)
Inductive StreamStatus := Scheduled | Live | Ended.

#[export] Instance StreamStatus_eq_dec : EqDecision StreamStatus.
Proof. solve_decision. Defined.

Definition status_to_string (s : StreamStatus) : string :=
  match s with Scheduled => "scheduled" | Live => "live" | Ended => "ended" end.

Record Stream := mkStream {
  s_user : Id;
  s_title : string;
  s_description : string;
  s_status : StreamStatus;
  s_startedAt : option Z;
  s_endedAt : option Z;
  s_recordingUrl : option string;
  s_viewers : list Id;
  s_comments : list Id;
  s_tags : list string;
  s_polls : list Id;
  s_codeSessions : list Id;
  s_createdAt : Z
}.

Section setters.
Variable s : Stream.
Definition set_status_dates (st : StreamStatus) (started ended : option Z) : Stream :=
  mkStream s.(s_user) s.(s_title) s.(s_description) st started ended
    s.(s_recordingUrl) s.(s_viewers) s.(s_comments) s.(s_tags) s.(s_polls) s.(s_codeSessions) s.(s_createdAt).
Definition set_viewers (vs : list Id) : Stream :=
  mkStream s.(s_user) s.(s_title) s.(s_description) s.(s_status) s.(s_startedAt)
    s.(s_endedAt) s.(s_recordingUrl) vs s.(s_comments) s.(s_tags) s.(s_polls) s.(s_codeSessions) s.(s_createdAt).
Definition set_comments (cs : list Id) : Stream :=
  mkStream s.(s_user) s.(s_title) s.(s_description) s.(s_status) s.(s_startedAt)
    s.(s_endedAt) s.(s_recordingUrl) s.(s_viewers) cs s.(s_tags) s.(s_polls) s.(s_codeSessions) s.(s_createdAt).
Definition set_tags (ts : list string) : Stream :=
  mkStream s.(s_user) s.(s_title) s.(s_description) s.(s_status) s.(s_startedAt)
    s.(s_endedAt) s.(s_recordingUrl) s.(s_viewers) s.(s_comments) ts s.(s_polls) s.(s_codeSessions) s.(s_createdAt).
Definition set_polls (ps : list Id) : Stream :=
  mkStream s.(s_user) s.(s_title) s.(s_description) s.(s_status) s.(s_startedAt)
    s.(s_endedAt) s.(s_recordingUrl) s.(s_viewers) s.(s_comments) s.(s_tags) ps s.(s_codeSessions) s.(s_createdAt).
Definition set_codeSessions (css : list Id) : Stream :=
  mkStream s.(s_user) s.(s_title) s.(s_description) s.(s_status) s.(s_startedAt)
    s.(s_endedAt) s.(s_recordingUrl) s.(s_viewers) s.(s_comments) s.(s_tags) s.(s_polls) css s.(s_createdAt).
Definition set_recordingUrl (u : option string) : Stream :=
  mkStream s.(s_user) s.(s_title) s.(s_description) s.(s_status) s.(s_startedAt)
    s.(s_endedAt) u s.(s_viewers) s.(s_comments) s.(s_tags) s.(s_polls) s.(s_codeSessions) s.(s_createdAt).
End setters.

(** [viewerCount] virtual: [this.viewers.length]. *)
Definition viewerCount (s : Stream) : nat := length s.(s_viewers).

(** [startStream]: [status = 'live'], [startedAt = new Date()]. *)
Definition startStream (now : Z) (s : Stream) : Stream :=
  set_status_dates s Live (Some now) s.(s_endedAt).

(** [endStream]: [status = 'ended'], [endedAt = new Date()]. *)
Definition endStream (now : Z) (s : Stream) : Stream :=
  set_status_dates s Ended s.(s_startedAt) (Some now).

(** [addViewer(userId)]: push when not already included. *)
Definition addViewer (u : Id) (s : Stream) : Stream :=
  set_viewers s (push_unique u s.(s_viewers)).

(** [removeViewer(userId)]: filter out every occurrence. *)
Definition removeViewer (u : Id) (s : Stream) : Stream :=
  set_viewers s (remove_all u s.(s_viewers)).

(** [addComment], [addPoll], [addCodeSession]: unconditional push. *)
Definition addComment (c : Id) (s : Stream) : Stream := set_comments s (s.(s_comments) ++ [c]).
Definition addPoll (p : Id) (s : Stream) : Stream := set_polls s (s.(s_polls) ++ [p]).
Definition addCodeSession (c : Id) (s : Stream) : Stream :=
  set_codeSessions s (s.(s_codeSessions) ++ [c]).

(** [addTag(tag)]: push when not already included. *)
Definition addTag (t : string) (s : Stream) : Stream := set_tags s (push_unique t s.(s_tags)).

(** The schema-level invariant the methods keep. *)
Definition stream_wf (s : Stream) : Prop := NoDup s.(s_viewers) ∧ NoDup s.(s_tags).

(** [findActive()] and the other queries filter on [status]. *)
Definition is_live (s : Stream) : bool := bool_decide (s.(s_status) = Live).

Definition opt_num (o : option Z) : JsVal := match o with Some n => JNum n | None => JNull end.

(** [res.json(stream)]: the document's fields. *)
Definition stream_json (id : Id) (s : Stream) : JsVal :=
  JObj [("_id", JStr id); ("user", JStr s.(s_user)); ("title", JStr s.(s_title));
        ("description", JStr s.(s_description)); ("status", JStr (status_to_string s.(s_status)));
        ("startedAt", opt_num s.(s_startedAt)); ("endedAt", opt_num s.(s_endedAt));
        ("recordingUrl", match s.(s_recordingUrl) with Some u => JStr u | None => JNull end);
        ("viewers", JArr (JStr <$> s.(s_viewers))); ("comments", JArr (JStr <$> s.(s_comments)));
        ("tags", JArr (JStr <$> s.(s_tags))); ("polls", JArr (JStr <$> s.(s_polls)));
        ("codeSessions", JArr (JStr <$> s.(s_codeSessions)));
        ("createdAt", JNum s.(s_createdAt))].

(** [title: { required, trim, maxlength: 100 }], [description: { maxlength: 2000 }]. *)
Definition stream_valid (s : Stream) : bool :=
  bool_decide (s.(s_title) ≠ EmptyString) && bool_decide (String.length s.(s_title) ≤ 100)%nat &&
  bool_decide (String.length s.(s_description) ≤ 2000)%nat.
