(* ===== verification/CodeSessionModel.v ===== *)
(** * The CodeSession document ([models/codeSession.model.js])

    The schema as a record and its methods.  [updateCode] pushes the current
    version to [versionHistory] and bumps the minor version with
    [split('.')], [parseInt] and a template string, which the functions of
    [JsValue] model; the theorems about the bump are in this file.

    What is assigned to a [String] path is cast by [mongoose_cast_string]
    of [Mongoose]. *)

From S2P Require Import Prelude JsValue Mongoose.
From Stdlib Require Import Ascii.

Record VersionEntry := mkVersionEntry {
  ve_version : string;
  ve_codeContent : option string;
  ve_timestamp : Z;
  ve_user : Id
}.

Record CodeSession := mkCodeSession {
  cs_stream : option Id;
  cs_title : string;
  cs_language : string;
  cs_codeContent : option string;
  cs_owner : Id;
  cs_collaborators : list Id;
  cs_suggestions : list Id;
  cs_isPublic : bool;
  cs_version : string;
  cs_versionHistory : list VersionEntry;
  cs_createdAt : Z
}.

(** [addCollaborator] / [removeCollaborator] / [addSuggestion]. *)
Definition set_collaborators (c : CodeSession) (xs : list Id) : CodeSession :=
  mkCodeSession c.(cs_stream) c.(cs_title) c.(cs_language) c.(cs_codeContent) c.(cs_owner)
    xs c.(cs_suggestions) c.(cs_isPublic) c.(cs_version) c.(cs_versionHistory) c.(cs_createdAt).

Definition addCollaborator (u : Id) (c : CodeSession) : CodeSession :=
  set_collaborators c (push_unique u c.(cs_collaborators)).

Definition removeCollaborator (u : Id) (c : CodeSession) : CodeSession :=
  set_collaborators c (remove_all u c.(cs_collaborators)).

Definition addSuggestion (sid : Id) (c : CodeSession) : CodeSession :=
  mkCodeSession c.(cs_stream) c.(cs_title) c.(cs_language) c.(cs_codeContent) c.(cs_owner)
    c.(cs_collaborators) (c.(cs_suggestions) ++ [sid]) c.(cs_isPublic) c.(cs_version)
    c.(cs_versionHistory) c.(cs_createdAt).

(** The version bump of [updateCode]:
    [const versionParts = this.version.split('.');
     const minorVersion = parseInt(versionParts[1]) + 1;
     this.version = `${versionParts[0]}.${minorVersion}`;]
    A missing [versionParts[1]] is [undefined], which [parseInt] reads as the
    string "undefined"; [NaN + 1] prints as "NaN". *)
Definition bump_version (v : string) : string :=
  let parts := split_on "."%char v in
  let major := default "" (head parts) in
  let minor_src := match parts with _ :: p1 :: _ => p1 | _ => "undefined" end in
  let minor := match parseInt minor_src with
               | Some m => number_to_string (m + 1)
               | None => "NaN"
               end in
  major +:+ "." +:+ minor.

(** [updateCode(newCode, userId)]: [newCode] is already cast. *)
Definition updateCode (now : Z) (newCode : option string) (u : Id) (c : CodeSession)
    : CodeSession :=
  mkCodeSession c.(cs_stream) c.(cs_title) c.(cs_language) newCode c.(cs_owner)
    c.(cs_collaborators) c.(cs_suggestions) c.(cs_isPublic) (bump_version c.(cs_version))
    (c.(cs_versionHistory) ++ [mkVersionEntry c.(cs_version) c.(cs_codeContent) now u]) c.(cs_createdAt).

(** The authorization test of the [code:change] handler:
    [owner.toString() === socket.user.id || collaborators.some(id => id.toString() === socket.user.id)]. *)
Definition can_edit (c : CodeSession) (u : Id) : bool :=
  bool_decide (c.(cs_owner) = u ∨ u ∈ c.(cs_collaborators)).

Definition version_json (v : VersionEntry) : JsVal :=
  JObj [("version", JStr v.(ve_version));
        ("codeContent", match v.(ve_codeContent) with Some s => JStr s | None => JNull end);
        ("timestamp", JNum v.(ve_timestamp)); ("user", JStr v.(ve_user))].

(** [res.json(codeSession)]: the document's fields. *)
Definition session_json (id : Id) (c : CodeSession) : JsVal :=
  JObj [("_id", JStr id); ("stream", match c.(cs_stream) with Some s => JStr s | None => JNull end);
        ("title", JStr c.(cs_title)); ("language", JStr c.(cs_language));
        ("codeContent", match c.(cs_codeContent) with Some s => JStr s | None => JNull end);
        ("owner", JStr c.(cs_owner)); ("collaborators", JArr (JStr <$> c.(cs_collaborators)));
        ("suggestions", JArr (JStr <$> c.(cs_suggestions))); ("isPublic", JBool c.(cs_isPublic));
        ("version", JStr c.(cs_version)); ("versionHistory", JArr (version_json <$> c.(cs_versionHistory)));
        ("createdAt", JNum c.(cs_createdAt))].

(** [title: { required, trim, maxlength: 100 }], [language: { required, trim }]. *)
Definition session_valid (c : CodeSession) : bool :=
  bool_decide (c.(cs_title) ≠ EmptyString) && bool_decide (String.length c.(cs_title) ≤ 100)%nat &&
  bool_decide (c.(cs_language) ≠ EmptyString).

(** A new session saved at [t] with the schema's defaults: no
    collaborators or suggestions, public, version ['1.0'], empty history. *)
Definition new_session (stream : option Id) (title language : string) (code : option string) (owner : Id)
    (t : Z) : CodeSession :=
  mkCodeSession stream title language code owner [] [] true "1.0" [] t.
