(* ===== verification/UserModel.v ===== *)
(** * The User document ([models/user.model.js])

    The schema as a record (with the [createdAt] of [timestamps: true]), its
    instance methods as functions on the record, and its JSON form.  The
    follow graph is kept twice, as [following] on the follower and
    [followers] on the followee; [follow]/[addFollower] push only absent
    ids and [unfollow]/[removeFollower] filter every occurrence out. *)

From S2P Require Import Prelude JsValue Mongoose.

Record UserDoc := mkUserDoc {
  u_username : string;
  u_email : string;
  u_password : string;
  u_fullName : string;
  u_bio : option string;            (* None: null *)
  u_avatar : option string;
  u_skills : list string;
  u_points : Z;
  u_followers : list Id;
  u_following : list Id;
  u_badges : list Id;
  u_isActive : bool;
  u_createdAt : Z
}.

Section setters.
Variable u : UserDoc.
Definition set_followers (xs : list Id) : UserDoc :=
  mkUserDoc u.(u_username) u.(u_email) u.(u_password) u.(u_fullName) u.(u_bio) u.(u_avatar)
    u.(u_skills) u.(u_points) xs u.(u_following) u.(u_badges) u.(u_isActive) u.(u_createdAt).
Definition set_following (xs : list Id) : UserDoc :=
  mkUserDoc u.(u_username) u.(u_email) u.(u_password) u.(u_fullName) u.(u_bio) u.(u_avatar)
    u.(u_skills) u.(u_points) u.(u_followers) xs u.(u_badges) u.(u_isActive) u.(u_createdAt).
Definition set_profile (fullName : string) (bio : option string) (skills : list string) (avatar : option string) : UserDoc :=
  mkUserDoc u.(u_username) u.(u_email) u.(u_password) fullName bio avatar
    skills u.(u_points) u.(u_followers) u.(u_following) u.(u_badges) u.(u_isActive) u.(u_createdAt).
Definition set_points (p : Z) : UserDoc :=
  mkUserDoc u.(u_username) u.(u_email) u.(u_password) u.(u_fullName) u.(u_bio) u.(u_avatar)
    u.(u_skills) p u.(u_followers) u.(u_following) u.(u_badges) u.(u_isActive) u.(u_createdAt).
Definition set_badges (xs : list Id) : UserDoc :=
  mkUserDoc u.(u_username) u.(u_email) u.(u_password) u.(u_fullName) u.(u_bio) u.(u_avatar)
    u.(u_skills) u.(u_points) u.(u_followers) u.(u_following) xs u.(u_isActive) u.(u_createdAt).
End setters.

(** Virtuals [followerCount] and [followingCount]. *)
Definition followerCount (u : UserDoc) : nat := length u.(u_followers).
Definition followingCount (u : UserDoc) : nat := length u.(u_following).

(** [isFollowing(userId)]: [following.some(id => id.toString() === userId.toString())]. *)
Definition isFollowing (u : UserDoc) (x : Id) : bool := bool_decide (x ∈ u.(u_following)).

(** [addFollower], [removeFollower], [follow], [unfollow]. *)
Definition addFollower (x : Id) (u : UserDoc) : UserDoc := set_followers u (push_unique x u.(u_followers)).
Definition removeFollower (x : Id) (u : UserDoc) : UserDoc := set_followers u (remove_all x u.(u_followers)).
Definition follow (x : Id) (u : UserDoc) : UserDoc := set_following u (push_unique x u.(u_following)).
Definition unfollow (x : Id) (u : UserDoc) : UserDoc := set_following u (remove_all x u.(u_following)).

(** [addPoints(points)]: [this.points += points]. *)
Definition addPoints (p : Z) (u : UserDoc) : UserDoc := set_points u (u.(u_points) + p).

(** [addBadge(badgeId)]: push when absent. *)
Definition addBadge (b : Id) (u : UserDoc) : UserDoc := set_badges u (push_unique b u.(u_badges)).

Definition ids_json (xs : list Id) : JsVal := JArr (JStr <$> xs).
Definition opt_json (o : option string) : JsVal := match o with Some s => JStr s | None => JNull end.

(** [res.json(user)]: the document's fields, the password hash among them
    unless the query had [.select('-password')]. *)
Definition user_json (with_password : bool) (id : Id) (u : UserDoc) : JsVal :=
  JObj ([("_id", JStr id); ("username", JStr u.(u_username)); ("email", JStr u.(u_email))] ++
        (if with_password then [("password", JStr u.(u_password))] else []) ++
        [("fullName", JStr u.(u_fullName)); ("bio", opt_json u.(u_bio)); ("avatar", opt_json u.(u_avatar));
         ("skills", JArr (JStr <$> u.(u_skills))); ("points", JNum u.(u_points));
         ("followers", ids_json u.(u_followers)); ("following", ids_json u.(u_following));
         ("badges", ids_json u.(u_badges)); ("isActive", JBool u.(u_isActive));
         ("createdAt", JNum u.(u_createdAt))]).

(** The schema's constraints on the fields a controller sets:
    [fullName] is required and at most 100 characters, [bio] at most 500
    (a [null] bio passes: Mongoose runs no validator but [required] on
    [null]). *)
Definition user_valid (u : UserDoc) : bool :=
  bool_decide (u.(u_fullName) ≠ EmptyString) &&
  bool_decide (String.length u.(u_fullName) ≤ 100)%nat &&
  match u.(u_bio) with Some b => bool_decide (String.length b ≤ 500)%nat | None => true end.

(** [username: { unique: true }], [email: { unique: true }]: no two users
    share an e-mail address or a username. *)
Definition unique_accounts (users : gmap Id UserDoc) : Prop :=
  ∀ i j ui uj, users !! i = Some ui → users !! j = Some uj →
    ui.(u_email) = uj.(u_email) ∨ ui.(u_username) = uj.(u_username) → i = j.

(** Rewriting a stored user without touching its address and username
    keeps the accounts unique. *)
Lemma unique_accounts_update users i u u' :
  users !! i = Some u → u'.(u_email) = u.(u_email) → u'.(u_username) = u.(u_username) →
  unique_accounts users → unique_accounts (<[i := u']> users).
Proof.
  intros Hi He Hn Hu j k uj uk Hj Hk Heq. apply lookup_insert_Some in Hj, Hk.
  destruct Hj as [[<- <-]|[? Hj]], Hk as [[<- <-]|[? Hk]]; [done| | |by eapply Hu].
  - eapply Hu; [exact Hi|exact Hk|]. by rewrite <- He, <- Hn.
  - eapply Hu; [exact Hj|exact Hi|]. by rewrite <- He, <- Hn.
Qed.
