(* ===== verification/PostModel.v ===== *)
(** * The Post document ([models/post.model.js])

    The schema as a record, its methods, its JSON form, the constraints
    [save()] checks, and the aggregation of [findTrending]: the score of a
    post is its number of likes plus twice its number of comments, and the
    posts are sorted by score, then by creation date, both descending. *)

From S2P Require Import Prelude JsValue Mongoose UserModel.
From stdpp Require Import sorting.

Record Post := mkPost {
  p_user : Id;
  p_content : string;
  p_mediaUrls : list string;
  p_likes : list Id;
  p_comments : list Id;
  p_tags : list string;
  p_isPinned : bool;
  p_createdAt : Z
}.

Section setters.
Variable p : Post.
Definition set_likes (xs : list Id) : Post :=
  mkPost p.(p_user) p.(p_content) p.(p_mediaUrls) xs p.(p_comments) p.(p_tags) p.(p_isPinned) p.(p_createdAt).
Definition set_post_comments (xs : list Id) : Post :=
  mkPost p.(p_user) p.(p_content) p.(p_mediaUrls) p.(p_likes) xs p.(p_tags) p.(p_isPinned) p.(p_createdAt).
Definition set_post_fields (content : string) (media tags : list string) : Post :=
  mkPost p.(p_user) content media p.(p_likes) p.(p_comments) tags p.(p_isPinned) p.(p_createdAt).
End setters.

(** Virtuals [likeCount] and [commentCount]. *)
Definition likeCount (p : Post) : nat := length p.(p_likes).
Definition postCommentCount (p : Post) : nat := length p.(p_comments).

(** [addLike] / [removeLike] / [addComment] / [removeComment] / [addTag]. *)
Definition addLike (u : Id) (p : Post) : Post := set_likes p (push_unique u p.(p_likes)).
Definition removeLike (u : Id) (p : Post) : Post := set_likes p (remove_all u p.(p_likes)).
Definition post_addComment (c : Id) (p : Post) : Post := set_post_comments p (p.(p_comments) ++ [c]).
Definition post_removeComment (c : Id) (p : Post) : Post := set_post_comments p (remove_all c p.(p_comments)).
Definition post_addTag (t : string) (p : Post) : Post :=
  set_post_fields p p.(p_content) p.(p_mediaUrls) (push_unique t p.(p_tags)).

Definition post_json (id : Id) (p : Post) : JsVal :=
  JObj [("_id", JStr id); ("user", JStr p.(p_user)); ("content", JStr p.(p_content));
        ("mediaUrls", JArr (JStr <$> p.(p_mediaUrls))); ("likes", ids_json p.(p_likes));
        ("comments", ids_json p.(p_comments)); ("tags", JArr (JStr <$> p.(p_tags)));
        ("isPinned", JBool p.(p_isPinned)); ("createdAt", JNum p.(p_createdAt))].

(** [content: { required: true, maxlength: 1000 }]. *)
Definition post_valid (p : Post) : bool :=
  bool_decide (p.(p_content) ≠ EmptyString) && bool_decide (String.length p.(p_content) ≤ 1000)%nat.

(** [score = likeCount + commentCount * 2]. *)
Definition trending_score (p : Post) : Z := (Z.of_nat (likeCount p) + Z.of_nat (postCommentCount p) * 2)%Z.

(** [$sort: { score: -1, createdAt: -1 }]: [a] may come before [b]. *)
Definition trending_before (a b : Id * Post) : Prop :=
  (trending_score b.2 < trending_score a.2)%Z ∨
  (trending_score b.2 = trending_score a.2 ∧ b.2.(p_createdAt) ≤ a.2.(p_createdAt))%Z.

#[export] Instance trending_before_dec : RelDecision trending_before.
Proof. intros a b. unfold trending_before. apply _. Defined.

(** [findTrending(limit)] over the posts in collection order. *)
Definition findTrending (limit : Z) (posts : list (Id * Post)) : option (list (Id * Post)) :=
  if bool_decide (limit ≤ 0)%Z then None
  else Some (take (Z.to_nat limit) (merge_sort trending_before posts)).

(** ** Lemmas *)

Lemma removeLike_addLike u p : u ∉ p.(p_likes) → removeLike u (addLike u p) = p.
Proof. intros Hu. unfold removeLike, addLike. simpl. rewrite remove_all_push_unique by done. by destruct p. Qed.
