(* ===== verification/CommentModel.v ===== *)
(** * The Comment document ([models/comment.model.js])

    A comment belongs to one piece of content ([contentType], [contentId],
    [contentModel]) and may be a reply ([parentId]); a parent keeps the ids
    of its replies.  The record, its methods, its JSON form and the
    constraints [save()] checks. *)

From S2P Require Import Prelude JsValue Mongoose UserModel.

Record Comment := mkComment {
  c_user : Id;
  c_content : string;
  c_parentId : option Id;
  c_contentType : string;
  c_contentId : Id;
  c_contentModel : string;
  c_likes : list Id;
  c_replies : list Id;
  c_isEdited : bool;
  c_createdAt : Z
}.

Section setters.
Variable c : Comment.
Definition set_comment_likes (xs : list Id) : Comment :=
  mkComment c.(c_user) c.(c_content) c.(c_parentId) c.(c_contentType) c.(c_contentId)
    c.(c_contentModel) xs c.(c_replies) c.(c_isEdited) c.(c_createdAt).
Definition set_replies (xs : list Id) : Comment :=
  mkComment c.(c_user) c.(c_content) c.(c_parentId) c.(c_contentType) c.(c_contentId)
    c.(c_contentModel) c.(c_likes) xs c.(c_isEdited) c.(c_createdAt).
Definition set_edited (content : string) : Comment :=
  mkComment c.(c_user) content c.(c_parentId) c.(c_contentType) c.(c_contentId)
    c.(c_contentModel) c.(c_likes) c.(c_replies) true c.(c_createdAt).
End setters.

(** [addLike] / [removeLike] / [addReply] / [removeReply]. *)
Definition comment_addLike (u : Id) (c : Comment) : Comment := set_comment_likes c (push_unique u c.(c_likes)).
Definition comment_removeLike (u : Id) (c : Comment) : Comment := set_comment_likes c (remove_all u c.(c_likes)).
Definition addReply (r : Id) (c : Comment) : Comment := set_replies c (c.(c_replies) ++ [r]).
Definition removeReply (r : Id) (c : Comment) : Comment := set_replies c (remove_all r c.(c_replies)).

Definition comment_json (id : Id) (c : Comment) : JsVal :=
  JObj [("_id", JStr id); ("user", JStr c.(c_user)); ("content", JStr c.(c_content));
        ("parentId", opt_json c.(c_parentId)); ("contentType", JStr c.(c_contentType));
        ("contentId", JStr c.(c_contentId)); ("contentModel", JStr c.(c_contentModel));
        ("likes", ids_json c.(c_likes)); ("replies", ids_json c.(c_replies));
        ("isEdited", JBool c.(c_isEdited)); ("createdAt", JNum c.(c_createdAt))].

(** [.sort({ createdAt: -1 })] on comments: [a] may come before [b]. *)
Definition comment_newer_first (a b : Id * Comment) : Prop := (b.2.(c_createdAt) ≤ a.2.(c_createdAt))%Z.

#[export] Instance comment_newer_first_dec : RelDecision comment_newer_first.
Proof. intros a b. unfold comment_newer_first. apply _. Defined.

Definition comments_json (cs : list (Id * Comment)) : JsVal := JArr ((λ '(id, c), comment_json id c) <$> cs).

Definition content_types : list string := ["post"; "video"; "stream"; "code"].
Definition content_models : list string := ["Post"; "Video"; "Stream"; "CodeSession"].

(** [content: { required, maxlength: 500 }], the two enums. *)
Definition comment_valid (c : Comment) : bool :=
  bool_decide (c.(c_content) ≠ EmptyString) && bool_decide (String.length c.(c_content) ≤ 500)%nat &&
  bool_decide (c.(c_contentType) ∈ content_types) && bool_decide (c.(c_contentModel) ∈ content_models).
