(* ===== verification/VideoModel.v ===== *)
(** * The Video document ([models/video.model.js])

    The schema as a record, its methods and its JSON form.  [views],
    [likes] and [comments] are arrays of ObjectIds; the video controller
    reads paths the schema does not have ([unlikes], [like.user]) and adds
    a number to [views], which the theorems of [VideoController] follow
    through JavaScript's semantics. *)

From S2P Require Import Prelude JsValue Mongoose UserModel.

Record Video := mkVideo {
  v_user : Id;
  v_title : string;
  v_description : string;
  v_videoUrl : string;
  v_thumbnailUrl : option string;
  v_duration : Z;
  v_views : list Id;
  v_likes : list Id;
  v_comments : list Id;
  v_tags : list string;
  v_isPublished : bool;
  v_createdAt : Z
}.

Section setters.
Variable v : Video.
Definition set_video_comments (xs : list Id) : Video :=
  mkVideo v.(v_user) v.(v_title) v.(v_description) v.(v_videoUrl) v.(v_thumbnailUrl) v.(v_duration)
    v.(v_views) v.(v_likes) xs v.(v_tags) v.(v_isPublished) v.(v_createdAt).
Definition set_video_likes (xs : list Id) : Video :=
  mkVideo v.(v_user) v.(v_title) v.(v_description) v.(v_videoUrl) v.(v_thumbnailUrl) v.(v_duration)
    v.(v_views) xs v.(v_comments) v.(v_tags) v.(v_isPublished) v.(v_createdAt).
Definition set_video_views (xs : list Id) : Video :=
  mkVideo v.(v_user) v.(v_title) v.(v_description) v.(v_videoUrl) v.(v_thumbnailUrl) v.(v_duration)
    xs v.(v_likes) v.(v_comments) v.(v_tags) v.(v_isPublished) v.(v_createdAt).
End setters.

(** Virtuals [viewCount], [likeCount], [commentCount]. *)
Definition viewCount (v : Video) : nat := length v.(v_views).
Definition videoLikeCount (v : Video) : nat := length v.(v_likes).
Definition videoCommentCount (v : Video) : nat := length v.(v_comments).

(** [addView], [addLike], [removeLike], [addComment], [removeComment], [addTag]. *)
Definition addView (u : Id) (v : Video) : Video := set_video_views v (push_unique u v.(v_views)).
Definition video_addLike (u : Id) (v : Video) : Video := set_video_likes v (push_unique u v.(v_likes)).
Definition video_removeLike (u : Id) (v : Video) : Video := set_video_likes v (remove_all u v.(v_likes)).
Definition video_addComment (c : Id) (v : Video) : Video := set_video_comments v (v.(v_comments) ++ [c]).
Definition video_removeComment (c : Id) (v : Video) : Video :=
  set_video_comments v (remove_all c v.(v_comments)).

Definition video_addTag (t : string) (v : Video) : Video :=
  mkVideo v.(v_user) v.(v_title) v.(v_description) v.(v_videoUrl) v.(v_thumbnailUrl) v.(v_duration)
    v.(v_views) v.(v_likes) v.(v_comments) (push_unique t v.(v_tags)) v.(v_isPublished) v.(v_createdAt).

(** [title: { required, maxlength: 100 }], [description: { maxlength: 2000 }]
    ([videoUrl] is required too; a video without one is never built). *)
Definition video_valid (v : Video) : bool :=
  bool_decide (v.(v_title) ≠ EmptyString) && bool_decide (String.length v.(v_title) ≤ 100)%nat &&
  bool_decide (String.length v.(v_description) ≤ 2000)%nat.

Definition video_json (id : Id) (v : Video) : JsVal :=
  JObj [("_id", JStr id); ("user", JStr v.(v_user)); ("title", JStr v.(v_title));
        ("description", JStr v.(v_description)); ("videoUrl", JStr v.(v_videoUrl));
        ("thumbnailUrl", opt_json v.(v_thumbnailUrl)); ("duration", JNum v.(v_duration));
        ("views", ids_json v.(v_views)); ("likes", ids_json v.(v_likes));
        ("comments", ids_json v.(v_comments)); ("tags", JArr (JStr <$> v.(v_tags)));
        ("isPublished", JBool v.(v_isPublished)); ("createdAt", JNum v.(v_createdAt))].
