(* ===== verification/LeaderboardModel.v ===== *)
(** * The Leaderboard document and its ranking ([models/leaderboard.model.js])

    The schema as a record, and the pure parts of the static
    [updateLeaderboard]: the [$group] stage that counts the documents of each
    user, the JavaScript [Map] that adds up the post and video counts of a
    user, the [.sort((a, b) => b.score - a.score)] of the rows and the
    ranking [.map((entry, index) => ({ ...entry, rank: index + 1 }))
    .slice(0, 100)].  The part of [updateLeaderboard] that reads and writes
    the database is in [LeaderboardController].

    [Array.prototype.sort] is stable (ECMAScript 2019), so for a comparator
    that is a total preorder its result is determined: it is the unique list
    that is sorted and keeps the rows of equal score in their order.
    [sort_by_score] computes it by insertion, and [sort_by_score_unique]
    shows that any sorted and stable reordering is this one. *)

From S2P Require Import Prelude JsValue Mongoose.
From stdpp Require Import sorting.

(** An element of [entries: [{ user, score, rank }]].  (Mongoose gives each
    subdocument an [_id] of its own, which no code reads.) *)
Record LbEntry := mkLbEntry { le_user : Id; le_score : Z; le_rank : Z }.

Record Leaderboard := mkLeaderboard {
  lb_type : string;
  lb_timeframe : string;
  lb_entries : list LbEntry;
  lb_lastUpdated : Z;
  lb_createdAt : Z
}.

(** [leaderboard.entries = userScores; leaderboard.lastUpdated = new Date()]. *)
Definition set_entries (lb : Leaderboard) (es : list LbEntry) (t : Z) : Leaderboard :=
  mkLeaderboard lb.(lb_type) lb.(lb_timeframe) es t lb.(lb_createdAt).

(** The [enum]s of [type] and [timeframe]. *)
Definition lb_types : list string := ["points"; "content"; "streams"; "coding"].
Definition lb_timeframes : list string := ["daily"; "weekly"; "monthly"; "alltime"].

(** [save()] checks the enums; the [required] user, score and rank of an
    entry are always present in the entries the code builds. *)
Definition leaderboard_valid (lb : Leaderboard) : bool :=
  bool_decide (lb.(lb_type) ∈ lb_types) && bool_decide (lb.(lb_timeframe) ∈ lb_timeframes).

Definition entry_json (e : LbEntry) : JsVal :=
  JObj [("user", JStr e.(le_user)); ("score", JNum e.(le_score)); ("rank", JNum e.(le_rank))].

(** [res.json(leaderboard)]. *)
Definition leaderboard_json (id : Id) (lb : Leaderboard) : JsVal :=
  JObj [("_id", JStr id); ("type", JStr lb.(lb_type)); ("timeframe", JStr lb.(lb_timeframe));
        ("entries", JArr (entry_json <$> lb.(lb_entries)));
        ("lastUpdated", JNum lb.(lb_lastUpdated)); ("createdAt", JNum lb.(lb_createdAt))].

(** ** Sorting and ranking *)

(** A row [{ user, score }] before it is ranked. *)
Definition score_ge (a b : Id * Z) : Prop := (b.2 ≤ a.2)%Z.

(** [.sort((a, b) => b.score - a.score)]: a row goes before the first row
    whose score is not greater than its own, so that rows of equal score
    keep their order. *)
Fixpoint insert_by_score (x : Id * Z) (l : list (Id * Z)) : list (Id * Z) :=
  match l with
  | [] => [x]
  | y :: l' => if bool_decide (y.2 ≤ x.2)%Z then x :: y :: l' else y :: insert_by_score x l'
  end.

Fixpoint sort_by_score (l : list (Id * Z)) : list (Id * Z) :=
  match l with
  | [] => []
  | x :: l' => insert_by_score x (sort_by_score l')
  end.

(** [.map((entry, index) => ({ ...entry, rank: index + 1 }))], from rank [k]. *)
Fixpoint rank_from (k : Z) (l : list (Id * Z)) : list LbEntry :=
  match l with
  | [] => []
  | (u, s) :: l' => mkLbEntry u s k :: rank_from (k + 1)%Z l'
  end.

(** The [streams], [coding] and [content] rankings:
    [.sort(...).map((entry, index) => ...).slice(0, 100)]. *)
Definition rank_scores (l : list (Id * Z)) : list LbEntry := take 100 (rank_from 1 (sort_by_score l)).

(** ** Counting *)

(** [{ $group: { _id: '$user', count: { $sum: 1 } } }]: the number of
    documents of each user, as a map; the stage outputs its entries in an
    order MongoDB does not specify, here the map's. *)
Definition group_count (ks : list Id) : gmap Id Z :=
  foldr (λ k m, <[k := (default 0 (m !! k) + 1)%Z]> m) ∅ ks.

Definition group_rows (ks : list Id) : list (Id * Z) := map_to_list (group_count ks).

(** The reference count: how many times [k] occurs. *)
Definition count_of (k : Id) (ks : list Id) : Z := Z.of_nat (length (filter (λ x, x = k) ks)).

(** A JavaScript [Map] from strings to numbers, in insertion order. *)
Fixpoint jsmap_get (m : list (string * Z)) (k : string) : option Z :=
  match m with
  | [] => None
  | (k', v) :: m' => if String.eqb k' k then Some v else jsmap_get m' k
  end.

(** [map.set(k, v)]: replaces the value in place, or appends a new key. *)
Fixpoint jsmap_set (m : list (string * Z)) (k : string) (v : Z) : list (string * Z) :=
  match m with
  | [] => [(k, v)]
  | (k', v') :: m' => if String.eqb k' k then (k', v) :: m' else (k', v') :: jsmap_set m' k v
  end.

(** [contentMap.set(item._id.toString(), (contentMap.get(item._id.toString()) || 0) + item.count)]
    (a stored count is a positive number, so [|| 0] only replaces [undefined]). *)
Definition add_count (m : list (string * Z)) (item : Id * Z) : list (string * Z) :=
  jsmap_set m item.1 (default 0 (jsmap_get m item.1) + item.2)%Z.

(** [postCounts.forEach(...); videoCounts.forEach(...)]. *)
Definition combine_counts (postCounts videoCounts : list (Id * Z)) : list (string * Z) :=
  foldl add_count (foldl add_count [] postCounts) videoCounts.

(** What the ranking promises of the entries of a leaderboard: the ranks
    are [1 .. n] in order, there are at most 100 entries, and the scores do
    not increase. *)
Definition well_ranked (es : list LbEntry) : Prop :=
  le_rank <$> es = seqZ 1 (Z.of_nat (length es)) ∧ (length es ≤ 100)%nat ∧
  Sorted (λ a b, b.(le_score) ≤ a.(le_score))%Z es.

(** ** Sorting *)

Section sorting.
Implicit Types (x y : Id * Z) (l : list (Id * Z)).

Lemma insert_by_score_perm x l : insert_by_score x l ≡ₚ x :: l.
Proof.
  induction l as [|y l IH]; simpl; [done|]. case_bool_decide; [done|].
  rewrite IH. constructor.
Qed.

Lemma sort_by_score_perm l : sort_by_score l ≡ₚ l.
Proof. induction l as [|x l IH]; simpl; [done|]. by rewrite insert_by_score_perm, IH. Qed.

Lemma insert_by_score_sorted x l : Sorted score_ge l → Sorted score_ge (insert_by_score x l).
Proof.
  induction 1 as [|y l Hl IH Hhd]; simpl; [by repeat constructor|].
  case_bool_decide as Hxy.
  - constructor; [by constructor|]. by constructor.
  - constructor; [done|]. destruct Hhd as [|z l' Hyz]; simpl.
    + constructor. unfold score_ge. lia.
    + case_bool_decide; constructor; unfold score_ge in *; lia.
Qed.

Lemma sort_by_score_sorted l : Sorted score_ge (sort_by_score l).
Proof. induction l; simpl; [constructor|]. by apply insert_by_score_sorted. Qed.

(** Inserting keeps the rows of each score in their order. *)
Lemma filter_insert_by_score z x l :
  filter (λ r, r.2 = z) (insert_by_score x l) = filter (λ r, r.2 = z) (x :: l).
Proof.
  induction l as [|y l IH]; cbn [insert_by_score]; [done|]. case_bool_decide as Hxy; [done|].
  rewrite !filter_cons, IH, filter_cons. repeat case_decide; simplify_eq/=; try done; lia.
Qed.

Lemma sort_by_score_stable z l :
  filter (λ r, r.2 = z) (sort_by_score l) = filter (λ r, r.2 = z) l.
Proof.
  induction l as [|x l IH]; [done|]. cbn [sort_by_score].
  by rewrite filter_insert_by_score, !filter_cons, IH.
Qed.

Lemma Sorted_score_head x l r : Sorted score_ge (x :: l) → r ∈ l → (r.2 ≤ x.2)%Z.
Proof.
  intros Hs Hr. apply Sorted_StronglySorted in Hs; [|intros a b c; unfold score_ge; lia].
  apply StronglySorted_inv in Hs as [_ Hall]. rewrite Forall_forall in Hall. exact (Hall r Hr).
Qed.

(** In two sorted lists with the same rows of each score, the head of one
    scores at least as high as the head of the other. *)
Lemma stable_head_le x l1 y l2 :
  Sorted score_ge (x :: l1) →
  filter (λ r, r.2 = y.2) (x :: l1) = filter (λ r, r.2 = y.2) (y :: l2) → (y.2 ≤ x.2)%Z.
Proof.
  intros Hs Hf.
  assert (y ∈ filter (λ r, r.2 = y.2) (x :: l1)) as Hy.
  { rewrite Hf, list_elem_of_filter. set_solver. }
  apply list_elem_of_filter in Hy as [_ Hy]. apply elem_of_cons in Hy as [->|Hy]; [lia|].
  by eapply Sorted_score_head.
Qed.

(** A sorted list is determined by its rows of each score. *)
Lemma sorted_stable_unique l1 l2 :
  Sorted score_ge l1 → Sorted score_ge l2 →
  (∀ z, filter (λ r, r.2 = z) l1 = filter (λ r, r.2 = z) l2) → l1 = l2.
Proof.
  revert l2. induction l1 as [|x l1 IH]; intros [|y l2] H1 H2 Hf; [done| | |].
  - specialize (Hf y.2). rewrite filter_nil, filter_cons_True in Hf by done. discriminate.
  - specialize (Hf x.2). rewrite filter_nil, filter_cons_True in Hf by done. discriminate.
  - pose proof (stable_head_le x l1 y l2 H1 (Hf y.2)).
    pose proof (stable_head_le y l2 x l1 H2 (eq_sym (Hf x.2))).
    assert (x = y) as <-.
    { specialize (Hf x.2). rewrite !filter_cons_True in Hf by lia. congruence. }
    apply Sorted_inv in H1 as [H1 _], H2 as [H2 _]. f_equal. apply IH; [done..|].
    intros z. specialize (Hf z). rewrite !filter_cons in Hf. case_decide; congruence.
Qed.
End sorting.

(** ** Ranking *)

Lemma rank_from_ranks k l : le_rank <$> rank_from k l = seqZ k (Z.of_nat (length l)).
Proof.
  revert k. induction l as [|[u s] l IH]; intros k; [done|]. cbn [rank_from fmap list_fmap].
  rewrite IH, (seqZ_cons k) by (simpl; lia). simpl. f_equal. f_equal; lia.
Qed.

Lemma rank_from_users k l : le_user <$> rank_from k l = l.*1.
Proof. revert k. induction l as [|[u s] l IH]; intros k; [done|]. simpl. by rewrite IH. Qed.

Lemma length_rank_from k l : length (rank_from k l) = length l.
Proof. revert k. induction l as [|[u s] l IH]; intros k; [done|]. simpl. by rewrite IH. Qed.

Lemma take_rank_from n k l : take n (rank_from k l) = rank_from k (take n l).
Proof.
  revert n k. induction l as [|[u s] l IH]; intros [|n] k; simpl; [done..|]. by rewrite IH.
Qed.

Lemma rank_from_sorted k l :
  Sorted score_ge l → Sorted (λ a b, b.(le_score) ≤ a.(le_score))%Z (rank_from k l).
Proof.
  intros Hs. revert k. induction Hs as [|[u s] l Hs IH Hhd]; intros k; simpl; constructor; [apply IH|].
  destruct Hhd as [|[v t] l' H]; simpl; constructor. exact H.
Qed.

(** The [.slice(0, 100)] after the ranking takes the first 100 rows of
    the sorted list, ranked from 1. *)
Lemma rank_scores_alt l : rank_scores l = rank_from 1 (take 100 (sort_by_score l)).
Proof. apply take_rank_from. Qed.

Lemma rank_from_well_ranked l :
  (length l ≤ 100)%nat → Sorted score_ge l → well_ranked (rank_from 1 l).
Proof.
  intros Hn Hs. split_and!; [|by rewrite length_rank_from|by apply rank_from_sorted].
  by rewrite rank_from_ranks, length_rank_from.
Qed.

Lemma rank_scores_well_ranked l : well_ranked (rank_scores l).
Proof.
  rewrite rank_scores_alt. apply rank_from_well_ranked.
  - rewrite length_take. lia.
  - apply Sorted_take, sort_by_score_sorted.
Qed.

(** Distinct users give a leaderboard of distinct users. *)
Lemma rank_scores_NoDup l : NoDup l.*1 → NoDup (le_user <$> rank_scores l).
Proof.
  intros Hl. rewrite rank_scores_alt, rank_from_users, fmap_take.
  eapply sublist_NoDup; [|apply sublist_take]. by rewrite sort_by_score_perm.
Qed.

(** ** Counting *)

Lemma group_count_lookup ks k :
  group_count ks !! k = if bool_decide (k ∈ ks) then Some (count_of k ks) else None.
Proof.
  unfold count_of. induction ks as [|x ks IH]; [done|]. unfold group_count in *. cbn [foldr].
  destruct (decide (x = k)) as [<-|Hne].
  - rewrite lookup_insert_eq, IH, (bool_decide_true (x ∈ x :: ks)), filter_cons_True
      by (done || apply list_elem_of_here).
    case_bool_decide; [|rewrite filter_none_in by set_solver]; simpl; f_equal; lia.
  - rewrite lookup_insert_ne, IH, filter_cons_False by done.
    by repeat case_bool_decide; set_solver.
Qed.

Lemma zsum_group_rows ks k : zsum (snd <$> filter (λ r, r.1 = k) (group_rows ks)) = count_of k ks.
Proof.
  unfold group_rows. rewrite zsum_key_map_to_list, group_count_lookup.
  case_bool_decide as Hk; [done|]. unfold count_of. by rewrite filter_none_in by set_solver.
Qed.

Lemma elem_of_group_rows ks k : k ∈ (group_rows ks).*1 ↔ k ∈ ks.
Proof.
  unfold group_rows. rewrite elem_of_keys_map_to_list, group_count_lookup.
  case_bool_decide; split; intros; naive_solver.
Qed.

Lemma NoDup_group_rows ks : NoDup (group_rows ks).*1.
Proof. apply NoDup_fst_map_to_list. Qed.

Lemma jsmap_get_set m k k' v :
  jsmap_get (jsmap_set m k v) k' = if String.eqb k k' then Some v else jsmap_get m k'.
Proof.
  induction m as [|[k0 v0] m IH]; simpl; [by destruct (String.eqb k k')|].
  destruct (String.eqb_spec k0 k) as [<-|Hne]; simpl.
  - by destruct (String.eqb k0 k').
  - rewrite IH. destruct (String.eqb_spec k0 k'), (String.eqb_spec k k'); subst; congruence.
Qed.

Lemma jsmap_get_is_Some m k : is_Some (jsmap_get m k) ↔ k ∈ m.*1.
Proof.
  induction m as [|[k0 v0] m IH]; simpl; [set_solver|].
  rewrite elem_of_cons, <- IH. destruct (String.eqb_spec k0 k); naive_solver.
Qed.

Lemma elem_of_jsmap_set m k v x : x ∈ (jsmap_set m k v).*1 ↔ x = k ∨ x ∈ m.*1.
Proof.
  rewrite <- !jsmap_get_is_Some, jsmap_get_set.
  destruct (String.eqb_spec k x); naive_solver.
Qed.

Lemma NoDup_jsmap_set m k v : NoDup m.*1 → NoDup (jsmap_set m k v).*1.
Proof.
  induction m as [|[k0 v0] m IH]; simpl; intros Hm; [apply NoDup_singleton|].
  apply NoDup_cons in Hm as [Hk0 Hm].
  destruct (String.eqb_spec k0 k); simpl; constructor; [done|done| |auto].
  rewrite elem_of_jsmap_set. naive_solver.
Qed.

(** [forEach] of [contentMap.set(...)]: what it adds to each key. *)
Lemma foldl_add_count_default m items k :
  default 0%Z (jsmap_get (foldl add_count m items) k) =
  (default 0 (jsmap_get m k) + zsum (snd <$> filter (λ r, r.1 = k) items))%Z.
Proof.
  revert m. induction items as [|[k' c] items IH]; intros m; cbn [foldl]; [simpl; lia|].
  rewrite IH. unfold add_count. cbn [fst snd]. rewrite jsmap_get_set.
  destruct (String.eqb_spec k' k) as [<-|Hne].
  - rewrite filter_cons_True, fmap_cons, zsum_cons by done. simpl. lia.
  - by rewrite filter_cons_False.
Qed.

Lemma foldl_add_count_is_Some m items k :
  is_Some (jsmap_get (foldl add_count m items) k) ↔ is_Some (jsmap_get m k) ∨ k ∈ items.*1.
Proof.
  revert m. induction items as [|[k' c] items IH]; intros m; cbn [foldl]; [set_solver|].
  rewrite IH. unfold add_count. cbn [fst snd]. rewrite jsmap_get_set, fmap_cons, elem_of_cons.
  destruct (String.eqb_spec k' k); naive_solver.
Qed.

Lemma NoDup_foldl_add_count m items : NoDup m.*1 → NoDup (foldl add_count m items).*1.
Proof.
  revert m. induction items as [|r items IH]; intros m Hm; [done|]. apply IH, NoDup_jsmap_set, Hm.
Qed.

Lemma option_default_is_Some (o : option Z) :
  o = if bool_decide (is_Some o) then Some (default 0%Z o) else None.
Proof. by destruct o. Qed.

Lemma NoDup_combine_counts ps vs : NoDup (combine_counts ps vs).*1.
Proof. apply NoDup_foldl_add_count, NoDup_foldl_add_count, NoDup_nil_2. Qed.

(** ** The properties of the ranking *)

(** The [.sort((a, b) => b.score - a.score)] of the code is
    determined: every reordering of the rows that is sorted by
    non-increasing score and keeps the rows of each score in their order
    (what the stable [Array.prototype.sort] produces) equals
    [sort_by_score]. *)
Lemma sort_by_score_unique l l' :
  Sorted score_ge l' → (∀ z, filter (λ r, r.2 = z) l' = filter (λ r, r.2 = z) l) →
  l' = sort_by_score l.
Proof.
  intros Hs Hf. apply sorted_stable_unique; [done|apply sort_by_score_sorted|].
  intros z. by rewrite Hf, sort_by_score_stable.
Qed.

(** C32: The [contentMap] of the [content] leaderboard, built by adding the
    [$group] counts of posts and then of videos, maps each user to the
    number of their posts plus the number of their videos, and has no key
    for a user with neither. *)
Theorem combine_counts_spec ps vs u :
  jsmap_get (combine_counts (group_rows ps) (group_rows vs)) u =
  if bool_decide (u ∈ ps ∨ u ∈ vs) then Some (count_of u ps + count_of u vs)%Z else None.
Proof.
  pose proof (foldl_add_count_is_Some (foldl add_count [] (group_rows ps)) (group_rows vs) u) as Hs.
  pose proof (foldl_add_count_default (foldl add_count [] (group_rows ps)) (group_rows vs) u) as Hd.
  rewrite (foldl_add_count_is_Some []), !elem_of_group_rows in Hs.
  rewrite (foldl_add_count_default []), !zsum_group_rows in Hd.
  unfold combine_counts. cbn [jsmap_get default] in Hs, Hd.
  destruct (jsmap_get _ u) as [n|]; cbn [default id] in Hd; case_bool_decide as Hu;
    [f_equal; lia|naive_solver|naive_solver|done].
Qed.
