(* ===== verification/BadgeModel.v ===== *)
(** * The Badge document ([models/badge.model.js])

    The schema as a record (with the [createdAt] of [timestamps: true]) and
    the tests of its static [checkQualification]: a requirement
    [badge.requirements.f] is met when it is truthy and the user's count is
    [>=] it, with JavaScript's comparison of a number with any value.  The
    queries of [checkQualification] are in [BadgeController]. *)

From S2P Require Import Prelude JsValue Mongoose.

(** [pointsAwarded] and [level] are [Number] paths and [isHidden] a
    [Boolean] path, each of which [updateBadge] may set to [null]; the
    [requirements] are a [Mixed] object kept as the request gave it. *)
Record Badge := mkBadge {
  b_name : string;
  b_description : string;
  b_icon : string;
  b_category : string;
  b_pointsAwarded : option Z;
  b_requirements : JsVal;
  b_level : option Z;
  b_isHidden : option bool;
  b_createdAt : Z
}.

(** [category: { enum: [...] }] *)
Definition badge_category_enum : list string := ["content"; "social"; "coding"; "streaming"; "general"].

(** [save()]'s validation: [name] (trimmed), [description] and [icon] are
    [required] strings, the category is in the enum, and the [requirements]
    are present.  The [unique] index on [name] is checked by the database,
    not here. *)
Definition badge_valid (b : Badge) : bool :=
  bool_decide (b.(b_name) ≠ EmptyString) && bool_decide (b.(b_description) ≠ EmptyString) &&
  bool_decide (b.(b_icon) ≠ EmptyString) && bool_decide (b.(b_category) ∈ badge_category_enum) &&
  match b.(b_requirements) with JUndef | JNull => false | _ => true end.

Definition opt_num_json (o : option Z) : JsVal := match o with Some n => JNum n | None => JNull end.

(** [res.json(badge)]. *)
Definition badge_json (id : Id) (b : Badge) : JsVal :=
  JObj [("_id", JStr id); ("name", JStr b.(b_name)); ("description", JStr b.(b_description));
        ("icon", JStr b.(b_icon)); ("category", JStr b.(b_category));
        ("pointsAwarded", opt_num_json b.(b_pointsAwarded)); ("requirements", b.(b_requirements));
        ("level", opt_num_json b.(b_level));
        ("isHidden", match b.(b_isHidden) with Some h => JBool h | None => JNull end);
        ("createdAt", JNum b.(b_createdAt))].

(** [badge.requirements.f] ([undefined] when absent). *)
Definition requirement (b : Badge) (f : string) : JsVal := default JUndef (js_get b.(b_requirements) f).

(** [if (badge.requirements.f && n >= badge.requirements.f) qualified = true]. *)
Definition meets (b : Badge) (f : string) (n : Z) : bool :=
  truthy (requirement b f) && js_ge_num n (requirement b f).

(** [badge.pointsAwarded > 0]: [null] is not. *)
Definition awards_points (b : Badge) : option Z :=
  match b.(b_pointsAwarded) with Some p => if Z.ltb 0 p then Some p else None | None => None end.

(** What [checkQualification] returns: [{ qualified: false, reason }] for a
    badge the user has, or [{ qualified, stats }]. *)
Inductive Qualification :=
  | AlreadyHas
  | Checked (qualified : bool) (stats : list (string * Z)).

Definition qualified (q : Qualification) : bool :=
  match q with AlreadyHas => false | Checked b _ => b end.

Definition qualification_fields (q : Qualification) : list (string * JsVal) :=
  match q with
  | AlreadyHas => [("qualified", JBool false); ("reason", JStr "User already has this badge")]
  | Checked b st => [("qualified", JBool b); ("stats", JObj ((λ kv, (kv.1, JNum kv.2)) <$> st))]
  end.
