(* ===== verification/NotificationModel.v ===== *)
(** * The Notification document ([models/notification.model.js])

    The schema as a record (with the [createdAt] of [timestamps: true]),
    the [markAsRead] method and the static [createNotification], whose
    document the badge controller builds.  The queries of [getUnreadCount]
    and of the notification controller act on the database and are in
    [NotificationController]. *)

From S2P Require Import Prelude JsValue Mongoose.

Record Notification := mkNotification {
  n_recipient : Id;
  n_sender : option Id;
  n_type : string;
  n_contentType : string;
  n_contentId : Id;
  n_contentModel : string;
  n_message : string;
  n_isRead : bool;
  n_url : option string;
  n_createdAt : Z
}.

(** The [enum]s of [type], [contentType] and [contentModel]. *)
Definition notification_types : list string := ["follow"; "like"; "comment"; "mention"; "stream"; "system"].
Definition notification_content_types : list string :=
  ["post"; "video"; "stream"; "code"; "comment"; "user"; "system"].
Definition notification_content_models : list string :=
  ["Post"; "Video"; "Stream"; "CodeSession"; "Comment"; "User"; "System"].

(** [save()]'s validation: the enums, and the [required] message (an empty
    string fails [required]). *)
Definition notification_valid (n : Notification) : bool :=
  bool_decide (n.(n_type) ∈ notification_types) &&
  bool_decide (n.(n_contentType) ∈ notification_content_types) &&
  bool_decide (n.(n_contentModel) ∈ notification_content_models) &&
  bool_decide (n.(n_message) ≠ EmptyString).

(** [markAsRead()]: [this.isRead = true]. *)
Definition markAsRead (n : Notification) : Notification :=
  mkNotification n.(n_recipient) n.(n_sender) n.(n_type) n.(n_contentType) n.(n_contentId)
    n.(n_contentModel) n.(n_message) true n.(n_url) n.(n_createdAt).

(** [createNotification(data)]: [new this({ ..., sender: data.sender || null,
    url: data.url || null })], [isRead] at its default [false]. *)
Definition new_notification (recipient : Id) (sender : option Id) (ty contentType : string)
    (contentId : Id) (contentModel message : string) (url : option string) (t : Z) : Notification :=
  mkNotification recipient sender ty contentType contentId contentModel message false url t.

(** [res.json(notification)] (the [sender] unpopulated). *)
Definition notification_json (id : Id) (n : Notification) : JsVal :=
  JObj [("_id", JStr id); ("recipient", JStr n.(n_recipient));
        ("sender", match n.(n_sender) with Some s => JStr s | None => JNull end);
        ("type", JStr n.(n_type)); ("contentType", JStr n.(n_contentType));
        ("contentId", JStr n.(n_contentId)); ("contentModel", JStr n.(n_contentModel));
        ("message", JStr n.(n_message)); ("isRead", JBool n.(n_isRead));
        ("url", match n.(n_url) with Some u => JStr u | None => JNull end);
        ("createdAt", JNum n.(n_createdAt))].

(** [{ recipient: userId, isRead: false }], the filter of [getUnreadCount]
    and [markAllAsRead]. *)
Definition unread_for (u : Id) (n : Notification) : bool :=
  String.eqb n.(n_recipient) u && negb n.(n_isRead).
