(* ===== verification/Router.v ===== *)
(** * The Express routers ([routes/*.routes.js])

    Each route file builds an [express.Router()] and registers, in order,
    routes [router.<method>(path, ...middleware, handler)].  Express tries
    the routes of a router in registration order and the first one whose
    method and path match handles the request (every handler here answers,
    none calls [next()]).  A path such as ['/:id/follow'] is compiled by
    path-to-regexp 0.1 into a case-insensitive regular expression in which
    a literal segment matches itself up to case, a parameter [:name]
    matches one non-empty segment, and a final ['/'] is optional.

    The route tables below are transcribed from the files, with their
    middleware chains ([auth], [admin], [protect] and the express-validator
    [check] chains).  The theorems characterise exactly which routes can
    ever be reached: a route is dead if and only if an earlier route of the
    same method matches every path it matches. *)

From S2P Require Import Prelude JsValue.
From Stdlib Require Import Ascii.

Inductive Method := GET | POST | PUT | DELETE.

#[export] Instance Method_eq_dec : EqDecision Method.
Proof. solve_decision. Defined.

(** A segment of a route path. *)
Inductive Seg := Lit (s : string) | Param (name : string).

#[export] Instance Seg_eq_dec : EqDecision Seg.
Proof. solve_decision. Defined.

Abbreviation Pattern := (list Seg).

(** The express-validator chains of the route files: [check(field, msg)]
    followed by one validator, possibly behind [.optional()]. *)
Inductive Check :=
  | NotEmpty (field msg : string)                         (* .not().isEmpty() *)
  | IsLength (field msg : string) (min : nat) (max : option nat) (* .isLength({min, max}) *)
  | IsEmail (field msg : string)                          (* .isEmail() *)
  | IsIn (field msg : string) (vals : list string)        (* .isIn([...]) *)
  | Exists (field msg : string)                           (* .exists() *)
  | Optional (c : Check).                                 (* .optional(). ... *)

(** The middleware a route runs before its handler. *)
Inductive Mw := MwAuth | MwAdmin | MwProtect | MwCheck (c : Check).

Record Route := mkRoute {
  rt_method : Method;
  rt_path : string;
  rt_mws : list Mw;
  rt_handler : string
}.

(** ** Paths *)

(** A path as its segments: the leading ['/'] and an optional trailing
    ['/'] are dropped. *)
Definition drop_trailing_empty (l : list string) : list string :=
  match last l with Some EmptyString => removelast l | _ => l end.

Definition segs_of (p : string) : list string :=
  match split_on "/"%char p with
  | EmptyString :: rest => drop_trailing_empty rest
  | l => drop_trailing_empty l
  end.

Definition parse_seg (s : string) : Seg :=
  match s with String ":"%char name => Param name | _ => Lit s end.

Definition pattern_of (p : string) : Pattern := parse_seg <$> segs_of p.

(** ASCII case folding of the [i] flag. *)
Definition ascii_lower (c : ascii) : ascii :=
  let n := nat_of_ascii c in
  if bool_decide (65 ≤ n ≤ 90)%nat then ascii_of_nat (n + 32) else c.

Fixpoint string_lower (s : string) : string :=
  match s with EmptyString => EmptyString | String c s' => String (ascii_lower c) (string_lower s') end.

Definition seg_matches (p : Seg) (s : string) : option (list (string * string)) :=
  match p with
  | Lit l => if bool_decide (string_lower l = string_lower s) then Some [] else None
  | Param n => if bool_decide (s = EmptyString) then None else Some [(n, s)]
  end.

(** The parameters [req.params] bound by a match. *)
Fixpoint match_pattern (p : Pattern) (path : list string) : option (list (string * string)) :=
  match p, path with
  | [], [] => Some []
  | q :: p', s :: path' =>
      b ← seg_matches q s; bs ← match_pattern p' path'; Some (b ++ bs)
  | _, _ => None
  end.

Definition route_matches (m : Method) (path : list string) (r : Route) : bool :=
  bool_decide (r.(rt_method) = m) && bool_decide (is_Some (match_pattern (pattern_of r.(rt_path)) path)).

(** The router: the first route that matches, with the index it was
    registered at and its parameters. *)
Fixpoint dispatch_from (i : nat) (rs : list Route) (m : Method) (path : list string)
    : option (nat * Route * list (string * string)) :=
  match rs with
  | [] => None
  | r :: rs' =>
      if bool_decide (r.(rt_method) = m) then
        match match_pattern (pattern_of r.(rt_path)) path with
        | Some ps => Some (i, r, ps)
        | None => dispatch_from (S i) rs' m path
        end
      else dispatch_from (S i) rs' m path
  end.

Definition dispatch (rs : list Route) (m : Method) (path : string) :=
  dispatch_from 0 rs m (segs_of path).

(** ** The route tables, in registration order *)

Definition auth_routes : list Route := [
  mkRoute POST "/register"
    [MwCheck (NotEmpty "username" "Username is required");
     MwCheck (IsLength "username" "Username must be between 3 and 50 characters" 3 (Some 50));
     MwCheck (IsEmail "email" "Please include a valid email");
     MwCheck (IsLength "password" "Password must be at least 6 characters" 6 None);
     MwCheck (NotEmpty "fullName" "Full name is required")] "register";
  mkRoute POST "/login"
    [MwCheck (IsEmail "email" "Please include a valid email");
     MwCheck (Exists "password" "Password is required")] "login";
  mkRoute GET "/me" [MwAuth] "getCurrentUser";
  mkRoute POST "/logout" [] "logout"].

Definition badge_categories : list string := ["content"; "social"; "coding"; "streaming"; "general"].

Definition badge_routes : list Route := [
  mkRoute POST "/"
    [MwAuth; MwAdmin;
     MwCheck (NotEmpty "name" "Name is required");
     MwCheck (NotEmpty "description" "Description is required");
     MwCheck (NotEmpty "icon" "Icon is required");
     MwCheck (IsIn "category" "Category is required" badge_categories);
     MwCheck (NotEmpty "requirements" "Requirements is required")] "createBadge";
  mkRoute GET "/" [] "getBadges";
  mkRoute GET "/:id" [] "getBadgeById";
  mkRoute PUT "/:id"
    [MwAuth; MwAdmin;
     MwCheck (Optional (NotEmpty "name" "Name cannot be empty"));
     MwCheck (Optional (NotEmpty "description" "Description cannot be empty"));
     MwCheck (Optional (NotEmpty "icon" "Icon cannot be empty"));
     MwCheck (Optional (IsIn "category" "Category must be valid" badge_categories))] "updateBadge";
  mkRoute DELETE "/:id" [MwAuth; MwAdmin] "deleteBadge";
  mkRoute GET "/:id/check" [MwAuth] "checkBadgeQualification";
  mkRoute POST "/:id/award/:userId" [MwAuth; MwAdmin] "awardBadge";
  mkRoute GET "/check-all" [MwAuth] "checkAllBadges"].

Definition code_routes : list Route := [
  mkRoute GET "/sessions" [] "getAllSessions";
  mkRoute GET "/sessions/:id" [] "getSessionById";
  mkRoute POST "/sessions" [MwProtect] "createSession";
  mkRoute PUT "/sessions/:id" [MwProtect] "updateSession";
  mkRoute DELETE "/sessions/:id" [MwProtect] "deleteSession";
  mkRoute POST "/sessions/:id/join" [MwProtect] "joinSession";
  mkRoute POST "/sessions/:id/leave" [MwProtect] "leaveSession";
  mkRoute POST "/sessions/:id/save" [MwProtect] "saveCode";
  mkRoute POST "/execute" [MwProtect] "executeCode";
  mkRoute GET "/templates" [] "getTemplates"].

Definition comment_routes : list Route := [
  mkRoute POST "/"
    [MwAuth;
     MwCheck (NotEmpty "content" "Content is required");
     MwCheck (IsLength "content" "Content cannot exceed 500 characters" 0 (Some 500));
     MwCheck (IsIn "contentType" "Content type is required" ["post"; "video"; "stream"; "code"]);
     MwCheck (NotEmpty "contentId" "Content ID is required")] "createComment";
  mkRoute GET "/:contentType/:contentId" [] "getComments";
  mkRoute GET "/:commentId/replies" [] "getReplies";
  mkRoute PUT "/:id"
    [MwAuth;
     MwCheck (NotEmpty "content" "Content is required");
     MwCheck (IsLength "content" "Content cannot exceed 500 characters" 0 (Some 500))] "updateComment";
  mkRoute DELETE "/:id" [MwAuth] "deleteComment";
  mkRoute PUT "/:id/like" [MwAuth] "likeComment";
  mkRoute PUT "/:id/unlike" [MwAuth] "unlikeComment"].

Definition leaderboard_routes : list Route := [
  mkRoute GET "/:type/:timeframe" [] "getLeaderboard";
  mkRoute POST "/update-all" [MwAuth; MwAdmin] "updateAllLeaderboards";
  mkRoute GET "/user/:userId" [] "getUserRanks"].

Definition notification_routes : list Route := [
  mkRoute GET "/" [MwAuth] "getNotifications";
  mkRoute PUT "/:id/read" [MwAuth] "markAsRead";
  mkRoute PUT "/read-all" [MwAuth] "markAllAsRead";
  mkRoute DELETE "/:id" [MwAuth] "deleteNotification";
  mkRoute GET "/unread-count" [MwAuth] "getUnreadCount"].

Definition post_routes : list Route := [
  mkRoute POST "/"
    [MwAuth;
     MwCheck (NotEmpty "content" "Content is required");
     MwCheck (IsLength "content" "Content cannot exceed 1000 characters" 0 (Some 1000))] "createPost";
  mkRoute GET "/" [] "getPosts";
  mkRoute GET "/tag/:tag" [] "getPostsByTag";
  mkRoute GET "/trending" [] "getTrendingPosts";
  mkRoute GET "/feed" [MwAuth] "getFeed";
  mkRoute GET "/:id" [] "getPostById";
  mkRoute PUT "/:id"
    [MwAuth; MwCheck (IsLength "content" "Content cannot exceed 1000 characters" 0 (Some 1000))]
    "updatePost";
  mkRoute DELETE "/:id" [MwAuth] "deletePost";
  mkRoute PUT "/:id/like" [MwAuth] "likePost";
  mkRoute PUT "/:id/unlike" [MwAuth] "unlikePost"].

Definition share_routes : list Route := [
  mkRoute GET "/:contentType/:contentId" [] "generateSharingLinks";
  mkRoute POST "/:contentType/:contentId/:platform" [MwAuth] "recordShare"].

Definition stream_routes : list Route := [
  mkRoute POST "/"
    [MwAuth;
     MwCheck (NotEmpty "title" "Title is required");
     MwCheck (IsLength "title" "Title cannot exceed 100 characters" 0 (Some 100))] "createStream";
  mkRoute GET "/active" [] "getActiveStreams";
  mkRoute GET "/tag/:tag" [] "getStreamsByTag";
  mkRoute GET "/:id" [] "getStreamById";
  mkRoute PUT "/:id"
    [MwAuth; MwCheck (IsLength "title" "Title cannot exceed 100 characters" 0 (Some 100))]
    "updateStream";
  mkRoute PUT "/:id/start" [MwAuth] "startStream";
  mkRoute PUT "/:id/end" [MwAuth] "endStream";
  mkRoute POST "/:id/code"
    [MwAuth;
     MwCheck (NotEmpty "title" "Title is required");
     MwCheck (NotEmpty "language" "Language is required")] "createCodeSession";
  mkRoute POST "/:id/signal" [MwAuth] "handleSignaling"].

Definition user_routes : list Route := [
  mkRoute GET "/:id" [] "getUserProfile";
  mkRoute PUT "/profile"
    [MwAuth;
     MwCheck (Optional (IsLength "fullName" "Full name cannot exceed 100 characters" 0 (Some 100)));
     MwCheck (Optional (IsLength "bio" "Bio cannot exceed 500 characters" 0 (Some 500)))]
    "updateProfile";
  mkRoute PUT "/:id/follow" [MwAuth] "followUser";
  mkRoute PUT "/:id/unfollow" [MwAuth] "unfollowUser";
  mkRoute GET "/:id/followers" [] "getFollowers";
  mkRoute GET "/:id/following" [] "getFollowing";
  mkRoute GET "/search" [] "searchUsers"].

Definition video_routes : list Route := [
  mkRoute GET "/" [] "getAllVideos";
  mkRoute GET "/:id" [] "getVideoById";
  mkRoute POST "/" [MwProtect] "createVideo";
  mkRoute PUT "/:id" [MwProtect] "updateVideo";
  mkRoute DELETE "/:id" [MwProtect] "deleteVideo";
  mkRoute POST "/:id/like" [MwProtect] "likeVideo";
  mkRoute POST "/:id/unlike" [MwProtect] "unlikeVideo";
  mkRoute POST "/:id/comment" [MwProtect] "addComment";
  mkRoute GET "/:id/comments" [] "getVideoComments";
  mkRoute GET "/trending" [] "getTrendingVideos";
  mkRoute GET "/recommended" [MwProtect] "getRecommendedVideos"].

(** The routers, by the file that builds them. *)
Definition routers : list (string * list Route) := [
  ("auth", auth_routes); ("badge", badge_routes); ("code", code_routes);
  ("comment", comment_routes); ("leaderboard", leaderboard_routes);
  ("notification", notification_routes); ("post", post_routes); ("share", share_routes);
  ("stream", stream_routes); ("user", user_routes); ("video", video_routes)].

(** ** Which routes can be reached *)

(** [p1] matches every path [p2] matches, segment by segment. *)
Definition seg_subsumes (q1 q2 : Seg) : bool :=
  match q1, q2 with
  | Param _, Lit b => bool_decide (b ≠ EmptyString)
  | Param _, Param _ => true
  | Lit a, Lit b => bool_decide (string_lower a = string_lower b)
  | Lit _, Param _ => false
  end.

Fixpoint subsumes (p1 p2 : Pattern) : bool :=
  match p1, p2 with
  | [], [] => true
  | q1 :: p1', q2 :: p2' => seg_subsumes q1 q2 && subsumes p1' p2'
  | _, _ => false
  end.

(** A route is shadowed when an earlier route of its method subsumes it. *)
Definition shadowed (earlier : list Route) (r : Route) : bool :=
  existsb (λ r', bool_decide (r'.(rt_method) = r.(rt_method)) &&
                 subsumes (pattern_of r'.(rt_path)) (pattern_of r.(rt_path))) earlier.

Definition dead_handlers (rs : list Route) : list string :=
  omap (λ '(i, r), if shadowed (take i rs) r then Some r.(rt_handler) else None)
    (imap pair rs).

(** The path that instantiates every parameter of a pattern with [x]. *)
Definition inst (x : string) (p : Pattern) : list string :=
  (λ q, match q with Lit l => l | Param _ => x end) <$> p.

Fixpoint has_char (c : ascii) (s : string) : bool :=
  match s with EmptyString => false | String c' s' => Ascii.eqb c' c || has_char c s' end.

(** [x] differs, up to case, from every literal of the table; literals
    and [x] are non-empty and contain no ['/']. *)
Definition fresh_for (rs : list Route) (x : string) : bool :=
  bool_decide (x ≠ EmptyString) && negb (has_char "/" x) &&
  forallb (λ r, forallb (λ q, match q with
                              | Lit l => bool_decide (string_lower l ≠ string_lower x) &&
                                         bool_decide (l ≠ EmptyString) && negb (has_char "/" l)
                              | Param _ => true end) (pattern_of r.(rt_path))) rs.

Definition reachable (rs : list Route) (i : nat) (r : Route) : Prop :=
  ∃ path ps, dispatch_from 0 rs r.(rt_method) path = Some (i, r, ps).

(** ** Lemmas on matching *)

Lemma string_lower_empty s : string_lower s = EmptyString ↔ s = EmptyString.
Proof. destruct s; simpl; split; congruence. Qed.

Lemma seg_subsumes_sound q1 q2 s :
  seg_subsumes q1 q2 = true → is_Some (seg_matches q2 s) → is_Some (seg_matches q1 s).
Proof.
  destruct q1 as [a|n], q2 as [b|m]; simpl; intros H [ps Hs];
    repeat case_bool_decide; simplify_eq; eauto; exfalso; try congruence.
  match goal with H : string_lower ?b = string_lower "" |- _ =>
    apply (proj1 (string_lower_empty b)) in H; congruence end.
Qed.

Lemma subsumes_sound p1 p2 path :
  subsumes p1 p2 = true → is_Some (match_pattern p2 path) → is_Some (match_pattern p1 path).
Proof.
  revert p2 path. induction p1 as [|q1 p1 IH]; intros [|q2 p2] [|s path]; simpl; try done.
  intros [Hq Hp]%andb_prop [ps Hm].
  destruct (seg_matches q2 s) eqn:E2; simpl in Hm; [|done].
  destruct (match_pattern p2 path) eqn:E3; simpl in Hm; [|done].
  destruct (seg_subsumes_sound q1 q2 s Hq) as [b1 ->]; [by eexists|].
  destruct (IH p2 path Hp) as [b2 ->]; [by eexists|]. simpl. by eexists.
Qed.

Lemma match_inst x p : x ≠ EmptyString → is_Some (match_pattern p (inst x p)).
Proof.
  intros Hx. induction p as [|[l|n] p IH]; simpl; [by eexists| |].
  - rewrite bool_decide_true by done. destruct IH as [ps ->]. simpl. by eexists.
  - rewrite bool_decide_false by done. destruct IH as [ps ->]. simpl. by eexists.
Qed.

Lemma match_inst_subsumes x p1 p2 :
  x ≠ EmptyString →
  (∀ l, Lit l ∈ p1 → string_lower l ≠ string_lower x) →
  is_Some (match_pattern p1 (inst x p2)) → subsumes p1 p2 = true.
Proof.
  intros Hx. revert p2. induction p1 as [|q1 p1 IH]; intros [|q2 p2] Hfr; simpl; try by intros [? ?].
  intros [ps Hm]. apply andb_true_intro. split.
  - destruct (seg_matches q1 _) eqn:E; simpl in Hm; [|done].
    destruct q1 as [a|n], q2 as [b|m]; simpl in *; repeat case_bool_decide; simplify_eq; try done.
    exfalso. apply (Hfr a); [by left|done].
  - apply IH; [intros l Hl; apply Hfr; by right|].
    destruct (seg_matches q1 _); simpl in Hm; [|done].
    destruct (match_pattern p1 _); simpl in Hm; [by eexists|done].
Qed.

(** ** The router takes the first match *)

(** Route [j] of [rs] (counted from [k]) is the first that matches. *)
Definition first_match (k : nat) (rs : list Route) (m : Method) (path : list string)
    (i : nat) (r : Route) (ps : list (string * string)) : Prop :=
  ∃ j, i = k + j ∧ rs !! j = Some r ∧ r.(rt_method) = m ∧
       match_pattern (pattern_of r.(rt_path)) path = Some ps ∧
       ∀ j' r', j' < j → rs !! j' = Some r' → r'.(rt_method) = m →
                match_pattern (pattern_of r'.(rt_path)) path = None.

Lemma first_match_skip k r0 rs m path i r ps :
  (r0.(rt_method) = m → match_pattern (pattern_of r0.(rt_path)) path = None) →
  first_match k (r0 :: rs) m path i r ps ↔ first_match (S k) rs m path i r ps.
Proof.
  intros H0. split.
  - intros ([|j] & -> & Hj & Hrm & Hps & Hfirst); simpl in Hj; [simplify_eq; by rewrite H0 in Hps|].
    exists j. split_and!; try done; [lia|]. intros j' r' ? ? ?. apply (Hfirst (S j')); [lia|done|done].
  - intros (j & -> & Hj & Hrm & Hps & Hfirst). exists (S j). split_and!; try done; [lia|].
    intros [|j'] r' Hlt Hr' Hm'; simpl in Hr'; [simplify_eq; by apply H0|].
    apply (Hfirst j'); [lia|done|done].
Qed.

Lemma dispatch_from_Some k rs m path i r ps :
  dispatch_from k rs m path = Some (i, r, ps) ↔ first_match k rs m path i r ps.
Proof.
  revert k. induction rs as [|r0 rs IH]; intros k; simpl.
  { split; [done|]. by intros (j & _ & Hj & _). }
  case_bool_decide as Hm; [destruct (match_pattern _ path) as [ps0|] eqn:Hp|].
  - split.
    + intros [= <- <- <-]. exists 0. rewrite Nat.add_0_r. split_and!; try done. intros; lia.
    + intros ([|j] & -> & Hj & Hrm & Hps & Hfirst); simpl in Hj.
      * simplify_eq. by rewrite Nat.add_0_r.
      * by rewrite (Hfirst 0 r0) in Hp by (done || lia).
  - rewrite IH. symmetry. by apply first_match_skip.
  - rewrite IH. symmetry. apply first_match_skip. congruence.
Qed.

Lemma shadowed_spec earlier r :
  shadowed earlier r = true ↔
  ∃ j r', earlier !! j = Some r' ∧ r'.(rt_method) = r.(rt_method) ∧
          subsumes (pattern_of r'.(rt_path)) (pattern_of r.(rt_path)) = true.
Proof.
  unfold shadowed. rewrite existsb_exists. split.
  - intros (r' & Hin%list_elem_of_In & Hb). apply list_elem_of_lookup in Hin as [j Hj].
    apply andb_prop in Hb as [Hm Hs]. apply bool_decide_eq_true in Hm. eauto.
  - intros (j & r' & Hj & Hm & Hs). exists r'. split.
    + apply list_elem_of_In. by eapply list_elem_of_lookup_2.
    + by rewrite bool_decide_true, Hs.
Qed.

Lemma fresh_for_spec rs x :
  fresh_for rs x = true →
  x ≠ EmptyString ∧ has_char "/" x = false ∧
  ∀ r l, r ∈ rs → Lit l ∈ pattern_of r.(rt_path) →
         string_lower l ≠ string_lower x ∧ l ≠ EmptyString ∧ has_char "/" l = false.
Proof.
  unfold fresh_for. intros [[Hx Hxs]%andb_prop Hall]%andb_prop.
  apply bool_decide_eq_true in Hx. apply negb_true_iff in Hxs. split_and!; [done|done|].
  intros r l Hr Hl. rewrite forallb_forall in Hall. apply list_elem_of_In in Hr.
  specialize (Hall r Hr). rewrite forallb_forall in Hall. apply list_elem_of_In in Hl.
  specialize (Hall _ Hl). simpl in Hall.
  apply andb_prop in Hall as [[H1 H2]%andb_prop H3%negb_true_iff].
  apply bool_decide_eq_true in H1, H2. done.
Qed.

(** An unshadowed route serves the path that instantiates its parameters
    with a fresh string. *)
Lemma dispatch_inst rs i r x :
  fresh_for rs x = true → rs !! i = Some r → shadowed (take i rs) r = false →
  ∃ ps, dispatch_from 0 rs r.(rt_method) (inst x (pattern_of r.(rt_path))) = Some (i, r, ps).
Proof.
  intros Hf Hr Hs. destruct (fresh_for_spec rs x Hf) as (Hx & _ & Hlit).
  destruct (match_inst x (pattern_of r.(rt_path)) Hx) as [ps Hps].
  exists ps. apply dispatch_from_Some.
  exists i. split_and!; try done. intros j' r' Hlt Hr' Hm'.
  destruct (match_pattern (pattern_of r'.(rt_path)) _) eqn:E; [|done]. exfalso.
  assert (subsumes (pattern_of r'.(rt_path)) (pattern_of r.(rt_path)) = true) as Hsub.
  { apply (match_inst_subsumes x); [done| |by eexists].
    intros l0 Hl0. apply (Hlit r'); [by eapply list_elem_of_lookup_2|done]. }
  assert (shadowed (take i rs) r = true) as Hs'; [|congruence].
  apply shadowed_spec. exists j', r'. split_and!; try done. by apply lookup_take_Some.
Qed.

(** A route is reachable, by some list of segments, exactly when no
    earlier route of its method subsumes its pattern. *)
Lemma route_reachable_iff rs i r x :
  fresh_for rs x = true → rs !! i = Some r →
  reachable rs i r ↔ shadowed (take i rs) r = false.
Proof.
  intros Hf Hr. split.
  - intros (path & ps & (j & Hj & Hrj & _ & Hps & Hfirst)%dispatch_from_Some). simpl in Hj; subst j.
    destruct (shadowed _ r) eqn:Hs; [|done].
    apply shadowed_spec in Hs as (j & r' & Hj' & Hm' & Hsub). apply lookup_take_Some in Hj' as [Hj' Hlt].
    destruct (subsumes_sound _ _ path Hsub) as [ps' Hps']; [by eexists|].
    by rewrite (Hfirst j r') in Hps'.
  - intros Hs. destruct (dispatch_inst rs i r x) as [ps Hd]; [done..|]. by do 2 eexists.
Qed.

(** ** From segments back to a request path *)

(** The request path ["/" ++ segs joined by "/"]. *)
Definition path_of (segs : list string) : string := String "/" (String.concat "/" segs).

Lemma split_on_no_sep sep s : has_char sep s = false → split_on sep s = [s].
Proof.
  induction s as [|c s IH]; simpl; [done|]. intros [Hc Hs]%orb_false_elim.
  rewrite Hc, IH by done. done.
Qed.

Lemma split_on_app_sep sep s rest :
  has_char sep s = false → split_on sep (s +:+ String sep rest) = s :: split_on sep rest.
Proof.
  induction s as [|c s IH]; intros Hs.
  - rewrite string_app_nil_l. simpl. by rewrite Ascii.eqb_refl.
  - rewrite string_app_cons. simpl in *. apply orb_false_elim in Hs as [Hc Hs].
    rewrite Hc, IH by done. done.
Qed.

Lemma split_on_concat sep segs :
  segs ≠ [] → Forall (λ s, has_char sep s = false) segs →
  split_on sep (String.concat (String sep EmptyString) segs) = segs.
Proof.
  induction segs as [|s [|s' segs] IH]; intros Hne Hall; [done| |].
  - inversion Hall. simpl. by apply split_on_no_sep.
  - inversion Hall as [|? ? Hs Hrest]; subst. cbn [String.concat].
    rewrite string_app_cons, string_app_nil_l, split_on_app_sep by done.
    f_equal. by apply IH.
Qed.

Lemma segs_of_path_of segs :
  Forall (λ s, has_char "/" s = false) segs → last segs ≠ Some EmptyString →
  segs_of (path_of segs) = segs.
Proof.
  intros Hall Hlast. unfold segs_of, path_of. destruct segs as [|s segs]; [done|].
  cbn [split_on]. rewrite Ascii.eqb_refl, split_on_concat by done.
  unfold drop_trailing_empty. destruct (last (s :: segs)) as [[|c l]|] eqn:E; done.
Qed.

Lemma inst_no_slash rs r x :
  fresh_for rs x = true → r ∈ rs →
  Forall (λ s, has_char "/" s = false) (inst x (pattern_of r.(rt_path))) ∧
  last (inst x (pattern_of r.(rt_path))) ≠ Some EmptyString.
Proof.
  intros Hf Hr. destruct (fresh_for_spec rs x Hf) as (Hx & Hxs & Hlit).
  assert (∀ q, q ∈ pattern_of r.(rt_path) →
            match q with Lit l => l | Param _ => x end ≠ EmptyString ∧
            has_char "/" (match q with Lit l => l | Param _ => x end) = false) as Hq.
  { intros [l|n] Hin; [|done]. destruct (Hlit r l Hr Hin) as (_ & ? & ?). done. }
  unfold inst. split.
  - apply Forall_fmap, Forall_forall. intros q Hin. apply Hq, Hin.
  - intros Hl. rewrite fmap_last in Hl. destruct (last (pattern_of _)) as [q|] eqn:E; simplify_eq/=.
    apply (proj1 (Hq q (last_Some_elem_of _ _ E))). by destruct q.
Qed.

(** The same on request paths: a route can serve some request path exactly
    when it is not shadowed. *)
Definition reachable_path (rs : list Route) (i : nat) (r : Route) : Prop :=
  ∃ path ps, dispatch rs r.(rt_method) path = Some (i, r, ps).

Lemma route_reachable_path_iff rs i r x :
  fresh_for rs x = true → rs !! i = Some r →
  reachable_path rs i r ↔ shadowed (take i rs) r = false.
Proof.
  intros Hf Hr. split.
  - intros (path & ps & Hd). apply (route_reachable_iff rs i r x); [done|done|].
    by exists (segs_of path), ps.
  - intros Hs. destruct (dispatch_inst rs i r x Hf Hr Hs) as [ps Hd].
    destruct (inst_no_slash rs r x Hf) as [Hall Hlast]; [by eapply list_elem_of_lookup_2|].
    exists (path_of (inst x (pattern_of r.(rt_path)))), ps.
    unfold dispatch. by rewrite segs_of_path_of.
Qed.

(** ** The dead routes of the application *)

(** The routes no request can reach, by router and handler. *)
Definition dead_routes_expected : list (string * string) :=
  [("badge", "checkAllBadges"); ("comment", "getReplies"); ("leaderboard", "getUserRanks");
   ("user", "searchUsers"); ("video", "getTrendingVideos"); ("video", "getRecommendedVideos")].

Definition table_ok (name : string) (rs : list Route) : bool :=
  fresh_for rs "~" &&
  forallb (λ '(i, r), bool_decide (shadowed (take i rs) r =
                                   bool_decide ((name, r.(rt_handler)) ∈ dead_routes_expected)))
    (imap pair rs).

Lemma table_ok_spec name rs i r :
  table_ok name rs = true → rs !! i = Some r →
  fresh_for rs "~" = true ∧
  shadowed (take i rs) r = bool_decide ((name, r.(rt_handler)) ∈ dead_routes_expected).
Proof.
  unfold table_ok. intros [Hf Hall]%andb_prop Hr. split; [done|].
  rewrite forallb_forall in Hall.
  assert (In (i, r) (imap pair rs)) as Hin.
  { apply list_elem_of_In, (list_elem_of_lookup_2 _ i). by rewrite list_lookup_imap, Hr. }
  specialize (Hall _ Hin). simpl in Hall. by apply bool_decide_eq_true in Hall.
Qed.

Lemma routers_ok : Forall (λ '(name, rs), table_ok name rs = true) routers.
Proof. repeat constructor; vm_compute; reflexivity. Qed.

(** C23: across the eleven routers of [routes/], a registered route can
    serve some request path exactly when it is not one of the six dead
    routes: [GET /check-all] of badges, [GET /:commentId/replies] of
    comments, [GET /user/:userId] of leaderboards, [GET /search] of users
    and [GET /trending], [GET /recommended] of videos, each registered after
    a route with parameters that matches all of its paths. *)
Theorem dead_routes_exact name rs i r :
  (name, rs) ∈ routers → rs !! i = Some r →
  reachable_path rs i r ↔ (name, r.(rt_handler)) ∉ dead_routes_expected.
Proof.
  intros Hin Hr. pose proof routers_ok as Hok. rewrite Forall_forall in Hok.
  specialize (Hok _ Hin). simpl in Hok. destruct (table_ok_spec _ _ _ _ Hok Hr) as [Hf Hs].
  rewrite (route_reachable_path_iff rs i r "~"), Hs by done.
  case_bool_decide; naive_solver.
Qed.

(** every [GET] request on a single non-empty segment of the users
    router, [/search] included, is served by [getUserProfile] with that
    segment as [req.params.id]; [searchUsers] never runs. *)
Theorem user_single_segment_get_is_profile s :
  s ≠ EmptyString → has_char "/" s = false →
  dispatch user_routes GET (path_of [s]) =
    Some (0, mkRoute GET "/:id" [] "getUserProfile", [("id", s)]).
Proof.
  intros Hs Hsl. unfold dispatch. rewrite segs_of_path_of by (repeat constructor; simpl; congruence).
  simpl. by rewrite bool_decide_false.
Qed.

Module RouterExamples.

Lemma dead_routes_exact_witness :
  (("user", user_routes) ∈ routers ∧ user_routes !! 6 = Some (mkRoute GET "/search" [] "searchUsers")) ∧
  ¬ reachable_path user_routes 6 (mkRoute GET "/search" [] "searchUsers").
Proof.
  assert (("user", user_routes) ∈ routers) as Hin by (vm_compute; repeat constructor).
  split; [split; [exact Hin|reflexivity]|].
  rewrite (dead_routes_exact "user" user_routes 6 _ Hin eq_refl). simpl.
  intros Hn. apply Hn. vm_compute. repeat constructor.
Defined.

Lemma user_single_segment_get_is_profile_witness :
  dispatch user_routes GET "/search" =
    Some (0, mkRoute GET "/:id" [] "getUserProfile", [("id", "search")]).
Proof. apply (user_single_segment_get_is_profile "search"); [discriminate|reflexivity]. Defined.

End RouterExamples.
