(* ===== verification/Express.v ===== *)
(** * Express requests, responses and the controller monad

    A controller of [controllers/*.controller.js] is an [async (req, res)]
    function.  It ends by [res.status(code).json(body)] (or [res.json(body)],
    status 200), often as an early [return], and its body is a [try { ... }
    catch (err) { ... }] whose [catch] answers 404 when [err.kind ===
    'ObjectId'] (Mongoose could not cast an id) and 500 otherwise.

    The monad [CM S] is a state transformer over the database [S] whose
    result is a value, a response already sent (which ends the controller,
    like [return res...]), or a thrown error.  A controller that ends
    without a response, or throws outside its [try], leaves the request
    unanswered: [run_controller] returns [None].  A run of [CM] is atomic: the
    [await]s of a controller are sequencing and no other request runs
    between them.  [Interleave] splits requests at their [await]s, for the
    controllers whose interleavings matter ([FollowRace],
    [LeaderboardRace]).

    The express-validator chains the routers install are run by
    [run_checks]; [validationResult(req)] is their list of errors.  The
    [isEmail] validator of validator.js is a parameter [is_email]. *)

From S2P Require Import Prelude JsValue Transport Router.

Record Request := mkRequest {
  rq_params : list (string * string);   (* req.params, bound by the router *)
  rq_query : JsVal;                      (* req.query *)
  rq_body : JsVal;                       (* req.body *)
  rq_user : User                         (* req.user, attached by the auth middleware *)
}.

Record Response := mkResponse { rs_status : Z; rs_body : JsVal }.

(** What a controller can throw: a [TypeError], a Mongoose [CastError] with
    its [kind], a Mongoose [ValidationError] of [save()], another error of
    the database driver (a duplicate key, a negative skip), or an [Error]
    the code throws itself ([throw new Error(msg)]). *)
Inductive Err := ETypeError | ECast (kind : string) | EValidation | EMongo | EError (msg : string).

#[export] Instance Err_eq_dec : EqDecision Err.
Proof. solve_decision. Defined.

Inductive Out (A : Type) := OVal (a : A) | OResp (r : Response) | OErr (e : Err).
Arguments OVal {A}. Arguments OResp {A}. Arguments OErr {A}.

Definition CM (S A : Type) : Type := S → Out A * S.

Section cm.
Context {S : Type}.

Definition cret {A} (a : A) : CM S A := λ s, (OVal a, s).

Definition cbind {A B} (m : CM S A) (k : A → CM S B) : CM S B :=
  λ s, match m s with
       | (OVal a, s') => k a s'
       | (OResp r, s') => (OResp r, s')
       | (OErr e, s') => (OErr e, s')
       end.

(** [return res.status(code).json(body)] *)
Definition respond {A} (code : Z) (body : JsVal) : CM S A := λ s, (OResp (mkResponse code body), s).

Definition fail {A} (e : Err) : CM S A := λ s, (OErr e, s).

(** [try { body } catch (err) { handler }] *)
Definition catch_err {A} (body : CM S A) (h : Err → CM S A) : CM S A :=
  λ s, match body s with (OErr e, s') => h e s' | r => r end.

Definition cmodify (f : S → S) : CM S unit := λ s, (OVal tt, f s).
Definition cgets {A} (f : S → A) : CM S A := λ s, (OVal (f s), s).

(** A JavaScript value that may throw a [TypeError] ([None]). *)
Definition clift {A} (o : option A) : CM S A :=
  match o with Some a => cret a | None => fail ETypeError end.

(** The response a controller sends, if any. *)
Definition run_controller (c : CM S unit) (s : S) : option Response * S :=
  match c s with
  | (OResp r, s') => (Some r, s')
  | (_, s') => (None, s')
  end.
End cm.

Declare Scope cm_scope.
Delimit Scope cm_scope with cm.
Notation "x <- m ;; k" := (cbind m (λ x, k))
  (at level 100, m at next level, right associativity) : cm_scope.
Notation "m ;;; k" := (cbind m (λ _, k)) (at level 100, right associativity) : cm_scope.

(** ** Common response bodies *)

Definition msg_body (m : string) : JsVal := JObj [("message", JStr m)].

(** The [catch] of most controllers: 404 with [not_found] for an id that
    does not cast, 500 otherwise. *)
Definition catch_kind {S} (not_found : string) (e : Err) : CM S unit :=
  if bool_decide (e = ECast "ObjectId") then respond 404 (msg_body not_found)
  else respond 500 (msg_body "Server error").

Definition server_error {S} (_ : Err) : CM S unit := respond 500 (msg_body "Server error").

(** ** Query strings and pagination *)

(** [parseInt(v) || d]: [NaN] and [0] give the default. *)
Definition parse_int_or (v : JsVal) (d : Z) : Z :=
  match v with
  | JUndef => d
  | _ => match parseInt (js_to_string v) with Some n => if Z.eqb n 0 then d else n | None => d end
  end.

(** [Math.ceil(a / b)] for [b ≠ 0]; [Z.div] rounds down. *)
Definition ceil_div (a b : Z) : Z := - ((- a) / b).

(** [.skip(n).limit(l)] of a MongoDB cursor: a negative skip is an error of
    the server, a limit of 0 means none and a negative limit [-l] returns [l]
    documents. *)
Definition skip_limit {A} (n l : Z) (xs : list A) : option (list A) :=
  if bool_decide (n < 0)%Z then None
  else let ys := drop (Z.to_nat n) xs in
       Some (if bool_decide (l = 0)%Z then ys else take (Z.to_nat (Z.abs l)) ys).

(** ** express-validator *)

Section checks.
Variable is_email : string → bool.

(** The string a standard validator sees: [undefined] and [null] are the
    empty string. *)
Definition check_string (v : JsVal) : string :=
  match v with JUndef | JNull => EmptyString | _ => js_to_string v end.

Definition field_of (req : Request) (f : string) : JsVal :=
  default JUndef (js_get req.(rq_body) f).

(** [Some (field, msg)] when the check fails. *)
Fixpoint run_check (req : Request) (c : Check) : option (string * string) :=
  match c with
  | NotEmpty f m =>
      if bool_decide (check_string (field_of req f) = EmptyString) then Some (f, m) else None
  | IsLength f m lo hi =>
      let n := String.length (check_string (field_of req f)) in
      if bool_decide (lo ≤ n)%nat && match hi with Some h => bool_decide (n ≤ h)%nat | None => true end
      then None else Some (f, m)
  | IsEmail f m => if is_email (check_string (field_of req f)) then None else Some (f, m)
  | IsIn f m vals =>
      if bool_decide (check_string (field_of req f) ∈ vals) then None else Some (f, m)
  | Exists f m => match field_of req f with JUndef => Some (f, m) | _ => None end
  | Optional c' => match field_of req (check_field c') with JUndef => None | _ => run_check req c' end
  end
with check_field (c : Check) : string :=
  match c with
  | NotEmpty f _ | IsLength f _ _ _ | IsEmail f _ | IsIn f _ _ | Exists f _ => f
  | Optional c' => check_field c'
  end.

(** [validationResult(req).array()], in the order of the chains. *)
Definition run_checks (req : Request) (mws : list Mw) : list (string * string) :=
  omap (λ mw, match mw with MwCheck c => run_check req c | _ => None end) mws.
End checks.

(** [res.status(400).json({ errors: errors.array() })] *)
Definition errors_body (errs : list (string * string)) : JsVal :=
  JObj [("errors", JArr ((λ '(f, m), JObj [("msg", JStr m); ("param", JStr f); ("location", JStr "body")]) <$> errs))].

(** ** Reading the request *)

(** [req.params.name] *)
Definition param (req : Request) (name : string) : JsVal :=
  match list_find (λ kv, kv.1 = name) req.(rq_params) with
  | Some (_, (_, v)) => JStr v
  | None => JUndef
  end.

(** [req.query.name] *)
Definition query (req : Request) (name : string) : JsVal := default JUndef (js_get req.(rq_query) name).

(** ** Pagination *)

(** Chunks of [n] cover a list of at most [T * n] elements. *)
Lemma concat_chunks {A} (n T : nat) (l : list A) :
  length l ≤ T * n → concat ((λ i, take n (drop (i * n) l)) <$> seq 0 T) = l.
Proof.
  revert l. induction T as [|T IH]; intros l Hl; simpl.
  { destruct l; [done|simpl in Hl; lia]. }
  rewrite drop_0, <- fmap_S_seq, <- list_fmap_compose.
  rewrite (list_fmap_ext _ (λ i, take n (drop (i * n) (drop n l))) (seq 0 T)).
  - rewrite IH by (rewrite length_drop; lia). apply take_drop.
  - intros i x _. simpl. by rewrite drop_drop.
Qed.

Lemma ceil_div_spec a b : (0 < b)%Z → (a ≤ ceil_div a b * b)%Z.
Proof.
  intros Hb. unfold ceil_div. pose proof (Z.mul_div_le (- a) b Hb). lia.
Qed.

(** The pages [1 .. Math.ceil(n / limit)] of [skip((page - 1) * limit).limit(limit)]
    concatenate to the whole list. *)
Lemma pages_concat {A} (l : list A) (k : Z) :
  (0 < k)%Z →
  concat ((λ p, default [] (skip_limit ((Z.of_nat p - 1) * k) k l)) <$>
            seq 1 (Z.to_nat (ceil_div (Z.of_nat (length l)) k))) = l.
Proof.
  intros Hk. set (T := Z.to_nat (ceil_div (Z.of_nat (length l)) k)).
  rewrite <- fmap_S_seq, <- list_fmap_compose.
  rewrite (list_fmap_ext _ (λ i, take (Z.to_nat k) (drop (i * Z.to_nat k) l)) (seq 0 T)).
  - apply concat_chunks. pose proof (ceil_div_spec (Z.of_nat (length l)) k Hk).
    subst T. assert (0 ≤ ceil_div (Z.of_nat (length l)) k)%Z by nia. nia.
  - intros i x _. unfold skip_limit. simpl.
    rewrite bool_decide_false by lia. rewrite bool_decide_false by lia. simpl.
    rewrite Z.abs_eq by lia. do 3 f_equal. lia.
Qed.

(** ** Invariants of the state *)

(** [m] keeps [P]: from a state satisfying [P], whatever [m] returns, the
    state it leaves satisfies [P]. *)
Definition preserves {S A} (P : S → Prop) (m : CM S A) : Prop :=
  ∀ s o s', m s = (o, s') → P s → P s'.

Section preserves.
Context {S : Type} (P : S → Prop).

Lemma preserves_ret {A} (a : A) : preserves P (cret a).
Proof. by intros s o s' [= _ <-]. Qed.

Lemma preserves_respond {A} c b : preserves P (respond (A:=A) c b).
Proof. by intros s o s' [= _ <-]. Qed.

Lemma preserves_fail {A} e : preserves P (fail (A:=A) e).
Proof. by intros s o s' [= _ <-]. Qed.

Lemma preserves_cgets {A} (f : S → A) : preserves P (cgets f).
Proof. by intros s o s' [= _ <-]. Qed.

Lemma preserves_clift {A} (o : option A) : preserves P (clift o).
Proof. destruct o; [apply preserves_ret|apply preserves_fail]. Qed.

Lemma preserves_cmodify f : (∀ s, P s → P (f s)) → preserves P (cmodify f).
Proof. intros Hf s o s' [= _ <-]. apply Hf. Qed.

Lemma preserves_bind {A B} (m : CM S A) (k : A → CM S B) :
  preserves P m → (∀ a, preserves P (k a)) → preserves P (cbind m k).
Proof.
  intros Hm Hk s o s' Hrun Hs. unfold cbind in Hrun.
  destruct (m s) as [[a| |] s1] eqn:E; [|injection Hrun as _ <-..].
  - eapply Hk; [exact Hrun|]. by eapply Hm.
  - by eapply Hm.
  - by eapply Hm.
Qed.

Lemma preserves_catch {A} (body : CM S A) h :
  preserves P body → (∀ e, preserves P (h e)) → preserves P (catch_err body h).
Proof.
  intros Hb Hh s o s' Hrun Hs. unfold catch_err in Hrun.
  destruct (body s) as [[| |e] s1] eqn:E; [injection Hrun as _ <-..|].
  - by eapply Hb.
  - by eapply Hb.
  - eapply Hh; [exact Hrun|]. by eapply Hb.
Qed.
End preserves.

Lemma preserves_server_error {S} (P : S → Prop) e : preserves P (server_error e).
Proof. apply preserves_respond. Qed.

Lemma preserves_catch_kind {S} (P : S → Prop) nf e : preserves P (catch_kind nf e).
Proof. unfold catch_kind. case_bool_decide; apply preserves_respond. Qed.

Create HintDb preserves.
#[export] Hint Resolve preserves_ret preserves_respond preserves_fail preserves_cgets
  preserves_clift preserves_server_error preserves_catch_kind : preserves.

(** Split a controller into its steps; what is left are the steps that
    write, for the component's own lemmas. *)
Ltac preserves_steps :=
  repeat (first
    [ solve [eauto with preserves]
    | apply preserves_bind; [|intros ?]
    | apply preserves_catch; [|intros ?]
    | progress cbv zeta
    | case_match ]).
