(* ===== verification/Db.v ===== *)
(** * The database the REST controllers act on

    The MongoDB collections the controllers read and write, as finite maps
    from ids to documents, with the clock ([Date.now()], [new Date()] and
    the [createdAt] of [timestamps: true]) and the counter that produces
    the [_id] of a new document.  A collection is reached through a [Coll]:
    its getter and setter, with the laws of a lens.  [find_by_id] is
    [Model.findById(v)], [save_doc] is [doc.save()], [delete_doc] is
    [doc.remove()]. *)

From S2P Require Import Prelude JsValue Mongoose StreamModel CodeSessionModel UserModel PostModel.
From S2P Require Import CommentModel VideoModel LeaderboardModel BadgeModel NotificationModel Express.

Record Db := mkDb {
  db_users : gmap Id UserDoc;
  db_streams : gmap Id Stream;
  db_sessions : gmap Id CodeSession;
  db_posts : gmap Id Post;
  db_comments : gmap Id Comment;
  db_videos : gmap Id Video;
  db_leaderboards : gmap Id Leaderboard;
  db_badges : gmap Id Badge;
  db_notifications : gmap Id Notification;
  db_now : Z;
  db_seq : N
}.

Section setters.
Variable db : Db.
Definition set_users m :=
  mkDb m db.(db_streams) db.(db_sessions) db.(db_posts) db.(db_comments) db.(db_videos) db.(db_leaderboards) db.(db_badges) db.(db_notifications) db.(db_now) db.(db_seq).
Definition set_db_streams m :=
  mkDb db.(db_users) m db.(db_sessions) db.(db_posts) db.(db_comments) db.(db_videos) db.(db_leaderboards) db.(db_badges) db.(db_notifications) db.(db_now) db.(db_seq).
Definition set_db_sessions m :=
  mkDb db.(db_users) db.(db_streams) m db.(db_posts) db.(db_comments) db.(db_videos) db.(db_leaderboards) db.(db_badges) db.(db_notifications) db.(db_now) db.(db_seq).
Definition set_posts m :=
  mkDb db.(db_users) db.(db_streams) db.(db_sessions) m db.(db_comments) db.(db_videos) db.(db_leaderboards) db.(db_badges) db.(db_notifications) db.(db_now) db.(db_seq).
Definition set_comments m :=
  mkDb db.(db_users) db.(db_streams) db.(db_sessions) db.(db_posts) m db.(db_videos) db.(db_leaderboards) db.(db_badges) db.(db_notifications) db.(db_now) db.(db_seq).
Definition set_videos m :=
  mkDb db.(db_users) db.(db_streams) db.(db_sessions) db.(db_posts) db.(db_comments) m db.(db_leaderboards) db.(db_badges) db.(db_notifications) db.(db_now) db.(db_seq).
Definition set_leaderboards m :=
  mkDb db.(db_users) db.(db_streams) db.(db_sessions) db.(db_posts) db.(db_comments) db.(db_videos) m db.(db_badges) db.(db_notifications) db.(db_now) db.(db_seq).
Definition set_db_badges m :=
  mkDb db.(db_users) db.(db_streams) db.(db_sessions) db.(db_posts) db.(db_comments) db.(db_videos) db.(db_leaderboards) m db.(db_notifications) db.(db_now) db.(db_seq).
Definition set_notifications m :=
  mkDb db.(db_users) db.(db_streams) db.(db_sessions) db.(db_posts) db.(db_comments) db.(db_videos) db.(db_leaderboards) db.(db_badges) m db.(db_now) db.(db_seq).
Definition set_now m :=
  mkDb db.(db_users) db.(db_streams) db.(db_sessions) db.(db_posts) db.(db_comments) db.(db_videos) db.(db_leaderboards) db.(db_badges) db.(db_notifications) m db.(db_seq).
Definition set_seq m :=
  mkDb db.(db_users) db.(db_streams) db.(db_sessions) db.(db_posts) db.(db_comments) db.(db_videos) db.(db_leaderboards) db.(db_badges) db.(db_notifications) db.(db_now) m.
End setters.

(** A collection: where its documents are in the database. *)
Record Coll (A : Type) := mkColl { coll_get : Db → gmap Id A; coll_set : Db → gmap Id A → Db }.
Arguments mkColl {A}. Arguments coll_get {A}. Arguments coll_set {A}.

Definition Users : Coll UserDoc := mkColl db_users set_users.
Definition Streams : Coll Stream := mkColl db_streams set_db_streams.
Definition Sessions : Coll CodeSession := mkColl db_sessions set_db_sessions.
Definition Posts : Coll Post := mkColl db_posts set_posts.
Definition Comments : Coll Comment := mkColl db_comments set_comments.
Definition Videos : Coll Video := mkColl db_videos set_videos.
Definition Leaderboards : Coll Leaderboard := mkColl db_leaderboards set_leaderboards.
Definition Badges : Coll Badge := mkColl db_badges set_db_badges.
Definition Notifications : Coll Notification := mkColl db_notifications set_notifications.

(** The lens laws every collection satisfies. *)
Class CollLaws {A} (c : Coll A) := {
  coll_get_set db m : c.(coll_get) (c.(coll_set) db m) = m;
  coll_set_get db : c.(coll_set) db (c.(coll_get) db) = db;
  coll_set_set db m1 m2 : c.(coll_set) (c.(coll_set) db m1) m2 = c.(coll_set) db m2;
  coll_now_set db m : db_now (c.(coll_set) db m) = db_now db;
  coll_seq_set db m : db_seq (c.(coll_set) db m) = db_seq db
}.

#[export] Instance Users_laws : CollLaws Users.
Proof. split; intros []; reflexivity. Qed.
#[export] Instance Streams_laws : CollLaws Streams.
Proof. split; intros []; reflexivity. Qed.
#[export] Instance Sessions_laws : CollLaws Sessions.
Proof. split; intros []; reflexivity. Qed.
#[export] Instance Posts_laws : CollLaws Posts.
Proof. split; intros []; reflexivity. Qed.
#[export] Instance Comments_laws : CollLaws Comments.
Proof. split; intros []; reflexivity. Qed.
#[export] Instance Videos_laws : CollLaws Videos.
Proof. split; intros []; reflexivity. Qed.
#[export] Instance Leaderboards_laws : CollLaws Leaderboards.
Proof. split; intros []; reflexivity. Qed.
#[export] Instance Badges_laws : CollLaws Badges.
Proof. split; intros []; reflexivity. Qed.
#[export] Instance Notifications_laws : CollLaws Notifications.
Proof. split; intros []; reflexivity. Qed.

Section ops.
Context {A : Type} (c : Coll A).

(** [Model.findById(v)]: [undefined]/[null] find nothing, a value that
    does not cast to an ObjectId throws a [CastError] of kind ['ObjectId']. *)
Definition find_by_id (v : JsVal) : CM Db (option (Id * A)) :=
  match v with
  | JUndef | JNull => cret None
  | JStr s =>
      if object_id_castable s then cgets (λ db, (λ d, (s, d)) <$> c.(coll_get) db !! s)
      else fail (ECast "ObjectId")
  | _ => fail (ECast "ObjectId")
  end.

Definition save_doc (id : Id) (d : A) : CM Db unit :=
  cmodify (λ db, c.(coll_set) db (<[id := d]> (c.(coll_get) db))).

Definition delete_doc (id : Id) : CM Db unit :=
  cmodify (λ db, c.(coll_set) db (delete id (c.(coll_get) db))).

(** [Model.deleteMany(filter)] *)
Definition delete_where (P : Id * A → bool) : CM Db unit :=
  cmodify (λ db, c.(coll_set) db (filter (λ kv, P kv = false) (c.(coll_get) db))).

(** [Model.find(filter)] in the order of the collection. *)
Definition find_all (P : Id * A → bool) : CM Db (list (Id * A)) :=
  cgets (λ db, filter (λ kv, P kv = true) (map_to_list (c.(coll_get) db))).

(** [Model.findOne(filter)]: the first match in the order of the collection. *)
Definition find_one (P : Id * A → bool) : CM Db (option (Id * A)) :=
  cgets (λ db, head (filter (λ kv, P kv = true) (map_to_list (c.(coll_get) db)))).

(** [Model.countDocuments(filter)]. *)
Definition count_where (P : Id * A → bool) : CM Db Z :=
  cgets (λ db, Z.of_nat (length (filter (λ kv, P kv = true) (map_to_list (c.(coll_get) db))))).

(** [Model.updateMany(filter, update)]. *)
Definition update_where (P : Id * A → bool) (f : A → A) : CM Db unit :=
  cmodify (λ db, c.(coll_set) db (map_imap (λ i x, Some (if P (i, x) then f x else x)) (c.(coll_get) db))).
End ops.

(** A filter condition [{ path: v }] on a document's field [fld] (a string
    value is compared with a stored string; an [undefined] value is
    dropped from the filter and matches every document). *)
Definition filter_eq (fld : option JsVal) (v : JsVal) : bool :=
  match v, fld with
  | JUndef, _ => true
  | JStr s, Some (JStr t) => String.eqb t s
  | _, _ => false
  end.

(** The empty database at time [t]. *)
Definition empty_db (t : Z) : Db := mkDb ∅ ∅ ∅ ∅ ∅ ∅ ∅ ∅ ∅ t 0.

(** The [_id] a new document gets, and the clock. *)
Definition new_id : CM Db Id := λ db, (OVal (oid_of db.(db_seq)), set_seq db (db.(db_seq) + 1)%N).
Definition cnow : CM Db Z := cgets db_now.

(** [doc.save()] of a document whose schema constraints fail rejects with
    a [ValidationError]. *)
Definition validate (b : bool) : CM Db unit := if b then cret tt else fail EValidation.

(** Saving a document twice, the second time as it was at first, leaves
    the database as it was. *)
Lemma save_twice_restores {A} (c : Coll A) `{!CollLaws c} db id x y :
  c.(coll_get) db !! id = Some x →
  c.(coll_set) (c.(coll_set) db (<[id := y]> (c.(coll_get) db)))
    (<[id := x]> (<[id := y]> (c.(coll_get) db))) = db.
Proof.
  intros Hx. rewrite coll_set_set, insert_insert_eq, insert_id by done. apply coll_set_get.
Qed.

(** [findById(s)] of the id of a stored document. *)
Lemma find_by_id_stored {A} (c : Coll A) db s x :
  object_id_castable s = true → c.(coll_get) db !! s = Some x →
  find_by_id c (JStr s) db = (OVal (Some (s, x)), db).
Proof. intros Hc Hs. unfold find_by_id, cgets. rewrite Hc. simpl. by rewrite Hs. Qed.

(** [findById(s)] of an id that casts but names no document. *)
Lemma find_by_id_missing {A} (c : Coll A) db s :
  object_id_castable s = true → c.(coll_get) db !! s = None →
  find_by_id c (JStr s) db = (OVal None, db).
Proof. intros Hc Hs. unfold find_by_id, cgets. rewrite Hc. simpl. by rewrite Hs. Qed.

(** [findById(req.params.id)] of a stored document. *)
Lemma find_by_id_param {A} (c : Coll A) db req id x :
  param req "id" = JStr id → object_id_castable id = true → c.(coll_get) db !! id = Some x →
  find_by_id c (param req "id") db = (OVal (Some (id, x)), db).
Proof. intros Hp Hc Hs. rewrite Hp. unfold find_by_id, cgets. rewrite Hc. simpl. by rewrite Hs. Qed.

(** What [findOne] finds: a stored document that matches, or nothing
    when no document matches. *)
Lemma find_one_spec {A} (c : Coll A) P db :
  match head (filter (λ kv, P kv = true) (map_to_list (c.(coll_get) db))) with
  | Some (i, x) => c.(coll_get) db !! i = Some x ∧ P (i, x) = true
  | None => ∀ i x, c.(coll_get) db !! i = Some x → P (i, x) = false
  end.
Proof.
  destruct (filter _ _) as [|[i x] l] eqn:E; simpl.
  - intros i x Hx. apply not_true_is_false. intros HP.
    assert ((i, x) ∈ filter (λ kv, P kv = true) (map_to_list (c.(coll_get) db))) as Hin.
    { apply list_elem_of_filter. by rewrite elem_of_map_to_list. }
    rewrite E in Hin. set_solver.
  - assert ((i, x) ∈ filter (λ kv, P kv = true) (map_to_list (c.(coll_get) db))) as Hin
      by (rewrite E; set_solver).
    apply list_elem_of_filter in Hin as [HP Hin]. by rewrite elem_of_map_to_list in Hin.
Qed.

(** ** Invariants of the database *)

Section db_preserves.
Context (P : Db → Prop).

Lemma preserves_find_by_id {A} (c : Coll A) v : preserves P (find_by_id c v).
Proof. unfold find_by_id. repeat case_match; eauto with preserves. Qed.

Lemma preserves_find_all {A} (c : Coll A) Q : preserves P (find_all c Q).
Proof. apply preserves_cgets. Qed.

Lemma preserves_find_one {A} (c : Coll A) Q : preserves P (find_one c Q).
Proof. apply preserves_cgets. Qed.

Lemma preserves_count_where {A} (c : Coll A) Q : preserves P (count_where c Q).
Proof. apply preserves_cgets. Qed.

Lemma preserves_cnow : preserves P cnow.
Proof. apply preserves_cgets. Qed.

Lemma preserves_validate b : preserves P (validate b).
Proof. unfold validate. case_match; eauto with preserves. Qed.

Lemma preserves_new_id : (∀ db n, P db → P (set_seq db n)) → preserves P new_id.
Proof. intros HP db o db' [= _ <-]. apply HP. Qed.

Lemma preserves_save {A} (c : Coll A) id x :
  (∀ db, P db → P (c.(coll_set) db (<[id := x]> (c.(coll_get) db)))) → preserves P (save_doc c id x).
Proof. apply preserves_cmodify. Qed.
End db_preserves.

#[export] Hint Resolve preserves_find_by_id preserves_find_all preserves_find_one
  preserves_count_where preserves_cnow preserves_validate : preserves.

(** ** Running controllers symbolically *)

Ltac unfold_cm :=
  unfold find_by_id, save_doc, delete_doc, delete_where, find_all, find_one, count_where, update_where in *;
  unfold new_id, cnow, validate in *;
  unfold clift, catch_kind, server_error in *;
  unfold cbind, cret, respond, fail, catch_err, cmodify, cgets in *.

Ltac crun :=
  unfold_cm; simpl in *;
  repeat (first [progress (repeat hrewrite; simpl) | progress simpl_map | case_match | case_bool_decide];
          simplify_option_eq; try congruence; try push_unique_contra);
  try done.
