(* ===== verification/PostController.v ===== *)
(** * The post controller ([controllers/post.controller.js])

    Each exported controller as a computation of [CM Db]: the validation
    result of the route's chain is its argument [errs], [req] the request.
    The theorems show the ownership checks of update and delete, that a
    like is recorded once and an unlike undoes it, the pagination of the
    listings (the pages of [getPosts] partition the posts, newest first)
    and the errors of out-of-range query parameters. *)

From S2P Require Import Prelude JsValue Mongoose Transport UserModel PostModel Express Db.
From stdpp Require Import sorting.
Local Open Scope cm_scope.

(** [new Post({ user, content, mediaUrls: mediaUrls || [], tags: tags || [] })]:
    [None] when a value does not cast. *)
Definition build_post (user : Id) (content mediaUrls tags : JsVal) (t : Z) : option Post :=
  c ← cast_string_value content;
  ms ← (if truthy mediaUrls then cast_string_array mediaUrls else Some []);
  ts ← (if truthy tags then cast_trimmed_array tags else Some []);
  Some (mkPost user c ms [] [] ts false t).

(** [.sort({ createdAt: -1 })] *)
Definition newer_first (a b : Id * Post) : Prop := (b.2.(p_createdAt) ≤ a.2.(p_createdAt))%Z.

#[export] Instance newer_first_dec : RelDecision newer_first.
Proof. intros a b. unfold newer_first. apply _. Defined.

Definition posts_json (ps : list (Id * Post)) : JsVal := JArr ((λ '(id, p), post_json id p) <$> ps).

(** [{ posts, currentPage, totalPages: Math.ceil(total / limit), totalPosts }] *)
Definition page_body (ps : list (Id * Post)) (page limit total : Z) : JsVal :=
  JObj [("posts", posts_json ps); ("currentPage", JNum page);
        ("totalPages", JNum (ceil_div total limit)); ("totalPosts", JNum total)].

(** The listing shared by [getPosts], [getPostsByTag] and [getFeed]:
    [Post.find(filter).sort({ createdAt: -1 }).skip(skip).limit(limit)]
    and [Post.countDocuments(filter)]. *)
Definition posts_page (all : list (Id * Post)) (page limit : Z) : option (list (Id * Post)) :=
  skip_limit ((page - 1) * limit)%Z limit (merge_sort newer_first all).

Definition list_posts (P : Id * Post → bool) (req : Request) : CM Db unit :=
  let page := parse_int_or (query req "page") 1 in
  let limit := parse_int_or (query req "limit") 10 in
  all <- find_all Posts P ;;
  match posts_page all page limit with
  | None => fail EMongo
  | Some ps => respond 200 (page_body ps page limit (Z.of_nat (length all)))
  end.

Section controllers.
Variable errs : list (string * string).
Variable req : Request.
Let uid := req.(rq_user).(user_id).

(** [exports.createPost] *)
Definition createPost : CM Db unit :=
  if bool_decide (errs ≠ []) then respond 400 (errors_body errs) else
  catch_err
    (content <- clift (js_get req.(rq_body) "content") ;;
     mediaUrls <- clift (js_get req.(rq_body) "mediaUrls") ;;
     tags <- clift (js_get req.(rq_body) "tags") ;;
     t <- cnow ;;
     id <- new_id ;;
     match build_post uid content mediaUrls tags t with
     | None => fail EValidation
     | Some p =>
         validate (post_valid p) ;;;
         save_doc Posts id p ;;;
         respond 201 (post_json id p)
     end)
    server_error.

(** [exports.getPosts] *)
Definition getPosts : CM Db unit := catch_err (list_posts (λ _, true) req) server_error.

(** [exports.getPostsByTag]: [Post.find({ tags: tag })]. *)
Definition getPostsByTag : CM Db unit :=
  catch_err (list_posts (λ kv, bool_decide (js_to_string (param req "tag") ∈ kv.2.(p_tags))) req)
    server_error.

(** [exports.getTrendingPosts] *)
Definition getTrendingPosts : CM Db unit :=
  catch_err
    (let limit := parse_int_or (query req "limit") 10 in
     all <- find_all Posts (λ _, true) ;;
     match findTrending limit all with
     | None => fail EMongo
     | Some ps => respond 200 (posts_json ps)
     end)
    server_error.

(** [exports.getPostById] *)
Definition getPostById : CM Db unit :=
  catch_err
    (found <- find_by_id Posts (param req "id") ;;
     match found with
     | None => respond 404 (msg_body "Post not found")
     | Some (id, p) => respond 200 (post_json id p)
     end)
    (catch_kind "Post not found").

(** [exports.updatePost] *)
Definition updatePost : CM Db unit :=
  if bool_decide (errs ≠ []) then respond 400 (errors_body errs) else
  catch_err
    (content <- clift (js_get req.(rq_body) "content") ;;
     mediaUrls <- clift (js_get req.(rq_body) "mediaUrls") ;;
     tags <- clift (js_get req.(rq_body) "tags") ;;
     found <- find_by_id Posts (param req "id") ;;
     match found with
     | None => respond 404 (msg_body "Post not found")
     | Some (id, p) =>
         if bool_decide (p.(p_user) ≠ uid) then respond 401 (msg_body "User not authorized") else
         match (if truthy content then cast_string_value content else Some p.(p_content)),
               (if truthy mediaUrls then cast_string_array mediaUrls else Some p.(p_mediaUrls)),
               (if truthy tags then cast_trimmed_array tags else Some p.(p_tags)) with
         | Some c, Some ms, Some ts =>
             let p' := set_post_fields p c ms ts in
             validate (post_valid p') ;;;
             save_doc Posts id p' ;;;
             respond 200 (post_json id p')
         | _, _, _ => fail EValidation
         end
     end)
    (catch_kind "Post not found").

(** [exports.deletePost] *)
Definition deletePost : CM Db unit :=
  catch_err
    (found <- find_by_id Posts (param req "id") ;;
     match found with
     | None => respond 404 (msg_body "Post not found")
     | Some (id, p) =>
         if bool_decide (p.(p_user) ≠ uid) then respond 401 (msg_body "User not authorized") else
         delete_doc Posts id ;;;
         respond 200 (msg_body "Post removed")
     end)
    (catch_kind "Post not found").

(** [exports.likePost] *)
Definition likePost : CM Db unit :=
  catch_err
    (found <- find_by_id Posts (param req "id") ;;
     match found with
     | None => respond 404 (msg_body "Post not found")
     | Some (id, p) =>
         if bool_decide (uid ∈ p.(p_likes)) then respond 400 (msg_body "Post already liked") else
         let p' := addLike uid p in
         save_doc Posts id p' ;;;
         respond 200 (ids_json p'.(p_likes))
     end)
    (catch_kind "Post not found").

(** [exports.unlikePost] *)
Definition unlikePost : CM Db unit :=
  catch_err
    (found <- find_by_id Posts (param req "id") ;;
     match found with
     | None => respond 404 (msg_body "Post not found")
     | Some (id, p) =>
         if bool_decide (uid ∉ p.(p_likes)) then respond 400 (msg_body "Post has not yet been liked") else
         let p' := removeLike uid p in
         save_doc Posts id p' ;;;
         respond 200 (ids_json p'.(p_likes))
     end)
    (catch_kind "Post not found").

(** [exports.getFeed]: the posts of the users followed, and the user's own. *)
Definition getFeed : CM Db unit :=
  catch_err
    (found <- find_by_id Users (JStr uid) ;;
     match found with
     | None => respond 404 (msg_body "User not found")
     | Some (me, u) =>
         let following := u.(u_following) ++ [me] in
         list_posts (λ kv, bool_decide (kv.2.(p_user) ∈ following)) req
     end)
    server_error.
End controllers.

(** ** Runs of the post controllers *)

Section post_runs.
Implicit Types (db : Db) (req : Request).

Lemma find_post_some db req id p :
  param req "id" = JStr id → object_id_castable id = true → db.(db_posts) !! id = Some p →
  find_by_id Posts (param req "id") db = (OVal (Some (id, p)), db).
Proof. intros Hp Hc Hs. rewrite Hp. unfold find_by_id, cgets. rewrite Hc. simpl. by rewrite Hs. Qed.

Lemma save_post_db db id p : snd (save_doc Posts id p db) = set_posts db (<[id := p]> db.(db_posts)).
Proof. reflexivity. Qed.

Lemma list_posts_run P req db :
  list_posts P req db =
    (match posts_page (filter (λ kv, P kv = true) (map_to_list db.(db_posts)))
             (parse_int_or (query req "page") 1) (parse_int_or (query req "limit") 10) with
     | None => OErr EMongo
     | Some ps => OResp (mkResponse 200 (page_body ps (parse_int_or (query req "page") 1)
                                          (parse_int_or (query req "limit") 10)
                                          (Z.of_nat (length (filter (λ kv, P kv = true)
                                                                   (map_to_list db.(db_posts)))))))
     end, db).
Proof. unfold list_posts. unfold_cm. simpl. by case_match. Qed.

Lemma newer_first_total : Total newer_first.
Proof. intros a b. unfold newer_first. lia. Qed.
End post_runs.

(** ** Properties of the post controllers *)

Section post_props.
Implicit Types (db : Db) (req : Request).

(** C24: [updatePost] and [deletePost] of an existing post by a user who
    is not its author answer 401 "User not authorized" and leave the
    database as it was. *)
Theorem post_mutation_requires_author db req id p fs :
  req.(rq_body) = JObj fs → param req "id" = JStr id → object_id_castable id = true →
  db.(db_posts) !! id = Some p → p.(p_user) ≠ req.(rq_user).(user_id) →
  updatePost [] req db = (OResp (mkResponse 401 (msg_body "User not authorized")), db) ∧
  deletePost req db = (OResp (mkResponse 401 (msg_body "User not authorized")), db).
Proof.
  intros Hb Hp Hc Hs Hu. split.
  - unfold updatePost. rewrite bool_decide_false by tauto. rewrite Hb, Hp. crun.
  - unfold deletePost. rewrite Hp. crun.
Qed.

(** a like by a user who has not liked the post records the user
    once, and the unlike that follows restores the database exactly; a
    second like is refused with 400 "Post already liked". *)
Theorem like_then_unlike_restores db req id p :
  param req "id" = JStr id → object_id_castable id = true →
  db.(db_posts) !! id = Some p → req.(rq_user).(user_id) ∉ p.(p_likes) →
  let '(r1, db1) := likePost req db in
  r1 = OResp (mkResponse 200 (ids_json (p.(p_likes) ++ [req.(rq_user).(user_id)]))) ∧
  likePost req db1 = (OResp (mkResponse 400 (msg_body "Post already liked")), db1) ∧
  unlikePost req db1 = (OResp (mkResponse 200 (ids_json p.(p_likes))), db).
Proof.
  intros Hp Hc Hs Hu. unfold likePost at 1. rewrite Hp. crun.
  rewrite push_unique_absent by done. split_and!; [done| |].
  - unfold likePost. rewrite Hp. crun.
  - unfold unlikePost. rewrite Hp. crun.
    rewrite remove_all_push_unique, removeLike_addLike by done.
    f_equal. by apply (save_twice_restores Posts).
Qed.
End post_props.

Section post_pages.
Implicit Types (db : Db) (req : Request).

(** [GET /api/posts?page=p&limit=l] with [p, l ≥ 1] answers 200 with
    the posts of ranks [(p-1)·l .. p·l - 1] in the order newest first, the
    page, [Math.ceil(total / l)] and the total, and changes nothing. *)
Theorem get_posts_page db req page limit :
  parse_int_or (query req "page") 1 = page → parse_int_or (query req "limit") 10 = limit →
  (1 ≤ page)%Z → (1 ≤ limit)%Z →
  getPosts req db =
    (OResp (mkResponse 200
       (page_body (take (Z.to_nat limit)
                     (drop (Z.to_nat ((page - 1) * limit)) (merge_sort newer_first (map_to_list db.(db_posts)))))
          page limit (Z.of_nat (length (map_to_list db.(db_posts)))))), db).
Proof.
  intros Hp Hl H1 H2. unfold getPosts, catch_err. rewrite list_posts_run, filter_all_id, Hp, Hl by done.
  unfold posts_page, skip_limit. rewrite !bool_decide_false by nia. rewrite Z.abs_eq by lia. done.
Qed.

(** for any [limit ≥ 1], the pages [1 .. totalPages] of a listing,
    put end to end, hold every post of the listing exactly once, newest
    first: no post is skipped or repeated across pages. *)
Theorem posts_pages_partition (all : list (Id * Post)) limit :
  (0 < limit)%Z →
  let pages := (λ p, default [] (posts_page all (Z.of_nat p) limit)) <$>
                 seq 1 (Z.to_nat (ceil_div (Z.of_nat (length all)) limit)) in
  concat pages ≡ₚ all ∧ Sorted newer_first (concat pages).
Proof.
  intros Hl pages. subst pages. unfold posts_page.
  rewrite <- (Permutation_length (merge_sort_Permutation newer_first all)), pages_concat by done.
  split; [apply merge_sort_Permutation|]. apply Sorted_merge_sort, newer_first_total.
Qed.

(** a negative [page] (with a positive [limit]) makes the skip
    negative; MongoDB rejects the query and the client gets 500 "Server
    error", not a validation error; nothing changes. *)
Theorem get_posts_negative_page db req page limit :
  parse_int_or (query req "page") 1 = page → parse_int_or (query req "limit") 10 = limit →
  (page ≤ -1)%Z → (1 ≤ limit)%Z →
  getPosts req db = (OResp (mkResponse 500 (msg_body "Server error")), db).
Proof.
  intros Hp Hl H1 H2. unfold getPosts, catch_err. rewrite list_posts_run, Hp, Hl.
  unfold posts_page, skip_limit. rewrite bool_decide_true by nia. done.
Qed.
End post_pages.

Module PostExamples.
Definition ex_p1 : Id := "5f00000000000000000000a1".
Definition ex_p2 : Id := "5f00000000000000000000a2".
Definition ex_post (t : Z) : Post := mkPost "u1" "hello" [] [] [] [] false t.
Definition ex_db : Db := set_posts (empty_db 1000) {[ex_p1 := ex_post 10; ex_p2 := ex_post 20]}.
Definition ex_req (q : JsVal) : Request := mkRequest [("id", ex_p1)] q (JObj []) (mkUser "u2" "bob").
Definition ex_query (page limit : string) : JsVal := JObj [("page", JStr page); ("limit", JStr limit)].

Lemma post_mutation_requires_author_witness :
  updatePost [] (ex_req (JObj [])) ex_db = (OResp (mkResponse 401 (msg_body "User not authorized")), ex_db) ∧
  deletePost (ex_req (JObj [])) ex_db = (OResp (mkResponse 401 (msg_body "User not authorized")), ex_db).
Proof.
  apply (post_mutation_requires_author ex_db (ex_req (JObj [])) ex_p1 (ex_post 10) []);
    try reflexivity; discriminate.
Defined.

Lemma like_then_unlike_restores_witness :
  let '(r1, db1) := likePost (ex_req (JObj [])) ex_db in
  r1 = OResp (mkResponse 200 (ids_json ["u2"])) ∧
  likePost (ex_req (JObj [])) db1 = (OResp (mkResponse 400 (msg_body "Post already liked")), db1) ∧
  unlikePost (ex_req (JObj [])) db1 = (OResp (mkResponse 200 (ids_json [])), ex_db).
Proof.
  apply (like_then_unlike_restores ex_db (ex_req (JObj [])) ex_p1 (ex_post 10)); try reflexivity.
  apply not_elem_of_nil.
Defined.

Lemma get_posts_page_witness :
  getPosts (ex_req (ex_query "2" "1")) ex_db =
    (OResp (mkResponse 200
       (page_body (take 1 (drop 1 (merge_sort newer_first (map_to_list ex_db.(db_posts)))))
          2 1 (Z.of_nat (length (map_to_list ex_db.(db_posts)))))), ex_db).
Proof. apply (get_posts_page ex_db _ 2 1); reflexivity || lia. Defined.

Lemma posts_pages_partition_witness :
  let all := map_to_list ex_db.(db_posts) in
  let pages := (λ p, default [] (posts_page all (Z.of_nat p) 1)) <$>
                 seq 1 (Z.to_nat (ceil_div (Z.of_nat (length all)) 1)) in
  concat pages ≡ₚ all ∧ Sorted newer_first (concat pages).
Proof. apply (posts_pages_partition (map_to_list ex_db.(db_posts)) 1). lia. Defined.

Lemma get_posts_negative_page_witness :
  getPosts (ex_req (ex_query "-1" "5")) ex_db = (OResp (mkResponse 500 (msg_body "Server error")), ex_db).
Proof. apply (get_posts_negative_page ex_db _ (-1) 5); reflexivity || lia. Defined.
End PostExamples.
