(* ===== verification/StreamController.v ===== *)
(** * The stream controller ([controllers/stream.controller.js])

    Each exported controller as a computation of [CM Db].  The lifecycle of
    a stream through the REST API is [startStream] (any status but live to
    live) and [endStream] (live to ended); the theorems give the exact
    transitions, the ownership checks, and the two-way link [createCodeSession]
    sets between a stream and its new session. *)

From S2P Require Import Prelude JsValue Mongoose Transport StreamModel CodeSessionModel Express Db.
From stdpp Require Import sorting.
Local Open Scope cm_scope.

(** [new Stream({ user, title, description, tags: tags || [], status, startedAt })]:
    [status] is ['scheduled'] when [scheduledFor] is truthy, else ['live']
    with [startedAt = new Date()]; [scheduledFor] itself is not a path of
    the schema and is dropped. *)
Definition build_stream (user : Id) (title description tags scheduledFor : JsVal) (t : Z) : option Stream :=
  ti ← cast_string_value title;
  de ← (match description with JUndef => Some "" | _ => cast_string_value description end);
  ts ← (if truthy tags then cast_trimmed_array tags else Some []);
  let sched := truthy scheduledFor in
  Some (mkStream user (trim_string ti) de (if sched then Scheduled else Live) (if sched then None else Some t)
          None None [] [] ts [] [] t).

(** [.sort({ startedAt: -1 })]: later first, streams never started last. *)
Definition started_later_first (a b : Id * Stream) : Prop :=
  match a.2.(s_startedAt), b.2.(s_startedAt) with
  | Some x, Some y => (y ≤ x)%Z
  | Some _, None | None, None => True
  | None, Some _ => False
  end.

#[export] Instance started_later_first_dec : RelDecision started_later_first.
Proof. intros a b. unfold started_later_first. destruct (s_startedAt a.2), (s_startedAt b.2); apply _. Defined.

(** [.sort({ status: 1, startedAt: -1 })] on scheduled and live streams:
    ['live'] sorts before ['scheduled']. *)
Definition status_then_started (a b : Id * Stream) : Prop :=
  (a.2.(s_status) = Live ∧ b.2.(s_status) ≠ Live) ∨
  ((a.2.(s_status) = Live ↔ b.2.(s_status) = Live) ∧ started_later_first a b).

#[export] Instance status_then_started_dec : RelDecision status_then_started.
Proof. intros a b. unfold status_then_started. apply _. Defined.

Definition streams_json (ss : list (Id * Stream)) : JsVal := JArr ((λ '(id, s), stream_json id s) <$> ss).

Section controllers.
Variable errs : list (string * string).
Variable req : Request.
Let uid := req.(rq_user).(user_id).

(** [exports.createStream] *)
Definition createStream : CM Db unit :=
  if bool_decide (errs ≠ []) then respond 400 (errors_body errs) else
  catch_err
    (title <- clift (js_get req.(rq_body) "title") ;;
     description <- clift (js_get req.(rq_body) "description") ;;
     tags <- clift (js_get req.(rq_body) "tags") ;;
     scheduledFor <- clift (js_get req.(rq_body) "scheduledFor") ;;
     t <- cnow ;;
     id <- new_id ;;
     match build_stream uid title description tags scheduledFor t with
     | None => fail EValidation
     | Some s =>
         validate (stream_valid s) ;;;
         save_doc Streams id s ;;;
         respond 201 (stream_json id s)
     end)
    server_error.

(** [exports.getActiveStreams] *)
Definition getActiveStreams : CM Db unit :=
  catch_err
    (ss <- find_all Streams (λ kv, is_live kv.2) ;;
     respond 200 (streams_json (merge_sort started_later_first ss)))
    server_error.

(** [exports.getStreamsByTag] *)
Definition getStreamsByTag : CM Db unit :=
  catch_err
    (let tag := js_to_string (param req "tag") in
     ss <- find_all Streams (λ kv, bool_decide (tag ∈ kv.2.(s_tags)) &&
                                  bool_decide (kv.2.(s_status) ∈ [Scheduled; Live])) ;;
     respond 200 (streams_json (merge_sort status_then_started ss)))
    server_error.

(** [exports.getStreamById] *)
Definition getStreamById : CM Db unit :=
  catch_err
    (found <- find_by_id Streams (param req "id") ;;
     match found with
     | None => respond 404 (msg_body "Stream not found")
     | Some (id, s) => respond 200 (stream_json id s)
     end)
    (catch_kind "Stream not found").

(** The lookup and ownership check that open the mutating controllers. *)
Definition owned_stream (k : Id → Stream → CM Db unit) : CM Db unit :=
  found <- find_by_id Streams (param req "id") ;;
  match found with
  | None => respond 404 (msg_body "Stream not found")
  | Some (id, s) =>
      if bool_decide (s.(s_user) ≠ uid) then respond 401 (msg_body "User not authorized") else k id s
  end.

(** [exports.updateStream] *)
Definition updateStream : CM Db unit :=
  if bool_decide (errs ≠ []) then respond 400 (errors_body errs) else
  catch_err
    (title <- clift (js_get req.(rq_body) "title") ;;
     description <- clift (js_get req.(rq_body) "description") ;;
     tags <- clift (js_get req.(rq_body) "tags") ;;
     owned_stream (λ id s,
       match (if truthy title then trim_string <$> cast_string_value title else Some s.(s_title)),
             (if truthy description then cast_string_value description else Some s.(s_description)),
             (if truthy tags then cast_trimmed_array tags else Some s.(s_tags)) with
       | Some ti, Some de, Some ts =>
           let s' := mkStream s.(s_user) ti de s.(s_status) s.(s_startedAt) s.(s_endedAt)
                       s.(s_recordingUrl) s.(s_viewers) s.(s_comments) ts s.(s_polls) s.(s_codeSessions) s.(s_createdAt) in
           validate (stream_valid s') ;;;
           save_doc Streams id s' ;;;
           respond 200 (stream_json id s')
       | _, _, _ => fail EValidation
       end))
    (catch_kind "Stream not found").

(** [exports.startStream]: refused only when the stream is already live. *)
Definition startStream_ctl : CM Db unit :=
  catch_err
    (owned_stream (λ id s,
       if bool_decide (s.(s_status) = Live) then respond 400 (msg_body "Stream is already live") else
       t <- cnow ;;
       let s' := startStream t s in
       save_doc Streams id s' ;;;
       respond 200 (stream_json id s')))
    (catch_kind "Stream not found").

(** [exports.endStream]: only a live stream ends; a truthy [recordingUrl]
    is stored by a second [save()]. *)
Definition endStream_ctl : CM Db unit :=
  catch_err
    (owned_stream (λ id s,
       if bool_decide (s.(s_status) ≠ Live) then respond 400 (msg_body "Stream is not live") else
       t <- cnow ;;
       let s' := endStream t s in
       save_doc Streams id s' ;;;
       url <- clift (js_get req.(rq_body) "recordingUrl") ;;
       if truthy url then
         match cast_string_value url with
         | None => fail EValidation
         | Some u =>
             let s'' := set_recordingUrl s' (Some u) in
             save_doc Streams id s'' ;;;
             respond 200 (stream_json id s'')
         end
       else respond 200 (stream_json id s')))
    (catch_kind "Stream not found").

(** [exports.createCodeSession] *)
Definition createCodeSession : CM Db unit :=
  if bool_decide (errs ≠ []) then respond 400 (errors_body errs) else
  catch_err
    (title <- clift (js_get req.(rq_body) "title") ;;
     language <- clift (js_get req.(rq_body) "language") ;;
     initialCode <- clift (js_get req.(rq_body) "initialCode") ;;
     owned_stream (λ sid s,
       t <- cnow ;;
       cid <- new_id ;;
       match cast_string_value title, cast_string_value language,
             (if truthy initialCode then cast_string_value initialCode else Some "") with
       | Some ti, Some la, Some code =>
           let c := new_session (Some sid) (trim_string ti) (trim_string la) (Some code) uid t in
           validate (session_valid c) ;;;
           save_doc Sessions cid c ;;;
           save_doc Streams sid (addCodeSession cid s) ;;;
           respond 201 (session_json cid c)
       | _, _, _ => fail EValidation
       end))
    (catch_kind "Stream not found").

(** [exports.handleSignaling]: echoes the signal back; nothing is sent. *)
Definition handleSignaling : CM Db unit :=
  catch_err
    (signal <- clift (js_get req.(rq_body) "signal") ;;
     targetUserId <- clift (js_get req.(rq_body) "targetUserId") ;;
     if negb (truthy signal) then respond 400 (msg_body "Signal data is required") else
     found <- find_by_id Streams (param req "id") ;;
     match found with
     | None => respond 404 (msg_body "Stream not found")
     | Some (id, s) =>
         if bool_decide (s.(s_status) ≠ Live) then respond 400 (msg_body "Stream is not live") else
         t <- cnow ;;
         respond 200 (JObj [("signal", signal); ("from", JStr uid);
                            ("fromUsername", JStr req.(rq_user).(username)); ("to", targetUserId);
                            ("streamId", JStr id); ("timestamp", JNum t)])
     end)
    (catch_kind "Stream not found").
End controllers.

(** ** The lifecycle of a stream *)

(** The status changes the REST API makes: [startStream] from any status
    but live, [endStream] from live. *)
Inductive status_step : StreamStatus → StreamStatus → Prop :=
  | step_start st : st ≠ Live → status_step st Live
  | step_end : status_step Live Ended.

Section stream_props.
Implicit Types (db : Db) (req : Request).

(** C25: for a stream of the caller, [PUT /:id/start] answers 400
    "Stream is already live" on a live stream and otherwise makes it live
    with [startedAt] now (an ended stream too: its [endedAt] stays);
    [PUT /:id/end] without a recording URL answers 400 "Stream is not live"
    unless the stream is live, and otherwise ends it with [endedAt] now.
    Each success is one [status_step]. *)
Theorem stream_lifecycle db req id s url :
  param req "id" = JStr id → object_id_castable id = true → db.(db_streams) !! id = Some s →
  s.(s_user) = req.(rq_user).(user_id) →
  js_get req.(rq_body) "recordingUrl" = Some url → truthy url = false →
  startStream_ctl req db =
    (if bool_decide (s.(s_status) = Live) then (OResp (mkResponse 400 (msg_body "Stream is already live")), db)
     else (OResp (mkResponse 200 (stream_json id (startStream db.(db_now) s))),
           set_db_streams db (<[id := startStream db.(db_now) s]> db.(db_streams)))) ∧
  endStream_ctl req db =
    (if bool_decide (s.(s_status) = Live)
     then (OResp (mkResponse 200 (stream_json id (endStream db.(db_now) s))),
           set_db_streams db (<[id := endStream db.(db_now) s]> db.(db_streams)))
     else (OResp (mkResponse 400 (msg_body "Stream is not live")), db)) ∧
  (s.(s_status) ≠ Live → status_step s.(s_status) (startStream db.(db_now) s).(s_status)) ∧
  (s.(s_status) = Live → status_step s.(s_status) (endStream db.(db_now) s).(s_status)).
Proof.
  intros Hp Hc Hs Ho Hu Ht. split_and!.
  - unfold startStream_ctl, owned_stream. rewrite Hp. crun.
  - unfold endStream_ctl, owned_stream. rewrite Hp. crun.
  - intros. by constructor.
  - intros ->. constructor.
Qed.
(** [POST /:id/code] by the owner of the stream, with a title and a
    language, creates a public session at version ['1.0'] owned by the
    caller, whose [stream] is the stream, and adds the session's id to the
    stream's [codeSessions]: the two documents point at each other. *)
Theorem create_code_session_links db req sid s ti la code :
  js_get req.(rq_body) "title" = Some (JStr ti) → js_get req.(rq_body) "language" = Some (JStr la) →
  js_get req.(rq_body) "initialCode" = Some code → truthy code = false →
  param req "id" = JStr sid → object_id_castable sid = true → db.(db_streams) !! sid = Some s →
  s.(s_user) = req.(rq_user).(user_id) →
  let c := new_session (Some sid) (trim_string ti) (trim_string la) (Some "") req.(rq_user).(user_id) db.(db_now) in
  let cid := oid_of db.(db_seq) in
  session_valid c = true →
  ∃ db', createCodeSession [] req db = (OResp (mkResponse 201 (session_json cid c)), db') ∧
    db'.(db_sessions) !! cid = Some c ∧ c.(cs_stream) = Some sid ∧ c.(cs_owner) = req.(rq_user).(user_id) ∧
    db'.(db_streams) !! sid = Some (addCodeSession cid s) ∧ cid ∈ (addCodeSession cid s).(s_codeSessions).
Proof.
  intros Hti Hla Hcode Htc Hp Hc Hs Ho c cid Hv. unfold createCodeSession, owned_stream.
  rewrite bool_decide_false by tauto. rewrite Hp. subst c cid. crun.
  eexists. split; [reflexivity|]. simpl. rewrite !lookup_insert_eq. split_and!; try done.
  apply elem_of_app. right. by left.
Qed.
End stream_props.

Module StreamExamples.
Definition ex_sid : Id := "5f00000000000000000000b1".
Definition ex_ended : Stream :=
  mkStream "u1" "t" "" Ended (Some 5%Z) (Some 9%Z) None [] [] [] [] [] 0.
Definition ex_db : Db := set_db_streams (empty_db 1000) {[ex_sid := ex_ended]}.
Definition ex_req (body : JsVal) : Request := mkRequest [("id", ex_sid)] (JObj []) body (mkUser "u1" "alice").

Lemma stream_lifecycle_witness :
  startStream_ctl (ex_req (JObj [])) ex_db =
    (OResp (mkResponse 200 (stream_json ex_sid (startStream 1000 ex_ended))),
     set_db_streams ex_db (<[ex_sid := startStream 1000 ex_ended]> ex_db.(db_streams))) ∧
  endStream_ctl (ex_req (JObj [])) ex_db = (OResp (mkResponse 400 (msg_body "Stream is not live")), ex_db) ∧
  (ex_ended.(s_status) ≠ Live → status_step ex_ended.(s_status) (startStream 1000 ex_ended).(s_status)) ∧
  (ex_ended.(s_status) = Live → status_step ex_ended.(s_status) (endStream 1000 ex_ended).(s_status)).
Proof. apply (stream_lifecycle ex_db (ex_req (JObj [])) ex_sid ex_ended JUndef); reflexivity. Defined.

Definition ex_code_body : JsVal := JObj [("title", JStr " Live coding "); ("language", JStr "js")].

Lemma create_code_session_links_witness :
  let c := new_session (Some ex_sid) (trim_string " Live coding ") (trim_string "js") (Some "") "u1" 1000 in
  ∃ db', createCodeSession [] (ex_req ex_code_body) ex_db =
           (OResp (mkResponse 201 (session_json (oid_of 0) c)), db') ∧
    db'.(db_sessions) !! oid_of 0 = Some c ∧ c.(cs_stream) = Some ex_sid ∧ c.(cs_owner) = "u1" ∧
    db'.(db_streams) !! ex_sid = Some (addCodeSession (oid_of 0) ex_ended) ∧
    oid_of 0 ∈ (addCodeSession (oid_of 0) ex_ended).(s_codeSessions).
Proof.
  exact (create_code_session_links ex_db (ex_req ex_code_body) ex_sid ex_ended " Live coding " "js" JUndef
           eq_refl eq_refl eq_refl eq_refl eq_refl eq_refl eq_refl eq_refl eq_refl).
Defined.
End StreamExamples.
