(* ===== verification/VideoController.v ===== *)
(** * The video controller ([controllers/video.controller.js])

    The controller was written against another schema than
    [models/video.model.js]: it reads [like.user] of the ObjectIds in
    [likes], an [unlikes] path that does not exist, and adds [1] to the
    array [views]; it builds a video with [url] where the schema requires
    [videoUrl].  Each controller is modelled as written, the JavaScript
    values it touches included, so that the theorems can show which
    requests can succeed.  [getTrendingVideos] and [getRecommendedVideos]
    are unreachable ([Router.dead_routes_exact]) and not modelled. *)

From S2P Require Import Prelude JsValue Mongoose Transport UserModel CommentModel VideoModel.
From S2P Require Import Express Db.
From stdpp Require Import sorting.
From Stdlib Require Import Ascii.
Local Open Scope cm_scope.

(** [tags.split(',').map(tag => tag.trim())]: a [TypeError] unless [tags]
    is a string. *)
Definition split_tags (tags : JsVal) : option (list string) :=
  match tags with JStr s => Some (trim_string <$> split_on ","%char s) | _ => None end.

(** [new Video({ title, description, url, thumbnail, tags, category, user })]:
    [url], [thumbnail] and [category] are not paths of the schema and are
    dropped, so the required [videoUrl] is missing.  [None] is the
    [ValidationError] of [save()]. *)
Definition build_video (user : Id) (title description : JsVal) (videoUrl : option string)
    (tags : list string) (t : Z) : option Video :=
  ti ← trim_string <$> cast_string_value title;
  de ← (match description with JUndef => Some "" | _ => cast_string_value description end);
  vu ← videoUrl;
  let v := mkVideo user ti de vu None 0 [] [] [] tags true t in
  if video_valid v then Some v else None.

(** [like => like.user.toString() === req.user.id] on an element of
    [likes]: an ObjectId has no [user], and [undefined.toString()] throws. *)
Definition like_user_is (uid : Id) (like : JsVal) : option bool :=
  u ← js_get like "user"; s ← js_toString u; Some (bool_decide (s = uid)).

Definition videos_json (vs : list (Id * Video)) : JsVal := JArr ((λ '(id, v), video_json id v) <$> vs).

Definition video_newer_first (a b : Id * Video) : Prop := (b.2.(v_createdAt) ≤ a.2.(v_createdAt))%Z.

#[export] Instance video_newer_first_dec : RelDecision video_newer_first.
Proof. intros a b. unfold video_newer_first. apply _. Defined.

Section controllers.
Variable req : Request.
Let uid := req.(rq_user).(user_id).

(** [exports.getAllVideos] *)
Definition getAllVideos : CM Db unit :=
  catch_err
    (let page := parse_int_or (query req "page") 1 in
     let limit := parse_int_or (query req "limit") 10 in
     all <- find_all Videos (λ _, true) ;;
     match skip_limit ((page - 1) * limit)%Z limit (merge_sort video_newer_first all) with
     | None => fail EMongo
     | Some vs =>
         respond 200 (JObj [("videos", videos_json vs);
                            ("totalPages", JNum (ceil_div (Z.of_nat (length all)) limit));
                            ("currentPage", JNum page)])
     end)
    server_error.

(** [exports.getVideoById]: [video.views += 1] assigns the string
    [views.toString() + '1'] to the [[ObjectId]] path [views]. *)
Definition getVideoById : CM Db unit :=
  catch_err
    (found <- find_by_id Videos (param req "id") ;;
     match found with
     | None => respond 404 (msg_body "Video not found")
     | Some (id, v) =>
         match cast_oid_array (js_add (ids_json v.(v_views)) (JNum 1)) with
         | None => fail EValidation
         | Some views =>
             let v' := set_video_views v views in
             save_doc Videos id v' ;;;
             respond 200 (video_json id v')
         end
     end)
    server_error.

(** [exports.createVideo] *)
Definition createVideo : CM Db unit :=
  catch_err
    (title <- clift (js_get req.(rq_body) "title") ;;
     description <- clift (js_get req.(rq_body) "description") ;;
     tags <- clift (js_get req.(rq_body) "tags") ;;
     ts <- clift (split_tags tags) ;;
     t <- cnow ;;
     id <- new_id ;;
     match build_video uid title description None ts t with
     | None => fail EValidation
     | Some v => save_doc Videos id v ;;; respond 201 (video_json id v)
     end)
    server_error.

(** [exports.updateVideo]: [findByIdAndUpdate] with [$set]; the paths the
    schema lacks ([thumbnail], [category]) are dropped, and update
    validators do not run. *)
Definition updateVideo : CM Db unit :=
  catch_err
    (title <- clift (js_get req.(rq_body) "title") ;;
     description <- clift (js_get req.(rq_body) "description") ;;
     tags <- clift (js_get req.(rq_body) "tags") ;;
     found <- find_by_id Videos (param req "id") ;;
     match found with
     | None => respond 404 (msg_body "Video not found")
     | Some (id, v) =>
         if bool_decide (v.(v_user) ≠ uid) then respond 401 (msg_body "Not authorized to update this video") else
         ts <- (if truthy tags then clift (split_tags tags) else cret v.(v_tags)) ;;
         match (if truthy title then trim_string <$> cast_string_value title else Some v.(v_title)),
               (if truthy description then cast_string_value description else Some v.(v_description)) with
         | Some ti, Some de =>
             let v' := mkVideo v.(v_user) ti de v.(v_videoUrl) v.(v_thumbnailUrl) v.(v_duration)
                         v.(v_views) v.(v_likes) v.(v_comments) ts v.(v_isPublished) v.(v_createdAt) in
             save_doc Videos id v' ;;;
             respond 200 (video_json id v')
         | _, _ => fail (ECast "string")
         end
     end)
    server_error.

(** [exports.deleteVideo]: the [$pull] from the user's [videos] is a no-op
    (no such path) and the video's comments stay. *)
Definition deleteVideo : CM Db unit :=
  catch_err
    (found <- find_by_id Videos (param req "id") ;;
     match found with
     | None => respond 404 (msg_body "Video not found")
     | Some (id, v) =>
         if bool_decide (v.(v_user) ≠ uid) then respond 401 (msg_body "Not authorized to delete this video") else
         delete_doc Videos id ;;;
         respond 200 (msg_body "Video removed")
     end)
    server_error.

(** [exports.likeVideo] *)
Definition likeVideo : CM Db unit :=
  catch_err
    (found <- find_by_id Videos (param req "id") ;;
     match found with
     | None => respond 404 (msg_body "Video not found")
     | Some (id, v) =>
         let doc := video_json id v in
         likes <- clift (js_get doc "likes" ≫= js_array) ;;
         liked <- clift (js_some (like_user_is uid) likes) ;;
         if liked then respond 400 (msg_body "Video already liked") else
         unlikes <- clift (js_get doc "unlikes" ≫= js_array) ;;
         _ <- clift (js_some (like_user_is uid) unlikes) ;;
         (* [video.likes.unshift({ user })]: the object does not cast to an
            ObjectId, so [save()] rejects *)
         fail EValidation
     end)
    server_error.

(** [exports.unlikeVideo] *)
Definition unlikeVideo : CM Db unit :=
  catch_err
    (found <- find_by_id Videos (param req "id") ;;
     match found with
     | None => respond 404 (msg_body "Video not found")
     | Some (id, v) =>
         let doc := video_json id v in
         unlikes <- clift (js_get doc "unlikes" ≫= js_array) ;;
         unliked <- clift (js_some (like_user_is uid) unlikes) ;;
         if unliked then respond 400 (msg_body "Video already unliked") else
         likes <- clift (js_get doc "likes" ≫= js_array) ;;
         _ <- clift (js_some (like_user_is uid) likes) ;;
         (* [video.unlikes.unshift({ user })] sets a path the schema lacks;
            [save()] stores the rest *)
         save_doc Videos id v ;;;
         respond 200 (JArr (JObj [("user", JStr uid)] :: unlikes))
     end)
    server_error.

(** [exports.addComment]: [new Comment({ text, user, video })] has none of
    the required [content], [contentType], [contentId], [contentModel]. *)
Definition addComment_ctl : CM Db unit :=
  catch_err
    (_ <- clift (js_get req.(rq_body) "text") ;;
     found <- find_by_id Videos (param req "id") ;;
     match found with
     | None => respond 404 (msg_body "Video not found")
     | Some _ => _ <- new_id ;; fail EValidation
     end)
    server_error.

(** [exports.getVideoComments]: [Comment.find({ video: req.params.id })].
    Mongoose 5 passes a filter on a path the schema lacks to MongoDB as it
    is, which compares it with the stored field. *)
Definition getVideoComments : CM Db unit :=
  catch_err
    (cs <- find_all Comments (λ '(id, c), filter_eq (js_get (comment_json id c) "video") (param req "id")) ;;
     respond 200 (comments_json (merge_sort comment_newer_first cs)))
    server_error.
End controllers.

(** ** Lemmas *)

Lemma js_to_string_arr_cons2 x y l :
  js_to_string (JArr (x :: y :: l)) =
    (match x with JUndef | JNull => "" | _ => js_to_string x end) +:+ "," +:+ js_to_string (JArr (y :: l)).
Proof. reflexivity. Qed.

(** [views.toString()] of [k] ObjectIds has [25 k - 1] characters. *)
Lemma join_ids_length xs :
  Forall (λ x, String.length x = 24%nat) xs →
  String.length (js_to_string (ids_json xs)) = (25 * length xs - 1)%nat.
Proof.
  induction 1 as [|x xs Hx Hxs IH]; [done|].
  destruct xs as [|y xs]; [simpl; lia|].
  unfold ids_json in *. rewrite fmap_cons, fmap_cons, js_to_string_arr_cons2, <- fmap_cons.
  rewrite !string_length_app, IH. simpl in *. lia.
Qed.

(** [video.views += 1] never casts back to [[ObjectId]]: the string has
    [25 k] characters, or [1] when [views] is empty. *)
Lemma views_plus_one_uncastable xs :
  Forall (λ x, object_id_castable x = true) xs →
  cast_oid_array (js_add (ids_json xs) (JNum 1)) = None.
Proof.
  intros Hxs.
  change (js_add (ids_json xs) (JNum 1)) with (JStr (js_to_string (ids_json xs) +:+ "1")).
  cbn [cast_oid_array cast_oid]. unfold object_id_castable.
  assert (Forall (λ x, String.length x = 24%nat) xs) as Hl.
  { eapply Forall_impl; [done|]. intros x Hx. unfold object_id_castable in Hx.
    apply andb_prop in Hx as [Hx _]. by apply bool_decide_eq_true in Hx. }
  rewrite bool_decide_eq_false_2; [done|].
  rewrite string_length_app, (join_ids_length xs Hl). simpl. lia.
Qed.

(** [xs.some(like => like.user.toString() === id)] over an array of
    ObjectIds throws unless the array is empty. *)
Lemma some_like_user_ids uid xs :
  js_some (like_user_is uid) (JStr <$> xs) = match xs with [] => Some false | _ => None end.
Proof. by destruct xs. Qed.

Lemma find_video_some db req id v :
  param req "id" = JStr id → object_id_castable id = true → db.(db_videos) !! id = Some v →
  find_by_id Videos (param req "id") db = (OVal (Some (id, v)), db).
Proof. intros Hp Hc Hs. rewrite Hp. unfold find_by_id, cgets. rewrite Hc. simpl. by rewrite Hs. Qed.

Lemma build_video_no_url user ti de ts t : build_video user ti de None ts t = None.
Proof. unfold build_video. destruct (cast_string_value ti); [|done]. simpl. by case_match. Qed.

(** ** Properties *)

(** [getVideoById] on a stored video whose [views] are ObjectIds
    answers 500 and changes nothing: the view counter can never be saved. *)
Theorem getVideoById_server_error req db id v :
  param req "id" = JStr id → object_id_castable id = true → db.(db_videos) !! id = Some v →
  Forall (λ x, object_id_castable x = true) v.(v_views) →
  getVideoById req db = (OResp (mkResponse 500 (msg_body "Server error")), db).
Proof.
  intros Hp Hc Hs Hv. unfold getVideoById, catch_err, cbind.
  rewrite (find_video_some db req id v Hp Hc Hs), (views_plus_one_uncastable _ Hv). reflexivity.
Qed.

(** [likeVideo] and [unlikeVideo] on a stored video answer 500 and
    change nothing, whoever asks: [likes] holds ObjectIds, which have no
    [user], and the schema has no [unlikes]. *)
Theorem like_unlike_video_server_error req db id v :
  param req "id" = JStr id → object_id_castable id = true → db.(db_videos) !! id = Some v →
  likeVideo req db = (OResp (mkResponse 500 (msg_body "Server error")), db) ∧
  unlikeVideo req db = (OResp (mkResponse 500 (msg_body "Server error")), db).
Proof.
  intros Hp Hc Hs. unfold likeVideo, unlikeVideo, catch_err, cbind.
  rewrite (find_video_some db req id v Hp Hc Hs). simpl.
  unfold ids_json. rewrite !some_like_user_ids. by destruct (v_likes v).
Qed.

(** C26: [createVideo] never stores a video: whatever the request, it
    answers 500 and the videos are those it started with. *)
Theorem createVideo_never_stores req db :
  fst (createVideo req db) = OResp (mkResponse 500 (msg_body "Server error")) ∧
  (snd (createVideo req db)).(db_videos) = db.(db_videos).
Proof.
  unfold createVideo. do 2 unfold_cm. cbn -[build_video oid_of].
  destruct (js_get (rq_body req) "title"), (js_get (rq_body req) "description"),
    (js_get (rq_body req) "tags") as [tags|]; try done.
  destruct (split_tags tags); cbn -[build_video oid_of]; [rewrite build_video_no_url|]; done.
Qed.

(** [getVideoComments] answers an empty list whatever the database holds:
    a comment document has no [video] field to match. *)
Theorem getVideoComments_empty req db id :
  param req "id" = JStr id →
  getVideoComments req db = (OResp (mkResponse 200 (JArr [])), db).
Proof.
  intros Hp. unfold getVideoComments. unfold_cm. simpl. rewrite Hp.
  rewrite filter_none; [done|]. intros [i c] H. by change (false = true) in H.
Qed.

Module VideoExamples.
Definition ex_v1 : Id := "5f00000000000000000000b1".
Definition ex_video : Video :=
  mkVideo "5f00000000000000000000c1" "Intro" "" "https://cdn/v.mp4" None 60
    ["5f00000000000000000000c2"] [] [] [] true 10.
Definition ex_db : Db := set_videos (empty_db 1000) {[ex_v1 := ex_video]}.
Definition ex_req : Request := mkRequest [("id", ex_v1)] (JObj []) (JObj []) (mkUser "5f00000000000000000000c2" "bob").

Lemma getVideoById_server_error_witness :
  getVideoById ex_req ex_db = (OResp (mkResponse 500 (msg_body "Server error")), ex_db).
Proof. apply (getVideoById_server_error ex_req ex_db ex_v1 ex_video); try reflexivity. by repeat constructor. Defined.

Lemma like_unlike_video_server_error_witness :
  likeVideo ex_req ex_db = (OResp (mkResponse 500 (msg_body "Server error")), ex_db) ∧
  unlikeVideo ex_req ex_db = (OResp (mkResponse 500 (msg_body "Server error")), ex_db).
Proof. apply (like_unlike_video_server_error ex_req ex_db ex_v1 ex_video); reflexivity. Defined.

Lemma getVideoComments_empty_witness :
  getVideoComments ex_req ex_db = (OResp (mkResponse 200 (JArr [])), ex_db).
Proof. apply (getVideoComments_empty ex_req ex_db ex_v1). reflexivity. Defined.
End VideoExamples.
