(* ===== verification/CommentController.v ===== *)
(** * The comment controller ([controllers/comment.controller.js])

    A comment is attached to a post, a video, a stream or a code session
    (the [switch (contentType)] of the controllers) and may be a reply to
    another comment.  Creating one saves it, links it from its parent and
    calls [addComment] of the content document; deleting one calls
    [removeReply] on the parent, [removeComment] on the content, deletes
    the direct replies and then the comment.  [Stream] has no
    [removeComment] and [CodeSession] neither method: those calls throw a
    [TypeError] after the earlier writes have been made, which the theorems
    follow.  [getReplies] is unreachable ([Router.dead_routes_exact]) and
    not modelled. *)

From S2P Require Import Prelude JsValue Mongoose Transport UserModel StreamModel CodeSessionModel.
From S2P Require Import PostModel CommentModel VideoModel Express Db.
From stdpp Require Import sorting.
Local Open Scope cm_scope.

(** The four cases of [switch (contentType)]. *)
Inductive ContentKind := KPost | KVideo | KStream | KCode.

#[export] Instance ContentKind_eq_dec : EqDecision ContentKind.
Proof. solve_decision. Defined.

Definition content_kind (v : JsVal) : option ContentKind :=
  match v with
  | JStr s =>
      if String.eqb s "post" then Some KPost
      else if String.eqb s "video" then Some KVideo
      else if String.eqb s "stream" then Some KStream
      else if String.eqb s "code" then Some KCode
      else None
  | _ => None
  end.

(** [contentModel] of each case. *)
Definition model_name (k : ContentKind) : string :=
  match k with KPost => "Post" | KVideo => "Video" | KStream => "Stream" | KCode => "CodeSession" end.

(** The content document [contentObj]. *)
Inductive Content :=
  | CPost (id : Id) (p : Post)
  | CVideo (id : Id) (v : Video)
  | CStream (id : Id) (s : Stream)
  | CCode (id : Id) (c : CodeSession).

(** [Post.findById(contentId)], [Video.findById], [Stream.findById] or
    [CodeSession.findById]. *)
Definition find_content (k : ContentKind) (cid : JsVal) : CM Db (option Content) :=
  match k with
  | KPost => o <- find_by_id Posts cid ;; cret ((λ '(i, x), CPost i x) <$> o)
  | KVideo => o <- find_by_id Videos cid ;; cret ((λ '(i, x), CVideo i x) <$> o)
  | KStream => o <- find_by_id Streams cid ;; cret ((λ '(i, x), CStream i x) <$> o)
  | KCode => o <- find_by_id Sessions cid ;; cret ((λ '(i, x), CCode i x) <$> o)
  end.

(** [contentObj.addComment(comment._id)]: [CodeSession] has no such method. *)
Definition content_addComment (o : Content) (cid : Id) : CM Db unit :=
  match o with
  | CPost i p => save_doc Posts i (post_addComment cid p)
  | CVideo i v => save_doc Videos i (video_addComment cid v)
  | CStream i s => save_doc Streams i (addComment cid s)
  | CCode _ _ => fail ETypeError
  end.

(** [contentObj.removeComment(comment._id)]: neither [Stream] nor
    [CodeSession] has the method. *)
Definition content_removeComment (o : Content) (cid : Id) : CM Db unit :=
  match o with
  | CPost i p => save_doc Posts i (post_removeComment cid p)
  | CVideo i v => save_doc Videos i (video_removeComment cid v)
  | CStream _ _ | CCode _ _ => fail ETypeError
  end.

(** [new Comment({ user, content, contentType, contentId, contentModel,
    parentId: parentId || null })] and the constraints of [save()];
    [None] is the [ValidationError]. *)
Definition build_comment (user : Id) (content ctype cid : JsVal) (model : string) (parent : JsVal)
    (t : Z) : option Comment :=
  co ← cast_string_value content;
  ty ← cast_string_value ctype;
  ci ← cast_oid cid;
  pa ← (if truthy parent then Some <$> cast_oid parent else Some None);
  let c := mkComment user co pa ty ci model [] [] false t in
  if comment_valid c then Some c else None.

(** [{ contentType, contentId, parentId: null }]: [contentId] is cast to
    an ObjectId before the query runs. *)
Definition top_level_of (ctype : string) (cid : Id) (kv : Id * Comment) : bool :=
  String.eqb kv.2.(c_contentType) ctype && String.eqb kv.2.(c_contentId) cid &&
  bool_decide (kv.2.(c_parentId) = None).

Definition comments_page_body (cs : list (Id * Comment)) (page limit total : Z) : JsVal :=
  JObj [("comments", comments_json cs); ("currentPage", JNum page);
        ("totalPages", JNum (ceil_div total limit)); ("totalComments", JNum total)].

Section controllers.
Variable errs : list (string * string).
Variable req : Request.
Let uid := req.(rq_user).(user_id).

(** [exports.createComment] *)
Definition createComment : CM Db unit :=
  if bool_decide (errs ≠ []) then respond 400 (errors_body errs) else
  catch_err
    (content <- clift (js_get req.(rq_body) "content") ;;
     ctype <- clift (js_get req.(rq_body) "contentType") ;;
     cid <- clift (js_get req.(rq_body) "contentId") ;;
     parent <- clift (js_get req.(rq_body) "parentId") ;;
     match content_kind ctype with
     | None => respond 400 (msg_body "Invalid content type")
     | Some k =>
         found <- find_content k cid ;;
         match found with
         | None => respond 404 (msg_body (js_to_string ctype +:+ " not found"))
         | Some obj =>
             t <- cnow ;;
             id <- new_id ;;
             match build_comment uid content ctype cid (model_name k) parent t with
             | None => fail EValidation
             | Some c =>
                 save_doc Comments id c ;;;
                 (if truthy parent then
                    p <- find_by_id Comments parent ;;
                    match p with
                    | Some (pid, pc) => save_doc Comments pid (addReply id pc)
                    | None => cret tt
                    end
                  else cret tt) ;;;
                 content_addComment obj id ;;;
                 respond 201 (comment_json id c)
             end
         end
     end)
    server_error.

(** [exports.getComments] *)
Definition getComments : CM Db unit :=
  catch_err
    (let ctype := param req "contentType" in
     let page := parse_int_or (query req "page") 1 in
     let limit := parse_int_or (query req "limit") 10 in
     if negb (bool_decide (js_to_string ctype ∈ content_types)) then
       respond 400 (msg_body "Invalid content type") else
     match cast_oid (param req "contentId") with
     | None => fail (ECast "ObjectId")
     | Some cid =>
         all <- find_all Comments (top_level_of (js_to_string ctype) cid) ;;
         match skip_limit ((page - 1) * limit)%Z limit (merge_sort comment_newer_first all) with
         | None => fail EMongo
         | Some cs => respond 200 (comments_page_body cs page limit (Z.of_nat (length all)))
         end
     end)
    server_error.

(** [exports.updateComment] *)
Definition updateComment : CM Db unit :=
  if bool_decide (errs ≠ []) then respond 400 (errors_body errs) else
  catch_err
    (content <- clift (js_get req.(rq_body) "content") ;;
     found <- find_by_id Comments (param req "id") ;;
     match found with
     | None => respond 404 (msg_body "Comment not found")
     | Some (id, c) =>
         if bool_decide (c.(c_user) ≠ uid) then respond 401 (msg_body "User not authorized") else
         match cast_string_value content with
         | None => fail EValidation
         | Some co =>
             let c' := set_edited c co in
             validate (comment_valid c') ;;;
             save_doc Comments id c' ;;;
             respond 200 (comment_json id c')
         end
     end)
    (catch_kind "Comment not found").

(** [exports.deleteComment] *)
Definition deleteComment : CM Db unit :=
  catch_err
    (found <- find_by_id Comments (param req "id") ;;
     match found with
     | None => respond 404 (msg_body "Comment not found")
     | Some (id, c) =>
         if bool_decide (c.(c_user) ≠ uid) then respond 401 (msg_body "User not authorized") else
         (match c.(c_parentId) with
          | Some pid =>
              p <- find_by_id Comments (JStr pid) ;;
              match p with
              | Some (pid', pc) => save_doc Comments pid' (removeReply id pc)
              | None => cret tt
              end
          | None => cret tt
          end) ;;;
         obj <- (match content_kind (JStr c.(c_contentType)) with
                 | Some k => find_content k (JStr c.(c_contentId))
                 | None => cret None
                 end) ;;
         (match obj with Some o => content_removeComment o id | None => cret tt end) ;;;
         (if bool_decide (0 < length c.(c_replies))%nat
          then delete_where Comments (λ kv, bool_decide (kv.2.(c_parentId) = Some id))
          else cret tt) ;;;
         delete_doc Comments id ;;;
         respond 200 (msg_body "Comment removed")
     end)
    (catch_kind "Comment not found").

(** [exports.likeComment] *)
Definition likeComment : CM Db unit :=
  catch_err
    (found <- find_by_id Comments (param req "id") ;;
     match found with
     | None => respond 404 (msg_body "Comment not found")
     | Some (id, c) =>
         if bool_decide (uid ∈ c.(c_likes)) then respond 400 (msg_body "Comment already liked") else
         let c' := comment_addLike uid c in
         save_doc Comments id c' ;;;
         respond 200 (ids_json c'.(c_likes))
     end)
    (catch_kind "Comment not found").

(** [exports.unlikeComment] *)
Definition unlikeComment : CM Db unit :=
  catch_err
    (found <- find_by_id Comments (param req "id") ;;
     match found with
     | None => respond 404 (msg_body "Comment not found")
     | Some (id, c) =>
         if bool_decide (uid ∉ c.(c_likes)) then respond 400 (msg_body "Comment has not yet been liked") else
         let c' := comment_removeLike uid c in
         save_doc Comments id c' ;;;
         respond 200 (ids_json c'.(c_likes))
     end)
    (catch_kind "Comment not found").
End controllers.

(** ** Running the controllers *)

Lemma find_comment_some db req id c :
  param req "id" = JStr id → object_id_castable id = true → db.(db_comments) !! id = Some c →
  find_by_id Comments (param req "id") db = (OVal (Some (id, c)), db).
Proof. intros Hp Hc Hs. rewrite Hp. unfold find_by_id, cgets. rewrite Hc. simpl. by rewrite Hs. Qed.

(** ** Properties *)

(** C28: a valid comment on an existing code session is saved, and then
    [contentObj.addComment] throws: the client gets 500 and the database
    keeps a comment its session does not list. *)
Theorem create_code_comment_orphaned req db sid s content :
  req.(rq_body) = JObj [("content", JStr content); ("contentType", JStr "code"); ("contentId", JStr sid)] →
  object_id_castable sid = true → db.(db_sessions) !! sid = Some s →
  content ≠ "" → (String.length content ≤ 500)%nat →
  createComment [] req db =
    (OResp (mkResponse 500 (msg_body "Server error")),
     set_comments (set_seq db (db.(db_seq) + 1))
       (<[oid_of db.(db_seq) := mkComment req.(rq_user).(user_id) content None "code" sid "CodeSession"
                                  [] [] false db.(db_now)]> db.(db_comments))).
Proof.
  intros Hb Hc Hs Hne Hlen. unfold createComment. rewrite Hb. unfold build_comment, cast_oid.
  do 2 unfold_cm. simpl. rewrite Hc. simpl. rewrite Hs. simpl. rewrite ?Hc. simpl.
  unfold comment_valid. simpl. repeat (rewrite bool_decide_eq_true_2 by (done || lia)). reflexivity.
Qed.

(** the author deleting a top-level comment with replies on a post
    gets 200; the comment and its direct replies are deleted, and the post
    loses the comment's id only: the ids of the deleted replies stay in
    [post.comments]. *)
Theorem delete_post_comment req db id c p :
  param req "id" = JStr id → object_id_castable id = true → db.(db_comments) !! id = Some c →
  c.(c_user) = req.(rq_user).(user_id) → c.(c_parentId) = None → c.(c_contentType) = "post" →
  object_id_castable c.(c_contentId) = true → db.(db_posts) !! c.(c_contentId) = Some p →
  c.(c_replies) ≠ [] →
  deleteComment req db =
    (OResp (mkResponse 200 (msg_body "Comment removed")),
     set_comments (set_posts db (<[c.(c_contentId) := post_removeComment id p]> db.(db_posts)))
       (delete id (filter (λ kv, kv.2.(c_parentId) ≠ Some id) db.(db_comments)))).
Proof.
  intros Hp Hc Hs Hu Hpar Ht Hcc Hps Hr. unfold deleteComment, catch_err, cbind.
  rewrite (find_comment_some db req id c Hp Hc Hs). simpl.
  rewrite bool_decide_eq_false_2 by (rewrite Hu; tauto). rewrite Hpar, Ht. simpl.
  unfold find_by_id, cgets. rewrite Hcc. simpl. rewrite Hps. simpl.
  rewrite bool_decide_eq_true_2 by (destruct (c_replies c); simpl in *; [done|lia]).
  simpl. do 3 f_equal. apply map_filter_ext. intros i x _. simpl.
  by rewrite bool_decide_eq_false.
Qed.

(** the author deleting a reply to a comment on a stream gets 500
    and the reply stays, but it has already been unlinked from its parent:
    [Stream] has no [removeComment], and the parent was saved before the
    call threw. *)
Theorem delete_stream_reply_half_done req db id c pid pc s :
  param req "id" = JStr id → object_id_castable id = true → db.(db_comments) !! id = Some c →
  c.(c_user) = req.(rq_user).(user_id) →
  c.(c_parentId) = Some pid → object_id_castable pid = true → db.(db_comments) !! pid = Some pc →
  c.(c_contentType) = "stream" → object_id_castable c.(c_contentId) = true →
  db.(db_streams) !! c.(c_contentId) = Some s →
  deleteComment req db =
    (OResp (mkResponse 500 (msg_body "Server error")),
     set_comments db (<[pid := removeReply id pc]> db.(db_comments))).
Proof.
  intros Hp Hc Hs Hu Hpar Hpc Hpl Ht Hcc Hss. unfold deleteComment, catch_err, cbind.
  rewrite (find_comment_some db req id c Hp Hc Hs). simpl.
  rewrite bool_decide_eq_false_2 by (rewrite Hu; tauto). rewrite Hpar, Ht.
  unfold find_by_id, cgets. rewrite Hpc. simpl. rewrite Hpl. simpl. rewrite Hcc. simpl. by rewrite Hss.
Qed.

Module CommentExamples.
Definition ex_code : Id := "5f00000000000000000000d1".
Definition ex_post : Id := "5f00000000000000000000d2".
Definition ex_stream : Id := "5f00000000000000000000d3".
Definition ex_c1 : Id := "5f00000000000000000000e1".
Definition ex_c2 : Id := "5f00000000000000000000e2".
Definition ex_c3 : Id := "5f00000000000000000000e3".
Definition ex_c4 : Id := "5f00000000000000000000e4".
Definition ex_comments : gmap Id Comment :=
  {[ex_c1 := mkComment "u1" "top" None "post" ex_post "Post" [] [ex_c2] false 2;
    ex_c2 := mkComment "u1" "reply" (Some ex_c1) "post" ex_post "Post" [] [] false 3;
    ex_c3 := mkComment "u1" "top" None "stream" ex_stream "Stream" [] [ex_c4] false 4;
    ex_c4 := mkComment "u1" "reply" (Some ex_c3) "stream" ex_stream "Stream" [] [] false 5]}.
Definition ex_db : Db :=
  set_comments
    (set_db_streams
       (set_posts
          (set_db_sessions (empty_db 1000) {[ex_code := new_session None "s" "js" None "u1" 0]})
          {[ex_post := mkPost "u1" "hi" [] [] [ex_c1; ex_c2] [] false 1]})
       {[ex_stream := mkStream "u1" "t" "" Ended (Some 5%Z) (Some 9%Z) None [] [ex_c3; ex_c4] [] [] [] 0]})
    ex_comments.
Definition ex_req (id : Id) (body : JsVal) : Request := mkRequest [("id", id)] (JObj []) body (mkUser "u1" "alice").

Lemma create_code_comment_orphaned_witness :
  createComment [] (ex_req ex_code (JObj [("content", JStr "nice"); ("contentType", JStr "code"); ("contentId", JStr ex_code)])) ex_db =
    (OResp (mkResponse 500 (msg_body "Server error")),
     set_comments (set_seq ex_db (ex_db.(db_seq) + 1))
       (<[oid_of ex_db.(db_seq) := mkComment "u1" "nice" None "code" ex_code "CodeSession" [] [] false ex_db.(db_now)]>
          ex_db.(db_comments))).
Proof.
  apply (create_code_comment_orphaned
           (ex_req ex_code (JObj [("content", JStr "nice"); ("contentType", JStr "code"); ("contentId", JStr ex_code)])) ex_db ex_code (new_session None "s" "js" None "u1" 0) "nice");
    try reflexivity; [discriminate | simpl; lia].
Defined.

Lemma delete_post_comment_witness :
  deleteComment (ex_req ex_c1 (JObj [])) ex_db =
    (OResp (mkResponse 200 (msg_body "Comment removed")),
     set_comments (set_posts ex_db (<[ex_post := post_removeComment ex_c1 (mkPost "u1" "hi" [] [] [ex_c1; ex_c2] [] false 1)]> ex_db.(db_posts)))
       (delete ex_c1 (filter (λ kv, kv.2.(c_parentId) ≠ Some ex_c1) ex_db.(db_comments)))).
Proof.
  apply (delete_post_comment _ ex_db ex_c1 (mkComment "u1" "top" None "post" ex_post "Post" [] [ex_c2] false 2));
    try reflexivity; discriminate.
Defined.

Lemma delete_stream_reply_half_done_witness :
  deleteComment (ex_req ex_c4 (JObj [])) ex_db =
    (OResp (mkResponse 500 (msg_body "Server error")),
     set_comments ex_db (<[ex_c3 := removeReply ex_c4 (mkComment "u1" "top" None "stream" ex_stream "Stream" [] [ex_c4] false 4)]>
                          ex_db.(db_comments))).
Proof.
  apply (delete_stream_reply_half_done _ ex_db ex_c4 (mkComment "u1" "reply" (Some ex_c3) "stream" ex_stream "Stream" [] [] false 5)
           ex_c3 _ (mkStream "u1" "t" "" Ended (Some 5%Z) (Some 9%Z) None [] [ex_c3; ex_c4] [] [] [] 0));
    reflexivity.
Defined.
End CommentExamples.
