(* ===== verification/UserController.v ===== *)
(** * The user controller ([controllers/user.controller.js])

    Following and unfollowing, the follower and following lists, the
    profile, and the profile update.  The follow graph is stored twice, as
    [following] on the follower and [followers] on the followee; the
    theorems show that [followUser] and [unfollowUser] keep the two in
    agreement ([follow_consistent]), and that the profile update answers
    the stored password hash.  [searchUsers] is unreachable
    ([Router.dead_routes_exact]) and not modelled. *)

From S2P Require Import Prelude JsValue Mongoose Transport UserModel Express Db.
Local Open Scope cm_scope.

Definition follow_body (me target : UserDoc) : JsVal :=
  JObj [("following", ids_json me.(u_following)); ("followers", ids_json target.(u_followers))].

Section controllers.
Variable errs : list (string * string).
Variable req : Request.
Let uid := req.(rq_user).(user_id).

(** [exports.followUser]: a missing current user makes
    [currentUser.isFollowing] throw a [TypeError].  [tid] is the string
    [req.params.id] that [findById] matched. *)
Definition followUser : CM Db unit :=
  catch_err
    (found <- find_by_id Users (param req "id") ;;
     match found with
     | None => respond 404 (msg_body "User not found")
     | Some (tid, target) =>
         if bool_decide (tid = uid) then respond 400 (msg_body "You cannot follow yourself") else
         me <- find_by_id Users (JStr uid) ;;
         match me with
         | None => fail ETypeError
         | Some (mid, cur) =>
             if isFollowing cur tid then respond 400 (msg_body "You are already following this user") else
             let cur' := follow tid cur in
             save_doc Users mid cur' ;;;
             let target' := addFollower uid target in
             save_doc Users tid target' ;;;
             respond 200 (follow_body cur' target')
         end
     end)
    (catch_kind "User not found").

(** [exports.unfollowUser] *)
Definition unfollowUser : CM Db unit :=
  catch_err
    (found <- find_by_id Users (param req "id") ;;
     match found with
     | None => respond 404 (msg_body "User not found")
     | Some (tid, target) =>
         if bool_decide (tid = uid) then respond 400 (msg_body "You cannot unfollow yourself") else
         me <- find_by_id Users (JStr uid) ;;
         match me with
         | None => fail ETypeError
         | Some (mid, cur) =>
             if negb (isFollowing cur tid) then respond 400 (msg_body "You are not following this user") else
             let cur' := unfollow tid cur in
             save_doc Users mid cur' ;;;
             let target' := removeFollower uid target in
             save_doc Users tid target' ;;;
             respond 200 (follow_body cur' target')
         end
     end)
    (catch_kind "User not found").

(** [exports.getFollowers] and [exports.getFollowing] ([populate] replaces
    the ids by the documents; the ids are answered here). *)
Definition getFollowers : CM Db unit :=
  catch_err
    (found <- find_by_id Users (param req "id") ;;
     match found with
     | None => respond 404 (msg_body "User not found")
     | Some (_, u) => respond 200 (ids_json u.(u_followers))
     end)
    (catch_kind "User not found").

Definition getFollowing : CM Db unit :=
  catch_err
    (found <- find_by_id Users (param req "id") ;;
     match found with
     | None => respond 404 (msg_body "User not found")
     | Some (_, u) => respond 200 (ids_json u.(u_following))
     end)
    (catch_kind "User not found").

(** [exports.getUserProfile]: [.select('-password')]. *)
Definition getUserProfile : CM Db unit :=
  catch_err
    (found <- find_by_id Users (param req "id") ;;
     match found with
     | None => respond 404 (msg_body "User not found")
     | Some (id, u) => respond 200 (user_json false id u)
     end)
    (catch_kind "User not found").

(** [exports.updateProfile]: the document is loaded without
    [.select('-password')] and answered as saved.  A [bio] other than
    [undefined] is assigned as Mongoose casts it ([null] stays [null]); a
    value that does not cast fails the [save()]. *)
Definition updateProfile : CM Db unit :=
  if bool_decide (errs ≠ []) then respond 400 (errors_body errs) else
  catch_err
    (fullName <- clift (js_get req.(rq_body) "fullName") ;;
     bio <- clift (js_get req.(rq_body) "bio") ;;
     skills <- clift (js_get req.(rq_body) "skills") ;;
     avatar <- clift (js_get req.(rq_body) "avatar") ;;
     found <- find_by_id Users (JStr uid) ;;
     match found with
     | None => respond 404 (msg_body "User not found")
     | Some (id, u) =>
         match (if truthy fullName then trim_string <$> cast_string_value fullName else Some u.(u_fullName)),
               (match bio with JUndef => Some u.(u_bio) | _ => mongoose_cast_string bio end),
               (if truthy skills then cast_string_array skills else Some u.(u_skills)),
               (if truthy avatar then Some <$> cast_string_value avatar else Some u.(u_avatar)) with
         | Some fn, Some b, Some sk, Some av =>
             let u' := set_profile u fn b sk av in
             validate (user_valid u') ;;;
             save_doc Users id u' ;;;
             respond 200 (user_json true id u')
         | _, _, _, _ => fail EValidation
         end
     end)
    server_error.
End controllers.

(** ** The follow graph *)

(** [a] lists [b] in its [following], and [b] lists [a] in its [followers]. *)
Definition follows (users : gmap Id UserDoc) (a b : Id) : Prop :=
  ∃ ua, users !! a = Some ua ∧ b ∈ ua.(u_following).
Definition followed_by (users : gmap Id UserDoc) (a b : Id) : Prop :=
  ∃ ub, users !! b = Some ub ∧ a ∈ ub.(u_followers).

(** The two copies of the graph agree. *)
Definition follow_consistent (users : gmap Id UserDoc) : Prop :=
  ∀ a b, follows users a b ↔ followed_by users a b.

(** ** Lemmas on the follow graph *)

Section graph.
Variable users : gmap Id UserDoc.

Lemma follows_set_following k u xs a b :
  follows (<[k := set_following u xs]> users) a b ↔ (a = k ∧ b ∈ xs) ∨ (a ≠ k ∧ follows users a b).
Proof.
  unfold follows. destruct (decide (a = k)) as [->|Hne].
  - rewrite lookup_insert_eq. naive_solver.
  - rewrite lookup_insert_ne by done. naive_solver.
Qed.

Lemma follows_set_followers k u xs a b :
  users !! k = Some u → follows (<[k := set_followers u xs]> users) a b ↔ follows users a b.
Proof.
  intros Hk. unfold follows. destruct (decide (a = k)) as [->|Hne].
  - rewrite lookup_insert_eq, Hk. naive_solver.
  - rewrite lookup_insert_ne by done. naive_solver.
Qed.

Lemma followed_by_set_followers k u xs a b :
  followed_by (<[k := set_followers u xs]> users) a b ↔ (b = k ∧ a ∈ xs) ∨ (b ≠ k ∧ followed_by users a b).
Proof.
  unfold followed_by. destruct (decide (b = k)) as [->|Hne].
  - rewrite lookup_insert_eq. naive_solver.
  - rewrite lookup_insert_ne by done. naive_solver.
Qed.

Lemma followed_by_set_following k u xs a b :
  users !! k = Some u → followed_by (<[k := set_following u xs]> users) a b ↔ followed_by users a b.
Proof.
  intros Hk. unfold followed_by. destruct (decide (b = k)) as [->|Hne].
  - rewrite lookup_insert_eq, Hk. naive_solver.
  - rewrite lookup_insert_ne by done. naive_solver.
Qed.
End graph.

(** What one follow, and one unfollow, of [t] by [m] does to the two
    copies of the graph. *)
Lemma follow_edges users t m target cur a b :
  users !! t = Some target → users !! m = Some cur → t ≠ m →
  let users' := <[t := addFollower m target]> (<[m := follow t cur]> users) in
  (follows users' a b ↔ follows users a b ∨ (a = m ∧ b = t)) ∧
  (followed_by users' a b ↔ followed_by users a b ∨ (a = m ∧ b = t)).
Proof.
  intros Ht Hm Hne users'. unfold users', addFollower, follow.
  rewrite follows_set_followers by (rewrite lookup_insert_ne; done).
  rewrite follows_set_following, followed_by_set_followers, followed_by_set_following by done.
  rewrite !elem_of_push_unique. clear users'. unfold follows, followed_by.
  destruct (decide (a = m)) as [->|?], (decide (b = t)) as [->|?];
    split; split; intros; rewrite ?Hm, ?Ht in *; naive_solver.
Qed.

Lemma unfollow_edges users t m target cur a b :
  users !! t = Some target → users !! m = Some cur → t ≠ m →
  let users' := <[t := removeFollower m target]> (<[m := unfollow t cur]> users) in
  (follows users' a b ↔ follows users a b ∧ ¬ (a = m ∧ b = t)) ∧
  (followed_by users' a b ↔ followed_by users a b ∧ ¬ (a = m ∧ b = t)).
Proof.
  intros Ht Hm Hne users'. unfold users', removeFollower, unfollow.
  rewrite follows_set_followers by (rewrite lookup_insert_ne; done).
  rewrite follows_set_following, followed_by_set_followers, followed_by_set_following by done.
  rewrite !elem_of_remove_all. clear users'. unfold follows, followed_by.
  destruct (decide (a = m)) as [->|?], (decide (b = t)) as [->|?];
    split; split; intros; rewrite ?Hm, ?Ht in *; naive_solver.
Qed.

(** ** Running the controllers *)

(** What [followUser] and [unfollowUser] can do to the users: nothing, or
    one follow (unfollow) of an existing [t] by the existing current user. *)
Lemma followUser_users req db :
  (snd (followUser req db)).(db_users) = db.(db_users) ∨
  ∃ t target cur,
    (snd (followUser req db)).(db_users) =
      <[t := addFollower req.(rq_user).(user_id) target]> (<[req.(rq_user).(user_id) := follow t cur]> db.(db_users)) ∧
    db.(db_users) !! t = Some target ∧ db.(db_users) !! req.(rq_user).(user_id) = Some cur ∧
    t ≠ req.(rq_user).(user_id).
Proof.
  unfold followUser. crun; first [by left | right; do 3 eexists; split_and!; [reflexivity|done..]].
Qed.
Lemma unfollowUser_users req db :
  (snd (unfollowUser req db)).(db_users) = db.(db_users) ∨
  ∃ t target cur,
    (snd (unfollowUser req db)).(db_users) =
      <[t := removeFollower req.(rq_user).(user_id) target]> (<[req.(rq_user).(user_id) := unfollow t cur]> db.(db_users)) ∧
    db.(db_users) !! t = Some target ∧ db.(db_users) !! req.(rq_user).(user_id) = Some cur ∧
    t ≠ req.(rq_user).(user_id).
Proof.
  unfold unfollowUser. crun; first [by left | right; do 3 eexists; split_and!; [reflexivity|done..]].
Qed.

Lemma updateProfile_users errs req db o db' :
  updateProfile errs req db = (o, db') →
  db'.(db_users) = db.(db_users) ∨
  ∃ i u u', db'.(db_users) = <[i := u']> db.(db_users) ∧
    db.(db_users) !! i = Some u ∧ u'.(u_email) = u.(u_email) ∧ u'.(u_username) = u.(u_username).
Proof.
  intros Hrun. unfold updateProfile in Hrun. unfold_cm.
  destruct (bool_decide (errs ≠ [])); simpl in Hrun; [left; by simplify_eq|].
  destruct (js_get (rq_body req) "fullName"), (js_get (rq_body req) "bio"), (js_get (rq_body req) "skills"),
    (js_get (rq_body req) "avatar"); simpl in Hrun; try (left; by simplify_eq).
  destruct (object_id_castable _); simpl in Hrun; [|left; by simplify_eq].
  destruct (db_users db !! _) as [u|] eqn:Hu; simpl in Hrun; [|left; by simplify_eq].
  repeat (case_match; simpl in Hrun; try (left; by simplify_eq)).
  all: simplify_eq; first [by left | right; eexists _, u, _; split_and!; [reflexivity|done|done|done]].
Qed.

(** The follow graph and the profile are not the keys of an account. *)
Lemma user_writes_preserve_unique errs req db :
  unique_accounts db.(db_users) →
  unique_accounts (snd (followUser req db)).(db_users) ∧
  unique_accounts (snd (unfollowUser req db)).(db_users) ∧
  unique_accounts (snd (updateProfile errs req db)).(db_users).
Proof.
  intros Hu. split_and!.
  - destruct (followUser_users req db) as [->|(t & target & cur & -> & Ht & Hm & Hne)]; [done|].
    eapply unique_accounts_update; [by rewrite lookup_insert_ne| done | done |].
    by eapply unique_accounts_update.
  - destruct (unfollowUser_users req db) as [->|(t & target & cur & -> & Ht & Hm & Hne)]; [done|].
    eapply unique_accounts_update; [by rewrite lookup_insert_ne| done | done |].
    by eapply unique_accounts_update.
  - destruct (updateProfile errs req db) as [o db'] eqn:Hrun. simpl.
    destruct (updateProfile_users _ _ _ _ _ Hrun) as [->|(i & u & u' & -> & Hi & He & Hn)]; [done|].
    by eapply unique_accounts_update.
Qed.

Lemma user_json_password b id u :
  js_get (user_json b id u) "password" = Some (if b then JStr u.(u_password) else JUndef).
Proof. by destruct b. Qed.

Lemma set_profile_password u fn b sk av : (set_profile u fn b sk av).(u_password) = u.(u_password).
Proof. reflexivity. Qed.

(** ** Properties *)

(** Run one at a time, following and unfollowing keep the two copies of
    the follow graph in agreement: [a] lists [b] in [following] exactly
    when [b] lists [a] in [followers].  Requests interleaved at their
    [await]s do not ([FollowRace.follow_unfollow_race]). *)
Lemma follow_unfollow_preserve_consistency req db :
  follow_consistent db.(db_users) →
  follow_consistent (snd (followUser req db)).(db_users) ∧
  follow_consistent (snd (unfollowUser req db)).(db_users).
Proof.
  intros Hc. split.
  - destruct (followUser_users req db) as [->|(t & target & cur & -> & Ht & Hm & Hne)]; [done|].
    intros a b. destruct (follow_edges _ t _ target cur a b Ht Hm Hne) as [-> ->]. specialize (Hc a b). tauto.
  - destruct (unfollowUser_users req db) as [->|(t & target & cur & -> & Ht & Hm & Hne)]; [done|].
    intros a b. destruct (unfollow_edges _ t _ target cur a b Ht Hm Hne) as [-> ->]. specialize (Hc a b). tauto.
Qed.

(** A 200 answer of [updateProfile] is the stored user with the new
    profile, its password hash included. *)
Lemma updateProfile_ok req db r db' :
  updateProfile [] req db = (OResp r, db') → r.(rs_status) = 200%Z →
  ∃ u fn b sk av, db.(db_users) !! req.(rq_user).(user_id) = Some u ∧
    r.(rs_body) = user_json true req.(rq_user).(user_id) (set_profile u fn b sk av).
Proof.
  intros Hrun Hst. unfold updateProfile in Hrun. unfold_cm. simpl in Hrun.
  destruct (js_get (rq_body req) "fullName"), (js_get (rq_body req) "bio"), (js_get (rq_body req) "skills"),
    (js_get (rq_body req) "avatar"); simpl in Hrun; try by simplify_eq.
  destruct (object_id_castable _); simpl in Hrun; [|by simplify_eq].
  destruct (db_users db !! _) as [u|] eqn:Hu; simpl in Hrun; [|by simplify_eq].
  repeat (case_match; simpl in Hrun; try by simplify_eq).
  all: simplify_eq; eauto 10.
Qed.

(** C30: every successful [updateProfile] answers the password hash
    stored for the current user, while no answer of [getUserProfile]
    carries a password. *)
Theorem profile_password_exposure req db :
  (∀ r db', updateProfile [] req db = (OResp r, db') → r.(rs_status) = 200%Z →
     ∃ u, db.(db_users) !! req.(rq_user).(user_id) = Some u ∧
          js_get r.(rs_body) "password" = Some (JStr u.(u_password))) ∧
  (∀ r db', getUserProfile req db = (OResp r, db') → js_get r.(rs_body) "password" = Some JUndef).
Proof.
  split.
  - intros r db' Hrun Hst. destruct (updateProfile_ok req db r db' Hrun Hst) as (u & fn & b & sk & av & Hu & ->).
    exists u. split; [done|]. by rewrite user_json_password.
  - intros r db' Hrun. unfold getUserProfile in Hrun. crun.
Qed.

Module UserExamples.
Definition ex_u1 : Id := "5f00000000000000000000f1".
Definition ex_u2 : Id := "5f00000000000000000000f2".
Definition ex_user (name : string) : UserDoc :=
  mkUserDoc name (name +:+ "@example.com") "$2a$10$hash" name (Some "") None [] 0 [] [] [] true 1.
Definition ex_db : Db := set_users (empty_db 1000) {[ex_u1 := ex_user "alice"; ex_u2 := ex_user "bob"]}.
Definition ex_req (body : JsVal) : Request := mkRequest [("id", ex_u2)] (JObj []) body (mkUser ex_u1 "alice").

Lemma profile_password_exposure_witness :
  ∃ u, ex_db.(db_users) !! ex_u1 = Some u ∧
       js_get (user_json true ex_u1 (set_profile (ex_user "alice") "Alice A" (Some "") [] None)) "password" =
         Some (JStr u.(u_password)).
Proof.
  apply (proj1 (profile_password_exposure (ex_req (JObj [("fullName", JStr "Alice A")])) ex_db)
           (mkResponse 200 (user_json true ex_u1 (set_profile (ex_user "alice") "Alice A" (Some "") [] None)))
           (set_users ex_db (<[ex_u1 := set_profile (ex_user "alice") "Alice A" (Some "") [] None]> ex_db.(db_users))));
    reflexivity.
Defined.
(** [bio: null] stores and answers a [null] bio. *)
Example updateProfile_null_bio :
  match updateProfile [] (ex_req (JObj [("bio", JNull)])) ex_db with
  | (OResp r, db') => r.(rs_status) = 200%Z ∧ js_get r.(rs_body) "bio" = Some JNull ∧
                      (u_bio <$> db'.(db_users) !! ex_u1) = Some None
  | _ => False
  end.
Proof. vm_compute. auto. Qed.

End UserExamples.
