(* ===== verification/CodeController.v ===== *)
(** * The code-session controller ([controllers/code.controller.js])

    The controller was written against another schema than
    [models/codeSession.model.js]: it reads and writes [creator],
    [participants], [invitedUsers], [code] and [description], none of which
    the schema has, while the schema requires an [owner] the controller
    never sets.  Each controller is modelled as written over the JSON form
    of the stored session ([session_json]), so the theorems can show which
    requests succeed: none that creates or changes a session.  The
    execution endpoint is modelled up to the child process, which is a
    parameter ([exec]); the templates are the controller's constant. *)

From S2P Require Import Prelude JsValue Mongoose Transport CodeSessionModel Router Express Db.
From stdpp Require Import sorting.
From Stdlib Require Import Ascii.
Local Open Scope cm_scope.

(** [.sort({ createdAt: -1 })] *)
Definition session_newer_first (a b : Id * CodeSession) : Prop := (b.2.(cs_createdAt) ≤ a.2.(cs_createdAt))%Z.

#[export] Instance session_newer_first_dec : RelDecision session_newer_first.
Proof. intros a b. unfold session_newer_first. apply _. Defined.

Definition sessions_json (cs : list (Id * CodeSession)) : JsVal :=
  JArr ((λ '(id, c), session_json id c) <$> cs).

(** [new CodeSession({ title, description, language, code: code || '',
    isPublic, creator, participants })]: only [title], [language] and
    [isPublic] are paths of the schema; the required [owner] is never set,
    which [None] (the [ValidationError] of [save()]) reports. *)
Definition build_session (title language isPublic : JsVal) (t : Z) : option CodeSession :=
  ti ← trim_string <$> cast_string_value title;
  la ← trim_string <$> cast_string_value language;
  pub ← (match isPublic with JUndef => Some true | _ => cast_bool isPublic end);
  owner ← (None : option Id);
  let c := mkCodeSession None ti la (Some "") owner [] [] pub "1.0" [] t in
  if session_valid c then Some c else None.

(** [arr.includes(x)] and [arr.some(p => p.toString() === x)] on a value
    read off a document: a [TypeError] unless it is an array. *)
Definition js_includes (v : JsVal) (x : string) : option bool :=
  js_array v ≫= λ xs, Some (existsb (λ y, match y with JStr s => String.eqb s x | _ => false end) xs).
Definition js_some_id (v : JsVal) (x : string) : option bool :=
  js_array v ≫= js_some (λ p, js_toString p ≫= λ s, Some (String.eqb s x)).

(** The [switch (language.toLowerCase())] of [executeCode]. *)
Definition exec_plan (lang : string) : option (string * string) :=
  if String.eqb lang "javascript" then Some ("code.js", "node code.js")
  else if String.eqb lang "python" then Some ("code.py", "python code.py")
  else if String.eqb lang "java" then Some ("Main.java", "javac Main.java && java Main")
  else None.

(** ** The templates of [getTemplates] *)

Definition nl : string := String "010"%char EmptyString.
Definition lines (ls : list string) : string := String.concat nl ls.

Definition templates : list (string * list (string * string)) := [
  ("javascript",
   [("Hello World", "console.log(" +:+ dq +:+ "Hello, World!" +:+ dq +:+ ");");
    ("Express Server", lines [
       "const express = require('express');";
       "const app = express();";
       "const PORT = process.env.PORT || 3000;";
       "";
       "app.get('/', (req, res) => {";
       "  res.send('Hello World!');";
       "});";
       "";
       "app.listen(PORT, () => {";
       "  console.log(`Server running on port ${PORT}`);";
       "});"])]);
  ("python",
   [("Hello World", "print(" +:+ dq +:+ "Hello, World!" +:+ dq +:+ ")");
    ("Flask Server", lines [
       "from flask import Flask";
       "app = Flask(__name__)";
       "";
       "@app.route('/')";
       "def hello_world():";
       "    return 'Hello, World!'";
       "";
       "if __name__ == '__main__':";
       "    app.run(debug=True)"])]);
  ("java",
   [("Hello World", lines [
       "public class Main {";
       "    public static void main(String[] args) {";
       "        System.out.println(" +:+ dq +:+ "Hello, World!" +:+ dq +:+ ");";
       "    }";
       "}"]);
    ("Spring Boot", lines [
       "import org.springframework.boot.SpringApplication;";
       "import org.springframework.boot.autoconfigure.SpringBootApplication;";
       "import org.springframework.web.bind.annotation.GetMapping;";
       "import org.springframework.web.bind.annotation.RestController;";
       "";
       "@SpringBootApplication";
       "public class Main {";
       "    public static void main(String[] args) {";
       "        SpringApplication.run(Main.class, args);";
       "    }";
       "}";
       "";
       "@RestController";
       "class HelloController {";
       "    @GetMapping(" +:+ dq +:+ "/" +:+ dq +:+ ")";
       "    public String hello() {";
       "        return " +:+ dq +:+ "Hello, World!" +:+ dq +:+ ";";
       "    }";
       "}"])])].

Definition templates_json : JsVal :=
  JObj ((λ '(lang, ts), (lang, JArr ((λ '(n, c), JObj [("name", JStr n); ("code", JStr c)]) <$> ts)))
          <$> templates).

Section controllers.
Variable req : Request.
Let uid := req.(rq_user).(user_id).

(** The child process of [executeCode]: for a command, a file name and the
    code written to it, the error message if it failed (or timed out after
    5 s), its standard output and its standard error. *)
Variable exec : string → string → string → option string * string * string.

(** [exports.getAllSessions] *)
Definition getAllSessions : CM Db unit :=
  catch_err
    (let page := parse_int_or (query req "page") 1 in
     let limit := parse_int_or (query req "limit") 10 in
     all <- find_all Sessions (λ _, true) ;;
     match skip_limit ((page - 1) * limit)%Z limit (merge_sort session_newer_first all) with
     | None => fail EMongo
     | Some cs =>
         respond 200 (JObj [("sessions", sessions_json cs);
                            ("totalPages", JNum (ceil_div (Z.of_nat (length all)) limit));
                            ("currentPage", JNum page)])
     end)
    server_error.

(** [exports.getSessionById]: its catch answers 500 for an id that does
    not cast too. *)
Definition getSessionById : CM Db unit :=
  catch_err
    (found <- find_by_id Sessions (param req "id") ;;
     match found with
     | None => respond 404 (msg_body "Code session not found")
     | Some (id, c) => respond 200 (session_json id c)
     end)
    server_error.

(** [exports.createSession]: the [$push] to the user's [codeSessions] is a
    no-op (no such path). *)
Definition createSession : CM Db unit :=
  catch_err
    (title <- clift (js_get req.(rq_body) "title") ;;
     _ <- clift (js_get req.(rq_body) "description") ;;
     language <- clift (js_get req.(rq_body) "language") ;;
     _ <- clift (js_get req.(rq_body) "code") ;;
     isPublic <- clift (js_get req.(rq_body) "isPublic") ;;
     t <- cnow ;;
     id <- new_id ;;
     match build_session title language isPublic t with
     | None => fail EValidation
     | Some c => save_doc Sessions id c ;;; respond 201 (session_json id c)
     end)
    server_error.

(** The lookup that opens the controllers on one session. *)
Definition with_session (k : Id → CodeSession → JsVal → CM Db unit) : CM Db unit :=
  found <- find_by_id Sessions (param req "id") ;;
  match found with
  | None => respond 404 (msg_body "Code session not found")
  | Some (id, c) => k id c (session_json id c)
  end.

(** [exports.updateSession]: [session.creator.toString()] throws on the
    missing [creator]; past it, [findByIdAndUpdate] with [$set] would set
    the schema's [title], [language] and [isPublic]. *)
Definition updateSession : CM Db unit :=
  catch_err
    (title <- clift (js_get req.(rq_body) "title") ;;
     _ <- clift (js_get req.(rq_body) "description") ;;
     language <- clift (js_get req.(rq_body) "language") ;;
     _ <- clift (js_get req.(rq_body) "code") ;;
     isPublic <- clift (js_get req.(rq_body) "isPublic") ;;
     with_session (λ id c doc,
       creator <- clift (js_get doc "creator" ≫= js_toString) ;;
       allowed <- (if bool_decide (creator = uid) then cret true
                   else b <- clift (js_get doc "participants" ≫= λ ps, js_includes ps uid) ;; cret b) ;;
       if negb allowed then respond 401 (msg_body "Not authorized to update this session") else
       match (if truthy title then trim_string <$> cast_string_value title else Some c.(cs_title)),
             (if truthy language then trim_string <$> cast_string_value language else Some c.(cs_language)),
             (match isPublic with JUndef => Some c.(cs_isPublic) | _ => cast_bool isPublic end) with
       | Some ti, Some la, Some pub =>
           let c' := mkCodeSession c.(cs_stream) ti la c.(cs_codeContent) c.(cs_owner) c.(cs_collaborators)
                       c.(cs_suggestions) pub c.(cs_version) c.(cs_versionHistory) c.(cs_createdAt) in
           save_doc Sessions id c' ;;;
           respond 200 (session_json id c')
       | _, _, _ => fail (ECast "string")
       end))
    server_error.

(** [exports.deleteSession]: past the [creator] check, the session is
    removed and the loop over [session.participants] throws. *)
Definition deleteSession : CM Db unit :=
  catch_err
    (with_session (λ id c doc,
       creator <- clift (js_get doc "creator" ≫= js_toString) ;;
       if bool_decide (creator ≠ uid) then respond 401 (msg_body "Not authorized to delete this session") else
       delete_doc Sessions id ;;;
       _ <- clift (js_get doc "participants" ≫= js_array) ;;
       respond 200 (msg_body "Code session removed")))
    server_error.

(** [exports.joinSession] *)
Definition joinSession : CM Db unit :=
  catch_err
    (with_session (λ id c doc,
       invited <- (if c.(cs_isPublic) then cret true
                   else b <- clift (js_get doc "invitedUsers" ≫= λ us, js_includes us uid) ;; cret b) ;;
       if negb invited then respond 401 (msg_body "Not authorized to join this private session") else
       joined <- clift (A:=bool) (js_get doc "participants" ≫= λ ps, js_some_id ps uid) ;;
       if joined then respond 400 (msg_body "Already a participant in this session") else
       (* [participants.push]: not a path of the schema; [save()] stores the rest *)
       save_doc Sessions id c ;;;
       respond 200 (session_json id c)))
    server_error.

(** [exports.leaveSession] *)
Definition leaveSession : CM Db unit :=
  catch_err
    (with_session (λ id c doc,
       member <- clift (js_get doc "participants" ≫= λ ps, js_some_id ps uid) ;;
       if negb member then respond 400 (msg_body "Not a participant in this session") else
       creator <- clift (js_get doc "creator" ≫= js_toString) ;;
       if bool_decide (creator = uid) then
         respond 400 (msg_body "Creator cannot leave the session, please delete it instead") else
       save_doc Sessions id c ;;;
       respond 200 (msg_body "Left the code session successfully")))
    server_error.

(** [exports.saveCode]: [code], [lastUpdated] and [lastUpdatedBy] are not
    paths of the schema. *)
Definition saveCode : CM Db unit :=
  catch_err
    (_ <- clift (js_get req.(rq_body) "code") ;;
     with_session (λ id c doc,
       member <- clift (js_get doc "participants" ≫= λ ps, js_some_id ps uid) ;;
       if negb member then respond 401 (msg_body "Not authorized to save code for this session") else
       save_doc Sessions id c ;;;
       respond 200 (session_json id c)))
    server_error.

(** [exports.executeCode]: [language.toLowerCase()] throws unless
    [language] is a string, [fs.writeFileSync] unless [code] is one; the
    answer is sent from the callback of [exec]. *)
Definition executeCode : CM Db unit :=
  catch_err
    (code <- clift (js_get req.(rq_body) "code") ;;
     language <- clift (js_get req.(rq_body) "language") ;;
     lang <- clift (match language with JStr s => Some (string_lower s) | _ => None end) ;;
     match exec_plan lang with
     | None => respond 400 (msg_body "Unsupported language")
     | Some (file, command) =>
         src <- clift (match code with JStr s => Some s | _ => None end) ;;
         match exec command file src with
         | (Some msg, _, stderr) =>
             respond 200 (JObj [("success", JBool false);
                                ("output", JStr (if String.eqb stderr "" then msg else stderr))])
         | (None, stdout, _) => respond 200 (JObj [("success", JBool true); ("output", JStr stdout)])
         end
     end)
    server_error.

(** [exports.getTemplates] *)
Definition getTemplates : CM Db unit := respond 200 templates_json.
End controllers.

(** ** Lemmas *)

(** The [owner] is never set: [save()] always rejects a new session. *)
Lemma build_session_none title language isPublic t : build_session title language isPublic t = None.
Proof.
  unfold build_session. destruct (cast_string_value title), (cast_string_value language); simpl; try done.
  by destruct (match isPublic with JUndef => Some true | _ => cast_bool isPublic end).
Qed.

Lemma createSession_fails req db :
  fst (createSession req db) = OResp (mkResponse 500 (msg_body "Server error")) ∧
  (snd (createSession req db)).(db_sessions) = db.(db_sessions).
Proof.
  unfold createSession. unfold_cm. cbn -[build_session oid_of].
  destruct (js_get (rq_body req) "title"), (js_get (rq_body req) "description"),
    (js_get (rq_body req) "language"), (js_get (rq_body req) "code"), (js_get (rq_body req) "isPublic"); try done.
  cbn -[build_session oid_of]. by rewrite build_session_none.
Qed.

(** ** Properties *)

(** C27: no request creates or changes a code session through the REST
    API: [createSession] answers 500 and stores nothing, and on a stored
    session [updateSession], [deleteSession], [joinSession],
    [leaveSession] and [saveCode] answer 500 and leave the database as it
    was, whoever asks. *)
Theorem code_session_api_never_writes req db id c :
  param req "id" = JStr id → object_id_castable id = true → db.(db_sessions) !! id = Some c →
  fst (createSession req db) = OResp (mkResponse 500 (msg_body "Server error")) ∧
  (snd (createSession req db)).(db_sessions) = db.(db_sessions) ∧
  updateSession req db = (OResp (mkResponse 500 (msg_body "Server error")), db) ∧
  deleteSession req db = (OResp (mkResponse 500 (msg_body "Server error")), db) ∧
  joinSession req db = (OResp (mkResponse 500 (msg_body "Server error")), db) ∧
  leaveSession req db = (OResp (mkResponse 500 (msg_body "Server error")), db) ∧
  saveCode req db = (OResp (mkResponse 500 (msg_body "Server error")), db).
Proof.
  intros Hp Hc Hs. destruct (createSession_fails req db) as [H1 H2]. split_and!; try done.
  all: unfold updateSession, deleteSession, joinSession, leaveSession, saveCode, with_session;
    rewrite Hp; crun.
Qed.

(** Every language [getTemplates] offers templates for is one [executeCode]
    runs. *)
Lemma templates_languages_executable lang ts :
  (lang, ts) ∈ templates → exec_plan (string_lower lang) ≠ None.
Proof. intros Hin. repeat (inversion Hin as [|? ? ? Hin']; subst; [done|]; clear Hin; rename Hin' into Hin). inversion Hin. Qed.

Module CodeExamples.
Definition ex_s1 : Id := "5f00000000000000000000a9".
Definition ex_db : Db :=
  set_db_sessions (empty_db 1000) {[ex_s1 := new_session None "Pairing" "js" (Some "") "5f00000000000000000000c1" 5]}.
Definition ex_req : Request :=
  mkRequest [("id", ex_s1)] (JObj []) (JObj [("title", JStr "Pairing"); ("language", JStr "js")])
    (mkUser "5f00000000000000000000c1" "alice").

Lemma code_session_api_never_writes_witness :
  fst (createSession ex_req ex_db) = OResp (mkResponse 500 (msg_body "Server error")) ∧
  (snd (createSession ex_req ex_db)).(db_sessions) = ex_db.(db_sessions) ∧
  updateSession ex_req ex_db = (OResp (mkResponse 500 (msg_body "Server error")), ex_db) ∧
  deleteSession ex_req ex_db = (OResp (mkResponse 500 (msg_body "Server error")), ex_db) ∧
  joinSession ex_req ex_db = (OResp (mkResponse 500 (msg_body "Server error")), ex_db) ∧
  leaveSession ex_req ex_db = (OResp (mkResponse 500 (msg_body "Server error")), ex_db) ∧
  saveCode ex_req ex_db = (OResp (mkResponse 500 (msg_body "Server error")), ex_db).
Proof.
  apply (code_session_api_never_writes ex_req ex_db ex_s1
           (new_session None "Pairing" "js" (Some "") "5f00000000000000000000c1" 5)); reflexivity.
Defined.
End CodeExamples.
