(* ===== verification/AuthController.v ===== *)
(** * The authentication controller ([controllers/auth.controller.js])

    Registration, login, the current user and logout.  bcrypt and
    jsonwebtoken are libraries the controller only calls: they are the
    parameters [hash] (bcrypt.hash with the salt of [genSalt(10)]),
    [compare] (bcrypt.compare) and [sign] (jwt.sign of the payload
    [{ user: { id } }]).  The theorems show that registration keeps
    e-mail addresses and usernames unique among the users, and that a
    registered user can log in with the password given at registration
    when [compare] accepts what [hash] produced. *)

From S2P Require Import Prelude JsValue Mongoose Transport UserModel Router Express Db UserController.
Local Open Scope cm_scope.

(** [email: { lowercase: true, trim: true }] (ASCII case folding). *)
Definition email_key (s : string) : string := string_lower (trim_string s).

(** A value of a query filter on a [String] path is cast (and its
    [lowercase]/[trim] setters run, as Mongoose 5 does on queries):
    [None] is the [CastError]. *)
Definition query_cast_str (f : string → string) (v : JsVal) : option JsVal :=
  match mongoose_cast_string v with
  | Some (Some s) => Some (JStr (f s))
  | Some None => Some v
  | None => None
  end.

(** The schema's constraints on a new user: [username] of 3 to 50
    characters, an [email], a [password] of at least 6 characters, and
    [fullName] and [bio] as [user_valid] checks them. *)
Definition new_user_valid (u : UserDoc) : bool :=
  bool_decide (3 ≤ String.length u.(u_username) ≤ 50)%nat && bool_decide (u.(u_email) ≠ EmptyString) &&
  bool_decide (6 ≤ String.length u.(u_password))%nat && user_valid u.

(** [new User({ username, email, password, fullName, avatar: null, bio: '',
    skills: [], points: 0 })] with the hashed password, saved at [t]. *)
Definition build_user (username email fullName : JsVal) (pw : string) (t : Z) : option UserDoc :=
  un ← trim_string <$> cast_string_value username;
  em ← email_key <$> cast_string_value email;
  fn ← trim_string <$> cast_string_value fullName;
  let u := mkUserDoc un em pw fn (Some "") None [] 0 [] [] [] true t in
  if new_user_valid u then Some u else None.

(** [{ token, user: { id, username, email, fullName, avatar, bio, skills,
    points, createdAt } }] *)
Definition auth_body (token : string) (id : Id) (u : UserDoc) : JsVal :=
  JObj [("token", JStr token);
        ("user", JObj [("id", JStr id); ("username", JStr u.(u_username)); ("email", JStr u.(u_email));
                       ("fullName", JStr u.(u_fullName)); ("avatar", opt_json u.(u_avatar));
                       ("bio", opt_json u.(u_bio)); ("skills", JArr (JStr <$> u.(u_skills)));
                       ("points", JNum u.(u_points)); ("createdAt", JNum u.(u_createdAt))])].

(** [{ $or: [{ email }, { username }] }] on one user, the filter values
    already cast. *)
Definition email_or_username (email username : JsVal) (u : UserDoc) : bool :=
  filter_eq (Some (JStr u.(u_email))) email || filter_eq (Some (JStr u.(u_username))) username.

Section controllers.
Variable hash : string → string.
Variable compare : string → string → bool.
Variable sign : Id → string.
Variable errs : list (string * string).
Variable req : Request.

(** [exports.register]: the destructuring of [req.body] is outside the
    [try]; [bcrypt.hash] throws on a password that is not a string. *)
Definition register : CM Db unit :=
  if bool_decide (errs ≠ []) then respond 400 (errors_body errs) else
  username <- clift (js_get req.(rq_body) "username") ;;
  email <- clift (js_get req.(rq_body) "email") ;;
  password <- clift (js_get req.(rq_body) "password") ;;
  fullName <- clift (js_get req.(rq_body) "fullName") ;;
  catch_err
    (qe <- clift (query_cast_str email_key email) ;;
     qu <- clift (query_cast_str trim_string username) ;;
     existing <- find_all Users (λ '(_, u), email_or_username qe qu u) ;;
     match existing with
     | _ :: _ => respond 400 (msg_body "User already exists with this email or username")
     | [] =>
         id <- new_id ;;
         pw <- clift (match password with JStr p => Some p | _ => None end) ;;
         t <- cnow ;;
         match build_user username email fullName (hash pw) t with
         | None => fail EValidation
         | Some u => save_doc Users id u ;;; respond 201 (auth_body (sign id) id u)
         end
     end)
    server_error.

(** [exports.login]: [User.findOne({ email })] is the first match. *)
Definition login : CM Db unit :=
  if bool_decide (errs ≠ []) then respond 400 (errors_body errs) else
  email <- clift (js_get req.(rq_body) "email") ;;
  password <- clift (js_get req.(rq_body) "password") ;;
  catch_err
    (qe <- clift (query_cast_str email_key email) ;;
     found <- find_all Users (λ '(_, u), filter_eq (Some (JStr u.(u_email))) qe) ;;
     match found with
     | [] => respond 400 (msg_body "Invalid credentials")
     | (id, u) :: _ =>
         pw <- clift (match password with JStr p => Some p | _ => None end) ;;
         if compare pw u.(u_password) then respond 200 (auth_body (sign id) id u)
         else respond 400 (msg_body "Invalid credentials")
     end)
    server_error.

(** [exports.getCurrentUser]: [.select('-password')]. *)
Definition getCurrentUser : CM Db unit :=
  catch_err
    (found <- find_by_id Users (JStr req.(rq_user).(user_id)) ;;
     match found with
     | None => respond 404 (msg_body "User not found")
     | Some (id, u) => respond 200 (user_json false id u)
     end)
    server_error.

(** [exports.logout]: the token is dropped by the client. *)
Definition logout : CM Db unit := respond 200 (msg_body "Logged out successfully").
End controllers.


(** ** Lemmas *)

Lemma build_user_keys username email fullName pw t u :
  build_user username email fullName pw t = Some u →
  query_cast_str email_key email = Some (JStr u.(u_email)) ∧
  query_cast_str trim_string username = Some (JStr u.(u_username)).
Proof.
  unfold build_user, query_cast_str, cast_string_value.
  destruct (mongoose_cast_string username) as [[un|]|], (mongoose_cast_string email) as [[em|]|]; simpl; try done.
  destruct (mongoose_cast_string fullName) as [[fn|]|]; simpl; try done.
  case_match; intros; simplify_eq; done.
Qed.

Lemma register_users hash sign errs req db :
  (snd (register hash sign errs req db)).(db_users) = db.(db_users) ∨
  ∃ id u, (snd (register hash sign errs req db)).(db_users) = <[id := u]> db.(db_users) ∧
    ∀ j uj, db.(db_users) !! j = Some uj → uj.(u_email) ≠ u.(u_email) ∧ uj.(u_username) ≠ u.(u_username).
Proof.
  unfold register. case_bool_decide; [by left|]. unfold_cm. simpl.
  destruct (js_get (rq_body req) "username") as [un|], (js_get (rq_body req) "email") as [em|],
    (js_get (rq_body req) "password") as [pw|], (js_get (rq_body req) "fullName") as [fn|]; simpl; try by left.
  destruct (query_cast_str email_key em) as [qe|] eqn:Hqe, (query_cast_str trim_string un) as [qu|] eqn:Hqu;
    simpl; try by left.
  match goal with |- context [filter ?P ?l] => destruct (filter P l) as [|? ?] eqn:Hf end; simpl; [|by left].
  destruct pw; simpl; try by left.
  match goal with |- context [build_user un em fn ?p ?t] => destruct (build_user un em fn p t) as [u|] eqn:Hb end;
    simpl; [|by left].
  right. eexists _, u. split; [done|]. intros j uj Hj.
  destruct (build_user_keys _ _ _ _ _ _ Hb) as [He Hu]. simplify_eq.
  assert (email_or_username (JStr u.(u_email)) (JStr u.(u_username)) uj = false) as Hno.
  { apply not_true_is_false. intros Ht. eapply (filter_nil_not_elem_of _ _ (j, uj) Hf); [exact Ht|].
    by apply elem_of_map_to_list. }
  unfold email_or_username, filter_eq in Hno. apply orb_false_iff in Hno as [H1 H2].
  split; intros Heq; rewrite Heq, String.eqb_refl in *; discriminate.
Qed.

Lemma build_user_password username email fullName pw t u :
  build_user username email fullName pw t = Some u → u.(u_password) = pw.
Proof.
  unfold build_user. destruct (cast_string_value username), (cast_string_value email); simpl; try done.
  destruct (cast_string_value fullName); simpl; [|done]. case_match; intros; by simplify_eq.
Qed.

(** The users a [findOne]-style filter selects after an insertion of a
    fresh key, when only the inserted user passes it. *)
Lemma filter_insert_only (P : Id * UserDoc → Prop) `{!∀ x, Decision (P x)} users id u :
  users !! id = None → P (id, u) → map_Forall (λ j v, ¬ P (j, v)) users →
  filter P (map_to_list (<[id := u]> users)) = [(id, u)].
Proof.
  intros Hid HP Hall. apply Permutation_singleton_r.
  rewrite map_to_list_insert by done. rewrite filter_cons_True by done.
  rewrite filter_none_in; [done|]. intros [j v] Hjv%elem_of_map_to_list. by apply (Hall j v).
Qed.

(** ** Properties *)

(** Registration refuses a user whose (normalised) address or username is
    taken, and inserts nothing else. *)
Lemma register_preserves_unique hash sign errs req db :
  unique_accounts db.(db_users) → unique_accounts (snd (register hash sign errs req db)).(db_users).
Proof.
  intros Hu. destruct (register_users hash sign errs req db) as [->|(id & u & -> & Hnew)]; [done|].
  intros i j ui uj Hi Hj Heq. apply lookup_insert_Some in Hi, Hj.
  destruct Hi as [[<- <-]|[Hi Hi']], Hj as [[<- <-]|[Hj Hj']]; [done| | |by eapply Hu].
  - destruct (Hnew j uj Hj') as [He Hn]. naive_solver.
  - destruct (Hnew i ui Hi') as [He Hn]. naive_solver.
Qed.

(** C9: every controller that writes users keeps e-mail addresses and
    usernames unique: [register] refuses a taken (normalised) address or
    username, and [followUser], [unfollowUser] and [updateProfile] never
    change either. *)
Theorem accounts_stay_unique hash sign errs req db :
  unique_accounts db.(db_users) →
  unique_accounts (snd (register hash sign errs req db)).(db_users) ∧
  unique_accounts (snd (followUser req db)).(db_users) ∧
  unique_accounts (snd (unfollowUser req db)).(db_users) ∧
  unique_accounts (snd (updateProfile errs req db)).(db_users).
Proof.
  intros Hu. split; [by apply register_preserves_unique|]. by apply user_writes_preserve_unique.
Qed.

Section roundtrip.
Variables (hash : string → string) (compare : string → string → bool) (sign : Id → string).
Hypothesis compare_hash : ∀ p, compare p (hash p) = true.

(** C11: a user registered with an address and a username no user has
    logs in with the same address and password and gets a token for the
    new id, when [compare] accepts what [hash] produced. *)
Theorem register_then_login db un em pw fn u who :
  let id := oid_of db.(db_seq) in
  db.(db_users) !! id = None →
  build_user (JStr un) (JStr em) (JStr fn) (hash pw) db.(db_now) = Some u →
  map_Forall (λ _ v, v.(u_email) ≠ u.(u_email) ∧ v.(u_username) ≠ u.(u_username)) db.(db_users) →
  ∃ db1,
    register hash sign []
      (mkRequest [] (JObj []) (JObj [("username", JStr un); ("email", JStr em); ("password", JStr pw);
                                     ("fullName", JStr fn)]) who) db =
      (OResp (mkResponse 201 (auth_body (sign id) id u)), db1) ∧
    login compare sign [] (mkRequest [] (JObj []) (JObj [("email", JStr em); ("password", JStr pw)]) who) db1 =
      (OResp (mkResponse 200 (auth_body (sign id) id u)), db1).
Proof.
  intros id Hid Hb Hall. destruct (build_user_keys _ _ _ _ _ _ Hb) as [He Hu].
  simpl in He, Hu. injection He as He. injection Hu as Hu.
  pose proof (build_user_password _ _ _ _ _ _ Hb) as Hpw.
  eexists. split.
  - unfold register. unfold_cm. simpl. rewrite ?He, ?Hu. simpl.
    rewrite filter_none_in.
    + simpl. rewrite Hb. reflexivity.
    + intros [j v] Hjv%elem_of_map_to_list. destruct (Hall j v Hjv) as [H1 H2].
      unfold email_or_username, filter_eq. simpl. apply String.eqb_neq in H1, H2. by rewrite H1, H2.
  - unfold login. unfold_cm. simpl. rewrite ?He. simpl.
    rewrite (filter_insert_only _ _ id u Hid).
    + simpl. rewrite Hpw, compare_hash. reflexivity.
    + simpl. by rewrite String.eqb_refl.
    + intros j v Hjv. destruct (Hall j v Hjv) as [H1 _]. simpl. apply String.eqb_neq in H1. by rewrite H1.
Qed.
End roundtrip.

Module AuthExamples.
Definition ex_hash (p : string) : string := "$2a$10$" +:+ p.
Definition ex_compare (p h : string) : bool := String.eqb (ex_hash p) h.
Definition ex_sign (id : Id) : string := "jwt." +:+ id.
Definition ex_db : Db :=
  set_users (empty_db 1000)
    {["5f00000000000000000000f1" := mkUserDoc "alice" "alice@example.com" "$2a$10$x" "Alice" (Some "") None [] 0 [] [] [] true 1]}.
Definition ex_req (body : JsVal) : Request :=
  mkRequest [("id", "5f00000000000000000000f2")] (JObj []) body (mkUser "5f00000000000000000000f1" "alice").
Definition ex_bob : UserDoc := mkUserDoc "bob" "bob@example.com" (ex_hash "secret1") "Bob" (Some "") None [] 0 [] [] [] true 1000.

Definition ex_reg_body : JsVal :=
  JObj [("username", JStr "alice"); ("email", JStr "ALICE@example.com "); ("password", JStr "secret1");
        ("fullName", JStr "A")].

Lemma accounts_stay_unique_witness :
  unique_accounts (snd (register ex_hash ex_sign [] (ex_req ex_reg_body) ex_db)).(db_users) ∧
  unique_accounts (snd (followUser (ex_req ex_reg_body) ex_db)).(db_users) ∧
  unique_accounts (snd (unfollowUser (ex_req ex_reg_body) ex_db)).(db_users) ∧
  unique_accounts (snd (updateProfile [] (ex_req ex_reg_body) ex_db)).(db_users).
Proof.
  apply (accounts_stay_unique ex_hash ex_sign [] (ex_req ex_reg_body) ex_db).
  intros i j ui uj Hi Hj _. unfold ex_db in Hi, Hj. simpl in Hi, Hj.
  apply lookup_singleton_Some in Hi as [<- _], Hj as [<- _]. reflexivity.
Defined.

Lemma register_then_login_witness :
  ∃ db1,
    register ex_hash ex_sign []
      (mkRequest [] (JObj []) (JObj [("username", JStr "bob"); ("email", JStr "bob@example.com");
                                     ("password", JStr "secret1"); ("fullName", JStr "Bob")]) (mkUser "" "")) ex_db =
      (OResp (mkResponse 201 (auth_body (ex_sign (oid_of 0)) (oid_of 0) ex_bob)), db1) ∧
    login ex_compare ex_sign []
      (mkRequest [] (JObj []) (JObj [("email", JStr "bob@example.com"); ("password", JStr "secret1")]) (mkUser "" "")) db1 =
      (OResp (mkResponse 200 (auth_body (ex_sign (oid_of 0)) (oid_of 0) ex_bob)), db1).
Proof.
  apply (register_then_login ex_hash ex_compare ex_sign (λ p, String.eqb_refl _) ex_db).
  - by vm_compute.
  - by vm_compute.
  - apply map_Forall_singleton. split; discriminate.
Defined.
End AuthExamples.
