(* ===== verification/LeaderboardController.v ===== *)
(** * Updating and serving leaderboards

    The database part of [Leaderboard.updateLeaderboard]
    ([models/leaderboard.model.js]) and the controller
    [controllers/leaderboard.controller.js]: [getLeaderboard], which
    recomputes a missing or stale leaderboard, and [updateAllLeaderboards],
    which recomputes the sixteen leaderboards in turn.  The calendar
    arithmetic of the date filter ([new Date(y, m, d)], [setDate],
    [setHours] in the server's time zone) is a parameter of the section.
    [getUserRanks] is not reachable: its route [/user/:userId] is shadowed
    by [/:type/:timeframe] (see [Router]). *)

From S2P Require Import Prelude JsValue Mongoose StreamModel CodeSessionModel UserModel PostModel.
From S2P Require Import VideoModel LeaderboardModel Transport Router Express Db.
Local Open Scope cm_scope.

Section leaderboard.
(** The start of the day, of the week (its Sunday) and of the month of an
    instant, in milliseconds. *)
Variables start_of_day start_of_week start_of_month : Z → Z.

(** [dateFilter]: [{ createdAt: { $gte: start } }], or [{}] for
    ['alltime'] (and any other timeframe). *)
Definition date_filter (timeframe : string) (now : Z) : option Z :=
  if String.eqb timeframe "daily" then Some (start_of_day now)
  else if String.eqb timeframe "weekly" then Some (start_of_week now)
  else if String.eqb timeframe "monthly" then Some (start_of_month now)
  else None.

Definition in_window (f : option Z) (t : Z) : bool :=
  match f with Some s => Z.leb s t | None => true end.

(** [{ $match: dateFilter }] on a collection. *)
Definition matching {A} (c : Coll A) (createdAt : A → Z) (f : option Z) (db : Db) : list A :=
  snd <$> filter (λ kv, in_window f (createdAt kv.2) = true) (map_to_list (c.(coll_get) db)).

(** [User.find().sort({ points: -1 }).limit(100)], ranked [index + 1];
    users with equal points stay in the order of the collection. *)
Definition points_entries (db : Db) : list LbEntry :=
  rank_from 1 (take 100 (sort_by_score ((λ iu, (iu.1, iu.2.(u_points))) <$> map_to_list db.(db_users)))).

(** The [switch (type)] of [updateLeaderboard]: the [userScores]. *)
Definition user_scores (ty : string) (f : option Z) (db : Db) : list LbEntry :=
  if String.eqb ty "points" then points_entries db
  else if String.eqb ty "content" then
    rank_scores (combine_counts (group_rows (p_user <$> matching Posts p_createdAt f db))
                                (group_rows (v_user <$> matching Videos v_createdAt f db)))
  else if String.eqb ty "streams" then
    rank_scores (group_rows (s_user <$> matching Streams s_createdAt f db))
  else if String.eqb ty "coding" then
    rank_scores (group_rows (cs_owner <$> matching Sessions cs_createdAt f db))
  else [].

(** [{ type, timeframe }] *)
Definition lb_key (ty tf : string) (kv : Id * Leaderboard) : bool :=
  String.eqb kv.2.(lb_type) ty && String.eqb kv.2.(lb_timeframe) tf.

(** [updateLeaderboard(type, timeframe)]: compute the scores, find the
    leaderboard or create it, set its entries and [lastUpdated], save. *)
Definition updateLeaderboard (ty tf : string) : CM Db (Id * Leaderboard) :=
  t <- cnow ;;
  scores <- cgets (user_scores ty (date_filter tf t)) ;;
  found <- find_one Leaderboards (lb_key ty tf) ;;
  r <- (match found with
        | Some r => cret r
        | None => id <- new_id ;; cret (id, mkLeaderboard ty tf [] t t)
        end) ;;
  let lb' := set_entries r.2 scores t in
  validate (leaderboard_valid lb') ;;;
  save_doc Leaderboards r.1 lb' ;;;
  cret (r.1, lb').
Arguments updateLeaderboard : simpl never.

(** [['points', ...].includes(v)] *)
Definition js_in (xs : list string) (v : JsVal) : bool :=
  match v with JStr s => bool_decide (s ∈ xs) | _ => false end.

(** The staleness test: more than 1, 6, 12 or 24 hours since the last
    update ([(now - lastUpdated) / (1000 * 60 * 60) > h], with the exact
    division of JavaScript numbers). *)
Definition needs_update (tf : string) (now lastUpdated : Z) : bool :=
  (String.eqb tf "daily" && Z.ltb (1 * 3600000) (now - lastUpdated)) ||
  (String.eqb tf "weekly" && Z.ltb (6 * 3600000) (now - lastUpdated)) ||
  (String.eqb tf "monthly" && Z.ltb (12 * 3600000) (now - lastUpdated)) ||
  (String.eqb tf "alltime" && Z.ltb (24 * 3600000) (now - lastUpdated)).

(** [getLeaderboard]: [GET /api/leaderboards/:type/:timeframe]. *)
Definition getLeaderboard (req : Request) : CM Db unit :=
  catch_err
    (let ty := param req "type" in
     let tf := param req "timeframe" in
     if negb (js_in lb_types ty) then respond 400 (msg_body "Invalid leaderboard type") else
     if negb (js_in lb_timeframes tf) then respond 400 (msg_body "Invalid timeframe") else
     let ty := js_to_string ty in
     let tf := js_to_string tf in
     found <- find_one Leaderboards (lb_key ty tf) ;;
     t <- cnow ;;
     match found with
     | Some (id, lb) =>
         if needs_update tf t lb.(lb_lastUpdated) then
           r <- updateLeaderboard ty tf ;; respond 200 (leaderboard_json r.1 r.2)
         else respond 200 (leaderboard_json id lb)
     | None => r <- updateLeaderboard ty tf ;; respond 200 (leaderboard_json r.1 r.2)
     end)
    server_error.

(** The pairs of the two nested [for ... of] loops, types outside. *)
Definition lb_pairs : list (string * string) :=
  lb_types ≫= λ ty, (λ tf, (ty, tf)) <$> lb_timeframes.

Definition update_result (ty tf : string) (lb : Leaderboard) : JsVal :=
  JObj [("type", JStr ty); ("timeframe", JStr tf);
        ("entriesCount", JNum (Z.of_nat (length lb.(lb_entries))));
        ("lastUpdated", JNum lb.(lb_lastUpdated))].

(** The loop body, [results.push({ type, timeframe, entriesCount, lastUpdated })],
    over the pairs in order. *)
Fixpoint update_each (ps : list (string * string)) : CM Db (list JsVal) :=
  match ps with
  | [] => cret []
  | (ty, tf) :: ps' =>
      r <- updateLeaderboard ty tf ;;
      rs <- update_each ps' ;;
      cret (update_result ty tf r.2 :: rs)
  end.

(** [updateAllLeaderboards]: [POST /api/leaderboards/update-all]. *)
Definition updateAllLeaderboards (req : Request) : CM Db unit :=
  catch_err
    (rs <- update_each lb_pairs ;;
     respond 200 (JObj [("success", JBool true); ("results", JArr rs)]))
    server_error.

(** The age [needsUpdate] allows: 1, 6, 12 and 24 hours. *)
Definition max_age (tf : string) : Z :=
  if String.eqb tf "daily" then 1 * 3600000
  else if String.eqb tf "weekly" then 6 * 3600000
  else if String.eqb tf "monthly" then 12 * 3600000
  else 24 * 3600000.

(** At most one leaderboard of each type and timeframe. *)
Definition lb_unique (m : gmap Id Leaderboard) : Prop :=
  ∀ i j a b, m !! i = Some a → m !! j = Some b →
    a.(lb_type) = b.(lb_type) → a.(lb_timeframe) = b.(lb_timeframe) → i = j.

(** The leaderboard [findOne({ type, timeframe })] finds. *)
Definition stored_lb (ty tf : string) (db : Db) : option (Id * Leaderboard) :=
  head (filter (λ kv, lb_key ty tf kv = true) (map_to_list db.(db_leaderboards))).

(** The leaderboard [updateLeaderboard] saves, and where. *)
Definition updated_lb (ty tf : string) (db : Db) : Id * Leaderboard :=
  let t := db.(db_now) in
  let scores := user_scores ty (date_filter tf t) db in
  match stored_lb ty tf db with
  | Some (id, lb) => (id, set_entries lb scores t)
  | None => (oid_of db.(db_seq), mkLeaderboard ty tf scores t t)
  end.

(** ** Lemmas *)

Lemma user_scores_well_ranked ty f db : well_ranked (user_scores ty f db).
Proof.
  unfold user_scores. repeat case_match; try apply rank_scores_well_ranked.
  - apply rank_from_well_ranked; [rewrite length_take; lia|apply Sorted_take, sort_by_score_sorted].
  - split_and!; [done|simpl; lia|constructor].
Qed.

Lemma user_scores_NoDup ty f db : NoDup (le_user <$> user_scores ty f db).
Proof.
  unfold user_scores. repeat case_match;
    try (apply rank_scores_NoDup; apply NoDup_combine_counts || apply NoDup_group_rows).
  - unfold points_entries. rewrite rank_from_users, fmap_take.
    eapply sublist_NoDup; [|apply sublist_take]. rewrite sort_by_score_perm, <- list_fmap_compose.
    apply NoDup_fst_map_to_list.
  - constructor.
Qed.

Lemma stored_lb_spec ty tf db :
  match stored_lb ty tf db with
  | Some (i, lb) => db.(db_leaderboards) !! i = Some lb ∧ lb.(lb_type) = ty ∧ lb.(lb_timeframe) = tf
  | None => ∀ i lb, db.(db_leaderboards) !! i = Some lb → lb.(lb_type) = ty → lb.(lb_timeframe) = tf → False
  end.
Proof.
  pose proof (find_one_spec Leaderboards (lb_key ty tf) db) as H. unfold stored_lb. simpl in H.
  destruct (head _) as [[i lb]|]; unfold lb_key in *; simpl in *.
  - destruct H as [Hi Hk]. apply andb_true_iff in Hk as [H1 H2].
    by apply String.eqb_eq in H1, H2.
  - intros j b Hj <- <-. specialize (H j b Hj). by rewrite !String.eqb_refl in H.
Qed.

Lemma updated_lb_entries ty tf db :
  (updated_lb ty tf db).2.(lb_entries) = user_scores ty (date_filter tf db.(db_now)) db.
Proof. unfold updated_lb. by destruct (stored_lb ty tf db) as [[]|]. Qed.

Lemma updated_lb_key ty tf db :
  (updated_lb ty tf db).2.(lb_type) = ty ∧ (updated_lb ty tf db).2.(lb_timeframe) = tf.
Proof.
  pose proof (stored_lb_spec ty tf db) as H. unfold updated_lb.
  destruct (stored_lb ty tf db) as [[i lb]|]; naive_solver.
Qed.

Lemma updated_lb_lastUpdated ty tf db : (updated_lb ty tf db).2.(lb_lastUpdated) = db.(db_now).
Proof. unfold updated_lb. by destruct (stored_lb ty tf db) as [[]|]. Qed.

(** [updateLeaderboard] of a valid type and timeframe saves [updated_lb]
    and returns it. *)
Lemma updateLeaderboard_run ty tf db :
  ty ∈ lb_types → tf ∈ lb_timeframes →
  ∃ db', updateLeaderboard ty tf db = (OVal (updated_lb ty tf db), db') ∧
    db'.(db_leaderboards) = <[(updated_lb ty tf db).1 := (updated_lb ty tf db).2]> db.(db_leaderboards) ∧
    db'.(db_now) = db.(db_now).
Proof.
  intros Hty Htf. pose proof (updated_lb_key ty tf db) as [Hk1 Hk2].
  unfold updateLeaderboard. unfold_cm. simpl.
  fold (stored_lb ty tf db). unfold updated_lb in *.
  destruct (stored_lb ty tf db) as [[i lb]|]; simpl in *;
    unfold leaderboard_valid; simpl; rewrite ?Hk1, ?Hk2, !bool_decide_true by done; simpl; by eexists.
Qed.

(** Whatever [updateLeaderboard] returns, it writes at most [updated_lb]. *)
Lemma updateLeaderboard_writes ty tf db o db' :
  updateLeaderboard ty tf db = (o, db') →
  db'.(db_leaderboards) = db.(db_leaderboards) ∨
  db'.(db_leaderboards) = <[(updated_lb ty tf db).1 := (updated_lb ty tf db).2]> db.(db_leaderboards).
Proof.
  intros Hrun. unfold updateLeaderboard in Hrun. unfold_cm. simpl in Hrun.
  fold (stored_lb ty tf db) in Hrun. unfold updated_lb.
  destruct (stored_lb ty tf db) as [[i lb]|]; simpl in Hrun;
    destruct (leaderboard_valid _); simpl in Hrun; simplify_eq/=; auto.
Qed.

(** Inserting a leaderboard whose type and timeframe no other one has. *)
Lemma lb_unique_insert m i a :
  (∀ j b, j ≠ i → m !! j = Some b → b.(lb_type) = a.(lb_type) → b.(lb_timeframe) = a.(lb_timeframe) → False) →
  lb_unique m → lb_unique (<[i := a]> m).
Proof.
  intros Hnew Hu j k x y Hj Hk Ht Htf. apply lookup_insert_Some in Hj, Hk.
  destruct Hj as [[<- <-]|[Hji Hj]], Hk as [[<- <-]|[Hki Hk]]; [done| | |by eapply Hu].
  - exfalso. by apply (Hnew k y).
  - exfalso. by apply (Hnew j x).
Qed.

Lemma updated_lb_unique ty tf db :
  lb_unique db.(db_leaderboards) →
  lb_unique (<[(updated_lb ty tf db).1 := (updated_lb ty tf db).2]> db.(db_leaderboards)).
Proof.
  intros Hu. apply lb_unique_insert; [|done]. intros j b Hj Hb.
  pose proof (stored_lb_spec ty tf db) as Hs. pose proof (updated_lb_key ty tf db) as [-> ->].
  unfold updated_lb in *. destruct (stored_lb ty tf db) as [[i lb]|]; simpl in *; [|naive_solver].
  destruct Hs as (Hi & <- & <-). intros ??. by apply Hj, (Hu j i b lb).
Qed.

Lemma updateLeaderboard_preserves ty tf :
  preserves (λ db, lb_unique db.(db_leaderboards)) (updateLeaderboard ty tf).
Proof.
  intros db o db' Hrun Hu. by destruct (updateLeaderboard_writes ty tf db o db' Hrun) as [->| ->];
    [|apply updated_lb_unique].
Qed.
#[local] Hint Resolve updateLeaderboard_preserves : preserves.

Lemma update_each_preserves ps : preserves (λ db, lb_unique db.(db_leaderboards)) (update_each ps).
Proof. induction ps as [|[ty tf] ps IH]; simpl; preserves_steps. Qed.

#[local] Hint Resolve update_each_preserves : preserves.

Lemma update_each_run ps db :
  Forall (λ p, p.1 ∈ lb_types ∧ p.2 ∈ lb_timeframes) ps →
  ∃ lbs db', update_each ps db = (OVal (zip_with (λ p lb, update_result p.1 p.2 lb) ps lbs), db') ∧
    length lbs = length ps ∧ Forall (λ lb, well_ranked lb.(lb_entries)) lbs.
Proof.
  revert db. induction ps as [|[ty tf] ps IH]; intros db Hps; [by exists [], db|].
  apply Forall_cons in Hps as [[Hty Htf] Hps].
  destruct (updateLeaderboard_run ty tf db Hty Htf) as (db1 & Hrun & _).
  destruct (IH db1 Hps) as (lbs & db' & Hrun' & Hlen & Hall).
  exists ((updated_lb ty tf db).2 :: lbs), db'. cbn [update_each]. unfold cbind. cbv beta.
  rewrite Hrun. cbv beta iota. rewrite Hrun'. split_and!; [done|simpl; lia|].
  constructor; [|done]. rewrite updated_lb_entries. apply user_scores_well_ranked.
Qed.

Lemma lb_pairs_valid : Forall (λ p, p.1 ∈ lb_types ∧ p.2 ∈ lb_timeframes) lb_pairs.
Proof. repeat constructor. Qed.

Lemma needs_update_false tf now lu :
  tf ∈ lb_timeframes → needs_update tf now lu = false → (now - lu ≤ max_age tf)%Z.
Proof.
  intros Htf. unfold needs_update, max_age.
  repeat (apply elem_of_cons in Htf as [->|Htf]; [simpl; rewrite ?orb_false_r; intros H%Z.ltb_ge; lia|]).
  by apply elem_of_nil in Htf.
Qed.

Lemma max_age_pos tf : (0 < max_age tf)%Z.
Proof. unfold max_age. repeat case_match; lia. Qed.

(** ** The properties of the leaderboards *)

(** C33: Updating a leaderboard of a valid type and timeframe always
    succeeds and stores, under the id it returns, a leaderboard of that
    type and timeframe updated now whose entries are the computed scores:
    ranked 1, 2, ... in order, at most 100 of them, scores not increasing,
    and no user twice. *)
Theorem updateLeaderboard_ranked ty tf db :
  ty ∈ lb_types → tf ∈ lb_timeframes →
  ∃ id lb db', updateLeaderboard ty tf db = (OVal (id, lb), db') ∧
    db'.(db_leaderboards) !! id = Some lb ∧ lb.(lb_type) = ty ∧ lb.(lb_timeframe) = tf ∧
    lb.(lb_lastUpdated) = db.(db_now) ∧ lb.(lb_entries) = user_scores ty (date_filter tf db.(db_now)) db ∧
    well_ranked lb.(lb_entries) ∧ NoDup (le_user <$> lb.(lb_entries)).
Proof.
  intros Hty Htf. destruct (updateLeaderboard_run ty tf db Hty Htf) as (db' & Hrun & Hl & _).
  pose proof (updated_lb_key ty tf db) as [Hk1 Hk2].
  exists (updated_lb ty tf db).1, (updated_lb ty tf db).2, db'.
  rewrite <- surjective_pairing, Hl, lookup_insert_eq, updated_lb_lastUpdated, updated_lb_entries.
  split_and!; try done; [apply user_scores_well_ranked|apply user_scores_NoDup].
Qed.

(** Run one at a time, the leaderboard controllers keep at most one
    leaderboard of each type and timeframe: whatever [getLeaderboard] and
    [updateAllLeaderboards] answer, they do not create a second one.
    Interleaved at their [await]s, two first requests do
    ([LeaderboardRace.leaderboard_duplicate_race]). *)
Lemma leaderboards_stay_unique req :
  preserves (λ db, lb_unique db.(db_leaderboards)) (getLeaderboard req) ∧
  preserves (λ db, lb_unique db.(db_leaderboards)) (updateAllLeaderboards req).
Proof. split; [unfold getLeaderboard|unfold updateAllLeaderboards]; preserves_steps. Qed.

(** C35: [updateAllLeaderboards] runs its sixteen updates to the end and
    always answers 200 with sixteen results, one per type and timeframe in
    the order of the loops, each reporting a well-ranked leaderboard. *)
Theorem updateAllLeaderboards_answers req db :
  ∃ lbs db', updateAllLeaderboards req db =
    (OResp (mkResponse 200 (JObj [("success", JBool true);
       ("results", JArr (zip_with (λ p lb, update_result p.1 p.2 lb) lb_pairs lbs))])), db') ∧
    length lbs = 16%nat ∧ Forall (λ lb, well_ranked lb.(lb_entries)) lbs.
Proof.
  destruct (update_each_run lb_pairs db lb_pairs_valid) as (lbs & db' & Hrun & Hlen & Hall).
  exists lbs, db'. unfold updateAllLeaderboards, catch_err, cbind. cbv beta. rewrite Hrun.
  split_and!; [done|by rewrite Hlen|done].
Qed.

(** C36: A request for a valid type and timeframe is answered 200 with the
    stored leaderboard of that type and timeframe, last updated at most 1,
    6, 12 or 24 hours (daily, weekly, monthly, all-time) before the
    request: an older or missing one is recomputed first. *)
Theorem getLeaderboard_fresh req db ty tf :
  param req "type" = JStr ty → param req "timeframe" = JStr tf →
  ty ∈ lb_types → tf ∈ lb_timeframes →
  ∃ id lb db', getLeaderboard req db = (OResp (mkResponse 200 (leaderboard_json id lb)), db') ∧
    db'.(db_leaderboards) !! id = Some lb ∧ lb.(lb_type) = ty ∧ lb.(lb_timeframe) = tf ∧
    (db.(db_now) - lb.(lb_lastUpdated) ≤ max_age tf)%Z.
Proof.
  intros Hp1 Hp2 Hty Htf. pose proof (stored_lb_spec ty tf db) as Hs.
  pose proof (max_age_pos tf). pose proof (updated_lb_key ty tf db) as [Hk1 Hk2].
  destruct (updateLeaderboard_run ty tf db Hty Htf) as (db1 & Hrun & Hl & _).
  unfold getLeaderboard. rewrite Hp1, Hp2. cbn [js_in js_to_string].
  rewrite !bool_decide_true by done. simpl. unfold catch_err, cbind, find_one, cnow, cgets. simpl.
  fold (stored_lb ty tf db).
  destruct (stored_lb ty tf db) as [[id lb]|] eqn:E; [destruct Hs as (Hi & Ht1 & Ht2)|];
    [destruct (needs_update _ _ _) eqn:Hn|]; try rewrite Hrun; simpl.
  2: { exists id, lb, db. split_and!; [done..|]. by apply needs_update_false. }
  all: exists (updated_lb ty tf db).1, (updated_lb ty tf db).2, db1.
  all: rewrite Hl, lookup_insert_eq, updated_lb_lastUpdated; split_and!; try done; lia.
Qed.
End leaderboard.

Module LeaderboardExamples.
Definition ex_start (t : Z) : Z := 0.
Definition ex_u1 : Id := "5f00000000000000000000a1".
Definition ex_u2 : Id := "5f00000000000000000000a2".
Definition ex_post (u : Id) (t : Z) : Post := mkPost u "hello" [] [] [] [] false t.
Definition ex_video (u : Id) : Video := mkVideo u "Intro" "" "https://cdn/v.mp4" None 60 [] [] [] [] true 5.
Definition ex_db : Db :=
  set_videos
    (set_posts (empty_db 1000)
       {[ "p1" := ex_post ex_u1 10; "p2" := ex_post ex_u2 20; "p3" := ex_post ex_u2 30 ]})
    {[ "v1" := ex_video ex_u2 ]}.
Definition ex_req : Request :=
  mkRequest [("type", "content"); ("timeframe", "daily")] (JObj []) (JObj []) (mkUser ex_u1 "alice").

(** The content leaderboard of [ex_db]: three items of the second user,
    one of the first. *)
Example content_ranking :
  (updated_lb ex_start ex_start ex_start "content" "daily" ex_db).2.(lb_entries) =
  [mkLbEntry ex_u2 3 1; mkLbEntry ex_u1 1 2].
Proof. by vm_compute. Qed.

Lemma updateLeaderboard_ranked_witness :
  ∃ id lb db', updateLeaderboard ex_start ex_start ex_start "content" "daily" ex_db = (OVal (id, lb), db') ∧
    db'.(db_leaderboards) !! id = Some lb ∧ lb.(lb_type) = "content" ∧ lb.(lb_timeframe) = "daily" ∧
    lb.(lb_lastUpdated) = ex_db.(db_now) ∧
    lb.(lb_entries) = user_scores "content" (date_filter ex_start ex_start ex_start "daily" ex_db.(db_now)) ex_db ∧
    well_ranked lb.(lb_entries) ∧ NoDup (le_user <$> lb.(lb_entries)).
Proof. apply updateLeaderboard_ranked; repeat constructor. Defined.

Lemma getLeaderboard_fresh_witness :
  ∃ id lb db', getLeaderboard ex_start ex_start ex_start ex_req ex_db =
      (OResp (mkResponse 200 (leaderboard_json id lb)), db') ∧
    db'.(db_leaderboards) !! id = Some lb ∧ lb.(lb_type) = "content" ∧ lb.(lb_timeframe) = "daily" ∧
    (ex_db.(db_now) - lb.(lb_lastUpdated) ≤ max_age "daily")%Z.
Proof. apply getLeaderboard_fresh; [reflexivity|reflexivity|repeat constructor..]. Defined.
End LeaderboardExamples.
