(* ===== verification/NotificationController.v ===== *)
(** * The notification controller ([controllers/notification.controller.js])

    The five controllers of [/api/notifications], all behind the auth
    middleware, over the [Notifications] collection: the paginated listing
    of the current user's notifications with the unread count of
    [Notification.getUnreadCount], marking one or all as read, deleting
    one, and the unread count alone.  The [populate('sender', ...)] of the
    listing replaces an id by a user in the answer only and is left out. *)

From S2P Require Import Prelude JsValue Mongoose Transport NotificationModel Express Db.
Local Open Scope cm_scope.

(** [.sort({ createdAt: -1 })] *)
Definition notif_newer_first (a b : Id * Notification) : Prop := (b.2.(n_createdAt) ≤ a.2.(n_createdAt))%Z.

#[export] Instance notif_newer_first_dec : RelDecision notif_newer_first.
Proof. intros a b. unfold notif_newer_first. apply _. Defined.

(** [{ recipient: req.user.id }] *)
Definition for_user (u : Id) (kv : Id * Notification) : bool := String.eqb kv.2.(n_recipient) u.

Definition notifications_json (ns : list (Id * Notification)) : JsVal :=
  JArr ((λ kv, notification_json kv.1 kv.2) <$> ns).

Section controllers.
Variable req : Request.
Let uid := req.(rq_user).(user_id).

(** [Notification.getUnreadCount(req.user.id)] *)
Definition getUnreadCount_of (u : Id) : CM Db Z := count_where Notifications (λ kv, unread_for u kv.2).

(** [exports.getNotifications]: the page [skip((page - 1) * limit).limit(limit)]
    of the user's notifications, newest first, with the totals. *)
Definition getNotifications : CM Db unit :=
  catch_err
    (let page := parse_int_or (query req "page") 1 in
     let limit := parse_int_or (query req "limit") 20 in
     all <- find_all Notifications (for_user uid) ;;
     match skip_limit ((page - 1) * limit)%Z limit (merge_sort notif_newer_first all) with
     | None => fail EMongo
     | Some ns =>
         total <- count_where Notifications (for_user uid) ;;
         unread <- getUnreadCount_of uid ;;
         respond 200 (JObj [("notifications", notifications_json ns); ("currentPage", JNum page);
                            ("totalPages", JNum (ceil_div total limit));
                            ("totalNotifications", JNum total); ("unreadCount", JNum unread)])
     end)
    server_error.

(** [exports.markAsRead]: 404, 401 unless the user is the recipient, then
    [notification.markAsRead()]. *)
Definition markAsRead_ctl : CM Db unit :=
  catch_err
    (found <- find_by_id Notifications (param req "id") ;;
     match found with
     | None => respond 404 (msg_body "Notification not found")
     | Some (id, n) =>
         if negb (String.eqb n.(n_recipient) uid) then respond 401 (msg_body "Not authorized") else
         save_doc Notifications id (markAsRead n) ;;;
         respond 200 (JObj [("success", JBool true)])
     end)
    (catch_kind "Notification not found").

(** [exports.markAllAsRead]: [Notification.updateMany({ recipient, isRead: false }, { isRead: true })]. *)
Definition markAllAsRead : CM Db unit :=
  catch_err
    (update_where Notifications (λ kv, unread_for uid kv.2) markAsRead ;;;
     respond 200 (JObj [("success", JBool true)]))
    server_error.

(** [exports.deleteNotification]: 404, 401 unless the user is the
    recipient, then [notification.remove()]. *)
Definition deleteNotification : CM Db unit :=
  catch_err
    (found <- find_by_id Notifications (param req "id") ;;
     match found with
     | None => respond 404 (msg_body "Notification not found")
     | Some (id, n) =>
         if negb (String.eqb n.(n_recipient) uid) then respond 401 (msg_body "Not authorized") else
         delete_doc Notifications id ;;;
         respond 200 (msg_body "Notification removed")
     end)
    (catch_kind "Notification not found").

(** [exports.getUnreadCount] *)
Definition getUnreadCount : CM Db unit :=
  catch_err (count <- getUnreadCount_of uid ;; respond 200 (JObj [("count", JNum count)])) server_error.
End controllers.

(** ** Lemmas *)

Lemma unread_for_markAsRead u n : unread_for u (markAsRead n) = false.
Proof. unfold unread_for. simpl. by rewrite andb_false_r. Qed.

Lemma mark_unread_lookup u (m : gmap Id Notification) i :
  map_imap (λ i x, Some (if unread_for u x then markAsRead x else x)) m !! i =
  (λ x, if unread_for u x then markAsRead x else x) <$> m !! i.
Proof. rewrite map_lookup_imap. by destruct (m !! i). Qed.

(** After [updateMany], none of the user's notifications is unread. *)
Lemma no_unread_after_mark u (m : gmap Id Notification) :
  filter (λ kv, unread_for u kv.2 = true)
    (map_to_list (map_imap (λ i x, Some (if unread_for u x then markAsRead x else x)) m)) = [].
Proof.
  apply filter_none_in. intros [i x] Hx. apply elem_of_map_to_list in Hx.
  rewrite mark_unread_lookup in Hx. apply fmap_Some in Hx as (y & _ & ->). simpl.
  destruct (unread_for u y) eqn:E; [by rewrite unread_for_markAsRead|by rewrite E].
Qed.

(** ** Properties *)

(** [markAllAsRead] always answers 200 and, afterwards,
    [getUnreadCount] of the same user answers 0; the notifications of
    other users are untouched and no notification is created or removed. *)
Theorem markAllAsRead_clears req db :
  ∃ db', markAllAsRead req db = (OResp (mkResponse 200 (JObj [("success", JBool true)])), db') ∧
    getUnreadCount req db' = (OResp (mkResponse 200 (JObj [("count", JNum 0)])), db') ∧
    (∀ i n, db.(db_notifications) !! i = Some n → n.(n_recipient) ≠ req.(rq_user).(user_id) →
            db'.(db_notifications) !! i = Some n) ∧
    (∀ i, is_Some (db'.(db_notifications) !! i) ↔ is_Some (db.(db_notifications) !! i)).
Proof.
  eexists. split; [reflexivity|]. cbn -[map_imap]. split_and!.
  - unfold getUnreadCount, getUnreadCount_of. unfold_cm. simpl. by rewrite no_unread_after_mark.
  - intros i n Hn Hne. rewrite mark_unread_lookup, Hn. simpl. unfold unread_for.
    by rewrite (proj2 (String.eqb_neq _ _) Hne).
  - intros i. rewrite mark_unread_lookup. by destruct (db_notifications db !! i).
Qed.

(** C37: Only the recipient can mark a notification as read or delete it:
    for a stored notification, the recipient's [markAsRead] stores it read
    and [deleteNotification] removes it, both answering 200; anyone else
    gets 401 and the database is unchanged. *)
Theorem notification_recipient_only req db id n :
  param req "id" = JStr id → object_id_castable id = true → db.(db_notifications) !! id = Some n →
  markAsRead_ctl req db =
    (if String.eqb n.(n_recipient) req.(rq_user).(user_id)
     then (OResp (mkResponse 200 (JObj [("success", JBool true)])),
           set_notifications db (<[id := markAsRead n]> db.(db_notifications)))
     else (OResp (mkResponse 401 (msg_body "Not authorized")), db)) ∧
  deleteNotification req db =
    (if String.eqb n.(n_recipient) req.(rq_user).(user_id)
     then (OResp (mkResponse 200 (msg_body "Notification removed")),
           set_notifications db (delete id db.(db_notifications)))
     else (OResp (mkResponse 401 (msg_body "Not authorized")), db)).
Proof.
  intros Hp Hc Hn. unfold markAsRead_ctl, deleteNotification, catch_err, cbind.
  rewrite !(find_by_id_param Notifications db req id n) by done. simpl.
  by destruct (String.eqb _ _).
Qed.

Module NotificationExamples.
Definition ex_n1 : Id := "5f00000000000000000000e1".
Definition ex_note (u : Id) : Notification :=
  new_notification u None "system" "user" u "User" "Welcome" None 5.
Definition ex_db : Db :=
  set_notifications (empty_db 1000) {[ex_n1 := ex_note "5f00000000000000000000f1"]}.
Definition ex_req (u : Id) : Request := mkRequest [("id", ex_n1)] (JObj []) (JObj []) (mkUser u "alice").

Lemma markAllAsRead_clears_witness :
  ∃ db', markAllAsRead (ex_req "5f00000000000000000000f1") ex_db =
      (OResp (mkResponse 200 (JObj [("success", JBool true)])), db') ∧
    getUnreadCount (ex_req "5f00000000000000000000f1") db' = (OResp (mkResponse 200 (JObj [("count", JNum 0)])), db') ∧
    (∀ i n, ex_db.(db_notifications) !! i = Some n → n.(n_recipient) ≠ "5f00000000000000000000f1" →
            db'.(db_notifications) !! i = Some n) ∧
    (∀ i, is_Some (db'.(db_notifications) !! i) ↔ is_Some (ex_db.(db_notifications) !! i)).
Proof. apply (markAllAsRead_clears (ex_req "5f00000000000000000000f1") ex_db). Defined.

Lemma notification_recipient_only_witness :
  markAsRead_ctl (ex_req "5f00000000000000000000f2") ex_db =
    (OResp (mkResponse 401 (msg_body "Not authorized")), ex_db) ∧
  deleteNotification (ex_req "5f00000000000000000000f2") ex_db =
    (OResp (mkResponse 401 (msg_body "Not authorized")), ex_db).
Proof.
  destruct (notification_recipient_only (ex_req "5f00000000000000000000f2") ex_db ex_n1
              (ex_note "5f00000000000000000000f1")) as [H1 H2]; [reflexivity|by vm_compute..|].
  rewrite H1, H2. split; reflexivity.
Defined.
End NotificationExamples.
