(* ===== verification/BadgeController.v ===== *)
(** * Badges: [Badge.checkQualification] and [controllers/badge.controller.js]

    The static [checkQualification] of [models/badge.model.js], which
    counts the user's posts, videos, code sessions or streams, or reads
    their followers or points, depending on the badge's category; the CRUD
    controllers of [/api/badges]; [awardBadge], which adds the badge and its
    points to the user and creates a notification; and [checkAllBadges],
    which does the same for every badge the user qualifies for.  The route
    of [checkAllBadges], [GET /check-all], is shadowed by [GET /:id] (see
    [Router]): the controller is modelled as written but no request
    reaches it. *)

From S2P Require Import Prelude JsValue Mongoose Transport StreamModel CodeSessionModel UserModel.
From S2P Require Import PostModel VideoModel BadgeModel NotificationModel Express Db.
Local Open Scope cm_scope.

(** A [required] string path: [undefined] and [null] leave it empty, which
    [required] rejects like [''] ([None] is a cast error). *)
Definition cast_req_string (v : JsVal) : option string :=
  match mongoose_cast_string v with Some (Some s) => Some s | Some None => Some EmptyString | None => None end.

(** [new Badge({ name, description, icon, category, pointsAwarded:
    pointsAwarded || 0, requirements, level: level || 1, isHidden:
    isHidden || false })] from the fields of [req.body]. *)
Definition build_badge (f : string → JsVal) (t : Z) : option Badge :=
  nm ← cast_req_string (f "name");
  de ← cast_req_string (f "description");
  ic ← cast_req_string (f "icon");
  ca ← cast_req_string (f "category");
  pa ← cast_number (if truthy (f "pointsAwarded") then f "pointsAwarded" else JNum 0);
  lv ← cast_number (if truthy (f "level") then f "level" else JNum 1);
  hi ← cast_bool_nullable (if truthy (f "isHidden") then f "isHidden" else JBool false);
  Some (mkBadge (trim_string nm) de ic ca pa (f "requirements") lv hi t).

(** The assignments of [updateBadge]: [if (name) badge.name = name], ...,
    [if (pointsAwarded !== undefined) badge.pointsAwarded = pointsAwarded],
    ..., [if (isHidden !== undefined) badge.isHidden = isHidden]. *)
Definition update_badge (b : Badge) (f : string → JsVal) : option Badge :=
  nm ← (if truthy (f "name") then trim_string <$> cast_string_value (f "name") else Some b.(b_name));
  de ← (if truthy (f "description") then cast_string_value (f "description") else Some b.(b_description));
  ic ← (if truthy (f "icon") then cast_string_value (f "icon") else Some b.(b_icon));
  ca ← (if truthy (f "category") then cast_string_value (f "category") else Some b.(b_category));
  pa ← (match f "pointsAwarded" with JUndef => Some b.(b_pointsAwarded) | v => cast_number v end);
  let rq := if truthy (f "requirements") then f "requirements" else b.(b_requirements) in
  lv ← (if truthy (f "level") then cast_number (f "level") else Some b.(b_level));
  hi ← (match f "isHidden" with JUndef => Some b.(b_isHidden) | v => cast_bool_nullable v end);
  Some (mkBadge nm de ic ca pa rq lv hi b.(b_createdAt)).

(** The [unique] index on [name]: another badge has the name. *)
Definition name_taken (db : Db) (id : Id) (nm : string) : bool :=
  existsb (λ kv, negb (String.eqb kv.1 id) && String.eqb kv.2.(b_name) nm) (map_to_list db.(db_badges)).

(** [.sort({ level: 1, category: 1 })]: [null] levels first. *)
Definition level_le (x y : option Z) : bool :=
  match x, y with None, _ => true | Some _, None => false | Some m, Some n => Z.leb m n end.
Definition level_eq (x y : option Z) : bool :=
  match x, y with None, None => true | Some m, Some n => Z.eqb m n | _, _ => false end.
Definition badge_before (a b : Id * Badge) : Prop :=
  (level_le a.2.(b_level) b.2.(b_level) &&
   (negb (level_eq a.2.(b_level) b.2.(b_level)) || String.leb a.2.(b_category) b.2.(b_category))) = true.

#[export] Instance badge_before_dec : RelDecision badge_before.
Proof. intros a b. unfold badge_before. apply _. Defined.

Definition badges_json (bs : list (Id * Badge)) : JsVal := JArr ((λ kv, badge_json kv.1 kv.2) <$> bs).

(** [`Congratulations! You've earned the "${badge.name}" badge and ${badge.pointsAwarded} points!`] *)
Definition award_message (b : Badge) : string :=
  "Congratulations! You've earned the " +:+ dq +:+ b.(b_name) +:+ dq +:+ " badge and " +:+
  js_to_string (opt_num_json b.(b_pointsAwarded)) +:+ " points!".

(** [Badge.checkQualification(userId, badgeId)]: a plain [Error] when the
    user or the badge is missing. *)
Definition checkQualification (userId badgeId : JsVal) : CM Db Qualification :=
  fu <- find_by_id Users userId ;;
  match fu with
  | None => fail (EError "User not found")
  | Some (uid, u) =>
      fb <- find_by_id Badges badgeId ;;
      match fb with
      | None => fail (EError "Badge not found")
      | Some (bid, b) =>
          if bool_decide (bid ∈ u.(u_badges)) then cret AlreadyHas
          else if String.eqb b.(b_category) "content" then
            pc <- count_where Posts (λ kv, String.eqb kv.2.(p_user) uid) ;;
            vc <- count_where Videos (λ kv, String.eqb kv.2.(v_user) uid) ;;
            cret (Checked (meets b "postCount" pc || meets b "videoCount" vc)
                    [("postCount", pc); ("videoCount", vc)])
          else if String.eqb b.(b_category) "social" then
            let fc := Z.of_nat (length u.(u_followers)) in
            let gc := Z.of_nat (length u.(u_following)) in
            cret (Checked (meets b "followerCount" fc || meets b "followingCount" gc)
                    [("followerCount", fc); ("followingCount", gc)])
          else if String.eqb b.(b_category) "coding" then
            cc <- count_where Sessions (λ kv, String.eqb kv.2.(cs_owner) uid) ;;
            cret (Checked (meets b "codeSessionCount" cc) [("codeSessionCount", cc)])
          else if String.eqb b.(b_category) "streaming" then
            sc <- count_where Streams (λ kv, String.eqb kv.2.(s_user) uid) ;;
            cret (Checked (meets b "streamCount" sc) [("streamCount", sc)])
          else if String.eqb b.(b_category) "general" then
            let required := if truthy (requirement b "points") then requirement b "points" else JNum 0 in
            cret (Checked (js_ge_num u.(u_points) required) [("points", u.(u_points))])
          else cret (Checked false [])
      end
  end.

(** The user once a badge is awarded: [addBadge], then [addPoints] when
    [pointsAwarded > 0]. *)
Definition award_user (bid : Id) (b : Badge) (u : UserDoc) : UserDoc :=
  match awards_points b with Some p => addPoints p (addBadge bid u) | None => addBadge bid u end.

(** [await user.addBadge(id); if (badge.pointsAwarded > 0) await
    user.addPoints(badge.pointsAwarded); await Notification.createNotification({...})]. *)
Definition award (uid : Id) (u : UserDoc) (bid : Id) (b : Badge) : CM Db UserDoc :=
  save_doc Users uid (addBadge bid u) ;;;
  (match awards_points b with
   | Some p => save_doc Users uid (addPoints p (addBadge bid u))
   | None => cret tt
   end) ;;;
  t <- cnow ;;
  nid <- new_id ;;
  let n := new_notification uid None "system" "user" uid "User" (award_message b)
             (Some ("/profile/" +:+ uid)) t in
  validate (notification_valid n) ;;;
  save_doc Notifications nid n ;;;
  cret (award_user bid b u).

(** The loop of [checkAllBadges] over [Badge.find()]: badges the user has
    are skipped; for the others, the result of [checkQualification] is
    pushed, and a qualified badge is awarded. *)
Fixpoint check_each (uid : Id) (u : UserDoc) (bs : list (Id * Badge))
    : CM Db (UserDoc * list JsVal * list JsVal) :=
  match bs with
  | [] => cret (u, [], [])
  | (bid, b) :: bs' =>
      if bool_decide (bid ∈ u.(u_badges)) then check_each uid u bs' else
      q <- checkQualification (JStr uid) (JStr bid) ;;
      u' <- (if qualified q then award uid u bid b else cret u) ;;
      r <- check_each uid u' bs' ;;
      cret (r.1.1, JObj (("badge", badge_json bid b) :: qualification_fields q) :: r.1.2,
            if qualified q then badge_json bid b :: r.2 else r.2)
  end.

Section controllers.
Variable errs : list (string * string).
Variable req : Request.
Let uid := req.(rq_user).(user_id).

(** [exports.createBadge] *)
Definition createBadge : CM Db unit :=
  if bool_decide (errs ≠ []) then respond 400 (errors_body errs) else
  catch_err
    (t <- cnow ;;
     id <- new_id ;;
     match build_badge (field_of req) t with
     | None => fail EValidation
     | Some b =>
         validate (badge_valid b) ;;;
         taken <- cgets (λ db, name_taken db id b.(b_name)) ;;
         if taken then fail EMongo else
         save_doc Badges id b ;;;
         respond 201 (badge_json id b)
     end)
    server_error.

(** [exports.getBadges]: [Badge.find({ isHidden: false }).sort({ level: 1, category: 1 })]. *)
Definition getBadges : CM Db unit :=
  catch_err
    (bs <- find_all Badges (λ kv, bool_decide (kv.2.(b_isHidden) = Some false)) ;;
     respond 200 (badges_json (merge_sort badge_before bs)))
    server_error.

(** [exports.getBadgeById] *)
Definition getBadgeById : CM Db unit :=
  catch_err
    (found <- find_by_id Badges (param req "id") ;;
     match found with
     | None => respond 404 (msg_body "Badge not found")
     | Some (id, b) => respond 200 (badge_json id b)
     end)
    (catch_kind "Badge not found").

(** [exports.updateBadge] *)
Definition updateBadge : CM Db unit :=
  if bool_decide (errs ≠ []) then respond 400 (errors_body errs) else
  catch_err
    (found <- find_by_id Badges (param req "id") ;;
     match found with
     | None => respond 404 (msg_body "Badge not found")
     | Some (id, b) =>
         match update_badge b (field_of req) with
         | None => fail EValidation
         | Some b' =>
             validate (badge_valid b') ;;;
             taken <- cgets (λ db, name_taken db id b'.(b_name)) ;;
             if taken then fail EMongo else
             save_doc Badges id b' ;;;
             respond 200 (badge_json id b')
         end
     end)
    (catch_kind "Badge not found").

(** [exports.deleteBadge] *)
Definition deleteBadge : CM Db unit :=
  catch_err
    (found <- find_by_id Badges (param req "id") ;;
     match found with
     | None => respond 404 (msg_body "Badge not found")
     | Some (id, _) => delete_doc Badges id ;;; respond 200 (msg_body "Badge removed")
     end)
    (catch_kind "Badge not found").

(** [exports.checkBadgeQualification] *)
Definition checkBadgeQualification : CM Db unit :=
  catch_err
    (q <- checkQualification (JStr uid) (param req "id") ;;
     respond 200 (JObj (qualification_fields q)))
    (catch_kind "Badge or user not found").

(** [exports.awardBadge] *)
Definition awardBadge : CM Db unit :=
  catch_err
    (fb <- find_by_id Badges (param req "id") ;;
     match fb with
     | None => respond 404 (msg_body "Badge not found")
     | Some (bid, b) =>
         fu <- find_by_id Users (param req "userId") ;;
         match fu with
         | None => respond 404 (msg_body "User not found")
         | Some (id, u) =>
             if bool_decide (bid ∈ u.(u_badges)) then respond 400 (msg_body "User already has this badge") else
             u' <- award id u bid b ;;
             respond 200 (JObj [("success", JBool true); ("user", user_json true id u')])
         end
     end)
    (catch_kind "Badge or user not found").

(** [exports.checkAllBadges] *)
Definition checkAllBadges : CM Db unit :=
  catch_err
    (fu <- find_by_id Users (JStr uid) ;;
     match fu with
     | None => respond 404 (msg_body "User not found")
     | Some (id, u) =>
         bs <- find_all Badges (λ _, true) ;;
         r <- check_each id u bs ;;
         respond 200 (JObj [("results", JArr r.1.2); ("newlyQualifiedBadges", JArr r.2);
                            ("user", user_json true id r.1.1)])
     end)
    server_error.
End controllers.

(** ** Lemmas *)

Lemma award_message_nonempty b : award_message b ≠ EmptyString.
Proof. unfold award_message. rewrite string_app_cons. discriminate. Qed.

Lemma award_notification_valid uid b t :
  notification_valid (new_notification uid None "system" "user" uid "User" (award_message b)
                        (Some ("/profile/" +:+ uid)) t) = true.
Proof.
  unfold notification_valid. cbn [n_type n_contentType n_contentModel n_message new_notification].
  rewrite !bool_decide_true; [done|apply award_message_nonempty|repeat constructor..].
Qed.

Lemma award_user_badges bid b u : (award_user bid b u).(u_badges) = push_unique bid u.(u_badges).
Proof. unfold award_user. by destruct (awards_points b). Qed.

(** [award] stores the awarded user and one notification. *)
Lemma award_run uid u bid b db :
  ∃ db', award uid u bid b db = (OVal (award_user bid b u), db') ∧
    db'.(db_users) = <[uid := award_user bid b u]> db.(db_users) ∧ db'.(db_badges) = db.(db_badges).
Proof.
  unfold award. unfold_cm. destruct (awards_points b) eqn:E; cbn -[notification_valid];
    rewrite award_notification_valid; unfold award_user; rewrite E; simpl;
    eexists; split_and!; try reflexivity.
  by rewrite insert_insert_eq.
Qed.

(** ** Properties *)

(** C38: Awarding a badge to a user who does not have it answers 200 with
    the user, who now has the badge once more at the end of their badges
    and the badge's points if they are positive (the answer includes the
    password hash); awarding it again answers 400 and changes nothing. *)
Theorem awardBadge_once req db bid uid b u :
  param req "id" = JStr bid → param req "userId" = JStr uid →
  object_id_castable bid = true → object_id_castable uid = true →
  db.(db_badges) !! bid = Some b → db.(db_users) !! uid = Some u → bid ∉ u.(u_badges) →
  ∃ db', awardBadge req db =
      (OResp (mkResponse 200 (JObj [("success", JBool true); ("user", user_json true uid (award_user bid b u))])), db') ∧
    db'.(db_users) = <[uid := award_user bid b u]> db.(db_users) ∧
    awardBadge req db' = (OResp (mkResponse 400 (msg_body "User already has this badge")), db').
Proof.
  intros Hp1 Hp2 Hc1 Hc2 Hb Hu Hn.
  destruct (award_run uid u bid b db) as (db' & Hrun & Hus & Hbs).
  exists db'. unfold awardBadge, catch_err, cbind. rewrite Hp1, Hp2.
  rewrite (find_by_id_stored Badges db bid b), (find_by_id_stored Users db uid u) by done.
  rewrite (find_by_id_stored Badges db' bid b), (find_by_id_stored Users db' uid (award_user bid b u))
    by (simpl; rewrite ?Hus, ?Hbs, ?lookup_insert_eq; done).
  cbv beta iota. rewrite bool_decide_false by done. rewrite Hrun. split_and!; [done|done|].
  rewrite bool_decide_true; [done|]. rewrite award_user_badges, elem_of_push_unique. by left.
Qed.

(** Checking a badge that does not exist, or for a user who does not
    exist, answers 500 Server error and changes nothing, although the
    static throws 'Badge not found' or 'User not found' and the controller
    has a 'Badge or user not found' answer for a bad id. *)
Theorem checkBadgeQualification_missing req db bid :
  param req "id" = JStr bid → object_id_castable bid = true →
  object_id_castable req.(rq_user).(user_id) = true →
  (db.(db_users) !! req.(rq_user).(user_id) = None ∨ db.(db_badges) !! bid = None) →
  checkBadgeQualification req db = (OResp (mkResponse 500 (msg_body "Server error")), db).
Proof.
  intros Hp Hc1 Hc2 Hmiss. unfold checkBadgeQualification, checkQualification, catch_err, cbind.
  rewrite Hp. destruct (db_users db !! user_id (rq_user req)) as [u|] eqn:Hu.
  - destruct Hmiss as [?|Hb]; [congruence|].
    rewrite (find_by_id_stored Users db _ u), (find_by_id_missing Badges db bid) by done. reflexivity.
  - by rewrite (find_by_id_missing Users db).
Qed.

Module BadgeExamples.
Definition ex_b1 : Id := "5f00000000000000000000b1".
Definition ex_u1 : Id := "5f00000000000000000000f1".
Definition ex_badge : Badge :=
  mkBadge "Writer" "Ten posts" "pen.svg" "content" (Some 50%Z) (JObj [("postCount", JNum 10)]) (Some 1%Z) (Some false) 1.
Definition ex_user : UserDoc :=
  mkUserDoc "alice" "alice@example.com" "$2a$10$hash" "Alice" (Some "") None [] 0 [] [] [] true 1.
Definition ex_db : Db := set_db_badges (set_users (empty_db 1000) {[ex_u1 := ex_user]}) {[ex_b1 := ex_badge]}.
Definition ex_req : Request :=
  mkRequest [("id", ex_b1); ("userId", ex_u1)] (JObj []) (JObj []) (mkUser ex_u1 "admin").

Lemma awardBadge_once_witness :
  ∃ db', awardBadge ex_req ex_db =
      (OResp (mkResponse 200 (JObj [("success", JBool true);
                                    ("user", user_json true ex_u1 (award_user ex_b1 ex_badge ex_user))])), db') ∧
    db'.(db_users) = <[ex_u1 := award_user ex_b1 ex_badge ex_user]> ex_db.(db_users) ∧
    awardBadge ex_req db' = (OResp (mkResponse 400 (msg_body "User already has this badge")), db').
Proof. apply awardBadge_once; [reflexivity|reflexivity|by vm_compute..|set_solver]. Defined.

Lemma checkBadgeQualification_missing_witness :
  checkBadgeQualification (mkRequest [("id", "5f00000000000000000000b2")] (JObj []) (JObj []) (mkUser ex_u1 "alice")) ex_db =
    (OResp (mkResponse 500 (msg_body "Server error")), ex_db).
Proof.
  apply (checkBadgeQualification_missing _ _ "5f00000000000000000000b2");
    [reflexivity|by vm_compute..|right; by vm_compute].
Defined.
End BadgeExamples.
