(* ===== verification/ShareService.v ===== *)
(** * The sharing service ([services/sharing.service.js], [routes/share.routes.js])

    [SharingService] builds the public URL of a post, video, stream or code
    session, a text naming its title and author, and the links of five
    platforms, whose query parameters are [encodeURIComponent] of the URL
    and the text; [recordShare] notifies the owner of shared content.  The
    routes answer the links or the result, and [500] with the error's
    message.  [process.env.CLIENT_URL] is the parameter [base_url]; the
    messages of the errors the runtime and Mongoose raise (a [TypeError],
    a [CastError], a [ValidationError]) are the parameter [runtime_message],
    those the service throws itself are its own strings.

    [encodeURIComponent] is JavaScript's, on strings of bytes (the UTF-8
    form of a text, byte by byte); its inverse [decodeURIComponent] is the
    reference a client of the links applies. *)

From S2P Require Import Prelude JsValue Mongoose Transport StreamModel CodeSessionModel UserModel.
From S2P Require Import PostModel VideoModel NotificationModel Router Express Db.
From Stdlib Require Import Ascii.
Local Open Scope cm_scope.

(** ** [encodeURIComponent] and [decodeURIComponent] *)

(** The characters [encodeURIComponent] leaves alone:
    [A-Z a-z 0-9 - _ . ! ~ * ' ( )]. *)
Definition uri_unreserved (c : ascii) : bool :=
  let n := nat_of_ascii c in
  ((48 <=? n) && (n <=? 57)) || ((65 <=? n) && (n <=? 90)) || ((97 <=? n) && (n <=? 122)) ||
  bool_decide (c ∈ ["-"; "_"; "."; "!"; "~"; "*"; "'"; "("; ")"]%char).

(** An upper-case hexadecimal digit. *)
Definition hex_upper (d : nat) : ascii := ascii_of_nat (if d <? 10 then 48 + d else 55 + d).

Fixpoint encodeURIComponent (s : string) : string :=
  match s with
  | EmptyString => EmptyString
  | String c s' =>
      if uri_unreserved c then String c (encodeURIComponent s')
      else String "%" (String (hex_upper (nat_of_ascii c / 16))
                         (String (hex_upper (nat_of_ascii c mod 16)) (encodeURIComponent s')))
  end.

(** The value of a hexadecimal digit of either case. *)
Definition hex_val (c : ascii) : option nat :=
  let n := nat_of_ascii c in
  if (48 <=? n) && (n <=? 57) then Some (n - 48)
  else if (65 <=? n) && (n <=? 70) then Some (n - 55)
  else if (97 <=? n) && (n <=? 102) then Some (n - 87)
  else None.

(** [None] is the [URIError] of a malformed escape. *)
Fixpoint decodeURIComponent (s : string) : option string :=
  match s with
  | EmptyString => Some EmptyString
  | String c s' =>
      if Ascii.eqb c "%" then
        match s' with
        | String h (String l r) =>
            hv ← hex_val h; lv ← hex_val l; rest ← decodeURIComponent r;
            Some (String (ascii_of_nat (hv * 16 + lv)) rest)
        | _ => None
        end
      else String c <$> decodeURIComponent s'
  end.

(** The text before and after the first [c]. *)
Fixpoint split_first (c : ascii) (s : string) : option (string * string) :=
  match s with
  | EmptyString => None
  | String c' s' =>
      if Ascii.eqb c' c then Some (EmptyString, s')
      else (λ p, (String c' p.1, p.2)) <$> split_first c s'
  end.

(** How a client reads the query of a link: the part after the first
    ['?'], split at ['&'] into [name=value] pairs whose values are
    decoded. *)
Definition parse_query (link : string) : option (list (string * string)) :=
  q ← snd <$> split_first "?" link;
  mapM (λ kv : string, p ← split_first "=" kv; v ← decodeURIComponent p.2; Some (p.1, v))
       (split_on "&" q).

(** ** The service *)

Section sharing.
Variable base_url : string.
Variable runtime_message : Err → string.

(** [this.platforms] and [this.contentTypes] *)
Definition sharing_platforms : list string := ["twitter"; "facebook"; "linkedin"; "reddit"; "email"].
Definition sharing_content_types : list string := ["post"; "video"; "stream"; "code"].

(** The [switch (contentType)] of [generateSharingUrl]. *)
Definition content_path (ct : string) : string :=
  if String.eqb ct "post" then "posts"
  else if String.eqb ct "video" then "videos"
  else if String.eqb ct "stream" then "streams"
  else "code".

(** [generateSharingUrl(contentType, contentId)] *)
Definition generateSharingUrl (ct cid : string) : CM Db string :=
  if bool_decide (ct ∈ sharing_content_types)
  then cret (base_url +:+ "/" +:+ content_path ct +:+ "/" +:+ cid)
  else fail (EError "Invalid content type").

(** [populate('user', 'username')]: the author's username, or the
    [TypeError] of [content.user.username] when [user] is [null] (a
    missing user). *)
Definition author_name (u : Id) : CM Db string :=
  found <- cgets (λ db, db.(db_users) !! u) ;;
  clift (u_username <$> found).

(** [content.content.substring(0, 50) + (content.content.length > 50 ? '...' : '')] *)
Definition post_title (p : Post) : string :=
  String.substring 0 50 p.(p_content) +:+ (if 50 <? String.length p.(p_content) then "..." else "").

(** [generateSharingText(contentType, contentId)]: [findById] of the
    content; reading the title of [null] is a [TypeError] (so the check
    [if (!content)] comes too late); a code session has no [user] path,
    so [content.user.username] is a [TypeError]. *)
Definition generateSharingText (ct cid : string) : CM Db string :=
  if negb (bool_decide (ct ∈ sharing_content_types)) then fail (EError "Invalid content type") else
  r <- (if String.eqb ct "post" then
          found <- find_by_id Posts (JStr cid) ;;
          match found with None => fail ETypeError | Some (_, p) => cret (post_title p, p.(p_user)) end
        else if String.eqb ct "video" then
          found <- find_by_id Videos (JStr cid) ;;
          match found with None => fail ETypeError | Some (_, v) => cret (v.(v_title), v.(v_user)) end
        else if String.eqb ct "stream" then
          found <- find_by_id Streams (JStr cid) ;;
          match found with None => fail ETypeError | Some (_, s) => cret (s.(s_title), s.(s_user)) end
        else
          found <- find_by_id Sessions (JStr cid) ;;
          fail ETypeError) ;;
  username <- author_name r.2 ;;
  cret ("Check out " +:+ dq +:+ r.1 +:+ dq +:+ " by @" +:+ username +:+ " on Hybrid Platform").

(** The links of the five platforms, from the encoded URL [eu] and text [et]. *)
Definition twitter_link (et eu : string) : string :=
  "https://twitter.com/intent/tweet?text=" +:+ et +:+ "&url=" +:+ eu.
Definition facebook_link (eu : string) : string := "https://www.facebook.com/sharer/sharer.php?u=" +:+ eu.
Definition linkedin_link (eu : string) : string := "https://www.linkedin.com/sharing/share-offsite/?url=" +:+ eu.
Definition reddit_link (et eu : string) : string := "https://www.reddit.com/submit?url=" +:+ eu +:+ "&title=" +:+ et.
Definition email_link (et eu : string) : string :=
  "mailto:?subject=" +:+ et +:+ "&body=" +:+ et +:+ "%0A%0A" +:+ eu.

(** The [links] object of [generateSharingLinks]. *)
Definition share_links (url text : string) : JsVal :=
  let eu := encodeURIComponent url in
  let et := encodeURIComponent text in
  JObj [("url", JStr url); ("text", JStr text);
        ("platforms", JObj [("twitter", JStr (twitter_link et eu)); ("facebook", JStr (facebook_link eu));
                            ("linkedin", JStr (linkedin_link eu)); ("reddit", JStr (reddit_link et eu));
                            ("email", JStr (email_link et eu))])].

(** [generateSharingLinks(contentType, contentId)] *)
Definition generateSharingLinks (ct cid : string) : CM Db JsVal :=
  url <- generateSharingUrl ct cid ;;
  text <- generateSharingText ct cid ;;
  cret (share_links url text).

(** The [switch (contentType)] of [recordShare]: the content's [user] as
    a string ([None] for a code session, whose [user] is [undefined]) and
    its model name, or [None] when nothing is found. *)
Definition content_owner (ct cid : string) : CM Db (option (option Id * string)) :=
  if String.eqb ct "post" then
    found <- find_by_id Posts (JStr cid) ;; cret ((λ r, (Some r.2.(p_user), "Post")) <$> found)
  else if String.eqb ct "video" then
    found <- find_by_id Videos (JStr cid) ;; cret ((λ r, (Some r.2.(v_user), "Video")) <$> found)
  else if String.eqb ct "stream" then
    found <- find_by_id Streams (JStr cid) ;; cret ((λ r, (Some r.2.(s_user), "Stream")) <$> found)
  else
    found <- find_by_id Sessions (JStr cid) ;; cret ((λ r, (None, "CodeSession")) <$> found).

(** The notification [recordShare] creates for the owner. *)
Definition share_notification (userId owner ct cid model platform url : string) (t : Z) : Notification :=
  new_notification owner (if String.eqb userId "" then None else Some userId) "share" ct cid model
    ("Someone shared your " +:+ ct +:+ " on " +:+ platform) (Some url) t.

(** [recordShare(userId, contentType, contentId, platform)] *)
Definition recordShare (userId ct cid platform : string) : CM Db JsVal :=
  if negb (bool_decide (ct ∈ sharing_content_types)) then fail (EError "Invalid content type") else
  if negb (bool_decide (platform ∈ sharing_platforms)) then fail (EError "Invalid platform") else
  r <- content_owner ct cid ;;
  match r with
  | None => fail (EError "Content not found")
  | Some (None, _) => fail ETypeError
  | Some (Some owner, model) =>
      (if String.eqb userId owner then cret tt else
       url <- generateSharingUrl ct cid ;;
       t <- cnow ;;
       nid <- new_id ;;
       let n := share_notification userId owner ct cid model platform url t in
       validate (notification_valid n) ;;;
       save_doc Notifications nid n) ;;;
      cret (JObj [("success", JBool true)])
  end.

(** [res.status(500).json({ message: err.message || 'Server error' })] *)
Definition err_text (e : Err) : string :=
  let m := match e with EError m => m | _ => runtime_message e end in
  if String.eqb m "" then "Server error" else m.

Definition share_error (e : Err) : CM Db unit := respond 500 (msg_body (err_text e)).

(** [GET /api/share/:contentType/:contentId] *)
Definition getShareLinks (req : Request) : CM Db unit :=
  catch_err
    (links <- generateSharingLinks (js_to_string (param req "contentType")) (js_to_string (param req "contentId")) ;;
     respond 200 links)
    share_error.

(** [POST /api/share/:contentType/:contentId/:platform] *)
Definition postShare (req : Request) : CM Db unit :=
  catch_err
    (result <- recordShare req.(rq_user).(user_id) (js_to_string (param req "contentType"))
                 (js_to_string (param req "contentId")) (js_to_string (param req "platform")) ;;
     respond 200 result)
    share_error.
End sharing.

(** ** Lemmas on the encoding *)

Lemma hex_val_upper d : d < 16 → hex_val (hex_upper d) = Some d.
Proof. intros Hd. repeat (destruct d as [|d]; [reflexivity|]). lia. Qed.

Lemma uri_unreserved_percent : uri_unreserved "%" = false.
Proof. reflexivity. Qed.

Lemma decode_encode s : decodeURIComponent (encodeURIComponent s) = Some s.
Proof.
  induction s as [|c s IH]; [done|]. cbn [encodeURIComponent]. destruct (uri_unreserved c) eqn:Hu.
  - cbn [decodeURIComponent]. destruct (Ascii.eqb_spec c "%") as [->|_];
      [by rewrite uri_unreserved_percent in Hu|]. by rewrite IH.
  - pose proof (nat_ascii_bounded c).
    assert (nat_of_ascii c / 16 < 16) by (apply Nat.Div0.div_lt_upper_bound; lia).
    assert (nat_of_ascii c mod 16 < 16) by (by apply Nat.mod_upper_bound).
    cbn [decodeURIComponent Ascii.eqb]. rewrite !hex_val_upper, IH by done. cbn [mbind option_bind].
    do 2 f_equal. pose proof (Nat.div_mod_eq (nat_of_ascii c) 16).
    replace (nat_of_ascii c / 16 * 16 + nat_of_ascii c mod 16) with (nat_of_ascii c) by lia.
    apply ascii_nat_embedding.
Qed.

(** A character that [encodeURIComponent] never writes. *)
Lemma has_char_encode c s :
  uri_unreserved c = false → c ≠ "%"%char → (∀ d, d < 16 → hex_upper d ≠ c) →
  has_char c (encodeURIComponent s) = false.
Proof.
  intros Hu Hp Hh. induction s as [|c' s IH]; [done|]. cbn [encodeURIComponent].
  pose proof (nat_ascii_bounded c').
  destruct (uri_unreserved c') eqn:Hc'; cbn [has_char]; rewrite IH, orb_false_r.
  - destruct (Ascii.eqb_spec c' c) as [->|]; [congruence|done].
  - destruct (Ascii.eqb_spec "%" c); [congruence|].
    destruct (Ascii.eqb_spec (hex_upper (nat_of_ascii c' / 16)) c) as [E|];
      [exfalso; refine (Hh _ _ E); apply Nat.Div0.div_lt_upper_bound; lia|].
    destruct (Ascii.eqb_spec (hex_upper (nat_of_ascii c' mod 16)) c) as [E|];
      [exfalso; refine (Hh _ _ E); by apply Nat.mod_upper_bound|done].
Qed.

Lemma hex_upper_not d c : (∀ k, k < 16 → (hex_upper k =? c)%char = false) → d < 16 → hex_upper d ≠ c.
Proof. intros H Hd E. specialize (H d Hd). rewrite E, Ascii.eqb_refl in H. discriminate. Qed.

(** Neither ['?'], ['&'] nor ['='] occurs in an encoded component. *)
Lemma encode_no_delims s :
  has_char "?" (encodeURIComponent s) = false ∧ has_char "&" (encodeURIComponent s) = false ∧
  has_char "=" (encodeURIComponent s) = false.
Proof.
  split_and!; apply has_char_encode; try done; intros d; apply hex_upper_not;
    intros k Hk; repeat (destruct k as [|k]; [reflexivity|]); lia.
Qed.

Lemma has_char_app c s1 s2 : has_char c (s1 +:+ s2) = has_char c s1 || has_char c s2.
Proof. induction s1 as [|c' s1 IH]; [done|]. rewrite string_app_cons. simpl. by rewrite IH, orb_assoc. Qed.

Lemma split_first_app c s r : has_char c s = false → split_first c (s +:+ String c r) = Some (s, r).
Proof.
  induction s as [|c' s IH]; intros Hs.
  - simpl. by rewrite Ascii.eqb_refl.
  - rewrite string_app_cons. simpl in *. apply orb_false_elim in Hs as [Hc Hs]. by rewrite Hc, IH.
Qed.

(** A link [base?k1=v1&k2=v2] whose values are encoded reads back as the
    two pairs. *)
Lemma parse_query_two base k1 k2 v1 v2 :
  has_char "?" base = false → has_char "&" k1 = false → has_char "=" k1 = false →
  has_char "&" k2 = false → has_char "=" k2 = false →
  parse_query (base +:+ String "?" (k1 +:+ String "=" (encodeURIComponent v1 +:+
                 String "&" (k2 +:+ String "=" (encodeURIComponent v2))))) = Some [(k1, v1); (k2, v2)].
Proof.
  intros Hb Ha1 He1 Ha2 He2. destruct (encode_no_delims v1) as (_ & Hv1 & _).
  destruct (encode_no_delims v2) as (_ & Hv2 & _).
  unfold parse_query. rewrite split_first_app by done. simpl.
  set (R := k2 +:+ String "=" (encodeURIComponent v2)).
  replace (k1 +:+ String "=" (encodeURIComponent v1 +:+ String "&" R))
    with ((k1 +:+ String "=" (encodeURIComponent v1)) +:+ String "&" R)
    by (by rewrite <- string_app_assoc, string_app_cons).
  rewrite split_on_app_sep by (rewrite has_char_app; simpl; by rewrite Ha1, Hv1). subst R.
  rewrite split_on_no_sep by (rewrite has_char_app; simpl; by rewrite Ha2, Hv2).
  simpl. rewrite !split_first_app by done. simpl. by rewrite !decode_encode.
Qed.

Lemma share_notification_invalid userId owner ct cid model platform url t :
  notification_valid (share_notification userId owner ct cid model platform url t) = false.
Proof.
  unfold notification_valid. cbn [n_type share_notification new_notification].
  assert (bool_decide ("share" ∈ notification_types) = false) as -> by (by vm_compute). done.
Qed.

(** ** Properties *)

(** C39: The Twitter and Reddit links that [generateSharingLinks] answers
    carry the URL and the text as query parameters that a client reads
    back exactly: [encodeURIComponent] leaves no ['&'], ['='] or ['?'] in
    a value and [decodeURIComponent] undoes it. *)
Theorem share_links_roundtrip url text tw rd :
  js_get (share_links url text) "platforms" ≫= (λ ps, js_get ps "twitter") = Some (JStr tw) →
  js_get (share_links url text) "platforms" ≫= (λ ps, js_get ps "reddit") = Some (JStr rd) →
  parse_query tw = Some [("text", text); ("url", url)] ∧ parse_query rd = Some [("url", url); ("title", text)].
Proof.
  simpl. intros [= <-] [= <-]. split.
  - replace (twitter_link (encodeURIComponent text) (encodeURIComponent url))
      with ("https://twitter.com/intent/tweet" +:+ String "?" ("text" +:+ String "=" (encodeURIComponent text
              +:+ String "&" ("url" +:+ String "=" (encodeURIComponent url))))) by reflexivity.
    by apply parse_query_two.
  - replace (reddit_link (encodeURIComponent text) (encodeURIComponent url))
      with ("https://www.reddit.com/submit" +:+ String "?" ("url" +:+ String "=" (encodeURIComponent url
              +:+ String "&" ("title" +:+ String "=" (encodeURIComponent text))))) by reflexivity.
    by apply parse_query_two.
Qed.

(** Recording a share of someone else's post, video or stream always
    answers 500 with the message of a [ValidationError] and stores no
    notification: the notification has [type: 'share'], which the
    Notification enum does not allow.  Sharing one's own content answers
    200 and changes nothing. *)
Theorem share_records_nothing base rm req db ct cid platform owner model :
  param req "contentType" = JStr ct → param req "contentId" = JStr cid →
  param req "platform" = JStr platform →
  ct ∈ sharing_content_types → platform ∈ sharing_platforms →
  content_owner ct cid db = (OVal (Some (Some owner, model)), db) →
  postShare base rm req db =
    if String.eqb req.(rq_user).(user_id) owner
    then (OResp (mkResponse 200 (JObj [("success", JBool true)])), db)
    else (OResp (mkResponse 500 (msg_body (err_text rm EValidation))), set_seq db (db.(db_seq) + 1)%N).
Proof.
  intros Hp1 Hp2 Hp3 Hct Hpl Hown. unfold postShare, recordShare. rewrite Hp1, Hp2, Hp3. cbn [js_to_string].
  rewrite !bool_decide_true by done. cbn [negb]. unfold catch_err, cbind. cbv beta. rewrite Hown. cbv beta iota.
  destruct (String.eqb _ _); [done|]. unfold generateSharingUrl, cnow, new_id, validate, cgets, cret, fail.
  rewrite bool_decide_true by done. cbv beta iota. by rewrite share_notification_invalid.
Qed.

(** No code session can be shared: for every id, the links request
    and the share request on content type ['code'] answer 500 and change
    nothing, since a CodeSession has no [user] to read. *)
Theorem share_code_always_fails base rm req db cid :
  param req "contentType" = JStr "code" → param req "contentId" = JStr cid →
  (∃ e, getShareLinks base rm req db = (OResp (mkResponse 500 (msg_body (err_text rm e))), db)) ∧
  (∃ e, postShare base rm req db = (OResp (mkResponse 500 (msg_body (err_text rm e))), db)).
Proof.
  intros Hp1 Hp2. unfold getShareLinks, postShare, generateSharingLinks, generateSharingUrl,
    generateSharingText, recordShare, content_owner. rewrite Hp1, Hp2. cbn [js_to_string].
  rewrite !bool_decide_true by (repeat constructor). cbn [negb String.eqb Ascii.eqb Bool.eqb andb].
  unfold find_by_id, catch_err, cbind, cgets, cret, fail.
  destruct (bool_decide (js_to_string (param req "platform") ∈ sharing_platforms)), (object_id_castable cid);
    cbn [negb]; try (split; eexists; reflexivity).
  destruct (coll_get Sessions db !! cid); split; eexists; reflexivity.
Qed.

Module ShareExamples.
Definition ex_base : string := "https://hybrid-platform.example.com".
Definition ex_msg (e : Err) : string := "failed".
Definition ex_p1 : Id := "5f00000000000000000000d1".
Definition ex_db : Db :=
  set_posts (empty_db 1000) {[ex_p1 := mkPost "5f00000000000000000000f1" "hello" [] [] [] [] false 5]}.
Definition ex_req (ct : string) : Request :=
  mkRequest [("contentType", ct); ("contentId", ex_p1); ("platform", "twitter")] (JObj []) (JObj [])
    (mkUser "5f00000000000000000000f2" "bob").

Lemma share_links_roundtrip_witness :
  parse_query (twitter_link (encodeURIComponent "Check out & see") (encodeURIComponent (ex_base +:+ "/posts/1"))) =
    Some [("text", "Check out & see"); ("url", ex_base +:+ "/posts/1")] ∧
  parse_query (reddit_link (encodeURIComponent "Check out & see") (encodeURIComponent (ex_base +:+ "/posts/1"))) =
    Some [("url", ex_base +:+ "/posts/1"); ("title", "Check out & see")].
Proof. by apply share_links_roundtrip. Defined.

Lemma share_records_nothing_witness :
  postShare ex_base ex_msg (ex_req "post") ex_db =
    (OResp (mkResponse 500 (msg_body (err_text ex_msg EValidation))), set_seq ex_db (ex_db.(db_seq) + 1)%N).
Proof.
  rewrite (share_records_nothing ex_base ex_msg (ex_req "post") ex_db "post" ex_p1 "twitter"
             "5f00000000000000000000f1" "Post");
    [reflexivity|reflexivity|reflexivity|reflexivity|repeat constructor|repeat constructor|by vm_compute].
Defined.

Lemma share_code_always_fails_witness :
  (∃ e, getShareLinks ex_base ex_msg (ex_req "code") ex_db = (OResp (mkResponse 500 (msg_body (err_text ex_msg e))), ex_db)) ∧
  (∃ e, postShare ex_base ex_msg (ex_req "code") ex_db = (OResp (mkResponse 500 (msg_body (err_text ex_msg e))), ex_db)).
Proof. apply (share_code_always_fails _ _ _ _ ex_p1); reflexivity. Defined.
End ShareExamples.
