(* ===== verification/Registry.v ===== *)
(** * The Session Registry: a JavaScript [Map]

    [WebRTCService] keeps [this.streams = new Map()], from stream id to
    [{ broadcasterId, socketId }].  This file states what the handlers use of
    a [Map] as an interface, the class [MapOps] of operations and the class
    [MapLaws] of their laws, so that the handlers' theorems are proved
    against the interface.  The instance [JsMap] is the implementation the
    code runs on: an association list in insertion order ([set] on a present
    key keeps its position, as JavaScript's [Map] does, which fixes the order
    in which [disconnect] visits the entries).  [map_abs] maps a registry to
    the finite map it denotes, the abstract specification; the laws make
    every operation a refinement of the corresponding [gmap] operation. *)

From S2P Require Import Prelude.

Class MapOps (K V M : Type) := {
  map_empty : M;
  map_get : K → M → option V;
  map_set : K → V → M → M;
  map_delete : K → M → M;
  map_entries : M → list (K * V)
}.

Class MapLaws (K V M : Type) `{EqDecision K} `{!MapOps K V M} := {
  map_get_empty k : map_get k map_empty = None;
  map_get_set_eq k v m : map_get k (map_set k v m) = Some v;
  map_get_set_ne k k' v m : k ≠ k' → map_get k' (map_set k v m) = map_get k' m;
  map_get_delete_eq k m : map_get k (map_delete k m) = None;
  map_get_delete_ne k k' m : k ≠ k' → map_get k' (map_delete k m) = map_get k' m;
  map_wf : M → Prop;
  map_wf_empty : map_wf map_empty;
  map_wf_set k v m : map_wf m → map_wf (map_set k v m);
  map_wf_delete k m : map_wf m → map_wf (map_delete k m);
  map_entries_get k v m : map_wf m → (k, v) ∈ map_entries m ↔ map_get k m = Some v;
  map_entries_NoDup m : map_wf m → NoDup (map_entries m).*1
}.

(** ** The implementation: insertion-ordered association lists *)

Definition JsMap (K V : Type) := list (K * V).

Section jsmap.
Context {K V : Type} `{EqDecision K}.
Implicit Types (m : JsMap K V) (k : K) (v : V).

Fixpoint jsmap_get k m : option V :=
  match m with
  | [] => None
  | (k', v') :: m' => if decide (k = k') then Some v' else jsmap_get k m'
  end.

(** [Map.prototype.set]: replace in place, or append a fresh key. *)
Fixpoint jsmap_replace k v m : JsMap K V :=
  match m with
  | [] => []
  | (k', v') :: m' => if decide (k = k') then (k, v) :: m' else (k', v') :: jsmap_replace k v m'
  end.

Definition jsmap_set k v m : JsMap K V :=
  match jsmap_get k m with
  | Some _ => jsmap_replace k v m
  | None => m ++ [(k, v)]
  end.

(** [Map.prototype.delete]. *)
Fixpoint jsmap_delete k m : JsMap K V :=
  match m with
  | [] => []
  | (k', v') :: m' => if decide (k = k') then jsmap_delete k m' else (k', v') :: jsmap_delete k m'
  end.

#[global] Instance jsmap_ops : MapOps K V (JsMap K V) := {
  map_empty := [];
  map_get := jsmap_get;
  map_set := jsmap_set;
  map_delete := jsmap_delete;
  map_entries := id
}.

Lemma jsmap_get_app k m1 m2 :
  jsmap_get k (m1 ++ m2) = match jsmap_get k m1 with Some v => Some v | None => jsmap_get k m2 end.
Proof. induction m1 as [|[k' v'] m1 IH]; simpl; [done|]. by case_decide. Qed.

Lemma jsmap_get_replace k k' v m :
  jsmap_get k' (jsmap_replace k v m) =
    if decide (k = k') then (if jsmap_get k m then Some v else None) else jsmap_get k' m.
Proof.
  induction m as [|[k1 v1] m IH]; simpl; [by case_decide|].
  repeat (case_decide; subst; simpl); try done; congruence.
Qed.

Lemma jsmap_get_None_notin k m : jsmap_get k m = None ↔ k ∉ m.*1.
Proof.
  induction m as [|[k1 v1] m IH]; simpl; [set_solver|].
  rewrite not_elem_of_cons. case_decide; naive_solver.
Qed.

Lemma jsmap_keys_replace k v m : (jsmap_replace k v m).*1 = m.*1.
Proof.
  induction m as [|[k1 v1] m IH]; [done|]. cbn [jsmap_replace].
  case_decide; rewrite !fmap_cons; simpl; congruence.
Qed.

Lemma jsmap_get_elem_of k v m : NoDup m.*1 → (k, v) ∈ m ↔ jsmap_get k m = Some v.
Proof.
  induction m as [|[k1 v1] m IH]; simpl; intros Hnd; [set_solver|].
  apply NoDup_cons in Hnd as [Hk1 Hnd].
  rewrite elem_of_cons. case_decide as Hk; subst.
  - split; [|naive_solver]. intros [[=->]|Hin]; [done|].
    exfalso. apply Hk1. apply list_elem_of_fmap. by exists (k1, v).
  - rewrite <- IH by done. naive_solver.
Qed.

Lemma jsmap_get_delete k k' m :
  jsmap_get k' (jsmap_delete k m) = if decide (k = k') then None else jsmap_get k' m.
Proof.
  induction m as [|[k1 v1] m IH]; simpl; [by case_decide|].
  repeat (case_decide; subst; simpl); congruence.
Qed.

Lemma jsmap_keys_delete_sub k m x : x ∈ (jsmap_delete k m).*1 → x ∈ m.*1.
Proof.
  induction m as [|[k1 v1] m IH]; cbn [jsmap_delete]; [done|].
  rewrite fmap_cons, elem_of_cons. case_decide; rewrite ?fmap_cons, ?elem_of_cons; naive_solver.
Qed.

Lemma jsmap_NoDup_delete k m : NoDup m.*1 → NoDup (jsmap_delete k m).*1.
Proof.
  induction m as [|[k1 v1] m IH]; cbn [jsmap_delete]; [done|].
  rewrite fmap_cons, NoDup_cons. intros [Hk1 Hnd].
  case_decide; [auto|]. rewrite fmap_cons. constructor; [|auto].
  intros Hin%jsmap_keys_delete_sub. done.
Qed.

(** The well-formedness of a [JsMap]: no key twice. *)
Definition jsmap_wf m : Prop := NoDup m.*1.

Lemma jsmap_get_set_eq k v m : jsmap_get k (jsmap_set k v m) = Some v.
Proof.
  unfold jsmap_set. destruct (jsmap_get k m) eqn:E.
  - rewrite jsmap_get_replace, E. by case_decide.
  - rewrite jsmap_get_app, E. simpl. by case_decide.
Qed.

Lemma jsmap_get_set_ne k k' v m : k ≠ k' → jsmap_get k' (jsmap_set k v m) = jsmap_get k' m.
Proof.
  intros Hne. unfold jsmap_set. destruct (jsmap_get k m) eqn:E.
  - rewrite jsmap_get_replace. by case_decide.
  - rewrite jsmap_get_app. destruct (jsmap_get k' m); [done|]. simpl. case_decide; congruence.
Qed.

Lemma jsmap_get_delete_eq k m : jsmap_get k (jsmap_delete k m) = None.
Proof. rewrite jsmap_get_delete. by case_decide. Qed.

Lemma jsmap_get_delete_ne k k' m : k ≠ k' → jsmap_get k' (jsmap_delete k m) = jsmap_get k' m.
Proof. intros. rewrite jsmap_get_delete. by case_decide. Qed.

Lemma jsmap_wf_set k v m : jsmap_wf m → jsmap_wf (jsmap_set k v m).
Proof.
  unfold jsmap_wf, jsmap_set. intros Hnd. destruct (jsmap_get k m) eqn:E.
  - by rewrite jsmap_keys_replace.
  - rewrite fmap_app. simpl. apply NoDup_app. split_and!; [done| |apply NoDup_singleton].
    intros x Hx ->%list_elem_of_singleton. by apply jsmap_get_None_notin in E.
Qed.

#[global] Instance jsmap_laws : MapLaws K V (JsMap K V) := {|
  map_wf := jsmap_wf;
  map_get_empty k := eq_refl;
  map_get_set_eq := jsmap_get_set_eq;
  map_get_set_ne := jsmap_get_set_ne;
  map_get_delete_eq := jsmap_get_delete_eq;
  map_get_delete_ne := jsmap_get_delete_ne;
  map_wf_empty := NoDup_nil_2;
  map_wf_set := jsmap_wf_set;
  map_wf_delete := jsmap_NoDup_delete;
  map_entries_get k v m := jsmap_get_elem_of k v m;
  map_entries_NoDup m H := H
  |}.
End jsmap.

(** ** The abstract specification: the finite map a registry denotes *)

Section abs.
Context {K V M : Type} `{Countable K} `{!MapOps K V M} `{!MapLaws K V M}.

Definition map_abs (m : M) : gmap K V := list_to_map (map_entries m).

Lemma map_abs_lookup m k : map_wf m → map_abs m !! k = map_get k m.
Proof.
  intros Hwf. unfold map_abs. destruct (map_get k m) as [v|] eqn:E.
  - apply elem_of_list_to_map_1; [by apply map_entries_NoDup|].
    by apply map_entries_get.
  - apply not_elem_of_list_to_map_1. intros ([k' v] & -> & Hin)%list_elem_of_fmap.
    apply map_entries_get in Hin; [|done]. simpl in E. congruence.
Qed.

(** Refinement: each registry operation implements the finite-map one. *)
Lemma map_abs_empty : map_abs map_empty = ∅.
Proof.
  apply map_eq. intros k. rewrite map_abs_lookup by apply map_wf_empty.
  by rewrite map_get_empty, lookup_empty.
Qed.

Lemma map_abs_set k v m : map_wf m → map_abs (map_set k v m) = <[k := v]> (map_abs m).
Proof.
  intros Hwf. apply map_eq. intros k'.
  rewrite map_abs_lookup by by apply map_wf_set.
  destruct (decide (k = k')) as [->|Hne].
  - by rewrite map_get_set_eq, lookup_insert_eq.
  - rewrite map_get_set_ne, lookup_insert_ne by done. by rewrite map_abs_lookup.
Qed.

Lemma map_abs_delete k m : map_wf m → map_abs (map_delete k m) = delete k (map_abs m).
Proof.
  intros Hwf. apply map_eq. intros k'.
  rewrite map_abs_lookup by by apply map_wf_delete.
  destruct (decide (k = k')) as [->|Hne].
  - by rewrite map_get_delete_eq, lookup_delete_eq.
  - rewrite map_get_delete_ne, lookup_delete_ne by done. by rewrite map_abs_lookup.
Qed.
End abs.

#[export] Hint Resolve map_wf_empty map_wf_set map_wf_delete : hyb.
