(* ===== verification/Handler.v ===== *)
(** * The world the handlers act on, and the handler monad

    One Node process runs both services on one Socket.IO server.  Its state
    is the [World]: the documents of the database that the handlers read and
    write (streams and code sessions), the room table of the transport, the
    broadcaster registry of [WebRTCService] (any type with [MapOps]), the
    pending timers, the emissions sent so far (in order) and the clock.

    A handler is an [async] function whose body is a [try { ... } catch (err)
    { ... }]; it is a computation of the monad [M]: a state transformer that
    either returns or throws, the state reached at the throw being kept (a
    [socket.join] done before a failing [await] stays done).  The [catch]
    block is [try_catch].  [await] is read as sequencing here: the handlers
    run to completion one after the other. *)

From S2P Require Import Prelude JsValue Mongoose Transport StreamModel CodeSessionModel Registry.

(** [{ broadcasterId, socketId }], the value of the registry. *)
Record BroadcasterInfo := mkBInfo { bi_broadcasterId : Id; bi_socketId : Id }.

#[export] Instance BroadcasterInfo_eq_dec : EqDecision BroadcasterInfo.
Proof. solve_decision. Defined.

(** What a handler can throw. *)
Inductive Exn :=
  | TypeError   (* a property of undefined/null, a call of a non-function *)
  | CastError.  (* Mongoose could not cast an id or a value *)

(** A poll-end timer of [stream:poll_create]: when it fires it emits
    [stream:poll_ended] to the room. *)
Record Timer := mkTimer { tm_due : Z; tm_room : string; tm_pollId : string }.

Record World {R : Type} := mkWorld {
  w_streams : gmap Id Stream;
  w_sessions : gmap Id CodeSession;
  w_rooms : Rooms;
  w_bcast : R;
  w_timers : list Timer;
  w_out : list Emission;
  w_now : Z
}.
Arguments World : clear implicits.
Arguments mkWorld {R}.

Inductive Res (A : Type) := Ok (a : A) | Throw (e : Exn).
Arguments Ok {A}. Arguments Throw {A}.

Definition M (R A : Type) : Type := World R → Res A * World R.

Section monad.
Context {R : Type}.
Implicit Types (w : World R).

Definition ret {A} (a : A) : M R A := λ w, (Ok a, w).

Definition bind {A B} (m : M R A) (k : A → M R B) : M R B :=
  λ w, match m w with (Ok a, w') => k a w' | (Throw e, w') => (Throw e, w') end.

Definition throw {A} (e : Exn) : M R A := λ w, (Throw e, w).

(** [try { body } catch (err) { handler }]. *)
Definition try_catch (body : M R unit) (h : Exn → M R unit) : M R unit :=
  λ w, match body w with (Ok a, w') => (Ok a, w') | (Throw e, w') => h e w' end.

Definition modify (f : World R → World R) : M R unit := λ w, (Ok tt, f w).
Definition gets {A} (f : World R → A) : M R A := λ w, (Ok (f w), w).

(** A value that may be a [TypeError]: [None] throws. *)
Definition lift_js {A} (o : option A) : M R A :=
  match o with Some a => ret a | None => throw TypeError end.
End monad.

Declare Scope monad_scope.
Delimit Scope monad_scope with monad.
Notation "x <- m ;; k" := (bind m (λ x, k))
  (at level 100, m at next level, right associativity) : monad_scope.
Notation "m ;;; k" := (bind m (λ _, k)) (at level 100, right associativity) : monad_scope.
Local Open Scope monad_scope.

Section world_ops.
Context {R : Type}.
Implicit Types (w : World R).

Definition set_out w (o : list Emission) : World R :=
  mkWorld w.(w_streams) w.(w_sessions) w.(w_rooms) w.(w_bcast) w.(w_timers) o w.(w_now).
Definition set_rooms w (rs : Rooms) : World R :=
  mkWorld w.(w_streams) w.(w_sessions) rs w.(w_bcast) w.(w_timers) w.(w_out) w.(w_now).
Definition set_bcast w (b : R) : World R :=
  mkWorld w.(w_streams) w.(w_sessions) w.(w_rooms) b w.(w_timers) w.(w_out) w.(w_now).
Definition set_streams w (ss : gmap Id Stream) : World R :=
  mkWorld ss w.(w_sessions) w.(w_rooms) w.(w_bcast) w.(w_timers) w.(w_out) w.(w_now).
Definition set_sessions w (cs : gmap Id CodeSession) : World R :=
  mkWorld w.(w_streams) cs w.(w_rooms) w.(w_bcast) w.(w_timers) w.(w_out) w.(w_now).
Definition set_timers w (ts : list Timer) : World R :=
  mkWorld w.(w_streams) w.(w_sessions) w.(w_rooms) w.(w_bcast) ts w.(w_out) w.(w_now).

(** [...emit(event, payload)] to a target. *)
Definition emit (t : Target) (e : OutEvent) : M R unit :=
  modify (λ w, set_out w (w.(w_out) ++ [send w.(w_rooms) t e])).

Definition join (sid : Id) (room : string) : M R unit :=
  modify (λ w, set_rooms w (join_room sid room w.(w_rooms))).

Definition leave (sid : Id) (room : string) : M R unit :=
  modify (λ w, set_rooms w (leave_room sid room w.(w_rooms))).

(** [new Date()] / [Date.now()]. *)
Definition now : M R Z := gets w_now.

(** [Model.findById(v)]: [undefined] and [null] find nothing, a string
  that is not an ObjectId, or any other value, is a cast error. *)
Definition cast_id (v : JsVal) : M R (option string) :=
  match v with
  | JUndef | JNull => ret None
  | JStr s => if object_id_castable s then ret (Some s) else throw CastError
  | _ => throw CastError
  end.

Definition find_stream (v : JsVal) : M R (option (Id * Stream)) :=
  o <- cast_id v ;;
  match o with
  | None => ret None
  | Some id => gets (λ w, (λ s, (id, s)) <$> w.(w_streams) !! id)
  end.

Definition find_session (v : JsVal) : M R (option (Id * CodeSession)) :=
  o <- cast_id v ;;
  match o with
  | None => ret None
  | Some id => gets (λ w, (λ c, (id, c)) <$> w.(w_sessions) !! id)
  end.

(** [doc.save()] of a stream or a code session. *)
Definition save_stream (id : Id) (s : Stream) : M R unit :=
  modify (λ w, set_streams w (<[id := s]> w.(w_streams))).

Definition save_session (id : Id) (c : CodeSession) : M R unit :=
  modify (λ w, set_sessions w (<[id := c]> w.(w_sessions))).
End world_ops.

(** ** Running handlers symbolically *)

(** Unfold the monad and the world primitives, then split every [match] and
    [bool_decide] of the handler on the facts in context; the branch the
    hypotheses select is left, the others are closed. *)
Ltac unfold_monad :=
  unfold find_stream, find_session, cast_id, lift_js, emit, join, leave, now,
    save_stream, save_session in *;
  unfold bind, ret, throw, try_catch, modify, gets in *.

Ltac hrun :=
  unfold_monad; simpl in *;
  repeat (first [progress (repeat hrewrite; simpl) | case_match | case_bool_decide];
          simplify_option_eq; try congruence);
  try done.

Section world_lemmas.
Context {R : Type}.
Implicit Types (w : World R).

Lemma find_stream_some w id st :
  object_id_castable id = true → w.(w_streams) !! id = Some st →
  find_stream (JStr id) w = (Ok (Some (id, st)), w).
Proof. intros Hc Hs. unfold find_stream, cast_id, bind, gets. rewrite Hc. simpl. by rewrite Hs. Qed.

Lemma find_stream_none w id :
  object_id_castable id = true → w.(w_streams) !! id = None →
  find_stream (JStr id) w = (Ok None, w).
Proof. intros Hc Hs. unfold find_stream, cast_id, bind, gets. rewrite Hc. simpl. by rewrite Hs. Qed.
End world_lemmas.
