(* ===== verification/WebRTCService.v ===== *)
(** * The WebRTC signaling service ([services/webrtc.service.js])

    [WebRTCService] registers five handlers on every connection:
    [webrtc:start_broadcast], [webrtc:join_stream], [webrtc:signal],
    [webrtc:end_broadcast] and [disconnect].  Each is a definition below,
    whole, with its guards and early returns; the registry [this.streams] is
    the [w_bcast] field of the world, used only through the [MapOps]
    interface of [Registry], so that the theorems hold of any lawful map.

    The [disconnect] loop iterates over [this.streams.entries()].  JavaScript
    map iterators are live, but the loop body deletes only the entry it is
    visiting, which does not change the entries still to be visited; the loop
    is therefore the fold [disconnect_loop] over the entries read when the
    handler starts. *)

From S2P Require Import Prelude JsValue Mongoose Transport StreamModel Registry Handler.
Local Open Scope monad_scope.

Section webrtc.
Context {R : Type} `{!MapOps string BroadcasterInfo R}.
Implicit Types (sock : Socket) (data : JsVal) (w : World R).

Definition set_registry (f : R → R) : M R unit :=
  modify (λ w, set_bcast w (f w.(w_bcast))).

Definition lookup_broadcaster (k : string) : M R (option BroadcasterInfo) :=
  gets (λ w, map_get k w.(w_bcast)).

Definition stream_room (id : string) : string := "stream:" +:+ id.
Definition broadcast_room (id : string) : string := "stream:" +:+ id +:+ ":broadcast".

Definition error_to sock (msg : string) : M R unit := emit (ToSocket sock.(sock_id)) (EvError msg).

(** [socket.on('webrtc:start_broadcast', async (data) => { ... })] *)
Definition on_start_broadcast sock data : M R unit :=
  let uid := sock.(sock_user).(user_id) in
  try_catch
    (streamId <- lift_js (js_get data "streamId") ;;
     found <- find_stream streamId ;;
     match found with
     | None => error_to sock "Stream not found"
     | Some (id, stream) =>
         if bool_decide (stream.(s_user) ≠ uid) then
           error_to sock "Only stream owner can broadcast"
         else
           set_registry (map_set id (mkBInfo uid sock.(sock_id))) ;;;
           join sock.(sock_id) (broadcast_room id) ;;;
           emit (ToRoom (stream_room id)) (EvBroadcastStarted id uid)
     end)
    (λ _, error_to sock "Error starting broadcast").

(** [socket.on('webrtc:join_stream', async (data) => { ... })] *)
Definition on_join_stream sock data : M R unit :=
  let uid := sock.(sock_user).(user_id) in
  try_catch
    (streamId <- lift_js (js_get data "streamId") ;;
     found <- find_stream streamId ;;
     match found with
     | None => error_to sock "Stream not found"
     | Some (id, stream) =>
         if bool_decide (stream.(s_status) ≠ Live) then
           error_to sock "Stream is not live"
         else
           info <- lookup_broadcaster id ;;
           match info with
           | None => error_to sock "No active broadcaster for this stream"
           | Some _ =>
               join sock.(sock_id) (stream_room id) ;;;
               save_stream id (addViewer uid stream) ;;;
               emit (ToRoom (broadcast_room id)) (EvViewerJoined id uid sock.(sock_id))
           end
     end)
    (λ _, error_to sock "Error joining stream").

(** [this.io.to(targetId)]: a string names one room, an array several
  (the empty array none, which broadcasts to every socket); a value of
  another type names no room any socket is in. *)
Definition signal_target (targetId : JsVal) : Target :=
  match targetId with
  | JStr r => ToRoom r
  | JArr [] => ToAll
  | JArr xs => ToRooms (omap (λ x, match x with JStr r => Some r | _ => None end) xs)
  | _ => ToRooms []
  end.

(** [socket.on('webrtc:signal', (data) => { ... })]: forwarded verbatim. *)
Definition on_signal sock data : M R unit :=
  try_catch
    (streamId <- lift_js (js_get data "streamId") ;;
     signal <- lift_js (js_get data "signal") ;;
     targetId <- lift_js (js_get data "targetId") ;;
     emit (signal_target targetId)
       (EvSignal streamId signal sock.(sock_id) sock.(sock_user).(user_id)))
    (λ _, error_to sock "Error handling WebRTC signal").

(** [socket.on('webrtc:end_broadcast', async (data) => { ... })] *)
Definition on_end_broadcast sock data : M R unit :=
  let uid := sock.(sock_user).(user_id) in
  try_catch
    (streamId <- lift_js (js_get data "streamId") ;;
     found <- find_stream streamId ;;
     match found with
     | None => error_to sock "Stream not found"
     | Some (id, stream) =>
         if bool_decide (stream.(s_user) ≠ uid) then
           error_to sock "Only stream owner can end broadcast"
         else
           set_registry (map_delete id) ;;;
           t <- now ;;
           save_stream id (endStream t stream) ;;;
           emit (ToRoom (stream_room id)) (EvBroadcastEnded id)
     end)
    (λ _, error_to sock "Error ending broadcast").

(** The body of [for (const [streamId, info] of this.streams.entries())]. *)
Definition disconnect_entry (sid : Id) (streamId : string) (info : BroadcasterInfo) : M R unit :=
  if bool_decide (info.(bi_socketId) = sid) then
    found <- find_stream (JStr streamId) ;;
    match found with
    | None => ret tt
    | Some (id, stream) =>
        t <- now ;;
        save_stream id (endStream t stream) ;;;
        emit (ToRoom (stream_room streamId)) (EvBroadcastEnded streamId) ;;;
        set_registry (map_delete streamId)
    end
  else ret tt.

Fixpoint disconnect_loop (sid : Id) (entries : list (string * BroadcasterInfo)) : M R unit :=
  match entries with
  | [] => ret tt
  | (streamId, info) :: rest => disconnect_entry sid streamId info ;;; disconnect_loop sid rest
  end.

(** [socket.on('disconnect', async () => { ... })]: the [catch] only
  logs. *)
Definition on_disconnect_webrtc sock : M R unit :=
  try_catch
    (entries <- gets (λ w, map_entries w.(w_bcast)) ;;
     disconnect_loop sock.(sock_id) entries)
    (λ _, ret tt).
End webrtc.

(** ** Room names *)

Lemma stream_room_ne_broadcast_room id : stream_room id ≠ broadcast_room id.
Proof.
  unfold stream_room, broadcast_room. intros Heq%(f_equal String.length).
  rewrite !string_length_app in Heq. simpl in Heq. lia.
Qed.

#[export] Hint Resolve stream_room_ne_broadcast_room : hyb.

(** ** Runs of the handlers

    Each lemma computes the world a handler leaves on one branch of its code;
    the theorems below read their properties off these runs. *)

Section webrtc_runs.
Context {R : Type} `{!MapOps string BroadcasterInfo R}.
Implicit Types (sock : Socket) (data : JsVal) (w : World R).

(** The world after [socket.emit('error', { message })]. *)
Definition with_error w sock (msg : string) : World R :=
  set_out w (w.(w_out) ++ [mkEmission (ToSocket sock.(sock_id)) {[sock.(sock_id)]} (EvError msg)]).

Definition started_world w sock id : World R :=
  let w1 := set_bcast w (map_set id (mkBInfo sock.(sock_user).(user_id) sock.(sock_id)) w.(w_bcast)) in
  let w2 := set_rooms w1 (join_room sock.(sock_id) (broadcast_room id) w1.(w_rooms)) in
  set_out w2 (w2.(w_out) ++ [send w2.(w_rooms) (ToRoom (stream_room id))
                                (EvBroadcastStarted id sock.(sock_user).(user_id))]).

Lemma start_broadcast_run_owner w sock data id st :
  js_get data "streamId" = Some (JStr id) → object_id_castable id = true →
  w.(w_streams) !! id = Some st → st.(s_user) = sock.(sock_user).(user_id) →
  on_start_broadcast sock data w = (Ok tt, started_world w sock id).
Proof. intros. unfold on_start_broadcast, set_registry, error_to. by hrun. Qed.

Lemma start_broadcast_run_not_owner w sock data id st :
  js_get data "streamId" = Some (JStr id) → object_id_castable id = true →
  w.(w_streams) !! id = Some st → st.(s_user) ≠ sock.(sock_user).(user_id) →
  on_start_broadcast sock data w = (Ok tt, with_error w sock "Only stream owner can broadcast").
Proof. intros. unfold on_start_broadcast, set_registry, error_to. by hrun. Qed.

Lemma join_stream_run_no_broadcaster w sock data id st :
  js_get data "streamId" = Some (JStr id) → object_id_castable id = true →
  w.(w_streams) !! id = Some st → st.(s_status) = Live → map_get id w.(w_bcast) = None →
  on_join_stream sock data w = (Ok tt, with_error w sock "No active broadcaster for this stream").
Proof. intros. unfold on_join_stream, lookup_broadcaster, error_to. by hrun. Qed.

Definition joined_world w sock id st : World R :=
  let w1 := set_rooms w (join_room sock.(sock_id) (stream_room id) w.(w_rooms)) in
  let w2 := set_streams w1 (<[id := addViewer sock.(sock_user).(user_id) st]> w1.(w_streams)) in
  set_out w2 (w2.(w_out) ++ [send w2.(w_rooms) (ToRoom (broadcast_room id))
                                (EvViewerJoined id sock.(sock_user).(user_id) sock.(sock_id))]).

Lemma join_stream_run_ok w sock data id st b :
  js_get data "streamId" = Some (JStr id) → object_id_castable id = true →
  w.(w_streams) !! id = Some st → st.(s_status) = Live → map_get id w.(w_bcast) = Some b →
  on_join_stream sock data w = (Ok tt, joined_world w sock id st).
Proof. intros. unfold on_join_stream, lookup_broadcaster, error_to. by hrun. Qed.

Definition ended_world w id st : World R :=
  let w1 := set_bcast w (map_delete id w.(w_bcast)) in
  let w2 := set_streams w1 (<[id := endStream w.(w_now) st]> w1.(w_streams)) in
  set_out w2 (w2.(w_out) ++ [send w2.(w_rooms) (ToRoom (stream_room id)) (EvBroadcastEnded id)]).

Lemma end_broadcast_run_owner w sock data id st :
  js_get data "streamId" = Some (JStr id) → object_id_castable id = true →
  w.(w_streams) !! id = Some st → st.(s_user) = sock.(sock_user).(user_id) →
  on_end_broadcast sock data w = (Ok tt, ended_world w id st).
Proof. intros. unfold on_end_broadcast, set_registry, error_to. by hrun. Qed.
End webrtc_runs.

(** ** The registry invariant

    Every key of the registry is a castable stream id (it was found by
    [findById] before [set]), and the registered broadcaster of a stream
    that still exists is its owner (only the owner passes the check of
    [webrtc:start_broadcast], and no handler changes a stream's [user]). *)

Section registry_inv.
Context {R : Type} `{!MapOps string BroadcasterInfo R} `{!MapLaws string BroadcasterInfo R}.
Implicit Types (b : R) (ss : gmap Id Stream).

Definition registry_ok b ss : Prop :=
  map_wf b ∧
  ∀ k bi, map_get k b = Some bi →
    object_id_castable k = true ∧ ∀ st, ss !! k = Some st → st.(s_user) = bi.(bi_broadcasterId).

Definition registry_inv (w : World R) : Prop := registry_ok w.(w_bcast) w.(w_streams).

Lemma registry_inv_entries_castable w :
  registry_inv w → Forall (λ kv, object_id_castable kv.1 = true) (map_entries w.(w_bcast)).
Proof.
  intros [Hwf Hk]. apply Forall_forall. intros [k b] Hin.
  rewrite map_entries_get in Hin by done. by destruct (Hk _ _ Hin).
Qed.

Lemma registry_ok_set b ss id bid sid :
  registry_ok b ss → object_id_castable id = true →
  (∀ st, ss !! id = Some st → st.(s_user) = bid) →
  registry_ok (map_set id (mkBInfo bid sid) b) ss.
Proof.
  intros [Hwf Hk] Hc Ho. split; [by apply map_wf_set|]. intros k bi.
  destruct (decide (id = k)) as [->|Hne].
  - rewrite map_get_set_eq. intros [= <-]. split; [done|]. simpl. exact Ho.
  - rewrite map_get_set_ne by done. apply Hk.
Qed.

Lemma registry_ok_delete b ss id : registry_ok b ss → registry_ok (map_delete id b) ss.
Proof.
  intros [Hwf Hk]. split; [by apply map_wf_delete|]. intros k bi.
  destruct (decide (id = k)) as [->|Hne].
  - by rewrite map_get_delete_eq.
  - rewrite map_get_delete_ne by done. apply Hk.
Qed.

Lemma registry_ok_save b ss id st st' :
  registry_ok b ss → ss !! id = Some st → st'.(s_user) = st.(s_user) →
  registry_ok b (<[id := st']> ss).
Proof.
  intros [Hwf Hk] Hst Hu. split; [done|]. intros k bi Hkb.
  destruct (Hk _ _ Hkb) as [Hc Ho]. split; [done|]. intros st''.
  destruct (decide (id = k)) as [->|Hne].
  - rewrite lookup_insert_eq. intros [= <-]. rewrite Hu. by apply Ho.
  - rewrite lookup_insert_ne by done. apply Ho.
Qed.
End registry_inv.

(** ** The [disconnect] loop *)

Section disconnect.
Context {R : Type} `{!MapOps string BroadcasterInfo R} `{!MapLaws string BroadcasterInfo R}.
Implicit Types (w : World R) (es : list (string * BroadcasterInfo)).

(** The entries the loop ends: registered by the socket, stream found. *)
Definition ends_entry (ss : gmap Id Stream) (sid : Id) (kv : string * BroadcasterInfo) : Prop :=
  kv.2.(bi_socketId) = sid ∧ is_Some (ss !! kv.1).

#[global] Instance ends_entry_dec ss sid kv : Decision (ends_entry ss sid kv).
Proof. unfold ends_entry. apply _. Defined.

Definition ended_emission (rs : Rooms) (k : string) : Emission :=
  mkEmission (ToRoom (stream_room k)) (room_members rs (stream_room k)) (EvBroadcastEnded k).

Lemma ends_entry_insert ss sid k x kv :
  is_Some (ss !! k) → ends_entry (<[k := x]> ss) sid kv ↔ ends_entry ss sid kv.
Proof.
  intros Hk. unfold ends_entry. destruct (decide (kv.1 = k)) as [->|Hne].
  - rewrite lookup_insert_eq. naive_solver.
  - by rewrite lookup_insert_ne by congruence.
Qed.

Lemma disconnect_entry_skip w sid k b :
  ¬ ends_entry w.(w_streams) sid (k, b) → object_id_castable k = true →
  disconnect_entry sid k b w = (Ok tt, w).
Proof.
  unfold ends_entry, disconnect_entry. simpl. intros Hn Hc.
  case_bool_decide; [|done]. destruct (w_streams w !! k) eqn:E; [naive_solver|].
  unfold bind. by rewrite (find_stream_none w k).
Qed.

Lemma disconnect_entry_end w sid k b st :
  b.(bi_socketId) = sid → object_id_castable k = true → w.(w_streams) !! k = Some st →
  disconnect_entry sid k b w =
    (Ok tt, set_bcast (set_out (set_streams w (<[k := endStream w.(w_now) st]> w.(w_streams)))
               (w.(w_out) ++ [ended_emission w.(w_rooms) k])) (map_delete k w.(w_bcast))).
Proof. intros. unfold disconnect_entry, set_registry. by hrun. Qed.

(** The loop ends exactly the entries [ends_entry] selects, in the order
  of the entries, emitting one [webrtc:broadcast_ended] for each and
  deleting its key; rooms are untouched. *)
Lemma disconnect_loop_spec sid es w :
  NoDup es.*1 → Forall (λ kv, object_id_castable kv.1 = true) es →
  let '(r, w') := disconnect_loop sid es w in
  let ended := filter (ends_entry w.(w_streams) sid) es in
  r = Ok tt ∧ w'.(w_rooms) = w.(w_rooms) ∧
  (∀ k, k ∈ ended.*1 → map_get k w'.(w_bcast) = None) ∧
  (∀ k, k ∉ ended.*1 → map_get k w'.(w_bcast) = map_get k w.(w_bcast)) ∧
  w'.(w_out) = w.(w_out) ++ (ended_emission w.(w_rooms) ∘ fst <$> ended).
Proof.
  revert w. induction es as [|[k b] es IH]; intros w Hnd Hc.
  { simpl. split_and!; try done; [set_solver|]. by rewrite app_nil_r. }
  rewrite fmap_cons, NoDup_cons in Hnd. destruct Hnd as [Hk Hnd].
  apply Forall_cons in Hc as [Hck Hc]. simpl in Hck.
  cbn [disconnect_loop]. unfold bind at 1.
  destruct (decide (ends_entry w.(w_streams) sid (k, b))) as [He|He].
  - destruct He as [Hs [st Hst]]. simpl in Hs, Hst.
    rewrite (disconnect_entry_end w sid k b st) by done.
    match goal with |- context [disconnect_loop sid es ?w1] =>
      specialize (IH w1 Hnd Hc); destruct (disconnect_loop sid es w1) as [r w'] end.
    cbn iota beta in IH |- *. simpl in IH.
    rewrite (list_filter_iff _ (ends_entry w.(w_streams) sid)) in IH
      by (intros; apply ends_entry_insert; eauto).
    destruct IH as (-> & Hr & Hin & Hout & Ho).
    rewrite filter_cons_True by (split; [done|eexists; eauto]).
    assert (k ∉ (filter (ends_entry (w_streams w) sid) es).*1).
    { intros (kv & Hkv & Hkv')%list_elem_of_fmap. rewrite list_elem_of_filter in Hkv'.
      destruct Hkv' as [_ Hkv']. apply Hk. subst. apply list_elem_of_fmap. by exists kv. }
    rewrite fmap_cons. split_and!; [done|done| | |].
    + intros k' [->|Hk']%elem_of_cons.
      * rewrite Hout by done. apply map_get_delete_eq.
      * by apply Hin.
    + intros k' Hk'. apply not_elem_of_cons in Hk' as [Hne Hk'].
      rewrite Hout by done. by apply map_get_delete_ne.
    + by rewrite Ho, <- app_assoc.
  - rewrite disconnect_entry_skip by done.
    specialize (IH w Hnd Hc). destruct (disconnect_loop sid es w) as [r w'].
    by rewrite filter_cons_False by done.
Qed.
End disconnect.

(** ** Preservation of the registry invariant *)

Section preservation.
Context {R : Type} `{!MapOps string BroadcasterInfo R} `{!MapLaws string BroadcasterInfo R}.
Implicit Types (sock : Socket) (data : JsVal) (w : World R).

Lemma start_broadcast_inv w sock data :
  registry_inv w → registry_inv (on_start_broadcast sock data w).2.
Proof.
  intros Hinv. unfold on_start_broadcast, set_registry, error_to, registry_inv in *. hrun.
  apply registry_ok_set; [done|done|]. intros st' Hst'. naive_solver.
Qed.

Lemma join_stream_inv w sock data :
  registry_inv w → registry_inv (on_join_stream sock data w).2.
Proof.
  intros Hinv. unfold on_join_stream, lookup_broadcaster, error_to, registry_inv in *. hrun.
  by eapply registry_ok_save.
Qed.

Lemma signal_inv w sock data : registry_inv w → registry_inv (on_signal sock data w).2.
Proof. intros Hinv. unfold on_signal, error_to, registry_inv in *. by hrun. Qed.

Lemma end_broadcast_inv w sock data :
  registry_inv w → registry_inv (on_end_broadcast sock data w).2.
Proof.
  intros Hinv. unfold on_end_broadcast, set_registry, error_to, registry_inv in *. hrun.
  eapply registry_ok_save; [|done|done]. by apply registry_ok_delete.
Qed.

Lemma disconnect_loop_inv sid es w :
  Forall (λ kv, object_id_castable kv.1 = true) es →
  registry_inv w → registry_inv (disconnect_loop sid es w).2.
Proof.
  revert w. induction es as [|[k b] es IH]; intros w Hc Hinv; [done|].
  apply Forall_cons in Hc as [Hck Hc]. simpl in Hck.
  cbn [disconnect_loop]. unfold bind at 1.
  destruct (decide (ends_entry w.(w_streams) sid (k, b))) as [[Hs [st Hst]]|He].
  - rewrite (disconnect_entry_end w sid k b st) by done. simpl. apply IH; [done|].
    unfold registry_inv. simpl. eapply registry_ok_save; [|done|done]. by apply registry_ok_delete.
  - rewrite disconnect_entry_skip by done. by apply IH.
Qed.

Lemma disconnect_inv w sock : registry_inv w → registry_inv (on_disconnect_webrtc sock w).2.
Proof.
  intros Hinv. pose proof (registry_inv_entries_castable w Hinv) as Hc.
  unfold on_disconnect_webrtc, try_catch, bind at 1, gets.
  pose proof (disconnect_loop_inv (sock_id sock) _ w Hc Hinv) as H.
  destruct (disconnect_loop _ _ w) as [[] w']; done.
Qed.
End preservation.

(** ** Functional behaviour of the handlers *)

Section webrtc_props.
Context {R : Type} `{!MapOps string BroadcasterInfo R} `{!MapLaws string BroadcasterInfo R}.
Implicit Types (sock : Socket) (data : JsVal) (w : World R).

(** C1: [webrtc:start_broadcast] by the stream's owner registers the socket
  as the broadcaster of the stream (last write wins: any earlier entry
  is replaced), leaves the other entries alone, puts the socket in the
  [stream:<id>:broadcast] room, writes nothing to the database and emits
  exactly [webrtc:broadcast_started] to the members of the stream room. *)
Theorem start_broadcast_registers w sock data id st :
  js_get data "streamId" = Some (JStr id) → object_id_castable id = true →
  w.(w_streams) !! id = Some st → st.(s_user) = sock.(sock_user).(user_id) →
  let '(r, w') := on_start_broadcast sock data w in
  r = Ok tt ∧
  map_get id w'.(w_bcast) = Some (mkBInfo sock.(sock_user).(user_id) sock.(sock_id)) ∧
  (∀ k, k ≠ id → map_get k w'.(w_bcast) = map_get k w.(w_bcast)) ∧
  sock.(sock_id) ∈ room_members w'.(w_rooms) (broadcast_room id) ∧
  w'.(w_streams) = w.(w_streams) ∧
  w'.(w_out) = w.(w_out) ++
    [mkEmission (ToRoom (stream_room id)) (room_members w.(w_rooms) (stream_room id))
       (EvBroadcastStarted id sock.(sock_user).(user_id))].
Proof.
  intros Hg Hc Hs Ho. rewrite (start_broadcast_run_owner w sock data id st) by done.
  simpl. split_and!; try done.
  - apply map_get_set_eq.
  - intros k Hk. by apply map_get_set_ne.
  - rewrite room_members_join. by left.
  - unfold send. simpl. by rewrite room_members_join_ne by apply stream_room_ne_broadcast_room.
Qed.

(** C2: two [webrtc:start_broadcast] for the same stream, from two sockets
  of its owner, leave the second socket registered and nothing of the
  first: on the abstract registry (the finite map the [Map] denotes) the
  pair of calls is one insertion of the second socket's entry. *)
Theorem start_broadcast_last_write_wins w sA sB data id st :
  map_wf w.(w_bcast) →
  js_get data "streamId" = Some (JStr id) → object_id_castable id = true →
  w.(w_streams) !! id = Some st → st.(s_user) = sA.(sock_user).(user_id) →
  sB.(sock_user).(user_id) = sA.(sock_user).(user_id) →
  let '(r, w') := bind (on_start_broadcast sA data) (λ _, on_start_broadcast sB data) w in
  r = Ok tt ∧
  map_abs w'.(w_bcast) =
    <[id := mkBInfo sA.(sock_user).(user_id) sB.(sock_id)]> (map_abs w.(w_bcast)).
Proof.
  intros Hwf Hg Hc Hs HoA HoB. unfold bind.
  rewrite (start_broadcast_run_owner w sA data id st) by done.
  rewrite (start_broadcast_run_owner _ sB data id st) by (simpl; congruence).
  split; [done|]. simpl. rewrite HoB.
  rewrite !map_abs_set by auto with hyb. by rewrite insert_insert_eq.
Qed.

(** C3: [webrtc:start_broadcast] from a user who does not own the stream
  changes nothing (registry, rooms, database, timers) and emits one
  [error] "Only stream owner can broadcast" to the sender alone. *)
Theorem start_broadcast_not_owner w sock data id st :
  js_get data "streamId" = Some (JStr id) → object_id_castable id = true →
  w.(w_streams) !! id = Some st → st.(s_user) ≠ sock.(sock_user).(user_id) →
  on_start_broadcast sock data w =
    (Ok tt, set_out w (w.(w_out) ++ [mkEmission (ToSocket sock.(sock_id)) {[sock.(sock_id)]}
                                        (EvError "Only stream owner can broadcast")])).
Proof. intros. by eapply start_broadcast_run_not_owner. Qed.

(** C4: [webrtc:join_stream] for a live stream with no registered
  broadcaster never joins a room and never touches the database: its
  only effect is the [error] "No active broadcaster for this stream" to
  the sender. *)
Theorem join_stream_no_broadcaster w sock data id st :
  js_get data "streamId" = Some (JStr id) → object_id_castable id = true →
  w.(w_streams) !! id = Some st → st.(s_status) = Live → map_get id w.(w_bcast) = None →
  let '(r, w') := on_join_stream sock data w in
  r = Ok tt ∧ w'.(w_rooms) = w.(w_rooms) ∧ w'.(w_streams) = w.(w_streams) ∧
  w'.(w_bcast) = w.(w_bcast) ∧
  w'.(w_out) = w.(w_out) ++ [mkEmission (ToSocket sock.(sock_id)) {[sock.(sock_id)]}
                               (EvError "No active broadcaster for this stream")].
Proof. intros. by rewrite (join_stream_run_no_broadcaster w sock data id st). Qed.

(** [webrtc:join_stream] for a live stream with a broadcaster puts the
  viewer in the stream room, records the viewer once in the stream's
  [viewers], and sends [webrtc:viewer_joined] (with the viewer's socket
  id) to the members of the broadcaster room, not to the viewer unless it
  is itself in that room. *)
Theorem join_stream_notifies_broadcaster w sock data id st b :
  js_get data "streamId" = Some (JStr id) → object_id_castable id = true →
  w.(w_streams) !! id = Some st → st.(s_status) = Live → map_get id w.(w_bcast) = Some b →
  let '(r, w') := on_join_stream sock data w in
  r = Ok tt ∧
  sock.(sock_id) ∈ room_members w'.(w_rooms) (stream_room id) ∧
  (s_viewers <$> w'.(w_streams) !! id) = Some (push_unique sock.(sock_user).(user_id) st.(s_viewers)) ∧
  w'.(w_out) = w.(w_out) ++
    [mkEmission (ToRoom (broadcast_room id)) (room_members w.(w_rooms) (broadcast_room id))
       (EvViewerJoined id sock.(sock_user).(user_id) sock.(sock_id))].
Proof.
  intros. rewrite (join_stream_run_ok w sock data id st b) by done. simpl.
  split_and!; [done| |by rewrite lookup_insert_eq|].
  - rewrite room_members_join. by left.
  - unfold send. simpl. rewrite room_members_join_ne; [done|].
    intros Heq. by apply (stream_room_ne_broadcast_room id).
Qed.

(** C5: [webrtc:signal] forwards the payload verbatim, tagged with the
  sender's socket and user ids, to the sockets in the target's room at
  that moment and to no one else; it changes nothing else and never
  reports an error, so a target that is not connected receives nothing
  and the sender learns nothing (best effort, at most once). *)
Theorem signal_forwards w sock data streamId signal target :
  js_get data "streamId" = Some streamId → js_get data "signal" = Some signal →
  js_get data "targetId" = Some (JStr target) →
  on_signal sock data w =
    (Ok tt, set_out w (w.(w_out) ++
      [mkEmission (ToRoom target) (room_members w.(w_rooms) target)
         (EvSignal streamId signal sock.(sock_id) sock.(sock_user).(user_id))])).
Proof. intros. unfold on_signal, error_to. by hrun. Qed.

(** [webrtc:end_broadcast] by the owner removes the stream's registry
  entry and only it, marks the stream ended at the current time, and
  emits [webrtc:broadcast_ended] to the stream room. *)
Theorem end_broadcast_owner w sock data id st :
  js_get data "streamId" = Some (JStr id) → object_id_castable id = true →
  w.(w_streams) !! id = Some st → st.(s_user) = sock.(sock_user).(user_id) →
  let '(r, w') := on_end_broadcast sock data w in
  r = Ok tt ∧
  map_get id w'.(w_bcast) = None ∧
  (∀ k, k ≠ id → map_get k w'.(w_bcast) = map_get k w.(w_bcast)) ∧
  (s_status <$> w'.(w_streams) !! id) = Some Ended ∧
  w'.(w_out) = w.(w_out) ++
    [mkEmission (ToRoom (stream_room id)) (room_members w.(w_rooms) (stream_room id))
       (EvBroadcastEnded id)].
Proof.
  intros. rewrite (end_broadcast_run_owner w sock data id st) by done. simpl.
  split_and!; [done|apply map_get_delete_eq| |by rewrite lookup_insert_eq|done].
  intros k Hk. by apply map_get_delete_ne.
Qed.

(** C6: when a socket disconnects, the [disconnect] handler ends every
  broadcast the socket was registered for whose stream still exists: the
  list [ended] of those streams has no duplicate, exactly their registry
  entries are deleted (the others are kept), and exactly one
  [webrtc:broadcast_ended] is emitted for each of them, to its stream
  room, in the registry's insertion order, and nothing else. *)
Theorem disconnect_ends_broadcasts w sock :
  registry_inv w →
  let '(r, w') := on_disconnect_webrtc sock w in
  ∃ ended : list string,
    r = Ok tt ∧ NoDup ended ∧
    (∀ k, k ∈ ended ↔ ∃ b, map_get k w.(w_bcast) = Some b ∧
                           b.(bi_socketId) = sock.(sock_id) ∧ is_Some (w.(w_streams) !! k)) ∧
    (∀ k, k ∈ ended → map_get k w'.(w_bcast) = None) ∧
    (∀ k, k ∉ ended → map_get k w'.(w_bcast) = map_get k w.(w_bcast)) ∧
    w'.(w_out) = w.(w_out) ++ (ended_emission w.(w_rooms) <$> ended).
Proof.
  intros Hinv. pose proof (registry_inv_entries_castable w Hinv) as Hc.
  destruct Hinv as [Hwf _].
  unfold on_disconnect_webrtc, try_catch, bind at 1, gets.
  pose proof (disconnect_loop_spec (sock_id sock) _ w (map_entries_NoDup _ Hwf) Hc) as Hspec.
  destruct (disconnect_loop _ _ w) as [r w'].
  destruct Hspec as (-> & _ & Hin & Hout & Ho).
  exists (filter (ends_entry (w_streams w) (sock_id sock)) (map_entries (w_bcast w))).*1.
  split_and!; [done| | |done|done|by rewrite Ho, list_fmap_compose].
  - eapply sublist_NoDup; [apply (map_entries_NoDup _ Hwf)|].
    apply fmap_sublist, sublist_filter.
  - intros k. rewrite list_elem_of_fmap. split.
    + intros ([k' b] & -> & [[Hs Hst] Hkb]%list_elem_of_filter). simpl in *.
      apply map_entries_get in Hkb; eauto.
    + intros (b & Hb & Hs & Hst). exists (k, b). split; [done|].
      apply list_elem_of_filter. split; [done|]. by apply map_entries_get.
Qed.

(** the [disconnect] handler deletes a registry entry only after
  finding its stream: an entry whose stream is no longer in the database
  survives the disconnect of its broadcaster, pointing at a socket that is
  gone. *)
Theorem disconnect_keeps_orphan_entry w sock k b :
  registry_inv w → map_get k w.(w_bcast) = Some b → b.(bi_socketId) = sock.(sock_id) →
  w.(w_streams) !! k = None →
  map_get k (on_disconnect_webrtc sock w).2.(w_bcast) = Some b.
Proof.
  intros Hinv Hb Hs Hst. pose proof (registry_inv_entries_castable w Hinv) as Hc.
  destruct Hinv as [Hwf _].
  unfold on_disconnect_webrtc, try_catch, bind at 1, gets.
  pose proof (disconnect_loop_spec (sock_id sock) _ w (map_entries_NoDup _ Hwf) Hc) as Hspec.
  destruct (disconnect_loop _ _ w) as [r w'].
  destruct Hspec as (-> & _ & _ & Hout & _). simpl. rewrite Hout; [done|].
  intros ([k' b'] & -> & [[_ Hst'] _]%list_elem_of_filter)%list_elem_of_fmap. simpl in *.
  rewrite Hst in Hst'. by destruct Hst'.
Qed.

(** C7: every handler of the WebRTC service preserves the registry
  invariant: the registry stays a well-formed map, its keys are stream
  ids, and the broadcaster recorded for a stream that exists is the
  stream's owner. *)
Theorem webrtc_handlers_preserve_registry_inv w sock data :
  registry_inv w →
  registry_inv (on_start_broadcast sock data w).2 ∧
  registry_inv (on_join_stream sock data w).2 ∧
  registry_inv (on_signal sock data w).2 ∧
  registry_inv (on_end_broadcast sock data w).2 ∧
  registry_inv (on_disconnect_webrtc sock w).2.
Proof.
  intros Hinv. split_and!.
  - by apply start_broadcast_inv.
  - by apply join_stream_inv.
  - by apply signal_inv.
  - by apply end_broadcast_inv.
  - by apply disconnect_inv.
Qed.
End webrtc_props.

(** ** Witnesses on a concrete world

    One stream owned by [u1], live; the registry is the insertion-ordered
    [JsMap] the service runs on. *)

Module WebRTCExamples.
Definition ex_sid : string := "5f0000000000000000000001".
Definition ex_gone : string := "5f0000000000000000000002".
Definition ex_owner : User := mkUser "u1" "alice".
Definition ex_viewer : User := mkUser "u2" "bob".
Definition ex_sockA : Socket := mkSocket "sA" ex_owner.
Definition ex_sockB : Socket := mkSocket "sB" ex_owner.
Definition ex_sockV : Socket := mkSocket "sV" ex_viewer.
Definition ex_stream : Stream := mkStream "u1" "t" "" Live None None None [] [] [] [] [] 0.
Definition ex_data : JsVal := JObj [("streamId", JStr ex_sid)].
Definition ex_signal : JsVal :=
  JObj [("streamId", JStr ex_sid); ("signal", JStr "offer"); ("targetId", JStr "sGone")].

Definition ex_world : World (JsMap string BroadcasterInfo) :=
  mkWorld {[ex_sid := ex_stream]} ∅ ∅ [] [] [] 0%Z.

(** The same world with [sA] registered for [ex_sid], and a second entry
  for a stream that is no longer in the database. *)
Definition ex_live : World (JsMap string BroadcasterInfo) :=
  set_bcast ex_world [(ex_sid, mkBInfo "u1" "sA"); (ex_gone, mkBInfo "u1" "sA")].

Lemma ex_live_inv : registry_inv ex_live.
Proof.
  split; [change (NoDup [ex_sid; ex_gone]); apply (bool_decide_unpack _); by vm_compute|].
  intros k b Hk. simpl in Hk.
  repeat case_decide; simplify_eq; split; try done; intros st Hst; vm_compute in Hst;
    first [discriminate | by injection Hst as <-].
Qed.

Lemma start_broadcast_registers_witness :
  js_get ex_data "streamId" = Some (JStr ex_sid) ∧ object_id_castable ex_sid = true ∧
  ex_world.(w_streams) !! ex_sid = Some ex_stream ∧
  ex_stream.(s_user) = ex_sockA.(sock_user).(user_id) ∧
  map_get ex_sid (on_start_broadcast ex_sockA ex_data ex_world).2.(w_bcast) = Some (mkBInfo "u1" "sA").
Proof.
  split_and!; [reflexivity..|].
  pose proof (start_broadcast_registers ex_world ex_sockA ex_data ex_sid ex_stream
                eq_refl eq_refl eq_refl eq_refl) as H.
  destruct (on_start_broadcast ex_sockA ex_data ex_world) as [r w'].
  destruct H as (_ & H & _). exact H.
Defined.

Lemma start_broadcast_last_write_wins_witness :
  map_wf ex_world.(w_bcast) ∧ ex_sockB.(sock_user).(user_id) = ex_sockA.(sock_user).(user_id) ∧
  map_abs (bind (on_start_broadcast ex_sockA ex_data) (λ _, on_start_broadcast ex_sockB ex_data)
             ex_world).2.(w_bcast) = <[ex_sid := mkBInfo "u1" "sB"]> ∅.
Proof.
  split_and!; [apply NoDup_nil_2|reflexivity|].
  pose proof (start_broadcast_last_write_wins ex_world ex_sockA ex_sockB ex_data ex_sid ex_stream
                NoDup_nil_2 eq_refl eq_refl eq_refl eq_refl eq_refl) as H.
  destruct (bind (on_start_broadcast ex_sockA ex_data) (λ _ : (), on_start_broadcast ex_sockB ex_data)
              ex_world) as [r w'].
  destruct H as [_ H]. cbn [snd]. rewrite H. reflexivity.
Defined.

Lemma start_broadcast_not_owner_witness :
  ex_stream.(s_user) ≠ ex_sockV.(sock_user).(user_id) ∧
  on_start_broadcast ex_sockV ex_data ex_world =
    (Ok tt, set_out ex_world [mkEmission (ToSocket "sV") {["sV"]}
                                (EvError "Only stream owner can broadcast")]).
Proof.
  split; [discriminate|].
  exact (start_broadcast_not_owner ex_world ex_sockV ex_data ex_sid ex_stream
           eq_refl eq_refl eq_refl ltac:(discriminate)).
Defined.

Lemma join_stream_no_broadcaster_witness :
  map_get ex_sid ex_world.(w_bcast) = None ∧
  (on_join_stream ex_sockV ex_data ex_world).2.(w_rooms) = ex_world.(w_rooms).
Proof.
  split; [reflexivity|].
  pose proof (join_stream_no_broadcaster ex_world ex_sockV ex_data ex_sid ex_stream
                eq_refl eq_refl eq_refl eq_refl eq_refl) as H.
  destruct (on_join_stream ex_sockV ex_data ex_world) as [r w'].
  destruct H as (_ & H & _). exact H.
Defined.

Lemma join_stream_notifies_broadcaster_witness :
  map_get ex_sid ex_live.(w_bcast) = Some (mkBInfo "u1" "sA") ∧
  "sV" ∈ room_members (on_join_stream ex_sockV ex_data ex_live).2.(w_rooms) (stream_room ex_sid).
Proof.
  split; [reflexivity|].
  pose proof (join_stream_notifies_broadcaster ex_live ex_sockV ex_data ex_sid ex_stream
                (mkBInfo "u1" "sA") eq_refl eq_refl eq_refl eq_refl eq_refl) as H.
  destruct (on_join_stream ex_sockV ex_data ex_live) as [r w'].
  destruct H as (_ & H & _). exact H.
Defined.

Lemma signal_forwards_witness :
  js_get ex_signal "targetId" = Some (JStr "sGone") ∧
  room_members ex_world.(w_rooms) "sGone" = ∅ ∧
  on_signal ex_sockA ex_signal ex_world =
    (Ok tt, set_out ex_world [mkEmission (ToRoom "sGone") ∅
               (EvSignal (JStr ex_sid) (JStr "offer") "sA" "u1")]).
Proof.
  split_and!; [reflexivity|reflexivity|].
  exact (signal_forwards ex_world ex_sockA ex_signal (JStr ex_sid) (JStr "offer") "sGone"
           eq_refl eq_refl eq_refl).
Defined.

Lemma end_broadcast_owner_witness :
  ex_stream.(s_user) = ex_sockA.(sock_user).(user_id) ∧
  map_get ex_sid (on_end_broadcast ex_sockA ex_data ex_live).2.(w_bcast) = None.
Proof.
  split; [reflexivity|].
  pose proof (end_broadcast_owner ex_live ex_sockA ex_data ex_sid ex_stream
                eq_refl eq_refl eq_refl eq_refl) as H.
  destruct (on_end_broadcast ex_sockA ex_data ex_live) as [r w'].
  destruct H as (_ & H & _). exact H.
Defined.

Lemma disconnect_ends_broadcasts_witness :
  registry_inv ex_live ∧
  map_get ex_sid (on_disconnect_webrtc ex_sockA ex_live).2.(w_bcast) = None.
Proof.
  split; [exact ex_live_inv|].
  pose proof (disconnect_ends_broadcasts ex_live ex_sockA ex_live_inv) as H.
  destruct (on_disconnect_webrtc ex_sockA ex_live) as [r w'].
  destruct H as (ended & _ & _ & Hin & Hdel & _). apply Hdel, Hin.
  exists (mkBInfo "u1" "sA"). split_and!; [reflexivity|reflexivity|by eexists].
Defined.

Lemma disconnect_keeps_orphan_entry_witness :
  ex_live.(w_streams) !! ex_gone = None ∧
  map_get ex_gone (on_disconnect_webrtc ex_sockA ex_live).2.(w_bcast) = Some (mkBInfo "u1" "sA").
Proof.
  split; [reflexivity|].
  exact (disconnect_keeps_orphan_entry ex_live ex_sockA ex_gone (mkBInfo "u1" "sA")
           ex_live_inv eq_refl eq_refl eq_refl).
Defined.

Lemma webrtc_handlers_preserve_registry_inv_witness :
  registry_inv ex_live ∧ registry_inv (on_start_broadcast ex_sockB ex_data ex_live).2.
Proof.
  split; [exact ex_live_inv|].
  exact (proj1 (webrtc_handlers_preserve_registry_inv ex_live ex_sockB ex_data ex_live_inv)).
Defined.
End WebRTCExamples.
