(* ===== verification/SocketService.v ===== *)
(** * The socket service ([services/socket.service.js])

    On every connection the service puts the socket in its personal room
    [user:<id>] and registers eight handlers: [stream:join], [stream:leave],
    [chat:message], [code:change], [code:suggestion], [code:vote],
    [stream:poll_create] and [stream:poll_vote] (its [disconnect] handler only
    logs).  Each is a definition below, whole.  The payload is the raw
    JavaScript value the client sent ([JsVal]); destructuring [null] or
    [undefined], calling [trim] on a non-string and calling [map] on a
    non-array throw a [TypeError] that the handler's [catch] turns into an
    [error] event.

    [Math.random()] is an input of [stream:poll_create]: [rnd i] is the value
    [Math.floor(Math.random() * 1000)] drawn for the [i]-th option.  The
    [setTimeout] of a poll is a [Timer] of the world, fired by the router. *)

From S2P Require Import Prelude JsValue Mongoose Transport StreamModel CodeSessionModel Registry Handler.
From S2P Require Import WebRTCService.
Local Open Scope monad_scope.

Section socket_service.
Context {R : Type}.
Implicit Types (sock : Socket) (data : JsVal).

Definition error_msg sock (msg : string) : M R unit := emit (ToSocket sock.(sock_id)) (EvError msg).

(** [socket.join(`user:${socket.user.id}`)] on connection. *)
Definition user_room (uid : Id) : string := "user:" +:+ uid.

Definition on_connection_socket sock : M R unit :=
  join sock.(sock_id) (user_room sock.(sock_user).(user_id)).

(** [socket.on('stream:join', async (streamId) => { ... })] *)
Definition on_stream_join sock (streamId : JsVal) : M R unit :=
  let u := sock.(sock_user) in
  try_catch
    (found <- find_stream streamId ;;
     match found with
     | None => error_msg sock "Stream not found"
     | Some (id, stream) =>
         join sock.(sock_id) (tmpl "stream:" streamId) ;;;
         let stream' := addViewer u.(user_id) stream in
         save_stream id stream' ;;;
         emit (ToRoomExcept (tmpl "stream:" streamId) sock.(sock_id))
           (EvViewerJoin u.(user_id) u.(username)) ;;;
         emit (ToRoom (tmpl "stream:" streamId)) (EvViewerCount (viewerCount stream'))
     end)
    (λ _, error_msg sock "Error joining stream").

(** [socket.on('stream:leave', async (streamId) => { ... })]: the room is
  left even when the stream is not found; the [catch] only logs. *)
Definition on_stream_leave sock (streamId : JsVal) : M R unit :=
  let u := sock.(sock_user) in
  try_catch
    (found <- find_stream streamId ;;
     (match found with
      | None => ret tt
      | Some (id, stream) =>
          let stream' := removeViewer u.(user_id) stream in
          save_stream id stream' ;;;
          emit (ToRoomExcept (tmpl "stream:" streamId) sock.(sock_id))
            (EvViewerLeave u.(user_id) u.(username)) ;;;
          emit (ToRoom (tmpl "stream:" streamId)) (EvViewerCount (viewerCount stream'))
      end) ;;;
     leave sock.(sock_id) (tmpl "stream:" streamId))
    (λ _, ret tt).

(** [!x || !x.trim()]: [true] rejects, [None] is the [TypeError] of [trim]
  on a truthy non-string. *)
Definition blank_check (x : JsVal) : option bool :=
  if truthy x then (λ t, bool_decide (t = "")) <$> js_trim x else Some true.

(** [socket.on('chat:message', async (data) => { ... })] *)
Definition on_chat_message sock data : M R unit :=
  let u := sock.(sock_user) in
  try_catch
    (streamId <- lift_js (js_get data "streamId") ;;
     message <- lift_js (js_get data "message") ;;
     blank <- lift_js (blank_check message) ;;
     if blank then error_msg sock "Message cannot be empty"
     else
       text <- lift_js (js_trim message) ;;
       t <- now ;;
       emit (ToRoom (tmpl "stream:" streamId)) (EvChatMessage u.(user_id) u.(username) text t))
    (λ _, error_msg sock "Error sending message").

(** [socket.on('code:change', async (data) => { ... })].  [updateCode] is
  called without [await]: a cast error of its [save()] is an unhandled
  rejection that leaves the document as it was and reaches no [catch]. *)
Definition on_code_change sock data : M R unit :=
  let u := sock.(sock_user) in
  try_catch
    (sessionId <- lift_js (js_get data "sessionId") ;;
     code <- lift_js (js_get data "code") ;;
     position <- lift_js (js_get data "position") ;;
     found <- find_session sessionId ;;
     match found with
     | None => error_msg sock "Code session not found"
     | Some (id, session) =>
         if negb (can_edit session u.(user_id)) then
           error_msg sock "Not authorized to edit this code session"
         else
           emit (ToRoomExcept (tmpl "code:" sessionId) sock.(sock_id))
             (EvCodeChange u.(user_id) u.(username) code position) ;;;
           save <- lift_js (js_get data "save") ;;
           if truthy save then
             t <- now ;;
             match mongoose_cast_string code with
             | Some c => save_session id (updateCode t c u.(user_id) session)
             | None => ret tt
             end
           else ret tt
     end)
    (λ _, error_msg sock "Error updating code").

(** [socket.on('code:suggestion', async (data) => { ... })] *)
Definition on_code_suggestion sock data : M R unit :=
  let u := sock.(sock_user) in
  try_catch
    (sessionId <- lift_js (js_get data "sessionId") ;;
     suggestion <- lift_js (js_get data "suggestion") ;;
     lineStart <- lift_js (js_get data "lineStart") ;;
     lineEnd <- lift_js (js_get data "lineEnd") ;;
     blank <- lift_js (blank_check suggestion) ;;
     if blank then error_msg sock "Suggestion cannot be empty"
     else
       text <- lift_js (js_trim suggestion) ;;
       t <- now ;;
       emit (ToRoom (tmpl "code:" sessionId))
         (EvCodeSuggestion u.(user_id) u.(username) text lineStart lineEnd t))
    (λ _, error_msg sock "Error sending suggestion").

(** [voteType !== 'up' && voteType !== 'down'] *)
Definition vote_type (v : JsVal) : option string :=
  match v with
  | JStr "up" => Some "up"
  | JStr "down" => Some "down"
  | _ => None
  end.

(** [socket.on('code:vote', async (data) => { ... })] *)
Definition on_code_vote sock data : M R unit :=
  let u := sock.(sock_user) in
  try_catch
    (sessionId <- lift_js (js_get data "sessionId") ;;
     suggestionId <- lift_js (js_get data "suggestionId") ;;
     voteType <- lift_js (js_get data "voteType") ;;
     match vote_type voteType with
     | None => error_msg sock "Invalid vote type"
     | Some vt =>
         t <- now ;;
         emit (ToRoom (tmpl "code:" sessionId)) (EvCodeVote suggestionId u.(user_id) u.(username) vt t)
     end)
    (λ _, error_msg sock "Error processing vote").

(** Node's [setTimeout] delay: a delay that is not a number in
  [1, 2147483647] milliseconds is set to 1. *)
Definition timeout_delay (ms : option Z) : Z :=
  match ms with
  | Some n => if bool_decide (1 ≤ n ≤ 2147483647)%Z then n else 1%Z
  | None => 1%Z
  end.

(** [new Date(ms)]: a time beyond 8.64e15 ms from the epoch is an
  Invalid Date, which [JSON.stringify] writes as [null], like the [null]
  of a poll without a duration. *)
Definition js_date (ms : Z) : option Z :=
  if bool_decide (Z.abs ms ≤ 8640000000000000)%Z then Some ms else None.

(** [duration * 1000] *)
Definition duration_ms (duration : JsVal) : option Z := (λ d, d * 1000)%Z <$> js_to_number duration.

(** [options.map(option => ({ id: Date.now() + Math.floor(Math.random() * 1000), text: option, votes: 0 }))] *)
Definition make_poll_options (t : Z) (rnd : nat → Z) (options : list JsVal) : list PollOption :=
  imap (λ i o, mkPollOption (t + rnd i) o 0) options.

(** [socket.on('stream:poll_create', async (data) => { ... })] *)
Definition on_poll_create sock (rnd : nat → Z) data : M R unit :=
  let u := sock.(sock_user) in
  try_catch
    (streamId <- lift_js (js_get data "streamId") ;;
     question <- lift_js (js_get data "question") ;;
     options <- lift_js (js_get data "options") ;;
     duration <- lift_js (js_get data "duration") ;;
     (if negb (truthy question) || negb (truthy options) then
        error_msg sock "Invalid poll data"
      else
        len <- lift_js (js_get options "length") ;;
        if negb (truthy len) then error_msg sock "Invalid poll data"
        else
          found <- find_stream streamId ;;
          match found with
          | None => error_msg sock "Stream not found"
          | Some (id, stream) =>
              if bool_decide (stream.(s_user) ≠ u.(user_id)) then
                error_msg sock "Only stream owner can create polls"
              else
                t <- now ;;
                opts <- lift_js (js_array options) ;;
                let poll := mkPoll (number_to_string t) question (make_poll_options t rnd opts)
                              u.(user_id) t
                              (if truthy duration then duration_ms duration ≫= (λ ms, js_date (t + ms))
                               else None) in
                emit (ToRoom (tmpl "stream:" streamId)) (EvPollCreated poll) ;;;
                if truthy duration then
                  modify (λ w, set_timers w (w.(w_timers) ++
                    [mkTimer (t + timeout_delay (duration_ms duration)) (tmpl "stream:" streamId)
                       poll.(poll_id)]))
                else ret tt
          end))
    (λ _, error_msg sock "Error creating poll").

(** [socket.on('stream:poll_vote', async (data) => { ... })] *)
Definition on_poll_vote sock data : M R unit :=
  let u := sock.(sock_user) in
  try_catch
    (streamId <- lift_js (js_get data "streamId") ;;
     pollId <- lift_js (js_get data "pollId") ;;
     optionId <- lift_js (js_get data "optionId") ;;
     t <- now ;;
     emit (ToRoom (tmpl "stream:" streamId)) (EvPollVote pollId optionId u.(user_id) u.(username) t))
    (λ _, error_msg sock "Error processing poll vote").

(** The [setTimeout] callback of a poll: [stream:poll_ended] to the room. *)
Definition fire_timer (tm : Timer) : M R unit :=
  emit (ToRoom tm.(tm_room)) (EvPollEnded tm.(tm_pollId)).
End socket_service.

(** ** Validation helpers *)

Lemma blank_check_true m :
  truthy m = false ∨ (∃ s, m = JStr s ∧ trim_string s = "") → blank_check m = Some true.
Proof.
  unfold blank_check. intros [->|(s & -> & Hs)]; [done|].
  simpl. destruct (negb (String.eqb s "")); simpl; by rewrite ?Hs, ?bool_decide_true.
Qed.

Lemma blank_check_string s :
  s ≠ "" → trim_string s ≠ "" → blank_check (JStr s) = Some false.
Proof.
  intros Hs Ht. unfold blank_check. simpl.
  destruct (String.eqb_spec s "") as [->|_]; [done|]. simpl. by rewrite bool_decide_false.
Qed.

Lemma blank_check_not_string m :
  truthy m = true → (∀ s, m ≠ JStr s) → blank_check m = None.
Proof. unfold blank_check. intros -> Hm. destruct m; try done. by destruct (Hm s). Qed.

Lemma timeout_delay_bounds ms : (1 ≤ timeout_delay ms ≤ 2147483647)%Z.
Proof. destruct ms as [n|]; simpl; [case_bool_decide|]; lia. Qed.

(** ** Runs of [stream:poll_create] *)

Section poll_runs.
Context {R : Type}.
Implicit Types (sock : Socket) (data : JsVal) (w : World R).

(** The poll built at time [t] for a [duration] that is a number. *)
Definition built_poll sock rnd (t : Z) (question : JsVal) (xs : list JsVal) (d : Z) : Poll :=
  mkPoll (number_to_string t) question (make_poll_options t rnd xs) sock.(sock_user).(user_id) t
    (js_date (t + d * 1000)).

Definition poll_world w sock rnd id question xs d : World R :=
  let poll := built_poll sock rnd w.(w_now) question xs d in
  let w1 := set_out w (w.(w_out) ++ [send w.(w_rooms) (ToRoom (tmpl "stream:" (JStr id))) (EvPollCreated poll)]) in
  set_timers w1 (w1.(w_timers) ++
    [mkTimer (w.(w_now) + timeout_delay (Some (d * 1000)%Z)) (tmpl "stream:" (JStr id)) poll.(poll_id)]).

Lemma poll_create_run_ok w sock rnd data id question xs d st :
  js_get data "streamId" = Some (JStr id) → js_get data "question" = Some question →
  js_get data "options" = Some (JArr xs) → js_get data "duration" = Some (JNum d) →
  truthy question = true → xs ≠ [] → d ≠ 0%Z → object_id_castable id = true →
  w.(w_streams) !! id = Some st → st.(s_user) = sock.(sock_user).(user_id) →
  on_poll_create sock rnd data w = (Ok tt, poll_world w sock rnd id question xs d).
Proof.
  intros Hs Hq Ho Hd Htq Hxs Hd0 Hc Hst Hown.
  assert (truthy (JNum (Z.of_nat (length xs))) = true).
  { simpl. destruct xs; [done|]. simpl. lia. }
  assert (truthy (JNum d) = true) by (simpl; lia).
  unfold on_poll_create, error_msg, duration_ms, poll_world, built_poll. hrun.
Qed.
End poll_runs.

(** ** Behaviour of the socket handlers *)

Section socket_props.
Context {R : Type} `{!MapOps string BroadcasterInfo R}.
Implicit Types (sock : Socket) (data : JsVal) (w : World R).

(** C8: a [chat:message] whose [message] is falsy or only white space is
  never relayed: its only effect is the [error] "Message cannot be empty"
  to the sender. *)
Theorem chat_message_blank_rejected w sock data streamId m :
  js_get data "streamId" = Some streamId → js_get data "message" = Some m →
  truthy m = false ∨ (∃ s, m = JStr s ∧ trim_string s = "") →
  on_chat_message sock data w = (Ok tt, with_error w sock "Message cannot be empty").
Proof.
  intros Hs Hm Hb%blank_check_true. unfold on_chat_message, error_msg. by hrun.
Qed.

(** a [chat:message] with a string that is not blank is relayed, trimmed,
  with the sender's identity and the current time, to every member of the
  room [stream:<streamId>], the sender included; nothing else changes.  The
  sender need not be in the room. *)
Theorem chat_message_relayed w sock data streamId s :
  js_get data "streamId" = Some streamId → js_get data "message" = Some (JStr s) →
  s ≠ "" → trim_string s ≠ "" →
  on_chat_message sock data w =
    (Ok tt, set_out w (w.(w_out) ++
      [mkEmission (ToRoom (tmpl "stream:" streamId)) (room_members w.(w_rooms) (tmpl "stream:" streamId))
         (EvChatMessage sock.(sock_user).(user_id) sock.(sock_user).(username) (trim_string s) w.(w_now))])).
Proof.
  intros Hs Hm Hne Ht. pose proof (blank_check_string s Hne Ht).
  unfold on_chat_message, error_msg. by hrun.
Qed.

(** A [chat:message] whose [message] is truthy but not a string (a
  number, an array, an object) makes [message.trim()] throw; the [catch]
  sends "Error sending message" to the sender and nothing is relayed. *)
Theorem chat_message_not_string w sock data streamId m :
  js_get data "streamId" = Some streamId → js_get data "message" = Some m →
  truthy m = true → (∀ s, m ≠ JStr s) →
  on_chat_message sock data w = (Ok tt, with_error w sock "Error sending message").
Proof.
  intros Hs Hm Ht Hns. pose proof (blank_check_not_string m Ht Hns).
  unfold on_chat_message, error_msg. by hrun.
Qed.

(** C10: a [code:change] from a user who is neither the owner nor a
  collaborator of the session is dropped: nothing is relayed, the session
  is not saved, and the sender alone gets "Not authorized to edit this code
  session". *)
Theorem code_change_not_authorized w sock data sessionId code position c :
  js_get data "sessionId" = Some (JStr sessionId) → js_get data "code" = Some code →
  js_get data "position" = Some position → object_id_castable sessionId = true →
  w.(w_sessions) !! sessionId = Some c →
  c.(cs_owner) ≠ sock.(sock_user).(user_id) → sock.(sock_user).(user_id) ∉ c.(cs_collaborators) →
  on_code_change sock data w =
    (Ok tt, with_error w sock "Not authorized to edit this code session").
Proof.
  intros Hs Hc Hp Hcast Hsess Ho Hcol.
  assert (can_edit c sock.(sock_user).(user_id) = false) as He.
  { unfold can_edit. apply bool_decide_false. naive_solver. }
  unfold on_code_change, error_msg. by hrun.
Qed.

(** an authorized [code:change] without a truthy [save] is relayed
  verbatim to the other members of [code:<sessionId>] (never back to the
  sender) and changes nothing else. *)
Theorem code_change_relayed_to_others w sock data sessionId code position c save :
  js_get data "sessionId" = Some (JStr sessionId) → js_get data "code" = Some code →
  js_get data "position" = Some position → object_id_castable sessionId = true →
  w.(w_sessions) !! sessionId = Some c → can_edit c sock.(sock_user).(user_id) = true →
  js_get data "save" = Some save → truthy save = false →
  on_code_change sock data w =
    (Ok tt, set_out w (w.(w_out) ++
      [mkEmission (ToRoomExcept ("code:" +:+ sessionId) sock.(sock_id))
         (room_members w.(w_rooms) ("code:" +:+ sessionId) ∖ {[sock.(sock_id)]})
         (EvCodeChange sock.(sock_user).(user_id) sock.(sock_user).(username) code position)])) ∧
  sock.(sock_id) ∉ room_members w.(w_rooms) ("code:" +:+ sessionId) ∖ {[sock.(sock_id)]}.
Proof.
  intros. split; [|set_solver]. unfold on_code_change, error_msg. by hrun.
Qed.

(** an authorized [code:change] with a truthy [save] and a string [code]
  stores [updateCode(code, userId)] of the session it read: the new code, the
  bumped version, and the previous version appended to the history. *)
Theorem code_change_saves w sock data sessionId s position c save :
  js_get data "sessionId" = Some (JStr sessionId) → js_get data "code" = Some (JStr s) →
  js_get data "position" = Some position → object_id_castable sessionId = true →
  w.(w_sessions) !! sessionId = Some c → can_edit c sock.(sock_user).(user_id) = true →
  js_get data "save" = Some save → truthy save = true →
  (on_code_change sock data w).2.(w_sessions) !! sessionId =
    Some (updateCode w.(w_now) (Some s) sock.(sock_user).(user_id) c).
Proof.
  intros. unfold on_code_change, error_msg. hrun. by rewrite lookup_insert_eq.
Qed.

(** A [code:vote] whose [voteType] is not exactly the string 'up' or
  'down' is not relayed; the sender gets "Invalid vote type". *)
Theorem code_vote_invalid w sock data sessionId suggestionId v :
  js_get data "sessionId" = Some sessionId → js_get data "suggestionId" = Some suggestionId →
  js_get data "voteType" = Some v → vote_type v = None →
  on_code_vote sock data w = (Ok tt, with_error w sock "Invalid vote type").
Proof. intros. unfold on_code_vote, error_msg. by hrun. Qed.

(** [stream:poll_create] for a stream the sender does not own emits no
  poll and schedules no timer: only "Only stream owner can create polls" to
  the sender. *)
Theorem poll_create_not_owner w sock rnd data id question xs duration st :
  js_get data "streamId" = Some (JStr id) → js_get data "question" = Some question →
  js_get data "options" = Some (JArr xs) → js_get data "duration" = Some duration →
  truthy question = true → xs ≠ [] → object_id_castable id = true →
  w.(w_streams) !! id = Some st → st.(s_user) ≠ sock.(sock_user).(user_id) →
  on_poll_create sock rnd data w = (Ok tt, with_error w sock "Only stream owner can create polls").
Proof.
  intros Hs Hq Ho Hd Htq Hxs Hc Hst Hown.
  assert (truthy (JNum (Z.of_nat (length xs))) = true).
  { simpl. destruct xs; [done|]. simpl. lia. }
  unfold on_poll_create, error_msg. hrun.
Qed.

(** a valid [stream:poll_create] by the owner with a numeric duration
  emits [stream:poll_created] to the stream room, with the id
  [Date.now().toString()], one option per element (votes 0) and [endsAt]
  [duration] seconds later, and schedules one timer for the same room and
  poll id; the timer's delay is always between 1 ms and 2^31 - 1 ms. *)
Theorem poll_create_schedules_end w sock rnd data id question xs d st :
  js_get data "streamId" = Some (JStr id) → js_get data "question" = Some question →
  js_get data "options" = Some (JArr xs) → js_get data "duration" = Some (JNum d) →
  truthy question = true → xs ≠ [] → d ≠ 0%Z → object_id_castable id = true →
  w.(w_streams) !! id = Some st → st.(s_user) = sock.(sock_user).(user_id) →
  let '(r, w') := on_poll_create sock rnd data w in
  ∃ poll tm,
    r = Ok tt ∧
    w'.(w_out) = w.(w_out) ++ [mkEmission (ToRoom ("stream:" +:+ id))
                                 (room_members w.(w_rooms) ("stream:" +:+ id)) (EvPollCreated poll)] ∧
    w'.(w_timers) = w.(w_timers) ++ [tm] ∧
    poll.(poll_id) = number_to_string w.(w_now) ∧
    length poll.(poll_options) = length xs ∧ Forall (λ o, o.(opt_votes) = 0%Z) poll.(poll_options) ∧
    poll.(poll_endsAt) = js_date (w.(w_now) + d * 1000) ∧
    tm.(tm_room) = "stream:" +:+ id ∧ tm.(tm_pollId) = poll.(poll_id) ∧
    (w.(w_now) + 1 ≤ tm.(tm_due) ≤ w.(w_now) + 2147483647)%Z.
Proof.
  intros. rewrite (poll_create_run_ok w sock rnd data id question xs d st) by done.
  eexists _, _. split_and!; try reflexivity.
  - simpl. unfold make_poll_options. by rewrite length_imap.
  - simpl. unfold make_poll_options. apply Forall_lookup. intros i o.
    rewrite list_lookup_imap. destruct (xs !! i); simpl; [|done]. by intros [= <-].
  - pose proof (timeout_delay_bounds (Some (d * 1000)%Z)).
    generalize dependent (timeout_delay (Some (d * 1000)%Z)). intros. simpl. lia.
  - pose proof (timeout_delay_bounds (Some (d * 1000)%Z)).
    generalize dependent (timeout_delay (Some (d * 1000)%Z)). intros. simpl. lia.
Qed.

(** C22: Node clamps a [setTimeout] delay above 2^31 - 1 ms to 1 ms, so a
  poll whose duration exceeds 2147483.647 s (about 24.8 days) is announced
  with the right [endsAt] ([new Date(now + duration * 1000)]) but its end
  timer fires one millisecond later. *)
Theorem poll_end_timer_overflow w sock rnd data id question xs d st :
  js_get data "streamId" = Some (JStr id) → js_get data "question" = Some question →
  js_get data "options" = Some (JArr xs) → js_get data "duration" = Some (JNum d) →
  truthy question = true → xs ≠ [] → object_id_castable id = true →
  w.(w_streams) !! id = Some st → st.(s_user) = sock.(sock_user).(user_id) →
  (2147483647 < d * 1000)%Z →
  ∃ poll, last (on_poll_create sock rnd data w).2.(w_out) =
            Some (mkEmission (ToRoom ("stream:" +:+ id)) (room_members w.(w_rooms) ("stream:" +:+ id))
                    (EvPollCreated poll)) ∧
          poll.(poll_endsAt) = js_date (w.(w_now) + d * 1000) ∧
          last (on_poll_create sock rnd data w).2.(w_timers) =
            Some (mkTimer (w.(w_now) + 1) ("stream:" +:+ id) poll.(poll_id)).
Proof.
  intros Hs Hq Ho Hd Htq Hxs Hc Hst Hown Hbig.
  rewrite (poll_create_run_ok w sock rnd data id question xs d st) by (done || lia).
  eexists. simpl. rewrite !last_app. simpl. split_and!; [reflexivity|reflexivity|].
  rewrite bool_decide_false by lia. reflexivity.
Qed.

(** [stream:join] of an existing stream puts the socket in the stream
  room, records the user in [viewers] only if absent, tells the others
  [stream:viewer_join], and sends everyone in the room the number of
  distinct viewers; a user joining again leaves [viewers] and the count
  unchanged. *)
Theorem stream_join_counts_distinct w sock id st :
  object_id_castable id = true → w.(w_streams) !! id = Some st →
  let '(r, w') := on_stream_join sock (JStr id) w in
  r = Ok tt ∧
  sock.(sock_id) ∈ room_members w'.(w_rooms) ("stream:" +:+ id) ∧
  (s_viewers <$> w'.(w_streams) !! id) = Some (push_unique sock.(sock_user).(user_id) st.(s_viewers)) ∧
  last w'.(w_out) = Some (mkEmission (ToRoom ("stream:" +:+ id))
                           ({[sock.(sock_id)]} ∪ room_members w.(w_rooms) ("stream:" +:+ id))
                           (EvViewerCount (length (push_unique sock.(sock_user).(user_id) st.(s_viewers))))) ∧
  (sock.(sock_user).(user_id) ∈ st.(s_viewers) →
     push_unique sock.(sock_user).(user_id) st.(s_viewers) = st.(s_viewers)).
Proof.
  intros Hc Hst. unfold on_stream_join, error_msg. hrun. rewrite !tmpl_str.
  split_and!; [done|..].
  - rewrite room_members_join. by left.
  - by rewrite lookup_insert_eq.
  - rewrite last_app. unfold send, recipients. by rewrite room_members_join_eq.
  - apply push_unique_present.
Qed.

(** [stream:leave] always takes the socket out of the room
  [stream:<streamId>], whether or not the stream exists (only a cast error
  of the id stops it); when the stream exists the user is removed from its
  viewers. *)
Theorem stream_leave_leaves_room w sock streamId :
  (∃ s, streamId = JStr s ∧ object_id_castable s = true) ∨ streamId = JUndef ∨ streamId = JNull →
  let '(r, w') := on_stream_leave sock streamId w in
  r = Ok tt ∧ sock.(sock_id) ∉ room_members w'.(w_rooms) (tmpl "stream:" streamId) ∧
  (∀ id st, streamId = JStr id → w.(w_streams) !! id = Some st →
     (s_viewers <$> w'.(w_streams) !! id) = Some (remove_all sock.(sock_user).(user_id) st.(s_viewers))).
Proof.
  intros [(s & -> & Hc)|[-> | ->]]; unfold on_stream_leave; hrun;
    (split_and!; [done|rewrite room_members_leave_eq; set_solver|]);
    intros id' st' [= <-] Hst'; simplify_eq/=; by rewrite ?lookup_insert_eq.
Qed.
End socket_props.

(** ** The claims at concrete inputs *)

Module SocketExamples.
Import WebRTCExamples.
Abbreviation W := (World (JsMap string BroadcasterInfo)).

Definition ex_cs : string := "5f0000000000000000000003".
Definition ex_session : CodeSession :=
  mkCodeSession (Some ex_sid) "t" "js" (Some "x") "u1" [] [] true "1.0" [] 0.
Definition ex_room : string := "stream:" +:+ ex_sid.

(** [sA] (alice, the owner) and [sV] (bob) are in the stream room. *)
Definition ex_sworld : W :=
  mkWorld {[ex_sid := ex_stream]} {[ex_cs := ex_session]}
    {[ex_room := {["sA"; "sV"]}]} [] [] [] 1000%Z.

Definition ex_chat (m : JsVal) : JsVal := JObj [("streamId", JStr ex_sid); ("message", m)].
Definition ex_code (save : JsVal) : JsVal :=
  JObj [("sessionId", JStr ex_cs); ("code", JStr "y"); ("position", JNull); ("save", save)].
Definition ex_vote : JsVal :=
  JObj [("sessionId", JStr ex_cs); ("suggestionId", JStr "s1"); ("voteType", JStr "sideways")].
Definition ex_poll (d : Z) : JsVal :=
  JObj [("streamId", JStr ex_sid); ("question", JStr "Q?");
        ("options", JArr [JStr "a"; JStr "b"]); ("duration", JNum d)].
Definition ex_rnd : nat → Z := λ _, 0%Z.

Lemma chat_message_blank_rejected_witness :
  on_chat_message ex_sockV (ex_chat (JStr "   ")) ex_sworld =
    (Ok tt, with_error ex_sworld ex_sockV "Message cannot be empty").
Proof.
  apply (chat_message_blank_rejected ex_sworld ex_sockV _ (JStr ex_sid) (JStr "   ")); try reflexivity.
  right. exists "   ". split; reflexivity.
Defined.

Lemma chat_message_relayed_witness :
  on_chat_message ex_sockV (ex_chat (JStr " hi ")) ex_sworld =
    (Ok tt, set_out ex_sworld (ex_sworld.(w_out) ++
      [mkEmission (ToRoom ex_room) {["sA"; "sV"]} (EvChatMessage "u2" "bob" "hi" 1000)])).
Proof.
  apply (chat_message_relayed ex_sworld ex_sockV _ (JStr ex_sid) " hi "); try reflexivity;
    vm_compute; discriminate.
Defined.

Lemma chat_message_not_string_witness :
  on_chat_message ex_sockV (ex_chat (JNum 5)) ex_sworld =
    (Ok tt, with_error ex_sworld ex_sockV "Error sending message").
Proof.
  apply (chat_message_not_string ex_sworld ex_sockV _ (JStr ex_sid) (JNum 5)); try reflexivity.
  intros s'. discriminate.
Defined.

Lemma code_change_not_authorized_witness :
  on_code_change ex_sockV (ex_code (JBool true)) ex_sworld =
    (Ok tt, with_error ex_sworld ex_sockV "Not authorized to edit this code session").
Proof.
  apply (code_change_not_authorized ex_sworld ex_sockV _ ex_cs (JStr "y") JNull ex_session);
    try reflexivity.
  - discriminate.
  - apply not_elem_of_nil.
Defined.

Lemma code_change_relayed_to_others_witness :
  on_code_change ex_sockA (ex_code (JBool false)) ex_sworld =
    (Ok tt, set_out ex_sworld (ex_sworld.(w_out) ++
      [mkEmission (ToRoomExcept ("code:" +:+ ex_cs) "sA") ∅
         (EvCodeChange "u1" "alice" (JStr "y") JNull)])) ∧
  "sA" ∉ room_members ex_sworld.(w_rooms) ("code:" +:+ ex_cs) ∖ {["sA"]}.
Proof.
  apply (code_change_relayed_to_others ex_sworld ex_sockA _ ex_cs (JStr "y") JNull ex_session
           (JBool false)); reflexivity.
Defined.

Lemma code_change_saves_witness :
  (on_code_change ex_sockA (ex_code (JBool true)) ex_sworld).2.(w_sessions) !! ex_cs =
    Some (updateCode 1000 (Some "y") "u1" ex_session).
Proof.
  apply (code_change_saves ex_sworld ex_sockA _ ex_cs "y" JNull ex_session (JBool true));
    reflexivity.
Defined.

Lemma code_vote_invalid_witness :
  on_code_vote ex_sockV ex_vote ex_sworld = (Ok tt, with_error ex_sworld ex_sockV "Invalid vote type").
Proof.
  apply (code_vote_invalid ex_sworld ex_sockV _ (JStr ex_cs) (JStr "s1") (JStr "sideways"));
    reflexivity.
Defined.

Lemma poll_create_not_owner_witness :
  on_poll_create ex_sockV ex_rnd (ex_poll 60) ex_sworld =
    (Ok tt, with_error ex_sworld ex_sockV "Only stream owner can create polls").
Proof.
  apply (poll_create_not_owner ex_sworld ex_sockV ex_rnd _ ex_sid (JStr "Q?") [JStr "a"; JStr "b"]
           (JNum 60) ex_stream); try reflexivity; discriminate.
Defined.

Lemma poll_create_schedules_end_witness :
  let '(r, w') := on_poll_create ex_sockA ex_rnd (ex_poll 60) ex_sworld in
  ∃ poll tm,
    r = Ok tt ∧
    w'.(w_out) = ex_sworld.(w_out) ++ [mkEmission (ToRoom ("stream:" +:+ ex_sid))
        (room_members ex_sworld.(w_rooms) ("stream:" +:+ ex_sid)) (EvPollCreated poll)] ∧
    w'.(w_timers) = ex_sworld.(w_timers) ++ [tm] ∧
    poll.(poll_id) = number_to_string ex_sworld.(w_now) ∧
    length poll.(poll_options) = 2 ∧ Forall (λ o, o.(opt_votes) = 0%Z) poll.(poll_options) ∧
    poll.(poll_endsAt) = Some (ex_sworld.(w_now) + 60 * 1000)%Z ∧
    tm.(tm_room) = "stream:" +:+ ex_sid ∧ tm.(tm_pollId) = poll.(poll_id) ∧
    (ex_sworld.(w_now) + 1 ≤ tm.(tm_due) ≤ ex_sworld.(w_now) + 2147483647)%Z.
Proof.
  apply (poll_create_schedules_end ex_sworld ex_sockA ex_rnd _ ex_sid (JStr "Q?") [JStr "a"; JStr "b"]
           60 ex_stream); try reflexivity; discriminate.
Defined.

(** A poll of 10^13 seconds ends past the last valid Date: it is announced
  with [endsAt] [null]. *)
Example poll_invalid_end_date :
  ∃ poll, last (on_poll_create ex_sockA ex_rnd (ex_poll 10000000000000) ex_sworld).2.(w_out) =
            Some (mkEmission (ToRoom ("stream:" +:+ ex_sid))
                    (room_members ex_sworld.(w_rooms) ("stream:" +:+ ex_sid)) (EvPollCreated poll)) ∧
          poll.(poll_endsAt) = None.
Proof. eexists. split; [vm_compute; reflexivity|reflexivity]. Qed.

Lemma poll_end_timer_overflow_witness :
  ∃ poll, last (on_poll_create ex_sockA ex_rnd (ex_poll 3000000) ex_sworld).2.(w_out) =
            Some (mkEmission (ToRoom ("stream:" +:+ ex_sid))
                    (room_members ex_sworld.(w_rooms) ("stream:" +:+ ex_sid)) (EvPollCreated poll)) ∧
          poll.(poll_endsAt) = Some 3000001000%Z ∧
          last (on_poll_create ex_sockA ex_rnd (ex_poll 3000000) ex_sworld).2.(w_timers) =
            Some (mkTimer 1001 ("stream:" +:+ ex_sid) poll.(poll_id)).
Proof.
  apply (poll_end_timer_overflow ex_sworld ex_sockA ex_rnd _ ex_sid (JStr "Q?") [JStr "a"; JStr "b"]
           3000000 ex_stream); try reflexivity; discriminate.
Defined.

Lemma stream_join_counts_distinct_witness :
  let '(r, w') := on_stream_join ex_sockV (JStr ex_sid) ex_sworld in
  r = Ok tt ∧
  "sV" ∈ room_members w'.(w_rooms) ex_room ∧
  (s_viewers <$> w'.(w_streams) !! ex_sid) = Some ["u2"] ∧
  last w'.(w_out) = Some (mkEmission (ToRoom ex_room) ({["sV"]} ∪ {["sA"; "sV"]}) (EvViewerCount 1)) ∧
  ("u2" ∈ ex_stream.(s_viewers) → push_unique "u2" ex_stream.(s_viewers) = ex_stream.(s_viewers)).
Proof.
  apply (stream_join_counts_distinct ex_sworld ex_sockV ex_sid ex_stream); reflexivity.
Defined.

Lemma stream_leave_leaves_room_witness :
  let '(r, w') := on_stream_leave ex_sockV (JStr ex_sid) ex_sworld in
  r = Ok tt ∧ "sV" ∉ room_members w'.(w_rooms) ex_room ∧
  (∀ id st, JStr ex_sid = JStr id → ex_sworld.(w_streams) !! id = Some st →
     (s_viewers <$> w'.(w_streams) !! id) = Some (remove_all "u2" st.(s_viewers))).
Proof.
  apply (stream_leave_leaves_room ex_sworld ex_sockV (JStr ex_sid)).
  left. exists ex_sid. split; reflexivity.
Defined.
End SocketExamples.
