(* ===== verification/SocketAuth.v ===== *)
(** * The authentication gate of the sockets ([services/socket.service.js])

    Before [connection], the socket service installs the middleware
    [socketServer.use(async (socket, next) => { ... })]: it reads
    [socket.handshake.auth.token], verifies it with [jwt.verify] under
    [process.env.JWT_SECRET || 'secret'], loads the user of
    [decoded.user.id] with [User.findById(...).select('-password')] and
    attaches it as [socket.user], or calls [next] with one of three errors.
    Only then does [connection] run: the socket joins its personal room
    and its handlers, which read [socket.user], are registered.

    jsonwebtoken is a library the code only calls.  It is the class [Jwt]
    of its two functions, [sign] and [verify].  Its laws [JwtLaws] state
    what the code relies on: a token signed with a secret verifies under
    the same secret until it expires and gives back the signed user id,
    and a token that verifies was signed with that secret.  The token of
    [controllers/auth.controller.js] is [issue_token], [jwt.sign] of
    [{ user: { id } }] with [expiresIn: '7d'].  With it, the
    [AuthController] theorems and the socket handlers are connected: a
    token from [login] opens a socket as the same user. *)

From S2P Require Import Prelude JsValue Mongoose Transport UserModel Express Db Handler SocketService AuthController.
From Stdlib Require Import Ascii.
Local Open Scope cm_scope.

(** [process.env.JWT_SECRET || 'secret']: an unset or empty variable gives
    the literal ['secret']. *)
Definition jwt_secret (env : option string) : string :=
  match env with Some s => if String.eqb s "" then "secret" else s | None => "secret" end.

(** [const payload = { user: { id: user.id } }] *)
Definition auth_payload (id : Id) : JsVal := JObj [("user", JObj [("id", JStr id)])].

(** [{ expiresIn: '7d' }], in milliseconds. *)
Definition token_ttl : Z := 7 * 24 * 3600 * 1000.

(** [decoded.user.id], a [TypeError] ([None]) when [decoded.user] is
    [undefined] or [null]. *)
Definition payload_user_id (d : JsVal) : option JsVal := js_get d "user" ≫= λ u, js_get u "id".

(** jsonwebtoken: [jwt.sign(payload, secret, { expiresIn: ttl })] at time
    [now], and [jwt.verify(token, secret)] at time [now], [None] when it
    throws (a token that is not a string, a bad signature, an expired
    token). *)
Class Jwt := {
  jwt_sign : JsVal → string → Z → Z → string;
  jwt_verify : JsVal → string → Z → option JsVal
}.

(** A token is [header.payload.signature], never empty; [exp] is [iat +
    ttl] in whole seconds, [iat] the signing time rounded
    down, so a token is still valid one second before [t0 + ttl]. *)
Class JwtLaws `{Jwt} := {
  jwt_sign_nonempty p k ttl t0 : jwt_sign p k ttl t0 ≠ "";
  jwt_verify_sign id k ttl t0 t :
    (t0 ≤ t)%Z → (t + 1000 ≤ t0 + ttl)%Z →
    ∃ d, jwt_verify (JStr (jwt_sign (auth_payload id) k ttl t0)) k t = Some d ∧
         payload_user_id d = Some (JStr id);
  jwt_verify_sound tok k t d :
    jwt_verify tok k t = Some d →
    ∃ p ttl t0, tok = JStr (jwt_sign p k ttl t0) ∧ payload_user_id d = payload_user_id p
}.

(** What the middleware passes to [next]: nothing, with [socket.user]
    set, or an [Error] whose message the client gets in [connect_error]. *)
Inductive AuthResult :=
  | AuthOk (u : User)
  | AuthErr (msg : string).

Section gate.
Context `{Jwt} (env : option string).

(** The token of [register] and [login]: [jwt.sign(payload,
    process.env.JWT_SECRET || 'secret', { expiresIn: '7d' }, ...)]. *)
Definition issue_token (now : Z) (id : Id) : string :=
  jwt_sign (auth_payload id) (jwt_secret env) token_ttl now.

(** [jwt.verify(token, secret)] inside the [try]. *)
Definition verify_token (token : JsVal) : CM Db JsVal :=
  now <- cgets db_now ;;
  match jwt_verify token (jwt_secret env) now with
  | Some d => cret d
  | None => fail (EError "JsonWebTokenError")
  end.

(** [socketServer.use(async (socket, next) => { ... })], with [auth] the
    value of [socket.handshake.auth].  Every error, a [TypeError] or a
    [CastError] included, is turned into ['Authentication error: Invalid
    token'] by the [catch]. *)
Definition authenticate (auth : JsVal) : CM Db AuthResult :=
  catch_err
    (token <- clift (js_get auth "token") ;;
     if negb (truthy token) then cret (AuthErr "Authentication error: Token not provided") else
     decoded <- verify_token token ;;
     uid <- clift (payload_user_id decoded) ;;
     found <- find_by_id Users uid ;;
     match found with
     | None => cret (AuthErr "Authentication error: User not found")
     | Some (id, u) => cret (AuthOk (mkUser id u.(u_username)))
     end)
    (λ _, cret (AuthErr "Authentication error: Invalid token")).

(** The connection of socket [sid]: refused sockets never reach
    [connection]; an accepted one joins the room named by its own id (as
    Socket.IO does before the [connection] event), then runs
    [on_connection_socket] with the user the middleware attached, and its
    handlers get that socket. *)
Definition connect {R} (db : Db) (sid : Id) (auth : JsVal) : M R (option Socket) :=
  match (authenticate auth db).1 with
  | OVal (AuthOk u) =>
      bind (join sid sid) (λ _,
      bind (on_connection_socket (mkSocket sid u)) (λ _, ret (Some (mkSocket sid u))))
  | _ => ret None
  end.
End gate.

(** ** Lemmas *)

Section gate_lemmas.
Context `{Jwt} (env : option string).

Lemma payload_user_id_auth id : payload_user_id (auth_payload id) = Some (JStr id).
Proof. reflexivity. Qed.

Lemma verify_token_run token db :
  verify_token env token db =
    (match jwt_verify token (jwt_secret env) db.(db_now) with
     | Some d => OVal d | None => OErr (EError "JsonWebTokenError") end, db).
Proof. unfold verify_token. unfold_cm. by destruct (jwt_verify _ _ _). Qed.

(** The middleware as the cases of its code: it always calls [next], and
    never writes. *)
Lemma authenticate_eq auth db :
  authenticate env auth db =
    (OVal (match js_get auth "token" with
           | None => AuthErr "Authentication error: Invalid token"
           | Some token =>
               if negb (truthy token) then AuthErr "Authentication error: Token not provided" else
               match jwt_verify token (jwt_secret env) db.(db_now) ≫= payload_user_id with
               | Some (JUndef | JNull) => AuthErr "Authentication error: User not found"
               | Some (JStr s) =>
                   if object_id_castable s then
                     match db.(db_users) !! s with
                     | Some doc => AuthOk (mkUser s doc.(u_username))
                     | None => AuthErr "Authentication error: User not found"
                     end
                   else AuthErr "Authentication error: Invalid token"
               | _ => AuthErr "Authentication error: Invalid token"
               end
           end), db).
Proof.
  unfold authenticate, verify_token. unfold_cm. simpl.
  destruct (js_get auth "token") as [token|]; simpl; [|done].
  destruct (truthy token); simpl; [|done].
  destruct (jwt_verify _ _ _) as [d|]; simpl; [|done].
  destruct (payload_user_id d) as [v|]; simpl; [|done].
  destruct v; simpl; try done. destruct (object_id_castable s); simpl; [|done].
  by destruct (db_users db !! s).
Qed.

Lemma authenticate_run auth db : ∃ r, authenticate env auth db = (OVal r, db).
Proof. rewrite authenticate_eq. by eexists. Qed.

(** What an accepted socket went through: a truthy token that verifies
    under the server's secret and names a stored user by a castable id. *)
Lemma authenticate_ok_inv auth db u :
  (authenticate env auth db).1 = OVal (AuthOk u) →
  ∃ token d doc, js_get auth "token" = Some token ∧ truthy token = true ∧
    jwt_verify token (jwt_secret env) db.(db_now) = Some d ∧
    payload_user_id d = Some (JStr u.(user_id)) ∧ object_id_castable u.(user_id) = true ∧
    db.(db_users) !! u.(user_id) = Some doc ∧ u.(username) = doc.(u_username).
Proof.
  rewrite authenticate_eq. simpl.
  destruct (js_get auth "token") as [token|]; [|done].
  destruct (truthy token) eqn:Ht; [|done].
  destruct (jwt_verify _ _ _) as [d|] eqn:Hv; [|done]. simpl.
  destruct (payload_user_id d) as [[]|] eqn:Hp; try done.
  destruct (object_id_castable s) eqn:Hc; [|done].
  destruct (db_users db !! s) as [doc|] eqn:Hd; [|done].
  intros [= <-]. by exists token, d, doc.
Qed.

Lemma connect_accepted {R} db sid auth u (w : World R) :
  (authenticate env auth db).1 = OVal (AuthOk u) →
  connect env db sid auth w =
    (Ok (Some (mkSocket sid u)),
     set_rooms w (join_room sid (user_room u.(user_id)) (join_room sid sid w.(w_rooms)))).
Proof. intros Hu. unfold connect. by rewrite Hu. Qed.

(** [login] answers 200 only with the token and the user of a stored
    account, and writes nothing. *)
Lemma login_ok compare sign req db body db' :
  login compare sign [] req db = (OResp (mkResponse 200 body), db') →
  db' = db ∧ ∃ id u, db.(db_users) !! id = Some u ∧ body = auth_body (sign id) id u.
Proof.
  unfold login. rewrite bool_decide_false by naive_solver. unfold_cm. simpl.
  destruct (js_get (rq_body req) "email") as [email|]; simpl; [|by intros [=]].
  destruct (js_get (rq_body req) "password") as [pw|]; simpl; [|by intros [=]].
  destruct (query_cast_str email_key email) as [qe|]; simpl; [|by intros [=]].
  destruct (filter _ _) as [|[id u] rest] eqn:Hf; simpl; [by intros [=]|].
  pose proof (list_elem_of_here (id, u) rest) as Hin. rewrite <- Hf in Hin.
  apply list_elem_of_filter, proj2, elem_of_map_to_list in Hin.
  destruct pw as [| | | | |p| |]; simpl; try by intros [=].
  destruct (compare p (u_password u)); simpl; intros [= <- <-]; eauto.
Qed.

Lemma auth_body_inj tok id u tok' id' u' :
  auth_body tok id u = auth_body tok' id' u' → tok = tok' ∧ id = id' ∧ u.(u_username) = u'.(u_username).
Proof. intros H1. by injection H1. Qed.
End gate_lemmas.

Section gate_properties.
Context `{JwtLaws} (env : option string).

(** A token signed with the server's secret, not yet expired, for a
    stored user with a castable id, is accepted as that user.  With
    [JWT_SECRET] unset this holds of a token anyone signs with the
    literal ['secret']. *)
Lemma signed_token_accepted db id doc t0 :
  db.(db_users) !! id = Some doc → object_id_castable id = true →
  (t0 ≤ db.(db_now))%Z → (db.(db_now) + 1000 ≤ t0 + token_ttl)%Z →
  authenticate env (JObj [("token", JStr (issue_token env t0 id))]) db =
    (OVal (AuthOk (mkUser id doc.(u_username))), db).
Proof.
  intros Hd Hc H1 H2. rewrite authenticate_eq. simpl.
  destruct (jwt_verify_sign id (jwt_secret env) token_ttl t0 _ H1 H2) as (d & Hv & Hp).
  unfold issue_token. rewrite Hv. simpl. rewrite Hp, Hc, Hd.
  destruct (jwt_sign _ _ _ _) eqn:E; [by destruct (jwt_sign_nonempty _ _ _ _ E)|done].
Qed.

(** C12: Only a token signed with the server's secret opens a socket:
    when the middleware accepts a socket as [u], nothing was written, the
    handshake token is [jwt.sign] under [process.env.JWT_SECRET ||
    'secret'] of a payload whose [user.id] is [u]'s id, and [u] is a
    stored user with its username. *)
Theorem authenticate_sound auth db u :
  (authenticate env auth db).1 = OVal (AuthOk u) →
  (authenticate env auth db).2 = db ∧
  ∃ p ttl t0 doc, js_get auth "token" = Some (JStr (jwt_sign p (jwt_secret env) ttl t0)) ∧
    payload_user_id p = Some (JStr u.(user_id)) ∧
    db.(db_users) !! u.(user_id) = Some doc ∧ u.(username) = doc.(u_username).
Proof.
  intros Hu. destruct (authenticate_run env auth db) as [r Hr]. rewrite Hr. split; [done|].
  destruct (authenticate_ok_inv env auth db u Hu) as (token & d & doc & Ht & _ & Hv & Hp & _ & Hd & Hn).
  destruct (jwt_verify_sound _ _ _ _ Hv) as (p & ttl & t0 & -> & Hpd).
  exists p, ttl, t0, doc. by rewrite <- Hpd.
Qed.

(** C14: The middleware refuses with the message of the branch that
    refused: a missing or falsy token gives ['Token not provided']; a
    token that verifies but names a castable id no user has gives ['User
    not found']; a token that does not verify (another secret, expired,
    not a string), and an [auth] that is [undefined] or [null], give
    ['Invalid token'].  It writes nothing in any case. *)
Theorem authenticate_refusals auth db :
  (∀ token, js_get auth "token" = Some token → truthy token = false →
     authenticate env auth db = (OVal (AuthErr "Authentication error: Token not provided"), db)) ∧
  (∀ token d s, js_get auth "token" = Some token → truthy token = true →
     jwt_verify token (jwt_secret env) db.(db_now) = Some d → payload_user_id d = Some (JStr s) →
     object_id_castable s = true → db.(db_users) !! s = None →
     authenticate env auth db = (OVal (AuthErr "Authentication error: User not found"), db)) ∧
  (∀ token, js_get auth "token" = Some token → truthy token = true →
     jwt_verify token (jwt_secret env) db.(db_now) = None →
     authenticate env auth db = (OVal (AuthErr "Authentication error: Invalid token"), db)) ∧
  (js_get auth "token" = None →
     authenticate env auth db = (OVal (AuthErr "Authentication error: Invalid token"), db)).
Proof.
  rewrite authenticate_eq. split_and!.
  - intros token -> ->. done.
  - intros token d s -> -> Hv Hp Hc Hd. simpl. by rewrite Hv; simpl; rewrite Hp, Hc, Hd.
  - intros token -> -> Hv. by rewrite Hv.
  - by intros ->.
Qed.

(** C13: A token from [login] opens a socket as the user who logged in:
    when [login], signing with [issue_token] at the time of the login,
    answers 200, its body is [auth_body tok id u] for a stored user, and
    on any later database where that user is still stored, before the
    token expires (7 days), the middleware accepts the handshake
    [{ token: tok }] as [id] with [u]'s username, writing nothing, and the
    connection puts the socket in its own room and in the room
    [user:<id>]. *)
Theorem login_token_connects {R} compare req db db' body sid (w : World R) :
  login compare (issue_token env db.(db_now)) [] req db = (OResp (mkResponse 200 body), db') →
  ∃ tok id u, body = auth_body tok id u ∧ db.(db_users) !! id = Some u ∧
    ∀ db2, db2.(db_users) !! id = Some u → object_id_castable id = true →
      (db.(db_now) ≤ db2.(db_now))%Z → (db2.(db_now) + 1000 ≤ db.(db_now) + token_ttl)%Z →
      authenticate env (JObj [("token", JStr tok)]) db2 = (OVal (AuthOk (mkUser id u.(u_username))), db2) ∧
      connect env db2 sid (JObj [("token", JStr tok)]) w =
        (Ok (Some (mkSocket sid (mkUser id u.(u_username)))),
         set_rooms w (join_room sid (user_room id) (join_room sid sid w.(w_rooms)))).
Proof.
  intros Hl. destruct (login_ok _ _ _ _ _ _ Hl) as (_ & id & u & Hu & ->).
  exists (issue_token env db.(db_now) id), id, u. split_and!; [done|done|].
  intros db2 Hu2 Hc H1 H2. pose proof (signed_token_accepted db2 id u _ Hu2 Hc H1 H2) as Ha.
  split; [done|]. apply connect_accepted. by rewrite Ha.
Qed.
End gate_properties.

Module SocketAuthExamples.
(** A stand-in for jsonwebtoken that satisfies its laws: the token of a
    payload is ["t"] followed by its user id, and any token of that form
    verifies. *)
Definition ex_sign (p : JsVal) (k : string) (ttl t0 : Z) : string :=
  String "t"%char (match payload_user_id p with Some (JStr id) => id | _ => EmptyString end).
Definition ex_verify (tok : JsVal) (k : string) (t : Z) : option JsVal :=
  match tok with
  | JStr (String c id) => if Ascii.eqb c "t"%char then Some (auth_payload id) else None
  | _ => None
  end.
#[local] Instance ex_jwt : Jwt := {| jwt_sign := ex_sign; jwt_verify := ex_verify |}.

#[local] Instance ex_jwt_laws : JwtLaws.
Proof.
  split.
  - intros. discriminate.
  - intros id k ttl t0 t _ _. by exists (auth_payload id).
  - intros [| | | | |[|c id]| |] k t d; try discriminate. simpl.
    destruct (Ascii.eqb c "t"%char) eqn:E; [|discriminate].
    apply Ascii.eqb_eq in E as ->. intros [= <-]. by exists (auth_payload id), 0%Z, 0%Z.
Qed.

Definition ex_id : Id := "5f00000000000000000000a1".
Definition ex_user : UserDoc := mkUserDoc "bob" "bob@example.com" "pw1" "Bob" (Some "") None [] 0 [] [] [] true 1000.
Definition ex_db : Db := set_users (empty_db 1000) {[ex_id := ex_user]}.
Definition ex_world : World unit := mkWorld ∅ ∅ ∅ tt [] [] 1000.
Definition ex_login : Request :=
  mkRequest [] (JObj []) (JObj [("email", JStr "bob@example.com"); ("password", JStr "pw1")]) (mkUser "" "").
Definition ex_token : string := issue_token None 1000 ex_id.

(** The three refusals, on the example database. *)
Example refusal_messages :
  (authenticate None (JObj []) ex_db).1 = OVal (AuthErr "Authentication error: Token not provided") ∧
  (authenticate None JUndef ex_db).1 = OVal (AuthErr "Authentication error: Invalid token") ∧
  (authenticate None (JObj [("token", JStr "t5f00000000000000000000b2")]) ex_db).1 =
    OVal (AuthErr "Authentication error: User not found") ∧
  (authenticate None (JObj [("token", JStr "x")]) ex_db).1 = OVal (AuthErr "Authentication error: Invalid token").
Proof. vm_compute. auto. Qed.

Lemma authenticate_sound_witness :
  (authenticate None (JObj [("token", JStr ex_token)]) ex_db).2 = ex_db ∧
  ∃ p ttl t0 doc, js_get (JObj [("token", JStr ex_token)]) "token" = Some (JStr (jwt_sign p (jwt_secret None) ttl t0)) ∧
    payload_user_id p = Some (JStr ex_id) ∧ ex_db.(db_users) !! ex_id = Some doc ∧ "bob" = doc.(u_username).
Proof. apply (authenticate_sound None _ _ (mkUser ex_id "bob")). vm_compute. reflexivity. Defined.

Lemma login_token_connects_witness :
  ∃ tok id u, auth_body ex_token ex_id ex_user = auth_body tok id u ∧ ex_db.(db_users) !! id = Some u ∧
    ∀ db2, db2.(db_users) !! id = Some u → object_id_castable id = true →
      (ex_db.(db_now) ≤ db2.(db_now))%Z → (db2.(db_now) + 1000 ≤ ex_db.(db_now) + token_ttl)%Z →
      authenticate None (JObj [("token", JStr tok)]) db2 = (OVal (AuthOk (mkUser id u.(u_username))), db2) ∧
      connect None db2 "sock1" (JObj [("token", JStr tok)]) ex_world =
        (Ok (Some (mkSocket "sock1" (mkUser id u.(u_username)))),
         set_rooms ex_world (join_room "sock1" (user_room id) (join_room "sock1" "sock1" ex_world.(w_rooms)))).
Proof. apply (login_token_connects None String.eqb ex_login ex_db ex_db). vm_compute. reflexivity. Defined.
End SocketAuthExamples.
