(* ===== verification/ClientAuth.v ===== *)
(** * The session of the frontend ([frontend/src/context/AuthContext.js])

    [AuthProvider] keeps four pieces of React state ([user],
    [isAuthenticated], [loading], [token]) and mirrors the session in the
    browser's [localStorage] under the keys ['token'] and ['user'], the
    latter as [JSON.stringify(user)].  When the page loads, an effect reads
    both keys back and [JSON.parse]s the user; [login], [register],
    [logout], [getCurrentUser] and [updateProfile] call the API with
    [fetch] and update the state and the storage with its answer.
    [ProtectedRoute] ([components/auth/ProtectedRoute.js]) renders a page
    only for an authenticated session.

    The state and the storage are the record [AuthState].  Each function
    is split at its [await]: [call_start] is what happens when it is
    called ([setLoading(true)]), [call_finish] what happens when its
    [fetch] settles, with the outcome of the [fetch] an input
    ([FetchResult]: a rejection, or a response with [response.ok] and the
    text of its body, which [response.json()] parses with [JSON.parse]).
    Calls may overlap, so the events [Event] come in any order, and
    [reachable] is the set of states they reach from a page load.  React
    applies the queued state updates of one handler together; the model
    applies them at once.  The messages of the [TypeError] and the
    [SyntaxError] the runtime raises are parameters. *)

From S2P Require Import Prelude JsValue Json Mongoose Transport UserModel Express Db AuthController.
From S2P Require Import UserController SocketAuth.

(** ** State *)

Record AuthState := mkAuthState {
  st_user : JsVal;
  st_isAuthenticated : bool;
  st_loading : bool;
  st_token : JsVal;
  st_storage : gmap string string
}.

Definition set_loading (b : bool) (st : AuthState) : AuthState :=
  mkAuthState st.(st_user) st.(st_isAuthenticated) b st.(st_token) st.(st_storage).

(** [useState(null)], [useState(false)], [useState(true)], [useState(null)],
    over what [localStorage] holds from earlier visits. *)
Definition initial_state (storage : gmap string string) : AuthState :=
  mkAuthState JNull false true JNull storage.

(** [localStorage.setItem(k, v)] stores [String(v)]. *)
Definition set_item (k : string) (v : JsVal) (m : gmap string string) : gmap string string :=
  <[k := js_to_string v]> m.

(** [JSON.stringify(v)] as a value: a string, or [undefined]. *)
Definition stringify_value (v : JsVal) : JsVal :=
  match json_stringify v with Some s => JStr s | None => JUndef end.

(** The effect run on mount: [None] when [JSON.parse(storedUser)] throws,
    which aborts the effect. *)
Definition mount (st : AuthState) : option AuthState :=
  match st.(st_storage) !! "token", st.(st_storage) !! "user" with
  | Some t, Some u =>
      if truthy (JStr t) && truthy (JStr u) then
        match json_parse u with
        | Some user => Some (mkAuthState user true false (JStr t) st.(st_storage))
        | None => None
        end
      else Some (set_loading false st)
  | _, _ => Some (set_loading false st)
  end.

(** ** Requests and their outcome *)

(** What [fetch] settles with: a rejection with its message, or a
    response with [response.ok] and the text of its body. *)
Inductive FetchResult :=
  | FetchRejected (msg : string)
  | FetchResponse (ok : bool) (body : string).

(** A request: method, path, the [x-auth-token] header ([String(token)])
    and the JSON text of the body. *)
Record ClientRequest := mkClientRequest {
  cr_method : string;
  cr_path : string;
  cr_token : option string;
  cr_body : option string
}.

(** The five functions of the context, with their arguments. *)
Inductive Call :=
  | CLogin (email password : JsVal)
  | CRegister (userData : JsVal)
  | CLogout
  | CGetCurrentUser
  | CUpdateProfile (profileData : JsVal).

Definition ok_result : JsVal := JObj [("success", JBool true)].
Definition fail_result (msg : string) : JsVal := JObj [("success", JBool false); ("error", JStr msg)].

(** [new Error(data.message || dflt)].message *)
Definition error_text (m : JsVal) (dflt : string) : string := if truthy m then js_to_string m else dflt.

(** [JSON.stringify(v)] of a request body, [undefined] left out. *)
Definition body_text (v : JsVal) : option string := json_stringify v.

Section calls.
Variables (type_error syntax_error : string).

(** [const data = await response.json(); if (!response.ok) throw new
    Error(data.message || dflt)]: the data of an ok response, or the
    message of what was thrown. *)
Definition response_data (r : FetchResult) (dflt : string) : string + JsVal :=
  match r with
  | FetchRejected msg => inl msg
  | FetchResponse ok body =>
      match json_parse body with
      | None => inl syntax_error
      | Some data =>
          if ok then inr data
          else match js_get data "message" with
               | Some m => inl (error_text m dflt)
               | None => inl type_error
               end
      end
  end.

(** The end of [login] and [register]: store [data.token] and
    [JSON.stringify(data.user)], then set the state; [finally]
    [setLoading(false)]. *)
Definition finish_session (dflt : string) (r : FetchResult) (st : AuthState) : AuthState * JsVal :=
  match response_data r dflt with
  | inl msg => (set_loading false st, fail_result msg)
  | inr data =>
      match js_get data "token", js_get data "user" with
      | Some tok, Some usr =>
          (mkAuthState usr true false tok
             (set_item "user" (stringify_value usr) (set_item "token" tok st.(st_storage))), ok_result)
      | _, _ => (set_loading false st, fail_result type_error)
      end
  end.

(** The end of [getCurrentUser] and [updateProfile]: [setUser(data)] and
    [localStorage.setItem('user', JSON.stringify(data))]. *)
Definition finish_user (dflt : string) (r : FetchResult) (st : AuthState) : AuthState * JsVal :=
  match response_data r dflt with
  | inl msg => (set_loading false st, fail_result msg)
  | inr data =>
      (mkAuthState data st.(st_isAuthenticated) false st.(st_token)
         (set_item "user" (stringify_value data) st.(st_storage)),
       JObj [("success", JBool true); ("user", data)])
  end.

(** The [finally] of [logout], whatever the [fetch] did; [loading] is not
    touched. *)
Definition finish_logout (st : AuthState) : AuthState :=
  mkAuthState JNull false st.(st_loading) JNull (delete "user" (delete "token" st.(st_storage))).

(** [login], [register], [logout], [getCurrentUser], [updateProfile] up
    to their [await fetch(...)]. *)
Definition call_start (c : Call) (st : AuthState) : AuthState :=
  match c with CLogout => st | _ => set_loading true st end.

(** The request each function sends, with the token of the state it was
    called in. *)
Definition call_request (c : Call) (st : AuthState) : ClientRequest :=
  let tok := Some (js_to_string st.(st_token)) in
  match c with
  | CLogin email password =>
      mkClientRequest "POST" "/api/auth/login" None (body_text (JObj [("email", email); ("password", password)]))
  | CRegister userData => mkClientRequest "POST" "/api/auth/register" None (body_text userData)
  | CLogout => mkClientRequest "POST" "/api/auth/logout" tok None
  | CGetCurrentUser => mkClientRequest "GET" "/api/auth/me" tok None
  | CUpdateProfile profileData => mkClientRequest "PUT" "/api/users/profile" tok (body_text profileData)
  end.

(** The rest of each function once its [fetch] settled, and what it
    returns. *)
Definition call_finish (c : Call) (r : FetchResult) (st : AuthState) : AuthState * JsVal :=
  match c with
  | CLogin _ _ => finish_session "Login failed" r st
  | CRegister _ => finish_session "Registration failed" r st
  | CLogout => (finish_logout st, JUndef)
  | CGetCurrentUser => finish_user "Failed to get user data" r st
  | CUpdateProfile _ => finish_user "Failed to update profile" r st
  end.

(** The events of a session: a call, the settling of a call's [fetch]. *)
Inductive Event :=
  | ECall (c : Call)
  | ESettle (c : Call) (r : FetchResult).

Definition step (st : AuthState) (e : Event) : AuthState :=
  match e with
  | ECall c => call_start c st
  | ESettle c r => (call_finish c r st).1
  end.

(** The states a page load and any sequence of events reach, the answers
    of the API satisfying [wf]. *)
Inductive reachable (wf : Call → FetchResult → Prop) : AuthState → Prop :=
  | reach_mount storage st : mount (initial_state storage) = Some st → reachable wf st
  | reach_call st c : reachable wf st → reachable wf (call_start c st)
  | reach_settle st c r : reachable wf st → wf c r → reachable wf (call_finish c r st).1.
End calls.

(** ** [ProtectedRoute] *)

Inductive RouteView :=
  | Spinner
  | RedirectLogin
  | Children.

Definition protected_route (st : AuthState) : RouteView :=
  if st.(st_loading) then Spinner
  else if negb st.(st_isAuthenticated) then RedirectLogin
  else Children.

(** ** The session invariant *)

(** An authenticated session is in the storage: the token as a non-empty
    string, and the user as a non-empty JSON text that parses back to it. *)
Definition session_stored (st : AuthState) : Prop :=
  st.(st_isAuthenticated) = true →
  ∃ t u, st.(st_token) = JStr t ∧ t ≠ "" ∧ st.(st_storage) !! "token" = Some t ∧
         st.(st_storage) !! "user" = Some u ∧ u ≠ "" ∧ json_parse u = Some st.(st_user).

(** The answers of a server that behaves: an ok answer to [login] or
    [register] has a non-empty string token and a JSON user; an ok answer
    to [getCurrentUser] or [updateProfile] is a JSON value. *)
Definition wf_response (c : Call) (r : FetchResult) : Prop :=
  ∀ body data, r = FetchResponse true body → json_parse body = Some data →
  match c with
  | CLogin _ _ | CRegister _ =>
      ∃ t usr, js_get data "token" = Some (JStr t) ∧ t ≠ "" ∧ js_get data "user" = Some usr ∧ json_ok usr = true
  | CGetCurrentUser | CUpdateProfile _ => json_ok data = true
  | CLogout => True
  end.

(** ** Lemmas *)

Lemma json_text_nonempty v : json_ok v = true → json_text v ≠ "".
Proof.
  intros Hv. destruct (json_text_start v "" Hv) as (c & r & Hcr & _).
  rewrite string_app_nil_r in Hcr. by rewrite Hcr.
Qed.

Lemma stringify_value_ok v : json_ok v = true → js_to_string (stringify_value v) = json_text v.
Proof. intros Hv. unfold stringify_value. by rewrite json_stringify_ok. Qed.

Lemma truthy_str t : truthy (JStr t) = negb (String.eqb t "").
Proof. reflexivity. Qed.

Section calls_lemmas.
Variables (type_error syntax_error : string).

(** Only an ok response whose body parses gives data. *)
Lemma response_data_inr r dflt data :
  response_data type_error syntax_error r dflt = inr data → ∃ body, r = FetchResponse true body ∧ json_parse body = Some data.
Proof.
  unfold response_data. intros H. destruct r as [msg|ok body]; [done|].
  destruct (json_parse body) as [d|] eqn:Hp; [|done].
  destruct ok; [injection H as <-; by eexists|]. by destruct (js_get d "message").
Qed.

Lemma session_stored_loading b st : session_stored (set_loading b st) ↔ session_stored st.
Proof. done. Qed.

Lemma mount_stored storage st : mount (initial_state storage) = Some st → session_stored st.
Proof.
  unfold mount. simpl. destruct (storage !! "token") as [t|] eqn:Ht, (storage !! "user") as [u|] eqn:Hu;
    try by intros [= <-].
  rewrite ?truthy_str. destruct (String.eqb_spec t ""), (String.eqb_spec u ""); simpl; try by intros [= <-].
  destruct (json_parse u) as [user|] eqn:Hp; [|done]. intros [= <-] _. by exists t, u.
Qed.

(** The state [login] and [register] leave after an ok answer. *)
Lemma session_after_login t usr m :
  t ≠ "" → json_ok usr = true →
  session_stored (mkAuthState usr true false (JStr t) (set_item "user" (stringify_value usr) (set_item "token" (JStr t) m))).
Proof.
  intros Hne Hok _. exists t, (json_text usr). simpl. unfold set_item.
  rewrite lookup_insert_ne, !lookup_insert by done. rewrite stringify_value_ok by done.
  split_and!; try done; [by apply json_text_nonempty|by apply json_parse_text].
Qed.

Lemma finish_session_stored dflt r st :
  session_stored st →
  (∀ body data, r = FetchResponse true body → json_parse body = Some data →
     ∃ t usr, js_get data "token" = Some (JStr t) ∧ t ≠ "" ∧ js_get data "user" = Some usr ∧ json_ok usr = true) →
  session_stored (finish_session type_error syntax_error dflt r st).1.
Proof.
  intros Hst Hwf. unfold finish_session.
  destruct (response_data _ _ r dflt) as [msg|data] eqn:Hr; [done|].
  destruct (response_data_inr _ _ _ Hr) as (body & -> & Hp).
  destruct (Hwf body data eq_refl Hp) as (t & usr & Ht & Hne & Hu & Hok).
  rewrite Ht, Hu. by apply session_after_login.
Qed.

Lemma finish_user_stored dflt r st :
  session_stored st →
  (∀ body data, r = FetchResponse true body → json_parse body = Some data → json_ok data = true) →
  session_stored (finish_user type_error syntax_error dflt r st).1.
Proof.
  intros Hst Hwf. unfold finish_user.
  destruct (response_data _ _ r dflt) as [msg|data] eqn:Hr; [done|].
  destruct (response_data_inr _ _ _ Hr) as (body & -> & Hp). pose proof (Hwf body data eq_refl Hp) as Hok.
  intros Ha. destruct (Hst Ha) as (t & u & Ht & Hne & Htok & _). exists t, (json_text data). simpl. unfold set_item.
  rewrite lookup_insert_ne, lookup_insert by done. rewrite stringify_value_ok by done.
  split_and!; try done; [by apply json_text_nonempty|by apply json_parse_text].
Qed.

(** Every event keeps an authenticated session stored. *)
Lemma reachable_stored st : reachable type_error syntax_error wf_response st → session_stored st.
Proof.
  induction 1 as [storage st Hm|st c _ IH|st c r _ IH Hwf].
  - by eapply mount_stored.
  - destruct c; [apply session_stored_loading..|done|apply session_stored_loading|apply session_stored_loading]; done.
  - destruct c; simpl.
    + apply finish_session_stored; [done|]. intros. by eapply (Hwf body data).
    + apply finish_session_stored; [done|]. intros. by eapply (Hwf body data).
    + done.
    + apply finish_user_stored; [done|]. intros. by eapply (Hwf body data).
    + apply finish_user_stored; [done|]. intros. by eapply (Hwf body data).
Qed.

(** A stored session is what a reload reads back. *)
Lemma mount_stored_session st :
  session_stored st → st.(st_isAuthenticated) = true →
  mount (initial_state st.(st_storage)) = Some (set_loading false st).
Proof.
  intros Hst Ha. destruct (Hst Ha) as (t & u & Ht & Hne & Htok & Hu & Hune & Hp).
  unfold mount. simpl. rewrite Htok, Hu, ?truthy_str.
  rewrite (proj2 (String.eqb_neq t "") Hne), (proj2 (String.eqb_neq u "") Hune). simpl. rewrite Hp.
  destruct st; simpl in *. by subst.
Qed.
End calls_lemmas.

Lemma json_ok_strs l : forallb json_ok (list_fmap string JsVal JStr l) = true.
Proof. induction l as [|x l IH]; [done|]. exact IH. Qed.

Lemma json_ok_opt o : json_ok (opt_json o) = true.
Proof. by destruct o. Qed.

(** What [login] and [register] answer, and what [updateProfile]
    answers, are JSON values. *)
Lemma auth_body_ok tok id u : json_ok (auth_body tok id u) = true.
Proof. unfold auth_body. simpl. rewrite json_ok_strs, !json_ok_opt. reflexivity. Qed.

Lemma user_json_ok b id u : json_ok (user_json b id u) = true.
Proof.
  unfold user_json, ids_json. destruct b; simpl; rewrite !json_ok_strs, !json_ok_opt; reflexivity.
Qed.

Lemma js_get_auth_body tok id u :
  js_get (auth_body tok id u) "token" = Some (JStr tok) ∧
  ∃ usr, js_get (auth_body tok id u) "user" = Some usr ∧ json_ok usr = true.
Proof.
  split; [reflexivity|]. eexists. split; [reflexivity|]. simpl. rewrite json_ok_strs, !json_ok_opt. reflexivity.
Qed.

(** The answer of an ok response whose body is the text of a JSON
    value. *)
Lemma response_data_text type_error syntax_error v dflt :
  json_ok v = true → response_data type_error syntax_error (FetchResponse true (json_text v)) dflt = inr v.
Proof. intros Hv. unfold response_data. by rewrite json_parse_text. Qed.

(** A [login] answer made by [auth_body] is one the client accepts. *)
Lemma wf_auth_body email password tok id u :
  tok ≠ "" → wf_response (CLogin email password) (FetchResponse true (json_text (auth_body tok id u))).
Proof.
  intros Htok body data Hr. assert (json_text (auth_body tok id u) = body) as <- by congruence.
  rewrite json_parse_text by apply auth_body_ok. intros [= <-].
  destruct (js_get_auth_body tok id u) as [Ht (usr & Hu & Hok)]. by exists tok, usr.
Qed.

(** ** Properties *)

Section client_properties.
Variables (type_error syntax_error : string).

(** C15: A signed-in session survives a reload: in every state a page load
    and any calls and answers of a well-behaved API reach, in any order,
    an authenticated session is what the mount effect reads back from
    [localStorage] (the same user, token and authentication, [loading]
    cleared). *)
Theorem session_survives_reload st :
  reachable type_error syntax_error wf_response st → st.(st_isAuthenticated) = true →
  mount (initial_state st.(st_storage)) = Some (set_loading false st).
Proof.
  intros Hr Ha. apply mount_stored_session; [|done]. by apply (reachable_stored type_error syntax_error).
Qed.

(** C16: Signing in end to end: when the backend's [login] answers 200,
    the client that receives the JSON text of that answer holds the
    token the backend signed for the account and the account's user
    object, is authenticated, and a reload restores exactly that
    session. *)
Theorem login_end_to_end compare sign req db db' body email password st :
  login compare sign [] req db = (OResp (mkResponse 200 body), db') →
  (∀ id, sign id ≠ "") →
  ∃ id u, db.(db_users) !! id = Some u ∧
    let st' := (call_finish type_error syntax_error (CLogin email password) (FetchResponse true (json_text body)) st).1 in
    st'.(st_token) = JStr (sign id) ∧ js_get body "user" = Some st'.(st_user) ∧
    st'.(st_isAuthenticated) = true ∧ mount (initial_state st'.(st_storage)) = Some (set_loading false st').
Proof.
  intros Hl Hsign. destruct (login_ok _ _ _ _ _ _ Hl) as (_ & id & u & Hu & ->).
  exists id, u. split; [done|]. cbv zeta. unfold call_finish, finish_session.
  rewrite response_data_text by apply auth_body_ok.
  destruct (js_get_auth_body (sign id) id u) as [Ht (usr & Husr & Hok)]. rewrite Ht, Husr.
  split_and!; try done. apply mount_stored_session; [|done]. by apply session_after_login.
Qed.

(** C17: After a profile update that the backend answers 200, the
    browser's [localStorage] keeps, under ['user'], a JSON text whose
    [password] is the bcrypt hash stored for the account: the hash the
    backend's [updateProfile] answers outlives the page. *)
Theorem profile_hash_in_storage req db r db' profileData st :
  updateProfile [] req db = (OResp r, db') → r.(rs_status) = 200%Z →
  ∃ u s v, db.(db_users) !! req.(rq_user).(user_id) = Some u ∧
    (call_finish type_error syntax_error (CUpdateProfile profileData) (FetchResponse true (json_text r.(rs_body))) st).1
      .(st_storage) !! "user" = Some s ∧
    json_parse s = Some v ∧ js_get v "password" = Some (JStr u.(u_password)).
Proof.
  intros Hrun Hst. destruct (updateProfile_ok req db r db' Hrun Hst) as (u & fn & b & sk & av & Hu & Hb).
  exists u, (json_text r.(rs_body)), r.(rs_body). split; [done|].
  unfold call_finish, finish_user. rewrite response_data_text by (rewrite Hb; apply user_json_ok).
  simpl. unfold set_item. rewrite lookup_insert, stringify_value_ok by (rewrite Hb; apply user_json_ok).
  split_and!; [done|apply json_parse_text; rewrite Hb; apply user_json_ok|].
  rewrite Hb, user_json_password. reflexivity.
Qed.

(** C18: [logout] ends the session whatever its request does: afterwards
    the state is not authenticated, neither key is left in
    [localStorage], a protected page redirects to the login page once
    nothing is loading, and a reload stays signed out. *)
Theorem logout_ends_session r st :
  let st' := (call_finish type_error syntax_error CLogout r st).1 in
  st'.(st_isAuthenticated) = false ∧ st'.(st_storage) !! "token" = None ∧ st'.(st_storage) !! "user" = None ∧
  (st'.(st_loading) = false → protected_route st' = RedirectLogin) ∧
  ∃ st'', mount (initial_state st'.(st_storage)) = Some st'' ∧ protected_route st'' = RedirectLogin.
Proof.
  simpl. split_and!.
  - done.
  - by rewrite lookup_delete_ne, lookup_delete.
  - by rewrite lookup_delete.
  - unfold protected_route. simpl. by intros ->.
  - eexists. unfold mount. simpl. rewrite lookup_delete_ne, lookup_delete by done. split; reflexivity.
Qed.
(** The client's JSON reads terminate within the length of the text:
    [response.json()] of an ok answer gives exactly the value that the
    parser, with no bound on its fuel, reads from the body followed by
    white space only; and the mount effect of a page load fails (its
    [JSON.parse(storedUser)] throws) exactly when no fuel lets the parser
    read the stored user. *)
Lemma client_json_reads_terminate :
  (∀ body dflt v, response_data type_error syntax_error (FetchResponse true body) dflt = inr v ↔
     ∃ fuel r, parse_value fuel body = Some (v, r) ∧ skip_ws r = EmptyString) ∧
  (∀ storage t u, storage !! "token" = Some t → storage !! "user" = Some u → t ≠ "" → u ≠ "" →
     mount (initial_state storage) = None ↔ ∀ fuel v r, parse_value fuel u = Some (v, r) → skip_ws r ≠ EmptyString).
Proof.
  split.
  - intros body dflt v. rewrite <- (proj2 (json_parse_fuel body) v). unfold response_data.
    destruct (json_parse body); split; intros H; simplify_eq; done.
  - intros storage t u Ht Hu Htn Hun. unfold mount. cbn [st_storage initial_state]. rewrite Ht, Hu, !truthy_str.
    rewrite (proj2 (String.eqb_neq t "") Htn), (proj2 (String.eqb_neq u "") Hun). simpl.
    split.
    + intros Hp fuel v r Hv Hr. assert (json_parse u = Some v) as E.
      { apply (proj2 (json_parse_fuel u)). eauto. }
      by rewrite E in Hp.
    + intros Hno. destruct (json_parse u) as [v|] eqn:E; [|done].
      destruct (proj1 (proj2 (json_parse_fuel u) v) E) as (fuel & r & Hv & Hr). by destruct (Hno fuel v r Hv).
Qed.

End client_properties.

Module ClientAuthExamples.
Definition te : string := "TypeError".
Definition se : string := "SyntaxError".
Definition ex_id : Id := "5f00000000000000000000a1".
Definition ex_user : UserDoc := mkUserDoc "bob" "bob@example.com" "pw1" "Bob" (Some "") None [] 0 [] [] [] true 1000.
Definition ex_db : Db := set_users (empty_db 1000) {[ex_id := ex_user]}.
Definition ex_sign (id : Id) : string := "jwt." +:+ id.
Definition ex_login_req : Request :=
  mkRequest [] (JObj []) (JObj [("email", JStr "bob@example.com"); ("password", JStr "pw1")]) (mkUser "" "").
Definition ex_profile_req : Request :=
  mkRequest [] (JObj []) (JObj [("fullName", JStr "Bob B")]) (mkUser ex_id "bob").

(** The answers of the backend to these requests. *)
Definition answer (o : Out unit) : Response := match o with OResp r => r | _ => mkResponse 0 JNull end.
Definition ex_login_answer : Response := answer (login String.eqb ex_sign [] ex_login_req ex_db).1.
Definition ex_profile_answer : Response := answer (updateProfile [] ex_profile_req ex_db).1.

Definition ex_login : Call := CLogin (JStr "bob@example.com") (JStr "pw1").
Definition ex_loaded : AuthState := set_loading false (initial_state ∅).
Definition ex_signed_in : AuthState :=
  (call_finish te se ex_login (FetchResponse true (json_text ex_login_answer.(rs_body))) (call_start ex_login ex_loaded)).1.

Lemma ex_login_body : ex_login_answer.(rs_body) = auth_body (ex_sign ex_id) ex_id ex_user.
Proof. vm_compute. reflexivity. Qed.

Lemma ex_login_wf : wf_response ex_login (FetchResponse true (json_text ex_login_answer.(rs_body))).
Proof.
  rewrite ex_login_body. apply wf_auth_body. unfold ex_sign. rewrite string_app_cons. discriminate.
Qed.

Lemma ex_signed_in_reachable : reachable te se wf_response ex_signed_in.
Proof.
  apply reach_settle; [|apply ex_login_wf]. apply reach_call. apply (reach_mount _ _ _ ∅). reflexivity.
Qed.

Lemma session_survives_reload_witness :
  mount (initial_state ex_signed_in.(st_storage)) = Some (set_loading false ex_signed_in).
Proof. apply (session_survives_reload te se); [apply ex_signed_in_reachable|vm_compute; reflexivity]. Defined.

Lemma login_end_to_end_witness :
  ∃ id u, ex_db.(db_users) !! id = Some u ∧
    let st' := (call_finish te se ex_login (FetchResponse true (json_text ex_login_answer.(rs_body))) ex_loaded).1 in
    st'.(st_token) = JStr (ex_sign id) ∧ js_get ex_login_answer.(rs_body) "user" = Some st'.(st_user) ∧
    st'.(st_isAuthenticated) = true ∧ mount (initial_state st'.(st_storage)) = Some (set_loading false st').
Proof.
  apply (login_end_to_end te se String.eqb ex_sign ex_login_req ex_db ex_db).
  - vm_compute. reflexivity.
  - intros id. unfold ex_sign. rewrite string_app_cons. discriminate.
Defined.

Lemma profile_hash_in_storage_witness :
  ∃ u s v, ex_db.(db_users) !! ex_id = Some u ∧
    (call_finish te se (CUpdateProfile (JObj [("fullName", JStr "Bob B")]))
       (FetchResponse true (json_text ex_profile_answer.(rs_body))) ex_signed_in).1.(st_storage) !! "user" = Some s ∧
    json_parse s = Some v ∧ js_get v "password" = Some (JStr u.(u_password)).
Proof.
  apply (profile_hash_in_storage te se ex_profile_req ex_db ex_profile_answer
           (updateProfile [] ex_profile_req ex_db).2); vm_compute; reflexivity.
Defined.

(** [logout] does not cancel a [getCurrentUser] in flight: when it settles
    afterwards, the user is written back into the state and into
    [localStorage] of a signed-out session. *)
Example late_user_write_after_logout :
  let s1 := call_start CGetCurrentUser ex_signed_in in
  let s2 := (call_finish te se CLogout (FetchRejected "offline") s1).1 in
  let s3 := (call_finish te se CGetCurrentUser (FetchResponse true (json_text (user_json false ex_id ex_user))) s2).1 in
  s3.(st_isAuthenticated) = false ∧ s3.(st_storage) !! "token" = None ∧
  s3.(st_storage) !! "user" = Some (json_text (user_json false ex_id ex_user)) ∧ s3.(st_user) = user_json false ex_id ex_user.
Proof. vm_compute. auto. Qed.

(** [loading] is one flag for all calls: the first call to settle clears
    it while another is still in flight, and a protected page then
    redirects a session that is signing in. *)
Example loading_cleared_while_pending :
  let s1 := call_start ex_login ex_loaded in
  let s2 := call_start CGetCurrentUser s1 in
  let s3 := (call_finish te se CGetCurrentUser (FetchRejected "offline") s2).1 in
  s3.(st_loading) = false ∧ protected_route s3 = RedirectLogin.
Proof. vm_compute. auto. Qed.

(** A 200 answer to [login] without a [user] stores the text
    ["undefined"]; the next page load then throws in [JSON.parse]. *)
Example login_without_user_breaks_reload :
  let st := (call_finish te se ex_login (FetchResponse true (json_text (JObj [("token", JStr "t1")]))) ex_loaded).1 in
  st.(st_isAuthenticated) = true ∧ st.(st_storage) !! "user" = Some "undefined" ∧
  mount (initial_state st.(st_storage)) = None.
Proof. vm_compute. auto. Qed.

End ClientAuthExamples.
