(* ===== verification/WebRTCClient.v ===== *)
(** * The streaming page of the frontend ([components/stream/WebRTCStreaming.js])

    [WebRTCStreamingComponent] opens a Socket.IO connection on mount
    (first [useEffect]), and once [socket] is set joins the stream room and
    registers five listeners (second [useEffect], dependencies
    [[socket, streamId]]).  The buttons call [startBroadcasting] and
    [endBroadcasting]; the listeners create [simple-peer] connections, one
    per remote socket, in [peersRef].

    The state is the [Client] record: the [useState] values, [peersRef],
    the socket's current [socket.id], the media streams whose tracks are
    running, and what the page has sent with [socket.emit], in order.
    The listeners of the second effect are closures over the render in
    which the effect ran: they read [isBroadcaster] and [stream] of that
    render, not the current ones.  [cl_bound] holds those two values while
    the listeners are registered, which is how the model keeps the
    closure semantics of the code.

    An input is a [ClientEvent]: the socket connecting (with its id) or
    disconnecting, an event the server sent this socket (the [OutEvent]s
    of [Transport]), a click on one of the four buttons, which reaches it
    only while the render shows it ([shown], lines 323-362), a [signal]
    event of a peer, or the unmount.  The click on [Start Broadcasting]
    is applied when its [getUserMedia] settles; the button is shown only
    while [isConnected], and [socket], once set, stays the same object, so
    the socket of that moment is the one of the clicked render, and the
    [catch] of a [null] socket in [startBroadcasting] is not reached from
    the page.  A second click while [getUserMedia] is pending is not
    modelled.  Rendering ([srcObject] of the video element, the [stream]
    event of a peer) is not modelled. *)

From S2P Require Import Prelude JsValue Mongoose Transport StreamModel Registry Handler WebRTCService.

(** ** State *)

(** A [simple-peer] connection: [initiator], the media stream it sends
    ([stream] option, as the number of a [MediaStream]), the signals fed
    to it with [peer.signal]. *)
Record Peer := mkPeer {
  peer_initiator : bool;
  peer_media : option nat;
  peer_signals : list JsVal
}.

(** [socket.emit(event, data)]. *)
Record ClientEmit := mkClientEmit { ce_event : string; ce_data : JsVal }.

Record Client := mkClient {
  cl_streamId : JsVal;                 (* useParams().streamId *)
  cl_sockId : Id;                      (* newSocket.id *)
  cl_socket : bool;                    (* socket state: newSocket or null *)
  cl_stream : option nat;              (* stream state: a MediaStream or null *)
  cl_peers : gmap Id Peer;             (* peersRef.current, mirrored by peers *)
  cl_isBroadcaster : bool;
  cl_isConnected : bool;
  cl_viewerCount : JsVal;
  cl_error : JsVal;
  cl_bound : option (bool * option nat); (* listeners of the second effect, over isBroadcaster and stream *)
  cl_live : list nat;                  (* MediaStreams whose tracks run *)
  cl_nextMedia : nat;                  (* the next MediaStream getUserMedia yields *)
  cl_mounted : bool;
  cl_out : list ClientEmit
}.

(** The state of the first render. *)
Definition client_init (streamId : JsVal) : Client :=
  mkClient streamId "" false None ∅ false false (JNum 0) JNull None [] 0 true [].

(** One setter per field that the handlers change. *)
Section setters.
Variable c : Client.
Definition socket_emit (e : ClientEmit) : Client :=
  mkClient c.(cl_streamId) c.(cl_sockId) c.(cl_socket) c.(cl_stream) c.(cl_peers) c.(cl_isBroadcaster)
    c.(cl_isConnected) c.(cl_viewerCount) c.(cl_error) c.(cl_bound) c.(cl_live) c.(cl_nextMedia)
    c.(cl_mounted) (c.(cl_out) ++ [e]).
Definition setPeers (ps : gmap Id Peer) : Client :=
  mkClient c.(cl_streamId) c.(cl_sockId) c.(cl_socket) c.(cl_stream) ps c.(cl_isBroadcaster)
    c.(cl_isConnected) c.(cl_viewerCount) c.(cl_error) c.(cl_bound) c.(cl_live) c.(cl_nextMedia)
    c.(cl_mounted) c.(cl_out).
Definition setError (e : JsVal) : Client :=
  mkClient c.(cl_streamId) c.(cl_sockId) c.(cl_socket) c.(cl_stream) c.(cl_peers) c.(cl_isBroadcaster)
    c.(cl_isConnected) c.(cl_viewerCount) e c.(cl_bound) c.(cl_live) c.(cl_nextMedia)
    c.(cl_mounted) c.(cl_out).
Definition setViewerCount (n : JsVal) : Client :=
  mkClient c.(cl_streamId) c.(cl_sockId) c.(cl_socket) c.(cl_stream) c.(cl_peers) c.(cl_isBroadcaster)
    c.(cl_isConnected) n c.(cl_error) c.(cl_bound) c.(cl_live) c.(cl_nextMedia)
    c.(cl_mounted) c.(cl_out).
Definition setIsConnected (b : bool) : Client :=
  mkClient c.(cl_streamId) c.(cl_sockId) c.(cl_socket) c.(cl_stream) c.(cl_peers) c.(cl_isBroadcaster)
    b c.(cl_viewerCount) c.(cl_error) c.(cl_bound) c.(cl_live) c.(cl_nextMedia)
    c.(cl_mounted) c.(cl_out).
End setters.

(** [{ streamId }] *)
Definition stream_data (streamId : JsVal) : JsVal := JObj [("streamId", streamId)].

Definition media_error : JsVal := JStr "Could not access camera or microphone".

(** [track.stop()] on every track of a stream. *)
Definition stop_tracks (s : option nat) (live : list nat) : list nat :=
  match s with Some n => filter (λ m, m ≠ n) live | None => live end.

(** ** The first effect: [newSocket.on('connect' | 'disconnect')] *)

(** The second effect, run by the render in which [socket] became set:
    unless [streamId] is falsy, [socket.emit('stream:join', streamId)] and
    the five listeners, which read that render's [isBroadcaster] and
    [stream]. *)
Definition stream_effect (c : Client) : Client :=
  if truthy c.(cl_streamId) then
    mkClient c.(cl_streamId) c.(cl_sockId) c.(cl_socket) c.(cl_stream) c.(cl_peers) c.(cl_isBroadcaster)
      c.(cl_isConnected) c.(cl_viewerCount) c.(cl_error) (Some (c.(cl_isBroadcaster), c.(cl_stream)))
      c.(cl_live) c.(cl_nextMedia) c.(cl_mounted) (c.(cl_out) ++ [mkClientEmit "stream:join" c.(cl_streamId)])
  else c.

(** ['connect'], [newSocket.id = sid]: [setSocket(newSocket)] and
    [setIsConnected(true)].  When [socket] was [null] the second effect
    runs; on a reconnection [socket] is the same object and it does not
    run again. *)
Definition on_connect (sid : Id) (c : Client) : Client :=
  let c1 := mkClient c.(cl_streamId) sid true c.(cl_stream) c.(cl_peers) c.(cl_isBroadcaster) true
              c.(cl_viewerCount) c.(cl_error) c.(cl_bound) c.(cl_live) c.(cl_nextMedia) c.(cl_mounted) c.(cl_out) in
  if c.(cl_socket) then c1 else stream_effect c1.

(** ** The listeners of the second effect *)

(** [handleIncomingSignal({ fromId, signal })], with the [isBroadcaster]
    and [stream] of the render that registered it. *)
Definition handleIncomingSignal (isBroadcaster : bool) (stream : option nat) (fromId : Id) (signal : JsVal)
    (c : Client) : Client :=
  match c.(cl_peers) !! fromId with
  | Some p => setPeers c (<[fromId := mkPeer p.(peer_initiator) p.(peer_media) (p.(peer_signals) ++ [signal])]> c.(cl_peers))
  | None =>
      let p := if isBroadcaster then mkPeer false stream [signal] else mkPeer true None [signal] in
      setPeers c (<[fromId := p]> c.(cl_peers))
  end.

(** [joinAsViewer]: [socket.emit('webrtc:join_stream', { streamId })]. *)
Definition joinAsViewer (c : Client) : Client :=
  socket_emit c (mkClientEmit "webrtc:join_stream" (stream_data c.(cl_streamId))).

(** [handleBroadcastStarted({ broadcasterId })]: [joinAsViewer()] unless
    the broadcaster is this socket. *)
Definition handleBroadcastStarted (broadcasterId : Id) (c : Client) : Client :=
  if bool_decide (broadcasterId ≠ c.(cl_sockId)) then joinAsViewer c else c.

(** [handleBroadcastEnded]: every peer destroyed, [peersRef.current = {}]
    and [setPeers({})]. *)
Definition handleBroadcastEnded (c : Client) : Client := setPeers c ∅.

(** [handleViewerJoined({ viewerId, viewerSocketId })], with the
    [isBroadcaster] and [stream] of the render that registered it. *)
Definition handleViewerJoined (isBroadcaster : bool) (stream : option nat) (viewerSocketId : Id)
    (c : Client) : Client :=
  match isBroadcaster, stream with
  | true, Some m => setPeers c (<[viewerSocketId := mkPeer true (Some m) []]> c.(cl_peers))
  | _, _ => c
  end.

(** An event the server sent this socket.  ['error'] has its listener from
    the first effect; the five others only while the listeners of the
    second effect are registered; the other events have no listener. *)
Definition on_server (e : OutEvent) (c : Client) : Client :=
  match e, c.(cl_bound) with
  | EvError msg, _ => setError c (JStr msg)
  | EvViewerCount n, Some _ => setViewerCount c (JNum (Z.of_nat n))
  | EvSignal _ signal fromId _, Some (isB, s) => handleIncomingSignal isB s fromId signal c
  | EvBroadcastStarted _ bid, Some _ => handleBroadcastStarted bid c
  | EvBroadcastEnded _, Some _ => handleBroadcastEnded c
  | EvViewerJoined _ _ vsid, Some (isB, s) => handleViewerJoined isB s vsid c
  | _, _ => c
  end.

(** ** The buttons *)

(** [startBroadcasting], once [getUserMedia] settled ([media]: it
    resolved).  [setStream(mediaStream)] happens before [socket.emit],
    which throws a [TypeError] while [socket] is [null]; the [catch] sets
    the camera message in both cases. *)
Definition startBroadcasting (media : bool) (c : Client) : Client :=
  if media then
    let n := c.(cl_nextMedia) in
    mkClient c.(cl_streamId) c.(cl_sockId) c.(cl_socket) (Some n) c.(cl_peers)
      (c.(cl_isBroadcaster) || c.(cl_socket)) c.(cl_isConnected) c.(cl_viewerCount)
      (if c.(cl_socket) then c.(cl_error) else media_error) c.(cl_bound) (n :: c.(cl_live)) (S n) c.(cl_mounted)
      (if c.(cl_socket) then c.(cl_out) ++ [mkClientEmit "webrtc:start_broadcast" (stream_data c.(cl_streamId))]
       else c.(cl_out))
  else setError c media_error.

(** [endBroadcasting]: [socket.emit] throws first while [socket] is
    [null]; otherwise the stream's tracks stop, [setStream(null)],
    [setIsBroadcaster(false)]. *)
Definition endBroadcasting (c : Client) : Client :=
  if c.(cl_socket) then
    mkClient c.(cl_streamId) c.(cl_sockId) c.(cl_socket) None c.(cl_peers) false c.(cl_isConnected)
      c.(cl_viewerCount) c.(cl_error) c.(cl_bound) (stop_tracks c.(cl_stream) c.(cl_live)) c.(cl_nextMedia)
      c.(cl_mounted) (c.(cl_out) ++ [mkClientEmit "webrtc:end_broadcast" (stream_data c.(cl_streamId))])
  else c.

(** The ['signal'] event of the peer stored under [id]: its listener sends
    the signal to that socket. *)
Definition on_peer_signal (id : Id) (signal : JsVal) (c : Client) : Client :=
  match c.(cl_peers) !! id with
  | Some _ => socket_emit c (mkClientEmit "webrtc:signal"
                (JObj [("streamId", c.(cl_streamId)); ("signal", signal); ("targetId", JStr id)]))
  | None => c
  end.

(** The unmount: the cleanup of the second effect ([stream:leave], the
    listeners removed, the tracks of the [stream] of its render stopped)
    and of the first ([newSocket.disconnect()]). *)
Definition unmount (c : Client) : Client :=
  match c.(cl_bound) with
  | Some (_, s) =>
      mkClient c.(cl_streamId) c.(cl_sockId) c.(cl_socket) c.(cl_stream) c.(cl_peers) c.(cl_isBroadcaster)
        false c.(cl_viewerCount) c.(cl_error) None (stop_tracks s c.(cl_live)) c.(cl_nextMedia) false
        (c.(cl_out) ++ [mkClientEmit "stream:leave" c.(cl_streamId)])
  | None =>
      mkClient c.(cl_streamId) c.(cl_sockId) c.(cl_socket) c.(cl_stream) c.(cl_peers) c.(cl_isBroadcaster)
        false c.(cl_viewerCount) c.(cl_error) None c.(cl_live) c.(cl_nextMedia) false c.(cl_out)
  end.

(** ** Events *)

(** The [Leave Stream] button: [stream:leave], every peer destroyed,
    [peersRef.current = {}], [setPeers({})]. *)
Definition leaveStream (c : Client) : Client :=
  setPeers (socket_emit c (mkClientEmit "stream:leave" c.(cl_streamId))) ∅.

(** The buttons of the page. *)
Inductive Button := BJoinStream | BEndBroadcast | BLeaveStream | BStartBroadcasting.

(** Which buttons a render shows: none until [isConnected]; then [Join
    Stream] and [Start Broadcasting] while neither [isBroadcaster] nor
    [stream], [End Broadcast] while [isBroadcaster], [Leave Stream]
    otherwise. *)
Definition shown (c : Client) (b : Button) : bool :=
  c.(cl_isConnected) &&
  match b with
  | BJoinStream | BStartBroadcasting => negb c.(cl_isBroadcaster) && bool_decide (c.(cl_stream) = None)
  | BEndBroadcast => c.(cl_isBroadcaster)
  | BLeaveStream => negb c.(cl_isBroadcaster) && bool_decide (c.(cl_stream) ≠ None)
  end.

(** An input of the page: a click reaches a button only while the page
    shows it; [CClick BStartBroadcasting media] is the click with the
    outcome of its [getUserMedia]. *)
Inductive ClientEvent :=
  | CConnect (sid : Id)
  | CDisconnect
  | CServer (e : OutEvent)
  | CClick (b : Button) (media : bool)
  | CPeerSignal (id : Id) (signal : JsVal)
  | CUnmount.

Definition on_click (b : Button) (media : bool) (c : Client) : Client :=
  if shown c b then
    match b with
    | BJoinStream => joinAsViewer c
    | BEndBroadcast => endBroadcasting c
    | BLeaveStream => leaveStream c
    | BStartBroadcasting => startBroadcasting media c
    end
  else c.

Definition client_step (c : Client) (e : ClientEvent) : Client :=
  if negb c.(cl_mounted) then c else
  match e with
  | CConnect sid => on_connect sid c
  | CDisconnect => setIsConnected c false
  | CServer ev => on_server ev c
  | CClick b media => on_click b media c
  | CPeerSignal id signal => on_peer_signal id signal c
  | CUnmount => unmount c
  end.

(** The states of a page of [streamId] after any sequence of events. *)
Inductive client_reachable (streamId : JsVal) : Client → Prop :=
  | creach_init : client_reachable streamId (client_init streamId)
  | creach_step c e : client_reachable streamId c → client_reachable streamId (client_step c e).

(** ** The invariant of the page *)

(** [isBroadcaster] is only set once [socket] is, so the render that
    registers the listeners has [isBroadcaster = false]; the streams the
    listeners and the state hold are older than the next one; a
    broadcasting page holds a running stream that is not the one of the
    listeners' render; and every peer is an initiator without a stream. *)
Definition client_inv (c : Client) : Prop :=
  (c.(cl_socket) = false → c.(cl_isBroadcaster) = false) ∧
  (∀ b s, c.(cl_bound) = Some (b, s) → b = false ∧ ∀ n, s = Some n → n < c.(cl_nextMedia)) ∧
  (∀ n, c.(cl_stream) = Some n → n < c.(cl_nextMedia)) ∧
  (c.(cl_isBroadcaster) = true →
     ∃ n, c.(cl_stream) = Some n ∧ n ∈ c.(cl_live) ∧ ∀ b s, c.(cl_bound) = Some (b, s) → s ≠ Some n) ∧
  map_Forall (λ _ p, p.(peer_initiator) = true ∧ p.(peer_media) = None) c.(cl_peers).

Lemma stop_tracks_keep s live n : n ∈ live → s ≠ Some n → n ∈ stop_tracks s live.
Proof. destruct s as [m|]; [|done]. intros Hn Hne. apply list_elem_of_filter. split; [congruence|done]. Qed.

Lemma client_init_inv streamId : client_inv (client_init streamId).
Proof. split_and!; try done. Qed.

Lemma client_step_inv c e : client_inv c → client_inv (client_step c e).
Proof.
  destruct c as [sId sid sock strm peers isB conn vc err bound live next mounted out].
  intros (H1 & H2 & H3 & H4 & H5). unfold client_step. simpl in *.
  destruct mounted; simpl; [|by split_and!]. destruct e as [sid'| |ev|b media|id sig|]; simpl.
  - unfold on_connect. simpl. destruct sock; simpl.
    + split_and!; done.
    + rewrite H1 by done. unfold stream_effect. simpl. destruct (truthy sId); simpl; split_and!; try done.
      * intros b s [= <- <-]. split; [done|]. intros n ->. by apply H3.
  - split_and!; done.
  - destruct ev; simpl; try (split_and!; done); destruct bound as [[b s]|]; simpl; try (split_and!; done).
    + unfold handleBroadcastStarted. case_bool_decide; simpl; split_and!; done.
    + unfold handleViewerJoined. destruct (H2 b s eq_refl) as [-> _]. split_and!; done.
    + unfold handleIncomingSignal. simpl. destruct (H2 b s eq_refl) as [-> _].
      case_match; simpl; split_and!; try done; apply map_Forall_insert_2; try done; simpl.
      match goal with E : peers !! _ = Some _ |- _ => by destruct (H5 _ _ E) end.
  - unfold on_click. destruct (shown _ b) eqn:Hsh; [|by split_and!]. destruct b; simpl.
    + split_and!; done.
    + destruct sock; simpl; split_and!; done.
    + split_and!; done.
    + destruct media; cbn; [|split_and!; done]. destruct sock; cbn.
      * split_and!; try done.
        -- intros b s Hb. destruct (H2 b s Hb) as [-> Hs]. split; [done|]. intros n Hn. specialize (Hs n Hn). cbn in *. lia.
        -- intros n [= <-]. cbn. lia.
        -- intros _. exists next. cbn. split_and!; [done|by left|]. intros b s Hb ->. destruct (H2 b _ Hb) as [_ Hs].
          specialize (Hs next eq_refl). cbn in *. lia.
      * rewrite H1 by done. cbn. split_and!; try done.
        -- intros b s Hb. destruct (H2 b s Hb) as [-> Hs]. split; [done|]. intros n Hn. specialize (Hs n Hn). cbn in *. lia.
        -- intros n [= <-]. cbn. lia.
  - unfold on_peer_signal. simpl. destruct (peers !! id); simpl; split_and!; done.
  - destruct bound as [[b s]|]; simpl; split_and!; try done.
    intros Hb. destruct (H4 Hb) as (n & Hn & Hl & Hs). exists n. split_and!; [done| |done].
    apply stop_tracks_keep; [done|]. exact (Hs b s eq_refl).
Qed.

Lemma client_reachable_inv streamId c : client_reachable streamId c → client_inv c.
Proof. induction 1; [apply client_init_inv|by apply client_step_inv]. Qed.

(** ** Properties *)

(** C19: The listeners read the [isBroadcaster] of the render that
    registered them, which is [false] in every run: on every page, after
    any sequence of events (a successful [startBroadcasting] included),
    every peer in [peersRef] was created as an initiator without a media
    stream, and [webrtc:viewer_joined] changes nothing.  The broadcaster
    never creates a peer that sends its camera, so no viewer receives the
    broadcast. *)
Theorem viewers_never_get_media streamId c :
  client_reachable streamId c →
  (∀ id p, c.(cl_peers) !! id = Some p → p.(peer_initiator) = true ∧ p.(peer_media) = None) ∧
  (∀ sid vid vsid, client_step c (CServer (EvViewerJoined sid vid vsid)) = c).
Proof.
  intros Hr. destruct (client_reachable_inv _ _ Hr) as (_ & H2 & _ & _ & H5). split; [exact H5|].
  intros sid vid vsid. unfold client_step. destruct (cl_mounted c); [|done]. simpl.
  unfold on_server. destruct (cl_bound c) as [[b s]|] eqn:E; [|done]. by destruct (H2 b s eq_refl) as [-> _].
Qed.

(** C21: The cleanup of the second effect stops the tracks of the
    [stream] of the render that registered it, not the current one: a
    page that broadcasts and is unmounted leaves its camera stream
    running. *)
Theorem unmount_leaves_camera_on streamId c :
  client_reachable streamId c → c.(cl_mounted) = true → c.(cl_isBroadcaster) = true →
  ∃ n, c.(cl_stream) = Some n ∧ n ∈ c.(cl_live) ∧
       (client_step c CUnmount).(cl_mounted) = false ∧ n ∈ (client_step c CUnmount).(cl_live).
Proof.
  intros Hr Hm Hb. destruct (client_reachable_inv _ _ Hr) as (_ & _ & _ & H4 & _).
  destruct (H4 Hb) as (n & Hs & Hl & Hn). exists n. split_and!; [done|done| |];
    unfold client_step; rewrite Hm; simpl; unfold unmount; destruct (cl_bound c) as [[b s]|] eqn:E; simpl; try done.
  apply stop_tracks_keep; [done|]. exact (Hn b s eq_refl).
Qed.

Section composition.
Context {R : Type} `{!MapOps string BroadcasterInfo R}.

(** C20: The server announces a broadcast with [broadcasterId:
    socket.user.id], the page compares it with [socket.id]: when the
    owner of a stream starts broadcasting from a page that joined the
    stream's room, the [webrtc:broadcast_started] the server emits reaches
    that page, which answers it with [webrtc:join_stream] and so joins its
    own stream as a viewer, whenever the user's id is not the socket's
    id. *)
Theorem broadcaster_joins_own_stream (w : World R) sock data id st c :
  js_get data "streamId" = Some (JStr id) → object_id_castable id = true →
  w.(w_streams) !! id = Some st → st.(s_user) = sock.(sock_user).(user_id) →
  sock.(sock_id) ∈ room_members w.(w_rooms) (stream_room id) →
  c.(cl_mounted) = true → c.(cl_sockId) = sock.(sock_id) → is_Some c.(cl_bound) →
  sock.(sock_user).(user_id) ≠ sock.(sock_id) →
  ∃ em, last (on_start_broadcast sock data w).2.(w_out) = Some em ∧ sock.(sock_id) ∈ em.(em_to) ∧
    (client_step c (CServer em.(em_event))).(cl_out) =
      c.(cl_out) ++ [mkClientEmit "webrtc:join_stream" (stream_data c.(cl_streamId))].
Proof.
  intros Hd Hc Hs Hu Hin Hm Hid [b Hb] Hne. rewrite (start_broadcast_run_owner w sock data id st) by done.
  eexists. split; [apply last_snoc|]. split.
  - simpl. apply room_members_join. by right.
  - unfold client_step. rewrite Hm. simpl. unfold on_server. rewrite Hb. destruct b.
    unfold handleBroadcastStarted. rewrite Hid, bool_decide_true by done. done.
Qed.
End composition.

Module WebRTCClientExamples.
Import WebRTCExamples.

(** A page of stream [ex_sid]: connected as [sA], broadcasting, then a
    viewer's offer and a [webrtc:viewer_joined] arrive. *)
Definition ex_page0 : Client := client_init (JStr ex_sid).
Definition ex_page1 : Client := client_step ex_page0 (CConnect "sA").
Definition ex_page2 : Client := client_step ex_page1 (CClick BStartBroadcasting true).
Definition ex_page3 : Client := client_step ex_page2 (CServer (EvViewerJoined ex_sid "u2" "sV")).
Definition ex_page4 : Client := client_step ex_page3 (CServer (EvSignal (JStr ex_sid) (JStr "offer") "sV" "u2")).

Lemma ex_page4_reachable : client_reachable (JStr ex_sid) ex_page4.
Proof. repeat apply creach_step. apply creach_init. Qed.

Lemma ex_page2_reachable : client_reachable (JStr ex_sid) ex_page2.
Proof. repeat apply creach_step. apply creach_init. Qed.

Lemma viewers_never_get_media_witness :
  ex_page4.(cl_isBroadcaster) = true ∧
  (∀ id p, ex_page4.(cl_peers) !! id = Some p → p.(peer_initiator) = true ∧ p.(peer_media) = None) ∧
  (∀ sid vid vsid, client_step ex_page4 (CServer (EvViewerJoined sid vid vsid)) = ex_page4).
Proof. split; [reflexivity|]. apply (viewers_never_get_media (JStr ex_sid)). apply ex_page4_reachable. Defined.

Lemma unmount_leaves_camera_on_witness :
  ∃ n, ex_page2.(cl_stream) = Some n ∧ n ∈ ex_page2.(cl_live) ∧
       (client_step ex_page2 CUnmount).(cl_mounted) = false ∧ n ∈ (client_step ex_page2 CUnmount).(cl_live).
Proof. apply (unmount_leaves_camera_on (JStr ex_sid)); [apply ex_page2_reachable|reflexivity|reflexivity]. Defined.

(** The server's world with [sA] in the room of the stream, as after its
    [stream:join]. *)
Definition ex_joined : World (JsMap string BroadcasterInfo) :=
  set_rooms ex_world {[stream_room ex_sid := {["sA"]}]}.

Lemma broadcaster_joins_own_stream_witness :
  ∃ em, last (on_start_broadcast ex_sockA ex_data ex_joined).2.(w_out) = Some em ∧ "sA" ∈ em.(em_to) ∧
    (client_step ex_page1 (CServer em.(em_event))).(cl_out) =
      ex_page1.(cl_out) ++ [mkClientEmit "webrtc:join_stream" (stream_data ex_page1.(cl_streamId))].
Proof.
  apply (broadcaster_joins_own_stream ex_joined ex_sockA ex_data ex_sid ex_stream ex_page1);
    try reflexivity; try discriminate. by eexists.
Defined.

(** The page of the broadcaster answers its own [broadcast_started]: the
    server then counts the broadcaster as a viewer of its own stream. *)
Example broadcaster_counted_as_viewer :
  let w1 := (on_start_broadcast ex_sockA ex_data ex_joined).2 in
  let w2 := (on_join_stream ex_sockA ex_data w1).2 in
  (w2.(w_streams) !! ex_sid) ≫= (λ s, Some s.(s_viewers)) = Some ["u1"].
Proof. vm_compute. reflexivity. Qed.
End WebRTCClientExamples.
