(* ===== verification/Interleave.v ===== *)
(** * Requests interleaved at their [await]s

    The controllers of the other files run each request to its end before
    the next one starts ([CM] reads [await] as sequencing).  Node runs
    requests concurrently: between two [await]s of a request, the other
    requests run.  A request at that grain is a [Proc S] over a shared
    state [S]: it has answered ([PDone]), or its next step is an atomic
    transition of the state ([PStep]): the database operation of an
    [await], then the synchronous code up to the next one.  A schedule is
    a list of booleans naming which of two requests steps next. *)

From S2P Require Import Prelude JsValue Express.

Inductive Proc (S : Type) :=
  | PDone (r : Response)
  | PStep (k : S → Proc S * S).
Arguments PDone {S} r.
Arguments PStep {S} k.

Section interleave.
Context {S : Type}.

(** One step of a process; an answered request does nothing. *)
Definition proc_step (p : Proc S) (s : S) : Proc S * S :=
  match p with PDone _ => (p, s) | PStep k => k s end.

(** Two requests run by a schedule: [true] steps the first, [false] the
    second. *)
Fixpoint run2 (sched : list bool) (p q : Proc S) (s : S) : Proc S * Proc S * S :=
  match sched with
  | [] => (p, q, s)
  | true :: sc => let '(p', s') := proc_step p s in run2 sc p' q s'
  | false :: sc => let '(q', s') := proc_step q s in run2 sc p q' s'
  end.

(** Any number of requests run by a schedule of their positions; a
    position with no request does nothing. *)
Fixpoint run_many (sched : list nat) (ps : list (Proc S)) (s : S) : list (Proc S) * S :=
  match sched with
  | [] => (ps, s)
  | i :: sc =>
      match ps !! i with
      | Some p => let '(p', s') := proc_step p s in run_many sc (<[i := p']> ps) s'
      | None => run_many sc ps s
      end
  end.

Definition status (p : Proc S) : option Z :=
  match p with PDone r => Some r.(rs_status) | PStep _ => None end.

Definition answer (code : Z) (body : JsVal) : Proc S := PDone (mkResponse code body).

(** A segment of a controller between two [await]s, written in [CM]:
    its value continues the request at the next step, a response ends it,
    and a thrown error goes to the [catch] handler [h]. *)
Definition seg {A} (m : CM S A) (k : A → Proc S) (h : Err → Proc S) : Proc S :=
  PStep (λ s, match m s with
              | (OVal a, s') => (k a, s')
              | (OResp r, s') => (PDone r, s')
              | (OErr e, s') => (h e, s')
              end).

(** ** Lemmas *)

Lemma run2_app sc1 sc2 p q s :
  run2 (sc1 ++ sc2) p q s = let '(p', q', s') := run2 sc1 p q s in run2 sc2 p' q' s'.
Proof.
  revert p q s. induction sc1 as [|[] sc1 IH]; intros p q s; [done| |];
    simpl; destruct (proc_step _ s); apply IH.
Qed.

Lemma seg_val {A} (m : CM S A) k h s a s' :
  m s = (OVal a, s') → proc_step (seg m k h) s = (k a, s').
Proof. intros Hm. simpl. by rewrite Hm. Qed.
End interleave.
