(* ===== verification/FollowRace.v ===== *)
(** * [followUser] and [unfollowUser] interleaved at their [await]s

    The two follow controllers of [user.controller.js] as processes of
    [Interleave], so that their interleavings can be stated.  The state is
    [RaceWorld]: the users and the version key [__v] of each user
    document.  The writes are those Mongoose 5 sends for a [save()] of a
    document loaded earlier:
    - [this.following.push(x)] (in [follow] and [addFollower] when [x] is
      absent) becomes [$push] on the stored array, with [$inc __v];
    - [this.following = this.following.filter(...)] (in [unfollow] and
      [removeFollower]) becomes [$set] of the whole array computed from the
      loaded copy, with [$inc __v] and the condition that [__v] is still
      the loaded one; otherwise the update matches nothing and [save()]
      rejects with a [VersionError];
    - a [save()] of an unmodified document (an array reassigned to an
      equal array is not modified) sends nothing.
    A rejected [save()] reaches the [catch] of the controller, which
    answers 500, since a [VersionError] has no [kind] [ObjectId]. *)

From S2P Require Import Prelude JsValue Mongoose UserModel Express Db UserController Interleave.

(** ** The database and its writes *)

Record RaceWorld := mkRaceWorld { rw_users : gmap Id UserDoc; rw_ver : gmap Id nat }.

Definition version (w : RaceWorld) (id : Id) : nat := default 0 (w.(rw_ver) !! id).

(** The two arrays the controllers write. *)
Inductive Path := PFollowing | PFollowers.

Definition path_get (p : Path) (u : UserDoc) : list Id :=
  match p with PFollowing => u.(u_following) | PFollowers => u.(u_followers) end.

Definition path_set (p : Path) (u : UserDoc) (xs : list Id) : UserDoc :=
  match p with PFollowing => set_following u xs | PFollowers => set_followers u xs end.

Definition bump (id : Id) (w : RaceWorld) : gmap Id nat := <[id := S (version w id)]> w.(rw_ver).

(** [$push: { path: x }, $inc: { __v: 1 }] on document [id]. *)
Definition push_write (p : Path) (id x : Id) (w : RaceWorld) : RaceWorld :=
  match w.(rw_users) !! id with
  | Some d => mkRaceWorld (<[id := path_set p d (path_get p d ++ [x])]> w.(rw_users)) (bump id w)
  | None => w
  end.

(** [$set: { path: xs }, $inc: { __v: 1 }] where [__v] is [v]; [None] is
    the [VersionError]. *)
Definition set_write (p : Path) (id : Id) (xs : list Id) (v : nat) (w : RaceWorld) : option RaceWorld :=
  match w.(rw_users) !! id with
  | Some d =>
      if bool_decide (version w id = v)
      then Some (mkRaceWorld (<[id := path_set p d xs]> w.(rw_users)) (bump id w))
      else None
  | None => None
  end.

(** [User.findById(id)] on a route or token id: [None] is the
    [CastError]; the document comes with the version it was read at. *)
Definition read_user (id : string) (w : RaceWorld) : option (option (UserDoc * nat)) :=
  if object_id_castable id then Some ((λ d, (d, version w id)) <$> w.(rw_users) !! id) else None.

(** ** Requests as processes *)

Definition not_found : Proc RaceWorld := answer 404 (msg_body "User not found").
Definition server_error_p : Proc RaceWorld := answer 500 (msg_body "Server error").

(** [await userToFollow.addFollower(uid)] after [currentUser.follow(tid)]
    was saved: [includes] decides whether there is anything to save. *)
Definition follow_save_target (tid uid : Id) (t : UserDoc) (me' : UserDoc) : Proc RaceWorld :=
  PStep (λ w,
    if bool_decide (uid ∈ t.(u_followers)) then (answer 200 (follow_body me' t), w)
    else (answer 200 (follow_body me' (addFollower uid t)), push_write PFollowers tid uid w)).

(** [exports.followUser] with [req.params.id = tid] and [req.user.id = uid]. *)
Definition followUser_proc (tid uid : Id) : Proc RaceWorld :=
  PStep (λ w,
    match read_user tid w with
    | None | Some None => (not_found, w)
    | Some (Some (t, _)) =>
        if bool_decide (tid = uid) then (answer 400 (msg_body "You cannot follow yourself"), w) else
        (PStep (λ w,
           match read_user uid w with
           | None => (not_found, w)
           | Some None => (server_error_p, w)
           | Some (Some (me, _)) =>
               if isFollowing me tid then (answer 400 (msg_body "You are already following this user"), w) else
               (PStep (λ w,
                  if bool_decide (tid ∈ me.(u_following)) then (follow_save_target tid uid t me, w)
                  else (follow_save_target tid uid t (follow tid me), push_write PFollowing uid tid w)), w)
           end), w)
    end).

(** [await userToUnfollow.removeFollower(uid)] after
    [currentUser.unfollow(tid)] was saved. *)
Definition unfollow_save_target (tid uid : Id) (t : UserDoc) (tv : nat) (me' : UserDoc) : Proc RaceWorld :=
  PStep (λ w,
    if bool_decide (uid ∈ t.(u_followers)) then
      match set_write PFollowers tid (remove_all uid t.(u_followers)) tv w with
      | Some w' => (answer 200 (follow_body me' (removeFollower uid t)), w')
      | None => (server_error_p, w)
      end
    else (answer 200 (follow_body me' t), w)).

(** [exports.unfollowUser] with [req.params.id = tid] and [req.user.id = uid]. *)
Definition unfollowUser_proc (tid uid : Id) : Proc RaceWorld :=
  PStep (λ w,
    match read_user tid w with
    | None | Some None => (not_found, w)
    | Some (Some (t, tv)) =>
        if bool_decide (tid = uid) then (answer 400 (msg_body "You cannot unfollow yourself"), w) else
        (PStep (λ w,
           match read_user uid w with
           | None => (not_found, w)
           | Some None => (server_error_p, w)
           | Some (Some (me, mv)) =>
               if negb (isFollowing me tid) then (answer 400 (msg_body "You are not following this user"), w) else
               (PStep (λ w,
                  match set_write PFollowing uid (remove_all tid me.(u_following)) mv w with
                  | Some w' => (unfollow_save_target tid uid t tv (unfollow tid me), w')
                  | None => (server_error_p, w)
                  end), w)
           end), w)
    end).

(** ** Lemmas *)

Lemma read_user_some id w d :
  object_id_castable id = true → w.(rw_users) !! id = Some d → read_user id w = Some (Some (d, version w id)).
Proof. intros Hc Hd. unfold read_user. by rewrite Hc, Hd. Qed.

Lemma set_write_ok p id xs w d :
  w.(rw_users) !! id = Some d →
  set_write p id xs (version w id) w = Some (mkRaceWorld (<[id := path_set p d xs]> w.(rw_users)) (bump id w)).
Proof. intros Hd. unfold set_write. rewrite Hd. by rewrite bool_decide_true. Qed.

Lemma version_bump_ne w a b us : a ≠ b → version (mkRaceWorld us (bump a w)) b = version w b.
Proof. intros Hne. unfold version, bump. simpl. by rewrite lookup_insert_ne. Qed.

(** C29: Following and unfollowing are not atomic.  When user [a] follows
    [b] (both ids castable, [b] listing [a] among its followers), an
    unfollow request by [a] that runs its first three steps (reading both
    users and saving [a]'s following), then a follow request by [a] that
    runs entirely, then the rest of the unfollow, both answer 200, and the
    database ends with [b] in [a]'s following but [a] not among [b]'s
    followers. *)
Theorem follow_unfollow_race w a b ua ub :
  a ≠ b → object_id_castable a = true → object_id_castable b = true →
  w.(rw_users) !! a = Some ua → w.(rw_users) !! b = Some ub →
  b ∈ ua.(u_following) → a ∈ ub.(u_followers) →
  let '(p, q, w') := run2 [false; false; false; true; true; true; true; false]
                        (followUser_proc b a) (unfollowUser_proc b a) w in
  status p = Some 200%Z ∧ status q = Some 200%Z ∧
  (∃ ua', w'.(rw_users) !! a = Some ua' ∧ b ∈ ua'.(u_following)) ∧
  (∃ ub', w'.(rw_users) !! b = Some ub' ∧ a ∉ ub'.(u_followers)).
Proof.
  intros Hne Hca Hcb Ha Hb Hab Hba.
  cbn [run2 proc_step unfollowUser_proc]. rewrite (read_user_some b w ub) by done.
  rewrite bool_decide_false by congruence. cbn beta iota zeta.
  cbn [proc_step]. cbn beta iota zeta.
  rewrite (read_user_some a w ua) by done.
  assert (Hf : isFollowing ua b = true) by (unfold isFollowing; by rewrite bool_decide_true).
  rewrite Hf. cbn [proc_step negb]. cbn beta iota zeta.
  rewrite (set_write_ok PFollowing a _ w ua Ha). cbn beta iota zeta.
  set (W1 := mkRaceWorld _ (bump a w)).
  cbn [proc_step followUser_proc]. cbn beta iota zeta.
  rewrite (read_user_some b W1 ub) by (done || simpl; by rewrite lookup_insert_ne).
  rewrite bool_decide_false by congruence. cbn [proc_step]. cbn beta iota zeta.
  rewrite (read_user_some a W1 (set_following ua (remove_all b ua.(u_following)))) by (done || simpl; by rewrite lookup_insert_eq).
  pose proof (remove_all_not_elem b ua.(u_following)) as Hnf.
  unfold isFollowing. cbn [u_following set_following]. rewrite !bool_decide_false by done.
  cbn [proc_step]. cbn beta iota zeta.
  unfold push_write at 1. cbn [rw_users W1]. rewrite lookup_insert_eq. cbn [path_get path_set u_following set_following].
  set (W2 := mkRaceWorld _ (bump a W1)).
  cbn [proc_step follow_save_target]. rewrite bool_decide_true by done. cbn beta iota zeta.
  cbn [proc_step unfollow_save_target]. rewrite bool_decide_true by done.
  assert (Hv : version W2 b = version w b).
  { unfold W2. rewrite version_bump_ne by done. unfold W1. by rewrite version_bump_ne. }
  rewrite <- Hv, (set_write_ok PFollowers b _ W2 ub) by (simpl; by rewrite !lookup_insert_ne).
  cbn beta iota zeta. simpl. split_and!; try done.
  - eexists. split; [by rewrite lookup_insert_ne, lookup_insert_eq|]. simpl. set_solver.
  - eexists. split; [by rewrite lookup_insert_eq|]. apply remove_all_not_elem.
Qed.

Module FollowRaceExamples.

Definition ex_a : Id := "5f00000000000000000000a1".
Definition ex_b : Id := "5f00000000000000000000a2".
Definition ex_ua : UserDoc := mkUserDoc "ann" "ann@example.com" "$2a$10$hash" "Ann" (Some "") None [] 0 [] [ex_b] [] true 1.
Definition ex_ub : UserDoc := mkUserDoc "ben" "ben@example.com" "$2a$10$hash" "Ben" (Some "") None [] 0 [ex_a] [] [] true 1.
Definition ex_world : RaceWorld := mkRaceWorld {[ex_a := ex_ua; ex_b := ex_ub]} {[ex_a := 3%nat; ex_b := 5%nat]}.

(** Run one after the other, the same two requests keep the two lists
    consistent: [a] ends following [b] and among [b]'s followers. *)
Example follow_after_unfollow_consistent :
  let '(p, q, w') := run2 [false; false; false; false; true; true; true; true]
                        (followUser_proc ex_b ex_a) (unfollowUser_proc ex_b ex_a) ex_world in
  status p = Some 200%Z ∧ status q = Some 200%Z ∧
  (u_following <$> w'.(rw_users) !! ex_a) = Some [ex_b] ∧
  (u_followers <$> w'.(rw_users) !! ex_b) = Some [ex_a].
Proof. vm_compute. split_and!; reflexivity. Qed.

Lemma follow_unfollow_race_witness :
  let '(p, q, w') := run2 [false; false; false; true; true; true; true; false]
                        (followUser_proc ex_b ex_a) (unfollowUser_proc ex_b ex_a) ex_world in
  status p = Some 200%Z ∧ status q = Some 200%Z ∧
  (∃ ua', w'.(rw_users) !! ex_a = Some ua' ∧ ex_b ∈ ua'.(u_following)) ∧
  (∃ ub', w'.(rw_users) !! ex_b = Some ub' ∧ ex_a ∉ ub'.(u_followers)).
Proof.
  apply (follow_unfollow_race ex_world ex_a ex_b ex_ua ex_ub);
    [discriminate | reflexivity | reflexivity | reflexivity | reflexivity | left | left].
Defined.

End FollowRaceExamples.
