(* ===== verification/LeaderboardRace.v ===== *)
(** * [getLeaderboard] interleaved at its [await]s

    [getLeaderboard] of [leaderboard.controller.js] and the
    [updateLeaderboard] it calls ([leaderboard.model.js]) as processes of
    [Interleave] over the database [Db].  Each step is a segment of the
    [CM] definitions of [LeaderboardController]:
    - the [await Leaderboard.findOne({ type, timeframe }).populate(...)] of
      the controller, with the staleness test after it;
    - the aggregations of [updateLeaderboard] (one query for ['points'],
      ['streams'] and ['coding']; the two of ['content'] are one step here,
      which only leaves out the schedules that run a request between them);
    - its [await this.findOne({ type, timeframe })], with the [new this(...)]
      that follows when there is none and the new [entries] and
      [lastUpdated];
    - its [await leaderboard.save()], after which the controller answers.
    The schema has no unique index on [{ type, timeframe }], so nothing in
    the database refuses a second leaderboard of the same pair. *)

From S2P Require Import Prelude JsValue Mongoose PostModel LeaderboardModel Transport Express Db LeaderboardController Interleave.
Local Open Scope cm_scope.

Section race.
Variables start_of_day start_of_week start_of_month : Z → Z.

Definition lb_error (_ : Err) : Proc Db := answer 500 (msg_body "Server error").

(** [await leaderboard.save()], then the caller's continuation. *)
Definition update_save (r : Id * Leaderboard) (k : Id * Leaderboard → Proc Db) : Proc Db :=
  seg (validate (leaderboard_valid r.2) ;;; save_doc Leaderboards r.1 r.2 ;;; cret r) k lb_error.

(** [await this.findOne({ type, timeframe })], the [new this(...)] when
    there is none, [entries = userScores] and [lastUpdated = new Date()]. *)
Definition update_find (ty tf : string) (scores : list LbEntry) (k : Id * Leaderboard → Proc Db) : Proc Db :=
  seg (found <- find_one Leaderboards (lb_key ty tf) ;;
       t <- cnow ;;
       r <- (match found with
             | Some r => cret r
             | None => id <- new_id ;; cret (id, mkLeaderboard ty tf [] t t)
             end) ;;
       cret (r.1, set_entries r.2 scores t))
    (λ r, update_save r k) lb_error.

(** [Leaderboard.updateLeaderboard(type, timeframe)], continued by [k]. *)
Definition updateLeaderboard_proc (ty tf : string) (k : Id * Leaderboard → Proc Db) : Proc Db :=
  seg (t <- cnow ;; cgets (user_scores ty (date_filter start_of_day start_of_week start_of_month tf t)))
    (λ scores, update_find ty tf scores k) lb_error.

Definition lb_reply (r : Id * Leaderboard) : Proc Db := answer 200 (leaderboard_json r.1 r.2).

(** [exports.getLeaderboard]. *)
Definition getLeaderboard_proc (req : Request) : Proc Db :=
  let ty := param req "type" in
  let tf := param req "timeframe" in
  if negb (js_in lb_types ty) then answer 400 (msg_body "Invalid leaderboard type") else
  if negb (js_in lb_timeframes tf) then answer 400 (msg_body "Invalid timeframe") else
  let ty := js_to_string ty in
  let tf := js_to_string tf in
  seg (found <- find_one Leaderboards (lb_key ty tf) ;; t <- cnow ;; cret (found, t))
    (λ ft, match ft.1 with
           | Some (id, lb) =>
               if needs_update tf ft.2 lb.(lb_lastUpdated) then updateLeaderboard_proc ty tf lb_reply
               else lb_reply (id, lb)
           | None => updateLeaderboard_proc ty tf lb_reply
           end) lb_error.

(** ** Once every leaderboard exists *)

(** Every valid type and timeframe has a stored leaderboard. *)
Definition lbs_complete (db : Db) : Prop := Forall (λ p, is_Some (stored_lb p.1 p.2 db)) lb_pairs.

(** The leaderboards of [db] are still in [db'], with their type and
    timeframe. *)
Definition lb_grows (db db' : Db) : Prop :=
  ∀ i b, db.(db_leaderboards) !! i = Some b →
    ∃ b', db'.(db_leaderboards) !! i = Some b' ∧ b'.(lb_type) = b.(lb_type) ∧ b'.(lb_timeframe) = b.(lb_timeframe).

(** Where a [getLeaderboard] request can be between two steps; a pending
    [save()] writes over a leaderboard of the same type and timeframe. *)
Inductive lb_stage (db : Db) : Proc Db → Prop :=
  | stage_done r : lb_stage db (PDone r)
  | stage_get req : lb_stage db (getLeaderboard_proc req)
  | stage_update ty tf : ty ∈ lb_types → tf ∈ lb_timeframes → lb_stage db (updateLeaderboard_proc ty tf lb_reply)
  | stage_find ty tf sc : ty ∈ lb_types → tf ∈ lb_timeframes → lb_stage db (update_find ty tf sc lb_reply)
  | stage_save i lb b : db.(db_leaderboards) !! i = Some b → b.(lb_type) = lb.(lb_type) →
      b.(lb_timeframe) = lb.(lb_timeframe) → lb_stage db (update_save (i, lb) lb_reply).

(** ** Lemmas *)

Lemma getLeaderboard_proc_missing req db ty tf :
  param req "type" = JStr ty → param req "timeframe" = JStr tf →
  ty ∈ lb_types → tf ∈ lb_timeframes → stored_lb ty tf db = None →
  proc_step (getLeaderboard_proc req) db = (updateLeaderboard_proc ty tf lb_reply, db).
Proof.
  intros Hp1 Hp2 Hty Htf Hs. unfold getLeaderboard_proc. rewrite Hp1, Hp2. cbn [js_in js_to_string].
  rewrite !bool_decide_true by done. cbn [negb].
  rewrite (seg_val _ _ _ db (None, db.(db_now)) db); [done|]. unfold_cm. simpl.
  by fold (stored_lb ty tf db); rewrite Hs.
Qed.

Lemma updateLeaderboard_proc_step ty tf k db :
  proc_step (updateLeaderboard_proc ty tf k) db =
  (update_find ty tf (user_scores ty
                        (date_filter start_of_day start_of_week start_of_month tf db.(db_now)) db) k, db).
Proof. reflexivity. Qed.

Lemma update_find_missing ty tf scores k db :
  stored_lb ty tf db = None →
  proc_step (update_find ty tf scores k) db =
  (update_save (oid_of db.(db_seq), mkLeaderboard ty tf scores db.(db_now) db.(db_now)) k,
   set_seq db (db.(db_seq) + 1)%N).
Proof.
  intros Hs. unfold update_find. rewrite (seg_val _ _ _ db (oid_of db.(db_seq), mkLeaderboard ty tf scores db.(db_now) db.(db_now))
                        (set_seq db (db.(db_seq) + 1)%N)); [done|].
  unfold_cm. simpl. by fold (stored_lb ty tf db); rewrite Hs.
Qed.

Lemma update_save_valid r k db :
  leaderboard_valid r.2 = true →
  proc_step (update_save r k) db = (k r, set_leaderboards db (<[r.1 := r.2]> db.(db_leaderboards))).
Proof.
  intros Hv. unfold update_save.
  rewrite (seg_val _ _ _ db r (set_leaderboards db (<[r.1 := r.2]> db.(db_leaderboards)))); [done|]. unfold validate. rewrite Hv. by unfold_cm.
Qed.

Lemma js_in_true xs v : js_in xs v = true → ∃ s, v = JStr s ∧ s ∈ xs.
Proof. destruct v; simpl; try done. intros H%bool_decide_eq_true. eauto. Qed.

Lemma getLeaderboard_proc_invalid req :
  js_in lb_types (param req "type") && js_in lb_timeframes (param req "timeframe") = false →
  ∃ r, getLeaderboard_proc req = PDone r.
Proof. unfold getLeaderboard_proc. intros H. by destruct (js_in _ _), (js_in _ _); eauto. Qed.

Lemma getLeaderboard_proc_found req db ty tf i lb :
  param req "type" = JStr ty → param req "timeframe" = JStr tf →
  ty ∈ lb_types → tf ∈ lb_timeframes → stored_lb ty tf db = Some (i, lb) →
  proc_step (getLeaderboard_proc req) db =
  (if needs_update tf db.(db_now) lb.(lb_lastUpdated) then updateLeaderboard_proc ty tf lb_reply
   else lb_reply (i, lb), db).
Proof.
  intros Hp1 Hp2 Hty Htf Hs. unfold getLeaderboard_proc. rewrite Hp1, Hp2. cbn [js_in js_to_string].
  rewrite !bool_decide_true by done. cbn [negb].
  rewrite (seg_val _ _ _ db (Some (i, lb), db.(db_now)) db); [done|]. unfold_cm. simpl.
  by fold (stored_lb ty tf db); rewrite Hs.
Qed.

Lemma update_find_found ty tf scores k db i lb :
  stored_lb ty tf db = Some (i, lb) →
  proc_step (update_find ty tf scores k) db = (update_save (i, set_entries lb scores db.(db_now)) k, db).
Proof.
  intros Hs. unfold update_find. rewrite (seg_val _ _ _ db (i, set_entries lb scores db.(db_now)) db); [done|].
  unfold_cm. simpl. by fold (stored_lb ty tf db); rewrite Hs.
Qed.

Lemma update_save_invalid r k db :
  leaderboard_valid r.2 = false → proc_step (update_save r k) db = (lb_error EValidation, db).
Proof. intros Hv. unfold update_save, validate. rewrite Hv. by unfold_cm. Qed.

Lemma stored_lb_is_Some ty tf db :
  is_Some (stored_lb ty tf db) ↔
  ∃ i b, db.(db_leaderboards) !! i = Some b ∧ b.(lb_type) = ty ∧ b.(lb_timeframe) = tf.
Proof.
  pose proof (stored_lb_spec ty tf db) as H. destruct (stored_lb ty tf db) as [[i b]|].
  - split; [intros _; by exists i, b|by eexists].
  - split; [by intros []|intros (i & b & ? & ? & ?); exfalso; by eapply H].
Qed.

Lemma elem_of_lb_pairs ty tf : (ty, tf) ∈ lb_pairs ↔ ty ∈ lb_types ∧ tf ∈ lb_timeframes.
Proof. unfold lb_pairs. rewrite list_elem_of_bind. setoid_rewrite list_elem_of_fmap. naive_solver. Qed.

Lemma lbs_complete_stored db ty tf :
  lbs_complete db → ty ∈ lb_types → tf ∈ lb_timeframes → ∃ i lb, stored_lb ty tf db = Some (i, lb).
Proof.
  intros Hc Hty Htf. eapply Forall_forall in Hc; [|by apply elem_of_lb_pairs].
  destruct Hc as [[i lb] Hs]. eauto.
Qed.

Lemma lb_grows_refl db : lb_grows db db.
Proof. intros i b Hb. by exists b. Qed.

Lemma lbs_complete_grows db db' : lb_grows db db' → lbs_complete db → lbs_complete db'.
Proof.
  intros Hg Hc. eapply Forall_impl; [exact Hc|]. intros [ty tf]. simpl. rewrite !stored_lb_is_Some.
  intros (i & b & Hb & <- & <-). destruct (Hg i b Hb) as (b' & ? & ? & ?). eauto.
Qed.

Lemma lb_stage_grows db db' p : lb_grows db db' → lb_stage db p → lb_stage db' p.
Proof.
  intros Hg Hp. destruct Hp as [| | | |i lb b Hb E1 E2]; try by constructor.
  destruct (Hg _ _ Hb) as (b' & ? & ? & ?). eapply stage_save; [done|congruence..].
Qed.

(** Saving over a leaderboard of the same type and timeframe. *)
Lemma lb_save_same_key db i lb b :
  db.(db_leaderboards) !! i = Some b → b.(lb_type) = lb.(lb_type) → b.(lb_timeframe) = lb.(lb_timeframe) →
  lb_unique db.(db_leaderboards) →
  lb_unique (<[i := lb]> db.(db_leaderboards)) ∧ lb_grows db (set_leaderboards db (<[i := lb]> db.(db_leaderboards))).
Proof.
  intros Hb H1 H2 Hu. split.
  - apply lb_unique_insert; [|done]. intros j c Hji Hj ? ?. apply Hji, (Hu j i c b); [done..|congruence|congruence].
  - intros j c Hj. simpl. destruct (decide (j = i)) as [->|Hji].
    + rewrite lookup_insert_eq. exists lb. simplify_eq. done.
    + rewrite lookup_insert_ne by done. by exists c.
Qed.

(** A step of a request keeps at most one leaderboard per type and
    timeframe, keeps every leaderboard, and leads to a stage. *)
Lemma lb_stage_step db p :
  lb_unique db.(db_leaderboards) → lbs_complete db → lb_stage db p →
  lb_unique (proc_step p db).2.(db_leaderboards) ∧ lb_grows db (proc_step p db).2 ∧
  lb_stage (proc_step p db).2 (proc_step p db).1.
Proof.
  intros Hu Hc Hp. pose proof (lb_grows_refl db) as Hr. destruct Hp as [r|req|ty tf Hty Htf|ty tf sc Hty Htf|i lb b Hb H1 H2].
  - split_and!; [done|done|constructor].
  - destruct (js_in lb_types (param req "type") && js_in lb_timeframes (param req "timeframe")) eqn:E.
    + apply andb_true_iff in E as [(ty & Hp1 & Hty)%js_in_true (tf & Hp2 & Htf)%js_in_true].
      destruct (lbs_complete_stored db ty tf Hc Hty Htf) as (i & lb & Hs).
      rewrite (getLeaderboard_proc_found req db ty tf i lb) by done.
      split_and!; [done|done|]. case_match; by constructor.
    + destruct (getLeaderboard_proc_invalid req E) as [r ->]. split_and!; [done|done|constructor].
  - rewrite updateLeaderboard_proc_step. split_and!; [done|done|by constructor].
  - destruct (lbs_complete_stored db ty tf Hc Hty Htf) as (i & lb & Hs).
    pose proof (stored_lb_spec ty tf db) as Hspec. rewrite Hs in Hspec. destruct Hspec as (Hi & <- & <-).
    rewrite (update_find_found _ _ _ _ _ i lb Hs). split_and!; [done|done|]. by eapply stage_save.
  - destruct (leaderboard_valid lb) eqn:Hv.
    + rewrite (update_save_valid (i, lb)) by done. simpl.
      destruct (lb_save_same_key db i lb b) as [? ?]; [done..|]. split_and!; [done|done|constructor].
    + rewrite (update_save_invalid (i, lb)) by done. split_and!; [done|done|constructor].
Qed.

(** Any schedule of two requests from such stages. *)
Lemma run2_lb_stage sched p q db :
  lb_unique db.(db_leaderboards) → lbs_complete db → lb_stage db p → lb_stage db q →
  let '(p', q', db') := run2 sched p q db in
  lb_unique db'.(db_leaderboards) ∧ lbs_complete db' ∧ lb_stage db' p' ∧ lb_stage db' q'.
Proof.
  revert p q db. induction sched as [|[] sched IH]; intros p q db Hu Hc Hp Hq; [done| |]; simpl.
  - destruct (lb_stage_step db p Hu Hc Hp) as (Hu' & Hg & Hp').
    destruct (proc_step p db) as [p' db'] eqn:E. simpl in *.
    apply IH; [done|by eapply lbs_complete_grows|done|by eapply lb_stage_grows].
  - destruct (lb_stage_step db q Hu Hc Hq) as (Hu' & Hg & Hq').
    destruct (proc_step q db) as [q' db'] eqn:E. simpl in *.
    apply IH; [done|by eapply lbs_complete_grows|by eapply lb_stage_grows|done].
Qed.

(** Any schedule of any number of requests from such stages. *)
Lemma run_many_lb_stage sched ps db :
  lb_unique db.(db_leaderboards) → lbs_complete db → Forall (lb_stage db) ps →
  lb_unique (run_many sched ps db).2.(db_leaderboards) ∧ lbs_complete (run_many sched ps db).2 ∧
  Forall (lb_stage (run_many sched ps db).2) (run_many sched ps db).1.
Proof.
  revert ps db. induction sched as [|i sched IH]; intros ps db Hu Hc Hps; [done|]. simpl.
  destruct (ps !! i) as [p|] eqn:Hi; [|by apply IH].
  destruct (lb_stage_step db p Hu Hc (Forall_lookup_1 _ _ _ _ Hps Hi)) as (Hu' & Hg & Hp').
  destruct (proc_step p db) as [p' db'] eqn:E. simpl in *.
  apply IH; [done|by eapply lbs_complete_grows|]. apply Forall_insert; [|done].
  eapply Forall_impl; [exact Hps|]. intros q. by apply lb_stage_grows.
Qed.

(** ** The race *)

(** C34: Two first requests for the same leaderboard both create it.  When
    no leaderboard of a valid type and timeframe is stored, two [GET]
    requests for it that alternate at their [await]s (each [findOne]
    running before the other request's [save]) both answer 200 and leave
    two leaderboards of that type and timeframe, under different ids. *)
Theorem leaderboard_duplicate_race req db ty tf :
  param req "type" = JStr ty → param req "timeframe" = JStr tf →
  ty ∈ lb_types → tf ∈ lb_timeframes → stored_lb ty tf db = None →
  let '(p, q, db') := run2 [true; false; true; false; true; false; true; false]
                        (getLeaderboard_proc req) (getLeaderboard_proc req) db in
  status p = Some 200%Z ∧ status q = Some 200%Z ∧
  ∃ i j a b, i ≠ j ∧ db'.(db_leaderboards) !! i = Some a ∧ db'.(db_leaderboards) !! j = Some b ∧
    a.(lb_type) = ty ∧ a.(lb_timeframe) = tf ∧ b.(lb_type) = ty ∧ b.(lb_timeframe) = tf.
Proof.
  intros Hp1 Hp2 Hty Htf Hs. cbn [run2].
  rewrite (getLeaderboard_proc_missing req db ty tf) by done. cbv beta iota.
  rewrite (getLeaderboard_proc_missing req db ty tf) by done. cbv beta iota.
  rewrite !updateLeaderboard_proc_step. cbv beta iota.
  rewrite update_find_missing by done. cbv beta iota.
  rewrite update_find_missing by exact Hs. cbv beta iota.
  assert (Hv : leaderboard_valid (mkLeaderboard ty tf [] 0 0) = true).
  { unfold leaderboard_valid. simpl. by rewrite !bool_decide_true. }
  rewrite !update_save_valid by done.
  cbn [db_leaderboards set_leaderboards set_seq db_seq fst snd lb_reply status answer rs_status].
  split_and!; [done|done|].
  set (sc := user_scores ty _ db).
  exists (oid_of db.(db_seq)), (oid_of (db.(db_seq) + 1)%N),
    (mkLeaderboard ty tf sc db.(db_now) db.(db_now)), (mkLeaderboard ty tf sc db.(db_now) db.(db_now)).
  split_and!; [apply oid_of_succ_ne| |by rewrite lookup_insert_eq|done..].
  rewrite lookup_insert_ne by (apply not_eq_sym, oid_of_succ_ne). by rewrite lookup_insert_eq.
Qed.

(** C31: Once a leaderboard of every type and timeframe is stored (as
    after [updateAllLeaderboards]), any number of [getLeaderboard]
    requests, interleaved at their [await]s by any schedule, keep at most
    one leaderboard of each type and timeframe and lose none. *)
Theorem getLeaderboard_no_duplicates_once_complete sched reqs db :
  lb_unique db.(db_leaderboards) → lbs_complete db →
  lb_unique (run_many sched (getLeaderboard_proc <$> reqs) db).2.(db_leaderboards) ∧
  lbs_complete (run_many sched (getLeaderboard_proc <$> reqs) db).2.
Proof.
  intros Hu Hc. edestruct (run_many_lb_stage sched) as (? & ? & _); [exact Hu|exact Hc| |done].
  apply Forall_fmap, Forall_true. constructor.
Qed.
End race.

Module LeaderboardRaceExamples.
Definition ex_start (t : Z) : Z := 0.
Definition ex_db : Db := set_posts (empty_db 1000) {[ "p1" := mkPost "5f00000000000000000000a1" "hello" [] [] [] [] false 10 ]}.
Definition ex_req : Request :=
  mkRequest [("type", "content"); ("timeframe", "daily")] (JObj []) (JObj []) (mkUser "5f00000000000000000000a1" "alice").

(** One request after the other: the second finds the first one's fresh
    leaderboard and answers it; one leaderboard is stored. *)
Example sequential_requests_share_leaderboard :
  let '(p, q, db') := run2 [true; true; true; true; false]
                        (getLeaderboard_proc ex_start ex_start ex_start ex_req)
                        (getLeaderboard_proc ex_start ex_start ex_start ex_req) ex_db in
  status p = Some 200%Z ∧ status q = Some 200%Z ∧ map_size db'.(db_leaderboards) = 1%nat.
Proof. vm_compute. split_and!; reflexivity. Qed.

Lemma leaderboard_duplicate_race_witness :
  let '(p, q, db') := run2 [true; false; true; false; true; false; true; false]
                        (getLeaderboard_proc ex_start ex_start ex_start ex_req)
                        (getLeaderboard_proc ex_start ex_start ex_start ex_req) ex_db in
  status p = Some 200%Z ∧ status q = Some 200%Z ∧
  ∃ i j a b, i ≠ j ∧ db'.(db_leaderboards) !! i = Some a ∧ db'.(db_leaderboards) !! j = Some b ∧
    a.(lb_type) = "content" ∧ a.(lb_timeframe) = "daily" ∧ b.(lb_type) = "content" ∧ b.(lb_timeframe) = "daily".
Proof.
  apply (leaderboard_duplicate_race ex_start ex_start ex_start ex_req ex_db "content" "daily");
    [reflexivity | reflexivity | vm_compute; right; left | vm_compute; left | reflexivity].
Defined.

(** All sixteen leaderboards, computed by [updateAllLeaderboards] and two
    hours old. *)
Definition ex_full : Db :=
  set_now (snd (updateAllLeaderboards ex_start ex_start ex_start ex_req ex_db)) 7201000.

Lemma ex_full_unique : lb_unique ex_full.(db_leaderboards).
Proof.
  pose proof (proj2 (leaderboards_stay_unique ex_start ex_start ex_start ex_req) ex_db) as H.
  unfold ex_full. destruct (updateAllLeaderboards ex_start ex_start ex_start ex_req ex_db) as [o db1].
  change (lb_unique db1.(db_leaderboards)). apply (H o db1 eq_refl).
  intros i j a b Hi. change (db_leaderboards ex_db) with (∅ : gmap Id Leaderboard) in Hi.
  by rewrite lookup_empty in Hi.
Qed.

Lemma getLeaderboard_no_duplicates_once_complete_witness :
  let db' := (run_many [0; 1; 0; 1; 0; 1; 0; 1]%nat
               (getLeaderboard_proc ex_start ex_start ex_start <$> [ex_req; ex_req]) ex_full).2 in
  lb_unique db'.(db_leaderboards) ∧ lbs_complete db'.
Proof.
  apply getLeaderboard_no_duplicates_once_complete; [apply ex_full_unique|].
  apply (bool_decide_unpack _). vm_compute. reflexivity.
Defined.
End LeaderboardRaceExamples.
